(** * Lead pipeline: classification, scoring, routing, grouping, merging

    A shallow embedding of the decision logic of the TCAD lead pipeline
    ([main.py] and the scripts [filter_notes.py], [note_broker_refine.py],
    [classify_entity_roles.py], [group_by_owner.py], [merge_enrichment.py],
    [export_enrichment_upload.py], [export_instantly_upload.py] and
    [group_investor_entities.py]) together with the properties its
    specification states about it and further properties of the scripts.

    Conventions of the embedding.
    - A CSV row ([Dict[str, str]]) is a [gmap string string]: the row
      [csv.DictReader] returns for a line that has as many cells as the
      header, every cell a string.  A line that is shorter or longer gives
      a row with [None] cells or with the key [None]; such rows are
      [Py.record]s, on which the classifier of entity roles and the merge
      are modelled a second time (the definitions named [_cells] and
      [_records]), with the exceptions they raise there.
    - Text is a [string] of 8-bit characters, the bytes of the text as the
      files hold it.  Lengths and positions count these characters; case
      conversion, the whitespace class and the digits that [int] reads are
      those of ASCII, and characters above 127 are kept as they are.  The
      model is the interpreter's behaviour on ASCII text.
    - A Python [float] is a primitive binary64 float, so comparisons behave
      as in the interpreter (NaN, infinities and signed zeros included).
    - An exception is a value: functions that can raise return a [result].
    - Interpreter services that are outside the repository (reading a
      float or a date from text, formatting a float) are section variables
      of the module that calls them.
    - A CSV file is read as its header and the list of its rows; writing a
      row checks its columns against the header of the output file, as
      [csv.DictWriter] does. *)

From Stdlib Require Import ZArith List String Ascii Bool Lia.
From Stdlib Require Import PrimFloat FloatOps SpecFloat.
From Stdlib Require Uint63.
From stdpp Require Import base option gmap strings list pretty.
Import ListNotations.

Local Open Scope Z_scope.

Abbreviation row := (gmap string string).

(** ** Python builtins used by the scripts *)

Module Py.

Inductive exn : Set := ValueError | IndexError | OverflowError | AttributeError.

Inductive result (A : Type) : Type :=
| Ok (a : A)
| Raise (e : exn).
Arguments Ok {A} a.
Arguments Raise {A} e.

Definition bind {A B} (m : result A) (k : A -> result B) : result B :=
  match m with
  | Ok a => k a
  | Raise e => Raise e
  end.

(** The computation returned (it did not raise). *)
Definition is_ok {A} (m : result A) : bool :=
  match m with
  | Ok _ => true
  | Raise _ => false
  end.

(** [try: ... except (ValueError, ...)]: the handler's value replaces a
    caught exception, any other exception propagates. *)
Definition try_except {A} (m : result A) (caught : exn -> bool) (handler : result A)
  : result A :=
  match m with
  | Ok a => Ok a
  | Raise e => if caught e then handler else Raise e
  end.

(** *** Characters *)

Definition code (c : ascii) : N := N_of_ascii c.

(** [str.isspace] on ASCII: TAB..CR, FS..US and the space. *)
Definition isspace (c : ascii) : bool :=
  let n := code c in
  (((9 <=? n) && (n <=? 13)) || ((28 <=? n) && (n <=? 32)))%N.

Definition upper_char (c : ascii) : ascii :=
  let n := code c in
  if ((97 <=? n) && (n <=? 122))%N then ascii_of_N (n - 32) else c.

Definition digit_val (c : ascii) : option Z :=
  let n := code c in
  if ((48 <=? n) && (n <=? 57))%N then Some (Z.of_N (n - 48)) else None.

(** *** Strings *)

Definition is_empty (s : string) : bool :=
  match s with
  | EmptyString => true
  | String _ _ => false
  end.

(** Truth value of a string: [if s:]. *)
Definition truthy (s : string) : bool := negb (is_empty s).

Definition len (s : string) : Z := Z.of_nat (String.length s).

(** [a or b] on strings. *)
Definition str_or (a b : string) : string := if truthy a then a else b.

Fixpoint upper (s : string) : string :=
  match s with
  | EmptyString => EmptyString
  | String c s' => String (upper_char c) (upper s')
  end.

Fixpoint lstrip_by (p : ascii -> bool) (s : string) : string :=
  match s with
  | EmptyString => EmptyString
  | String c s' => if p c then lstrip_by p s' else s
  end.

Fixpoint rstrip_by (p : ascii -> bool) (s : string) : string :=
  match s with
  | EmptyString => EmptyString
  | String c s' =>
      let r := rstrip_by p s' in
      if is_empty r && p c then EmptyString else String c r
  end.

(** [s.strip()] *)
Definition strip (s : string) : string := rstrip_by isspace (lstrip_by isspace s).

(** [s.rstrip(chars)] for an explicit character set. *)
Definition in_chars (chars : string) (c : ascii) : bool :=
  existsb (Ascii.eqb c) (list_ascii_of_string chars).

Definition rstrip_chars (chars s : string) : string := rstrip_by (in_chars chars) s.

(** [s.startswith(p)] *)
Fixpoint startswith (s p : string) {struct p} : bool :=
  match p with
  | EmptyString => true
  | String a p' =>
      match s with
      | EmptyString => false
      | String b s' => Ascii.eqb a b && startswith s' p'
      end
  end.

(** [sub in s] *)
Fixpoint contains (sub s : string) : bool :=
  startswith s sub ||
  match s with
  | EmptyString => false
  | String _ s' => contains sub s'
  end.

(** [s.endswith(p)] *)
Definition endswith (s p : string) : bool := startswith (String.rev s) (String.rev p).

(** [s.replace(c, "")] for a one-character [c]. *)
Fixpoint remove_char (c : ascii) (s : string) : string :=
  match s with
  | EmptyString => EmptyString
  | String d s' => if Ascii.eqb c d then remove_char c s' else String d (remove_char c s')
  end.

(** [s.split()]: the maximal runs of characters that are not whitespace. *)
Fixpoint split_go (cur : string) (s : string) : list string :=
  match s with
  | EmptyString => if is_empty cur then [] else [String.rev cur]
  | String c s' =>
      if isspace c
      then (if is_empty cur then split_go EmptyString s'
            else String.rev cur :: split_go EmptyString s')
      else split_go (String c cur) s'
  end.

Definition split (s : string) : list string := split_go EmptyString s.

(** [sep.join(l)] *)
Fixpoint join (sep : string) (l : list string) : string :=
  match l with
  | [] => EmptyString
  | x :: l' =>
      match l' with
      | [] => x
      | _ :: _ => x +:+ sep +:+ join sep l'
      end
  end.

(** The position a slice bound stands for in a text of [n] characters: a
    negative bound counts from the end, and every bound is brought into
    [0..n]. *)
Definition slice_bound (n i : Z) : Z :=
  if i <? 0 then Z.max 0 (i + n) else Z.min i n.

(** [s[a:b]]; empty when the first position is not before the second. *)
Definition slice (s : string) (a b : Z) : string :=
  let a' := slice_bound (len s) a in
  let b' := slice_bound (len s) b in
  String.substring (Z.to_nat a') (Z.to_nat (b' - a')) s.

(** *** Integers *)

(** [str(n)] *)
Definition str (n : Z) : string := pretty n.

(** [int(s)], base 10: surrounding whitespace, an optional sign, then
    digits, where single underscores may separate digits.  [None] stands
    for [ValueError].  (The interpreter's configurable bound on the number
    of digits is not part of the model.) *)
Inductive int_state : Set := AtStart | AfterDigit | AfterUnderscore.

Fixpoint int_digits (st : int_state) (acc : Z) (s : string) : option Z :=
  match s with
  | EmptyString =>
      match st with
      | AfterDigit => Some acc
      | _ => None
      end
  | String c s' =>
      match digit_val c with
      | Some d => int_digits AfterDigit (10 * acc + d) s'
      | None =>
          if Ascii.eqb c "_"
          then match st with
               | AfterDigit => int_digits AfterUnderscore acc s'
               | _ => None
               end
          else None
      end
  end.

Definition int_of_str (s : string) : option Z :=
  match strip s with
  | String "+" r => int_digits AtStart 0 r
  | String "-" r => Z.opp <$> int_digits AtStart 0 r
  | t => int_digits AtStart 0 t
  end.

Definition int (s : string) : result Z :=
  match int_of_str s with
  | Some n => Ok n
  | None => Raise ValueError
  end.

(** [f"{n:,}"]: decimal digits in groups of three. *)
Fixpoint group3 (k : nat) (rev_digits : string) : string :=
  match rev_digits with
  | EmptyString => EmptyString
  | String c s' =>
      match k with
      | O => String "," (String c (group3 2 s'))
      | S k' => String c (group3 k' s')
      end
  end.

Definition format_comma (n : Z) : string :=
  let body := String.rev (group3 3 (String.rev (pretty (Z.abs_N n)))) in
  if n <? 0 then String "-" body else body.

(** *** Floats *)

(** [float(n)] for an integer of magnitude below 2^63. *)
Definition float_of_int (n : Z) : float :=
  if n <? 0 then PrimFloat.opp (PrimFloat.of_uint63 (Uint63.of_Z (- n)))
  else PrimFloat.of_uint63 (Uint63.of_Z n).

(** [int(x)]: truncation toward zero; infinities raise [OverflowError],
    NaN raises [ValueError]. *)
Definition int_of_float (x : float) : result Z :=
  match Prim2SF x with
  | S754_zero _ => Ok 0
  | S754_infinity _ => Raise OverflowError
  | S754_nan => Raise ValueError
  | S754_finite sgn m e =>
      let mag := if 0 <=? e then Z.pos m * 2 ^ e else Z.pos m / 2 ^ (- e) in
      Ok (if sgn then - mag else mag)
  end.

(** Truth value of a float: [if x:] holds unless [x == 0]. *)
Definition float_truthy (x : float) : bool := negb (PrimFloat.eqb x 0%float).

(** *** Dictionaries *)

(** [d.get(k, "")] *)
Definition get (d : row) (k : string) : string := default EmptyString (d !! k).

(** [k in d] *)
Definition has_key (d : row) (k : string) : bool := bool_decide (is_Some (d !! k)).

(** *** CSV files *)

(** [col in columns] *)
Definition has_column (columns : list string) (col : string) : bool :=
  existsb (String.eqb col) columns.

(** [if col not in columns: columns.append(col)] *)
Definition with_column (col : string) (columns : list string) : list string :=
  if has_column columns col then columns else columns ++ [col].

(** A row all of whose columns are columns of the header [fieldnames]: the
    rows [csv.DictWriter] with that header accepts. *)
Definition csv_row (fieldnames : list string) (d : row) : Prop :=
  forall k, is_Some (d !! k) -> In k fieldnames.

(** The row [csv.DictReader] returns, under the header [fieldnames], for a
    line that has exactly as many cells as the header: a string in every
    column of the header, and nothing else.  (Lines that are shorter or
    longer give the rows described under [record] below.) *)
Definition well_formed_row (fieldnames : list string) (d : row) : Prop :=
  forall k, is_Some (d !! k) <-> In k fieldnames.

(** [csv.DictWriter(f, fieldnames).writerow(d)]: a row with a column that is
    not in [fieldnames] raises [ValueError]; [written] is the file so far. *)
Definition writerow (fieldnames : list string) (d : row) (written : list row)
  : result (list row) :=
  if forallb (fun kv => has_column fieldnames (fst kv)) (map_to_list d)
  then Ok (written ++ [d])
  else Raise ValueError.

(** Truth value of a dictionary: [if d:] holds unless [d] is empty. *)
Definition dict_truthy (d : row) : bool := negb (bool_decide (d = ∅)).

(** *** Rows of lines that do not fit the header *)

(** A row as [csv.DictReader] returns it in general.  A line shorter than
    the header leaves the cells it lacks at [None]; a line longer than the
    header puts its surplus cells, as a list, under the key [None].  The
    scripts take no care of either: [None.strip()] raises
    [AttributeError], and [csv.DictWriter] refuses the key [None]. *)
Record record : Type := mk_record {
  cells : gmap string (option string);
  surplus : option (list string)
}.

(** [csv.DictReader.__next__] on the cells of one line that is not blank:
    [dict(zip(fieldnames, line))], then the surplus cells or the
    [None] cells. *)
Definition dict_reader_row (fieldnames : list string) (line : list string) : record :=
  let d : gmap string (option string) :=
    fold_left (fun d kv => <[fst kv := Some (snd kv)]> d) (combine fieldnames line) ∅ in
  let lf := length fieldnames in
  let lr := length line in
  if (lf <? lr)%nat then mk_record d (Some (drop lf line))
  else if (lr <? lf)%nat
  then mk_record (fold_left (fun d key => <[key := None]> d) (drop lr fieldnames) d) None
  else mk_record d None.

(** The rows of a file: lines without any cell are passed over. *)
Definition dict_reader (fieldnames : list string) (lines : list (list string))
  : list record :=
  List.map (dict_reader_row fieldnames)
           (List.filter (fun line => negb (Nat.eqb (length line) 0)) lines).

(** [d.get(k, "")]: the cell, which is [None] where the line was short. *)
Definition get_cell (d : record) (k : string) : option string :=
  default (Some EmptyString) (cells d !! k).

(** [c.strip()] and [c.upper()] on a cell. *)
Definition strip_cell (c : option string) : result string :=
  match c with
  | Some s => Ok (strip s)
  | None => Raise AttributeError
  end.

Definition upper_cell (c : option string) : result string :=
  match c with
  | Some s => Ok (upper s)
  | None => Raise AttributeError
  end.

(** [k in d] *)
Definition has_cell (d : record) (k : string) : bool :=
  bool_decide (is_Some (cells d !! k)).

(** [d[k] = v] *)
Definition set_cell (k v : string) (d : record) : record :=
  mk_record (<[k := Some v]> (cells d)) (surplus d).

(** [csv.DictWriter(f, fieldnames).writerow(d)]: a key that is not in
    [fieldnames], the key [None] included, raises [ValueError]; a [None]
    cell is written as the empty string. *)
Definition writerow_record (fieldnames : list string) (d : record) (written : list row)
  : result (list row) :=
  match surplus d with
  | Some _ => Raise ValueError
  | None =>
      if forallb (fun kv => has_column fieldnames (fst kv)) (map_to_list (cells d))
      then Ok (written ++ [default EmptyString <$> cells d])
      else Raise ValueError
  end.

(** The cell of a column is a string, or the row has no such column. *)
Definition text_cell (d : record) (k : string) : Prop := cells d !! k <> Some None.

(** The row of a line that has exactly as many cells as the header. *)
Definition well_formed_record (fieldnames : list string) (d : record) : Prop :=
  surplus d = None
  /\ (forall k, text_cell d k)
  /\ (forall k, is_Some (cells d !! k) <-> In k fieldnames).

(** The cells of a row that are strings, and the row of strings as a
    [record]. *)
Definition text_of (d : record) : row := omap id (cells d).

Definition record_of (r : row) : record := mk_record (Some <$> r) None.

(** *** Splitting at a separator *)

(** The first occurrence of the character [sep] in [s]: the text before it
    and the text after it. *)
Fixpoint find_char (sep : ascii) (s : string) : option (string * string) :=
  match s with
  | EmptyString => None
  | String c s' =>
      if Ascii.eqb c sep then Some (EmptyString, s')
      else match find_char sep s' with
           | Some (before, after) => Some (String c before, after)
           | None => None
           end
  end.

(** [s.split(sep, 1)] for a one-character [sep]. *)
Definition split1 (sep : ascii) (s : string) : list string :=
  match find_char sep s with
  | Some (before, after) => [before; after]
  | None => [s]
  end.

End Py.

Notation "'do' x <- m ; k" := (Py.bind m (fun x => k))
  (at level 10, x name, m at level 100, k at level 200).
Notation "'do' ' pat <- m ; k" := (Py.bind m (fun x => match x with pat => k end))
  (at level 10, pat pattern, m at level 100, k at level 200).

Import Py (Ok, Raise).

(** ** [scripts/classify_entity_roles.py] *)

Module ClassifyEntityRoles.

Definition INVESTOR_KEYWORDS : list string :=
  ["INVEST"; "CAPITAL"; "HOLDINGS"; "EQUITY"; "PARTNERS"; "GROUP";
   "VENTURES"; "PROPERTIES"; "REAL ESTATE"; "DEVELOPMENT"].

Definition TRUST_KEYWORDS : list string :=
  ["TRUST"; "ESTATE"; "FAMILY TRUST"; "LIVING TRUST"].

Definition LEGAL_KEYWORDS : list string :=
  ["LAW"; "ATTORNEY"; "ESQ"; "LEGAL"; "COUNSEL"; "PLLC"].

Definition BANK_KEYWORDS : list string :=
  ["BANK"; "N.A."; "CREDIT UNION"; "MORTGAGE"; "SERVICING";
   "FNMA"; "FREDDIE"; "FHA"; "VA"; "USDA"].

Definition GOV_KEYWORDS : list string :=
  ["CITY OF"; "COUNTY OF"; "STATE OF"; "AUTHORITY"; "DISTRICT"].

Definition UTILITY_KEYWORDS : list string :=
  ["UTILITY"; "ELECTRIC"; "WATER"; "SEWER"; "FOUNDATION"; "CHURCH"].

(** Role-based score modifiers; [None] is the "force discard" marker. *)
Definition SCORE_MODIFIER_INVESTOR : option Z := Some 20.
Definition SCORE_MODIFIER_TRUST : option Z := Some 15.
Definition SCORE_MODIFIER_INDIVIDUAL : option Z := Some 10.
Definition SCORE_MODIFIER_LEGAL : option Z := Some 5.
Definition SCORE_MODIFIER_BANK : option Z := None.
Definition SCORE_MODIFIER_GOV : option Z := None.
Definition SCORE_MODIFIER_UTILITY : option Z := None.
Definition SCORE_MODIFIER_UNKNOWN : option Z := Some 0.

Definition get_entity_name (r : row) : string :=
  let full_name := Py.strip (Py.get r "full_name") in
  let company_name := Py.strip (Py.get r "company_name") in
  if Py.truthy company_name then company_name else full_name.

Definition contains_keyword (text : string) (keywords : list string) : bool :=
  if negb (Py.truthy text) then false
  else
    let text_upper := Py.upper text in
    existsb (fun keyword => Py.contains keyword text_upper) keywords.

(** [[kw for kw in keywords if kw in entity_name_upper]] *)
Definition matched_keywords (keywords : list string) (entity_name_upper : string)
  : list string :=
  List.filter (fun kw => Py.contains kw entity_name_upper) keywords.

(** [matched[0]] *)
Definition first_of (matched : list string) : Py.result string :=
  match matched with
  | [] => Raise Py.IndexError
  | kw :: _ => Ok kw
  end.

Definition entity_indicators : list string :=
  ["LLC"; "INC"; "CORP"; "LTD"; "LP"; "LLP"; "PC"; "PA"; "CO"; "COMPANY"].

Definition classify_entity_role (r : row) : Py.result (string * string) :=
  let entity_name := get_entity_name r in
  if negb (Py.truthy entity_name) then Ok ("UNKNOWN", "no name provided")
  else
    let entity_name_upper := Py.upper entity_name in
    if contains_keyword entity_name BANK_KEYWORDS then
      do kw <- first_of (matched_keywords BANK_KEYWORDS entity_name_upper);
      Ok ("BANK_INSTITUTION", "bank keyword: " +:+ kw)
    else if contains_keyword entity_name GOV_KEYWORDS then
      do kw <- first_of (matched_keywords GOV_KEYWORDS entity_name_upper);
      Ok ("GOVERNMENT_ENTITY", "government keyword: " +:+ kw)
    else if contains_keyword entity_name UTILITY_KEYWORDS then
      do kw <- first_of (matched_keywords UTILITY_KEYWORDS entity_name_upper);
      Ok ("UTILITY_OR_NONPROFIT", "utility keyword: " +:+ kw)
    else if contains_keyword entity_name TRUST_KEYWORDS then
      do kw <- first_of (matched_keywords TRUST_KEYWORDS entity_name_upper);
      Ok ("TRUST_ENTITY", "trust keyword: " +:+ kw)
    else if contains_keyword entity_name INVESTOR_KEYWORDS then
      do kw <- first_of (matched_keywords INVESTOR_KEYWORDS entity_name_upper);
      Ok ("INVESTOR_ENTITY", "investor keyword: " +:+ kw)
    else if contains_keyword entity_name LEGAL_KEYWORDS then
      do kw <- first_of (matched_keywords LEGAL_KEYWORDS entity_name_upper);
      Ok ("LEGAL_ENTITY", "legal keyword: " +:+ kw)
    else
      let owner_type := Py.upper (Py.get r "owner_type") in
      let has_entity_indicator :=
        existsb (fun indicator => Py.contains indicator entity_name_upper)
                entity_indicators in
      let no_entity_keyword :=
        negb (contains_keyword entity_name
                (INVESTOR_KEYWORDS ++ TRUST_KEYWORDS ++ LEGAL_KEYWORDS)) in
      let fallback : Py.result (string * string) :=
        Ok ("UNKNOWN", "no matching keywords or patterns") in
      let short_name_rule :=
        if negb has_entity_indicator then
          let name_parts := Py.split entity_name in
          if (Z.of_nat (length name_parts) <=? 5) then
            if no_entity_keyword then
              if String.eqb owner_type "PERSON"
              then Ok ("INDIVIDUAL_PERSON", "appears to be individual person")
              else fallback
            else fallback
          else fallback
        else fallback in
      if String.eqb owner_type "PERSON" && negb has_entity_indicator then
        if no_entity_keyword
        then Ok ("INDIVIDUAL_PERSON", "owner_type=PERSON, no entity keywords")
        else short_name_rule
      else short_name_rule.

(** The same two functions on a row as [csv.DictReader] returns it in
    general, where a cell can be [None]: [row.get(k, "").strip()] and
    [row.get("owner_type", "").upper()] raise [AttributeError] on such a
    cell. *)
Definition get_entity_name_cells (d : Py.record) : Py.result string :=
  do full_name <- Py.strip_cell (Py.get_cell d "full_name");
  do company_name <- Py.strip_cell (Py.get_cell d "company_name");
  Ok (if Py.truthy company_name then company_name else full_name).

Definition classify_entity_role_cells (d : Py.record) : Py.result (string * string) :=
  do entity_name <- get_entity_name_cells d;
  if negb (Py.truthy entity_name) then Ok ("UNKNOWN", "no name provided")
  else
    let entity_name_upper := Py.upper entity_name in
    if contains_keyword entity_name BANK_KEYWORDS then
      do kw <- first_of (matched_keywords BANK_KEYWORDS entity_name_upper);
      Ok ("BANK_INSTITUTION", "bank keyword: " +:+ kw)
    else if contains_keyword entity_name GOV_KEYWORDS then
      do kw <- first_of (matched_keywords GOV_KEYWORDS entity_name_upper);
      Ok ("GOVERNMENT_ENTITY", "government keyword: " +:+ kw)
    else if contains_keyword entity_name UTILITY_KEYWORDS then
      do kw <- first_of (matched_keywords UTILITY_KEYWORDS entity_name_upper);
      Ok ("UTILITY_OR_NONPROFIT", "utility keyword: " +:+ kw)
    else if contains_keyword entity_name TRUST_KEYWORDS then
      do kw <- first_of (matched_keywords TRUST_KEYWORDS entity_name_upper);
      Ok ("TRUST_ENTITY", "trust keyword: " +:+ kw)
    else if contains_keyword entity_name INVESTOR_KEYWORDS then
      do kw <- first_of (matched_keywords INVESTOR_KEYWORDS entity_name_upper);
      Ok ("INVESTOR_ENTITY", "investor keyword: " +:+ kw)
    else if contains_keyword entity_name LEGAL_KEYWORDS then
      do kw <- first_of (matched_keywords LEGAL_KEYWORDS entity_name_upper);
      Ok ("LEGAL_ENTITY", "legal keyword: " +:+ kw)
    else
      do owner_type <- Py.upper_cell (Py.get_cell d "owner_type");
      let has_entity_indicator :=
        existsb (fun indicator => Py.contains indicator entity_name_upper)
                entity_indicators in
      let no_entity_keyword :=
        negb (contains_keyword entity_name
                (INVESTOR_KEYWORDS ++ TRUST_KEYWORDS ++ LEGAL_KEYWORDS)) in
      let fallback : Py.result (string * string) :=
        Ok ("UNKNOWN", "no matching keywords or patterns") in
      let short_name_rule :=
        if negb has_entity_indicator then
          let name_parts := Py.split entity_name in
          if (Z.of_nat (length name_parts) <=? 5) then
            if no_entity_keyword
            then
              if String.eqb owner_type "PERSON"
              then Ok ("INDIVIDUAL_PERSON", "appears to be individual person")
              else fallback
            else fallback
          else fallback
        else fallback in
      if String.eqb owner_type "PERSON" && negb has_entity_indicator then
        if no_entity_keyword
        then Ok ("INDIVIDUAL_PERSON", "owner_type=PERSON, no entity keywords")
        else short_name_rule
      else short_name_rule.

Definition get_role_score_modifier (entity_role : string) : option Z :=
  let modifiers : list (string * option Z) :=
    [("INVESTOR_ENTITY", SCORE_MODIFIER_INVESTOR);
     ("TRUST_ENTITY", SCORE_MODIFIER_TRUST);
     ("INDIVIDUAL_PERSON", SCORE_MODIFIER_INDIVIDUAL);
     ("LEGAL_ENTITY", SCORE_MODIFIER_LEGAL);
     ("BANK_INSTITUTION", SCORE_MODIFIER_BANK);
     ("GOVERNMENT_ENTITY", SCORE_MODIFIER_GOV);
     ("UTILITY_OR_NONPROFIT", SCORE_MODIFIER_UTILITY);
     ("UNKNOWN", SCORE_MODIFIER_UNKNOWN)] in
  match List.find (fun kv => String.eqb (fst kv) entity_role) modifiers with
  | Some kv => snd kv
  | None => Some 0
  end.

Definition is_excluded_role (entity_role : string) : bool :=
  existsb (String.eqb entity_role)
          ["BANK_INSTITUTION"; "GOVERNMENT_ENTITY"; "UTILITY_OR_NONPROFIT"].

Definition apply_role_modifier (base_score : Z) (modifier : option Z) : Z :=
  match modifier with
  | None => -1
  | Some m =>
      let new_score := base_score + m in
      Z.min 100 (Z.max 0 new_score)
  end.

Definition get_output_file_for_role (entity_role : string) : string :=
  let role_to_file : list (string * string) :=
    [("INVESTOR_ENTITY", "note_broker_investor_priority.csv");
     ("TRUST_ENTITY", "note_broker_investor_priority.csv");
     ("INDIVIDUAL_PERSON", "note_broker_individual_priority.csv");
     ("LEGAL_ENTITY", "note_broker_legal_review.csv");
     ("BANK_INSTITUTION", "note_broker_excluded_entities.csv");
     ("GOVERNMENT_ENTITY", "note_broker_excluded_entities.csv");
     ("UTILITY_OR_NONPROFIT", "note_broker_excluded_entities.csv");
     ("UNKNOWN", "note_broker_individual_priority.csv")] in
  match List.find (fun kv => String.eqb (fst kv) entity_role) role_to_file with
  | Some kv => snd kv
  | None => "note_broker_individual_priority.csv"
  end.

Section Process.

(** [float(s)]; [None] stands for [ValueError]. *)
Variable float_of_str : string -> option float.

(** [int(float(score_str))] under [except (ValueError, TypeError)]. *)
Definition parse_engagement_score (r : row) : Py.result Z :=
  let score_str := Py.strip (Py.get r "engagement_score") in
  if negb (Py.truthy score_str) then Ok 0
  else
    Py.try_except
      (match float_of_str score_str with
       | Some x => Py.int_of_float x
       | None => Raise Py.ValueError
       end)
      (fun e => match e with Py.ValueError => true | _ => false end)
      (Ok 0).

(** The score written back for a role, from the parsed base score:
    the modifier is applied and the exclusion marker -1 becomes 0. *)
Definition modified_score_for (entity_role : string) (base_score : Z) : Z :=
  let modifier := get_role_score_modifier entity_role in
  let modified_score := apply_role_modifier base_score modifier in
  if modified_score =? -1 then 0 else modified_score.

(** One iteration of the loop of [process_entity_classification], for an
    input file with the header [input_columns]: the name of the output file
    the row goes to, and the row written there. *)
Definition process_row (input_columns : list string) (r : row)
  : Py.result (string * row) :=
  let output_columns :=
    input_columns ++ ["entity_role"; "role_score_modifier"; "role_reason"] in
  do '(entity_role, role_reason) <- classify_entity_role r;
  let modifier := get_role_score_modifier entity_role in
  do base_score <- parse_engagement_score r;
  let modified_score := modified_score_for entity_role base_score in
  let enriched_row :=
    <["engagement_score" := Py.str modified_score]>
      (<["role_reason" := role_reason]>
         (<["role_score_modifier" :=
              match modifier with Some m => Py.str m | None => "EXCLUDED" end]>
            (<["entity_role" := entity_role]> r))) in
  let output_file := get_output_file_for_role entity_role in
  do _ <- Py.writerow output_columns enriched_row [];
  Ok (output_file, enriched_row).

End Process.

(** The four output files and the counter of [process_entity_classification]. *)
Record role_outputs : Type := mk_role_outputs {
  investor_rows : list row;
  individual_rows : list row;
  legal_rows : list row;
  excluded_rows : list row;
  role_counts : gmap string Z
}.

Section Classification.

(** [float(s)]; [None] stands for [ValueError]. *)
Variable float_of_str : string -> option float.

(** One iteration of the loop of [process_entity_classification], with the
    four writers and the counter. *)
Definition process_entity_row (output_columns : list string) (out : role_outputs) (r : row)
  : Py.result role_outputs :=
  do '(entity_role, role_reason) <- classify_entity_role r;
  (* role_counts[entity_role] += 1 *)
  let role_counts' :=
    <[entity_role := default 0 (role_counts out !! entity_role) + 1]> (role_counts out) in
  let modifier := get_role_score_modifier entity_role in
  do base_score <- parse_engagement_score float_of_str r;
  let modified_score := apply_role_modifier base_score modifier in
  let modified_score := if modified_score =? -1 then 0 else modified_score in
  let enriched_row : row := r in
  let enriched_row := <["entity_role" := entity_role]> enriched_row in
  let enriched_row :=
    <["role_score_modifier" :=
        match modifier with Some m => Py.str m | None => "EXCLUDED" end]> enriched_row in
  let enriched_row := <["role_reason" := role_reason]> enriched_row in
  let enriched_row := <["engagement_score" := Py.str modified_score]> enriched_row in
  let output_file := get_output_file_for_role entity_role in
  if String.eqb output_file "note_broker_investor_priority.csv" then
    do rows <- Py.writerow output_columns enriched_row (investor_rows out);
    Ok (mk_role_outputs rows (individual_rows out) (legal_rows out) (excluded_rows out)
                        role_counts')
  else if String.eqb output_file "note_broker_individual_priority.csv" then
    do rows <- Py.writerow output_columns enriched_row (individual_rows out);
    Ok (mk_role_outputs (investor_rows out) rows (legal_rows out) (excluded_rows out)
                        role_counts')
  else if String.eqb output_file "note_broker_legal_review.csv" then
    do rows <- Py.writerow output_columns enriched_row (legal_rows out);
    Ok (mk_role_outputs (investor_rows out) (individual_rows out) rows (excluded_rows out)
                        role_counts')
  else if String.eqb output_file "note_broker_excluded_entities.csv" then
    do rows <- Py.writerow output_columns enriched_row (excluded_rows out);
    Ok (mk_role_outputs (investor_rows out) (individual_rows out) (legal_rows out) rows
                        role_counts')
  else
    Ok (mk_role_outputs (investor_rows out) (individual_rows out) (legal_rows out)
                        (excluded_rows out) role_counts').

(** The loop over the input rows; an exception in a row ends the run. *)
Fixpoint process_entity_rows (output_columns : list string) (out : role_outputs)
         (rows : list row) : Py.result role_outputs :=
  match rows with
  | [] => Ok out
  | r :: rows' =>
      do out' <- process_entity_row output_columns out r;
      process_entity_rows output_columns out' rows'
  end.

(** [process_entity_classification] on an input file with the header
    [input_columns] and the rows [rows]. *)
Definition process_entity_classification (input_columns : list string) (rows : list row)
  : Py.result role_outputs :=
  let output_columns :=
    input_columns ++ ["entity_role"; "role_score_modifier"; "role_reason"] in
  process_entity_rows output_columns (mk_role_outputs [] [] [] [] ∅) rows.

End Classification.

End ClassifyEntityRoles.

(** ** [scripts/filter_notes.py] *)

Module FilterNotes.

Definition MAX_LOAN_AMOUNT : Z := 500000.
Definition MIN_AGE_YEARS : Z := 3.
Definition MAX_AGE_YEARS : Z := 20.

Definition BANK_KEYWORDS : list string :=
  ["BANK"; "N.A."; "MORTGAGE"; "SERVICING";
   "WELLS FARGO"; "WELLS";
   "JPMORGAN"; "JP MORGAN"; "CHASE";
   "BANK OF AMERICA"; "BANK OF AMER"; "BOA";
   "CITIBANK"; "CITI";
   "U.S. BANK"; "US BANK"; "USBANK";
   "PNC";
   "TRUIST";
   "CAPITAL ONE"; "CAPITALONE";
   "REGIONS BANK"; "REGIONS";
   "SUNTRUST";
   "BB&T"; "BBT";
   "TD BANK";
   "HSBC";
   "BANK OF NEW YORK"; "BNY";
   "DEUTSCHE BANK";
   "BARCLAYS";
   "MORGAN STANLEY";
   "GOLDMAN SACHS";
   "MERRILL LYNCH";
   "FIDELITY";
   "VANGUARD";
   "FEDERAL HOME LOAN"; "FHLMC"; "FREDDIE MAC";
   "FANNIE MAE"; "FNMA";
   "GINNIE MAE"; "GNMA";
   "FHA"; "VA LOAN"; "USDA"].

Definition SELLER_FINANCE_KEYWORDS : list string :=
  ["PURCHASE MONEY";
   "SELLER FINANCE"; "SELLER FINANCING";
   "VENDOR LIEN";
   "DEED OF TRUST";
   "NOTE";
   "MORTGAGE";
   "PROMISSORY NOTE";
   "INSTALLMENT SALE"].

Definition DISCARD_DOC_TYPES : list string :=
  ["RELEASE";
   "SATISFACTION";
   "RELEASE OF LIEN";
   "SATISFACTION OF MORTGAGE";
   "CANCELLATION"].

(** [any(keyword in text for keyword in keywords)] *)
Definition any_in (keywords : list string) (text : string) : bool :=
  existsb (fun keyword => Py.contains keyword text) keywords.

Definition is_bank_lender (lender_name : string) : bool :=
  if negb (Py.truthy lender_name) then false
  else
    let lender_upper := Py.upper lender_name in
    any_in BANK_KEYWORDS lender_upper.

(** The suffix test shared by the LLC and the corporate checks. *)
Definition has_suffix (name_upper : string) (suffixes : list string) : bool :=
  existsb
    (fun suffix =>
       Py.endswith name_upper (" " +:+ suffix)
       || Py.endswith name_upper (", " +:+ suffix)
       || Py.contains (" " +:+ suffix) name_upper
       || Py.contains (", " +:+ suffix) name_upper)
    suffixes.

Definition detect_owner_type (name : string) : string :=
  if negb (Py.truthy name) || negb (Py.truthy (Py.strip name)) then "UNKNOWN"
  else
    let name_upper := Py.strip (Py.upper name) in
    if is_bank_lender name then "BANK"
    else if any_in ["TRUST"; "TRUSTEE"; "ESTATE"] name_upper then "TRUST"
    else if has_suffix name_upper ["LLC"; "L.L.C."; "L L C"] then "LLC"
    else
      let corporate_suffixes :=
        ["INC"; "INCORPORATED"; "CORP"; "CORPORATION"; "LTD"; "LIMITED";
         "LP"; "L.P."; "LLP"; "L.L.P."; "PC"; "P.C."; "PLLC"] in
      if has_suffix name_upper corporate_suffixes then "LLC"
      else if Py.contains "," name then "PERSON"
      else if (Py.len name <? 50)
              && negb (any_in ["COMPANY"; "GROUP"; "HOLDINGS"; "PROPERTIES";
                               "INVESTMENTS"] name_upper)
      then "PERSON"
      else "UNKNOWN".

Definition is_seller_finance_doc (doc_type : string) : bool :=
  if negb (Py.truthy doc_type) then false
  else any_in SELLER_FINANCE_KEYWORDS (Py.upper doc_type).

Definition is_discard_doc_type (doc_type : string) : bool :=
  if negb (Py.truthy doc_type) then false
  else any_in DISCARD_DOC_TYPES (Py.upper doc_type).

(** [score += pts; reasons.append(reason)] *)
Definition bump (pts : Z) (reason : string) (st : Z * list string) : Z * list string :=
  (fst st + pts, snd st ++ [reason]).

(** The block "Loan amount scoring". *)
Definition score_loan_amount (loan_amount : option float) (st : Z * list string)
  : Z * list string :=
  match loan_amount with
  | Some amt =>
      if Py.float_truthy amt then
        if PrimFloat.leb 10000 amt && PrimFloat.ltb amt 100000
        then bump 25 "small amount" st
        else if PrimFloat.leb 100000 amt && PrimFloat.ltb amt 300000
        then bump 30 "medium amount" st
        else if PrimFloat.leb 300000 amt
                && PrimFloat.ltb amt (Py.float_of_int MAX_LOAN_AMOUNT)
        then bump 20 "large amount" st
        else if PrimFloat.ltb amt 10000
        then bump 10 "very small amount" st
        else st
      else bump (-20) "missing loan amount" st
  | None => bump (-20) "missing loan amount" st
  end.

(** The block "Document type scoring". *)
Definition score_doc_type (doc_type : string) (is_seller_finance : bool)
           (st : Z * list string) : Z * list string :=
  if is_seller_finance then bump 25 "seller finance doc" st
  else if Py.truthy doc_type then bump 10 "other doc type" st
  else bump (-10) "missing doc type" st.

(** The block "Recording age scoring". *)
Definition score_recording_age (recording_age : option float) (st : Z * list string)
  : Z * list string :=
  match recording_age with
  | Some age =>
      if Py.float_truthy age then
        if PrimFloat.leb 3 age && PrimFloat.leb age 10
        then bump 10 "recent recording" st
        else if PrimFloat.ltb 10 age && PrimFloat.leb age 20
        then bump 5 "older recording" st
        else if PrimFloat.ltb age 3
        then bump (-5) "very recent" st
        else bump (-10) "very old" st
      else bump (-5) "missing date" st
  | None => bump (-5) "missing date" st
  end.

Definition calculate_lead_score
    (owner_type : string) (loan_amount : option float) (doc_type : string)
    (recording_age : option float) (is_seller_finance : bool) : Z * string :=
  let st0 : Z * list string := (0, []) in
  (* everything after the owner-type block *)
  let after_owner (st : Z * list string) : Z * string :=
    let st := score_loan_amount loan_amount st in
    let st := score_doc_type doc_type is_seller_finance st in
    let st := score_recording_age recording_age st in
    let score := Z.max 0 (Z.min 100 (fst st)) in
    let why_flagged := Py.join " + " (take 5 (snd st)) in
    (score, why_flagged) in
  if String.eqb owner_type "PERSON" then after_owner (bump 40 "person lender" st0)
  else if String.eqb owner_type "LLC" then after_owner (bump 25 "LLC lender" st0)
  else if String.eqb owner_type "TRUST" then after_owner (bump 20 "trust lender" st0)
  else if String.eqb owner_type "BANK" then (0, "bank lender")
  else after_owner (bump 10 "unknown owner type" st0).

Section Interpreter.

(** [float(s)]; [None] stands for [ValueError]. *)
Variable float_of_str : string -> option float.
(** [datetime] values; [strptime s fmt] is [None] on [ValueError];
    [days_since d] is [(datetime.now() - d).days]. *)
Variable datetime : Type.
Variable strptime : string -> string -> option datetime.
Variable days_since : datetime -> Z.
(** [f"{x:.1f}"], [f"{x:,.0f}"] and [f"{x}"]. *)
Variable format_1f : float -> string.
Variable format_comma_0f : float -> string.
Variable format_float : float -> string.

Definition parse_date (date_str : string) : option datetime :=
  if negb (Py.truthy date_str) || negb (Py.truthy (Py.strip date_str)) then None
  else
    let date_str := Py.strip date_str in
    let formats :=
      ["%Y-%m-%d"; "%m/%d/%Y"; "%m-%d-%Y"; "%Y/%m/%d"; "%d/%m/%Y"; "%m/%d/%y";
       "%Y%m%d"] in
    (fix try_formats (fmts : list string) : option datetime :=
       match fmts with
       | [] => None
       | fmt :: fmts' =>
           match strptime date_str fmt with
           | Some d => Some d
           | None => try_formats fmts'
           end
       end) formats.

Definition parse_amount (amount_str : string) : option float :=
  if negb (Py.truthy amount_str) || negb (Py.truthy (Py.strip amount_str)) then None
  else
    let cleaned :=
      Py.remove_char " " (Py.remove_char "," (Py.remove_char "$" (Py.strip amount_str))) in
    float_of_str cleaned.

Definition get_recording_age_years (recording_date : option datetime) : option float :=
  match recording_date with
  | None => None
  | Some d => Some (PrimFloat.div (Py.float_of_int (days_since d)) 365.25)
  end.

Definition classify_row (r : row) (column_mapping : row) : string * string :=
  let get_field (canonical_name : string) : string :=
    match column_mapping !! canonical_name with
    | Some csv_col => Py.get r csv_col
    | None => EmptyString
    end in
  let lender_name := Py.strip (get_field "lender_name") in
  let loan_amount_str := get_field "loan_amount" in
  let doc_type := Py.strip (get_field "doc_type") in
  let recording_date_str := get_field "recording_date" in
  let loan_amount := parse_amount loan_amount_str in
  let recording_date := parse_date recording_date_str in
  let recording_age := get_recording_age_years recording_date in
  let max_age := Py.float_of_int MAX_AGE_YEARS in
  let too_old (age : float) : string * string :=
    ("DISCARD",
     "Recording too old (" +:+ format_1f age +:+ " years, max "
       +:+ Py.str MAX_AGE_YEARS +:+ ")") in
  (* lead rules *)
  let lead_rules : string * string :=
    match loan_amount with
    | None => ("REVIEW", "Missing loan_amount")
    | Some amt =>
        if PrimFloat.leb amt 0 then
          ("DISCARD", "Invalid loan amount: " +:+ format_float amt)
        else if PrimFloat.leb (Py.float_of_int MAX_LOAN_AMOUNT) amt then
          ("REVIEW",
           "Loan amount too large (" +:+ format_comma_0f amt +:+ ", max "
             +:+ Py.format_comma MAX_LOAN_AMOUNT +:+ ")")
        else if negb (Py.truthy lender_name) then ("REVIEW", "Missing lender_name")
        else
          match recording_age with
          | None => ("REVIEW", "Missing or unparseable recording_date")
          | Some age =>
              if PrimFloat.ltb age (Py.float_of_int MIN_AGE_YEARS) then
                ("REVIEW",
                 "Recording too recent (" +:+ format_1f age +:+ " years, min "
                   +:+ Py.str MIN_AGE_YEARS +:+ ")")
              else if PrimFloat.ltb max_age age then too_old age
              else ("LEAD", "Meets all criteria for seller-finance note lead")
          end
    end in
  (* discard rules, tried first *)
  if is_bank_lender lender_name then
    ("DISCARD", "Lender is a bank or large financial institution")
  else if is_discard_doc_type doc_type then
    ("DISCARD", "Document type indicates release/satisfaction: " +:+ doc_type)
  else if bool_decide (loan_amount = None)
          && negb (Py.truthy lender_name) && negb (Py.truthy doc_type) then
    ("DISCARD", "Missing all critical fields (loan_amount, lender_name, doc_type)")
  else
    match recording_age with
    | Some age => if PrimFloat.ltb max_age age then too_old age else lead_rules
    | None => lead_rules
    end.

End Interpreter.

(** *** Names, lead identifiers and the outreach files *)

Definition parse_name (full_name : string) : string * string :=
  if negb (Py.truthy full_name) || negb (Py.truthy (Py.strip full_name))
  then (EmptyString, EmptyString)
  else
    let full_name := Py.strip full_name in
    (* "FIRST LAST" *)
    let by_words : string * string :=
      match Py.split full_name with
      | first :: second :: rest => (first, Py.join " " (second :: rest))
      | [only] => (EmptyString, only)
      | [] => (EmptyString, EmptyString)
      end in
    (* "LAST, FIRST" *)
    if Py.contains "," full_name then
      match List.map Py.strip (Py.split1 "," full_name) with
      | [last; first] => (first, last)
      | [last] => (EmptyString, last)
      | _ => by_words
      end
    else by_words.

Definition extract_company_name (name owner_type : string) : string :=
  if negb (String.eqb owner_type "LLC") then EmptyString else Py.strip name.

(** The headers of the email-ready and of the mail-ready file. *)
Definition email_columns : list string :=
  ["lead_id"; "first_name"; "last_name"; "full_name"; "email"; "company_name";
   "owner_type"; "mailing_address_1"; "mailing_city"; "mailing_state"; "mailing_zip";
   "property_address_1"; "property_city"; "property_state"; "property_zip";
   "county"; "doc_type"; "recording_date"; "original_loan_amount";
   "interest_rate"; "loan_term_months"; "lien_position"; "tcad_account_id";
   "source_file"; "lead_score"; "why_flagged"].

Definition mail_columns : list string :=
  email_columns ++ ["mailing_address_2"; "owner_mailing_name_line";
                    "property_owner_occupied_guess"; "equity_estimate"].

Definition build_mail_ready_row (email_row : row) (tcad_row : option row) : row :=
  let mail_row : row := email_row in
  let mail_row := <["mailing_address_2" := EmptyString]> mail_row in
  let owner_mailing_name_line := Py.get email_row "full_name" in
  let owner_mailing_name_line :=
    if Py.truthy (Py.get email_row "company_name")
    then Py.get email_row "company_name" else owner_mailing_name_line in
  let mail_row := <["owner_mailing_name_line" := owner_mailing_name_line]> mail_row in
  let mail_row := <["property_owner_occupied_guess" := "UNKNOWN"]> mail_row in
  let mail_row := <["equity_estimate" := EmptyString]> mail_row in
  mail_row.

(** The TCAD lookup built from the rows of [prop_clean.csv] (no file gives
    the empty lookup): later rows replace earlier ones. *)
Definition load_tcad_lookup (tcad_rows : list row) : gmap string row :=
  fold_left
    (fun tcad_lookup r =>
       let account_id := Py.strip (Py.get r "account_id") in
       if Py.truthy account_id then <[account_id := r]> tcad_lookup else tcad_lookup)
    tcad_rows ∅.

(** The four output files and the counters of [process_recorder_file]. *)
Record recorder_outputs : Type := mk_recorder_outputs {
  email_rows : list row;
  mail_rows : list row;
  review_rows : list row;
  discard_rows : list row;
  leads : Z;
  review : Z;
  discarded : Z
}.

Section Outreach.

(** [float(s)]; [None] stands for [ValueError]. *)
Variable float_of_str : string -> option float.
Variable datetime : Type.
Variable strptime : string -> string -> option datetime.
Variable days_since : datetime -> Z.
(** [f"{x:.1f}"], [f"{x:,.0f}"], [f"{x}"] and [f"{x:.2f}"]. *)
Variable format_1f : float -> string.
Variable format_comma_0f : float -> string.
Variable format_float : float -> string.
Variable format_2f : float -> string.
(** [hashlib.sha1(s.encode('utf-8')).hexdigest()] *)
Variable sha1_hexdigest : string -> string.

Definition parse_float (value_str : string) : option float :=
  if negb (Py.truthy value_str) || negb (Py.truthy (Py.strip value_str)) then None
  else
    let cleaned :=
      Py.remove_char " " (Py.remove_char "," (Py.remove_char "$" (Py.strip value_str))) in
    float_of_str cleaned.

Definition generate_lead_id (full_name mailing_zip loan_amount recording_date : string)
  : string :=
  let full_name := Py.upper (Py.strip (Py.str_or full_name EmptyString)) in
  let mailing_zip := Py.strip (Py.str_or mailing_zip EmptyString) in
  let loan_amount := Py.strip (Py.str_or loan_amount EmptyString) in
  let recording_date := Py.strip (Py.str_or recording_date EmptyString) in
  let hash_input :=
    full_name +:+ "|" +:+ mailing_zip +:+ "|" +:+ loan_amount +:+ "|" +:+ recording_date in
  sha1_hexdigest hash_input.

Definition build_email_ready_row (r column_mapping : row) (tcad_row : option row)
           (source_file : string) : row :=
  let get_field (canonical_name : string) : string :=
    match column_mapping !! canonical_name with
    | Some csv_col => Py.get r csv_col
    | None => EmptyString
    end in
  (* [tcad_row.get(k, "").strip()] under [if tcad_row:] *)
  let tcad_field (k : string) : string :=
    match tcad_row with
    | Some t => if Py.dict_truthy t then Py.strip (Py.get t k) else EmptyString
    | None => EmptyString
    end in
  let lender_name := Py.strip (get_field "lender_name") in
  let loan_amount_str := get_field "loan_amount" in
  let recording_date_str := get_field "recording_date" in
  let doc_type := Py.strip (get_field "doc_type") in
  let loan_amount := parse_amount float_of_str loan_amount_str in
  let recording_date := parse_date datetime strptime recording_date_str in
  let recording_age := get_recording_age_years datetime days_since recording_date in
  let owner_type := detect_owner_type lender_name in
  let '(first_name, last_name) := parse_name lender_name in
  let full_name := Py.strip lender_name in
  let company_name := extract_company_name lender_name owner_type in
  let mailing_address_1 := tcad_field "mailing_address" in
  let mailing_city := tcad_field "mailing_city" in
  let mailing_state := tcad_field "mailing_state" in
  let mailing_zip := tcad_field "mailing_zip" in
  let property_address_1 := tcad_field "situs_address" in
  let property_city := tcad_field "situs_city" in
  let property_state := tcad_field "situs_state" in
  let property_zip := tcad_field "situs_zip" in
  let '(property_address_1, property_city, property_state, property_zip) :=
    if negb (Py.truthy property_address_1)
    then (Py.strip (get_field "property_address"), Py.strip (get_field "property_city"),
          Py.strip (get_field "property_state"), Py.strip (get_field "property_zip"))
    else (property_address_1, property_city, property_state, property_zip) in
  let county := EmptyString in
  let interest_rate_str := get_field "interest_rate" in
  let interest_rate := parse_float interest_rate_str in
  let interest_rate_display :=
    match interest_rate with
    | Some x => if Py.float_truthy x then format_2f x else EmptyString
    | None => EmptyString
    end in
  let loan_term_months := EmptyString in
  let lien_position := EmptyString in
  let apn_field := Py.get column_mapping "apn" in
  let tcad_account_id :=
    if Py.truthy apn_field && Py.has_key r apn_field then Py.strip (Py.get r apn_field)
    else tcad_field "account_id" in
  let lead_id := generate_lead_id full_name mailing_zip loan_amount_str recording_date_str in
  let is_seller_finance := is_seller_finance_doc doc_type in
  let '(lead_score, why_flagged) :=
    calculate_lead_score owner_type loan_amount doc_type recording_age is_seller_finance in
  (* the dictionary literal; its keys are distinct *)
  list_to_map
    [("lead_id", lead_id);
     ("first_name", first_name);
     ("last_name", last_name);
     ("full_name", full_name);
     ("email", EmptyString);
     ("company_name", company_name);
     ("owner_type", owner_type);
     ("mailing_address_1", mailing_address_1);
     ("mailing_city", mailing_city);
     ("mailing_state", mailing_state);
     ("mailing_zip", mailing_zip);
     ("property_address_1", property_address_1);
     ("property_city", property_city);
     ("property_state", property_state);
     ("property_zip", property_zip);
     ("county", county);
     ("doc_type", doc_type);
     ("recording_date", recording_date_str);
     ("original_loan_amount",
      if Py.truthy loan_amount_str then loan_amount_str else EmptyString);
     ("interest_rate", interest_rate_display);
     ("loan_term_months", loan_term_months);
     ("lien_position", lien_position);
     ("tcad_account_id", tcad_account_id);
     ("source_file", source_file);
     ("lead_score", Py.str lead_score);
     ("why_flagged", why_flagged)].

(** One iteration of the loop of [process_recorder_file]; [original_columns]
    is the header of the recorder file. *)
Definition process_recorder_row (original_columns : list string) (column_mapping : row)
           (tcad_lookup : gmap string row) (source_file : string)
           (out : recorder_outputs) (r : row) : Py.result recorder_outputs :=
  let review_columns := original_columns ++ ["classification_reason"] in
  let discard_columns := original_columns ++ ["classification_reason"] in
  let '(classification, reason) :=
    classify_row float_of_str datetime strptime days_since
                 format_1f format_comma_0f format_float r column_mapping in
  if String.eqb classification "LEAD" then
    let apn_field := Py.get column_mapping "apn" in
    let tcad_row : option row :=
      if Py.truthy apn_field && Py.has_key r apn_field
      then tcad_lookup !! Py.strip (Py.get r apn_field)
      else None in
    let email_row := build_email_ready_row r column_mapping tcad_row source_file in
    do email_rows' <- Py.writerow email_columns email_row (email_rows out);
    let mail_row := build_mail_ready_row email_row tcad_row in
    do mail_rows' <- Py.writerow mail_columns mail_row (mail_rows out);
    Ok (mk_recorder_outputs email_rows' mail_rows' (review_rows out) (discard_rows out)
                            (leads out + 1) (review out) (discarded out))
  else if String.eqb classification "REVIEW" then
    let output_row := <["classification_reason" := reason]> r in
    do review_rows' <- Py.writerow review_columns output_row (review_rows out);
    Ok (mk_recorder_outputs (email_rows out) (mail_rows out) review_rows' (discard_rows out)
                            (leads out) (review out + 1) (discarded out))
  else
    let output_row := <["classification_reason" := reason]> r in
    do discard_rows' <- Py.writerow discard_columns output_row (discard_rows out);
    Ok (mk_recorder_outputs (email_rows out) (mail_rows out) (review_rows out) discard_rows'
                            (leads out) (review out) (discarded out + 1)).

(** The loop over the rows of the recorder file; an exception ends the run. *)
Fixpoint process_recorder_rows (original_columns : list string) (column_mapping : row)
         (tcad_lookup : gmap string row) (source_file : string)
         (out : recorder_outputs) (rows : list row) : Py.result recorder_outputs :=
  match rows with
  | [] => Ok out
  | r :: rows' =>
      do out' <- process_recorder_row original_columns column_mapping tcad_lookup
                                      source_file out r;
      process_recorder_rows original_columns column_mapping tcad_lookup source_file
                            out' rows'
  end.

(** [process_recorder_file] on a recorder file with the header
    [original_columns] and the rows [rows], and on the rows of the TCAD
    file. *)
Definition process_recorder_file (original_columns : list string) (rows : list row)
           (column_mapping : row) (tcad_rows : list row) (source_file : string)
  : Py.result recorder_outputs :=
  let tcad_lookup := load_tcad_lookup tcad_rows in
  process_recorder_rows original_columns column_mapping tcad_lookup source_file
                        (mk_recorder_outputs [] [] [] [] 0 0 0) rows.

End Outreach.

End FilterNotes.

(** ** [scripts/note_broker_refine.py] *)

Module NoteBrokerRefine.

Definition NOTE_SWEET_SPOT_MIN : Z := 150000.
Definition NOTE_SWEET_SPOT_MAX : Z := 400000.

Definition WEIGHT_ABSENTEE_STRONG : Z := 30.
Definition WEIGHT_ABSENTEE_WEAK : Z := 15.
Definition WEIGHT_EMAIL : Z := 25.
Definition WEIGHT_PHONE : Z := 20.
Definition WEIGHT_STREET_ADDRESS : Z := 10.
Definition WEIGHT_MULTIPLE_PROPERTIES : Z := 15.
Definition WEIGHT_NOTE_SWEET_SPOT : Z := 20.
Definition WEIGHT_SIMPLE_NAME : Z := 10.

Definition has_email (r : row) : bool :=
  let email := Py.str_or (Py.get r "email") (Py.get r "Email") in
  let email := Py.strip email in
  Py.truthy email && Py.contains "@" email.

Definition has_phone (r : row) : bool :=
  let phone := Py.str_or (Py.get r "phone") (Py.get r "Phone") in
  let phone := Py.strip phone in
  Py.truthy phone && (10 <=? Py.len phone).

Definition is_street_address (address : string) : bool :=
  if negb (Py.truthy address) then false
  else
    let address_upper := Py.upper address in
    let po_box_indicators :=
      ["PO BOX"; "P.O. BOX"; "P O BOX"; "POBOX"; "BOX "; "PMB"; "SUITE"] in
    negb (existsb (fun indicator => Py.contains indicator address_upper)
                  po_box_indicators).

Definition field_upper (r : row) (k : string) : string :=
  Py.upper (Py.strip (Py.get r k)).

Definition is_strong_absentee (r : row) : bool :=
  let mailing_city := field_upper r "mailing_city" in
  let mailing_state := field_upper r "mailing_state" in
  let situs_city := field_upper r "situs_city" in
  let situs_state := field_upper r "situs_state" in
  if negb (Py.truthy mailing_city) || negb (Py.truthy situs_city) then false
  else if Py.truthy mailing_state && Py.truthy situs_state
          && negb (String.eqb mailing_state situs_state) then true
  else if negb (String.eqb mailing_city situs_city) then true
  else false.

Definition is_weak_absentee (r : row) : bool :=
  let mailing_address := field_upper r "mailing_address" in
  let situs_address := field_upper r "situs_address" in
  let mailing_city := field_upper r "mailing_city" in
  let situs_city := field_upper r "situs_city" in
  if negb (Py.truthy mailing_address) || negb (Py.truthy situs_address) then false
  else if String.eqb mailing_city situs_city
          && negb (String.eqb mailing_address situs_address) then true
  else false.

Definition is_simple_name (name : string) : bool :=
  if negb (Py.truthy name) then false
  else if 60 <? Py.len name then false
  else
    let complex_patterns := ["TRUST"; "ESTATE"; "HEIRS"; "ET AL"; "ETC"; "UNKNOWN"] in
    let name_upper := Py.upper name in
    negb (existsb (fun pattern => Py.contains pattern name_upper) complex_patterns).

Definition is_in_note_sweet_spot (total_value : option float) : bool :=
  match total_value with
  | None => false
  | Some v =>
      PrimFloat.leb (Py.float_of_int NOTE_SWEET_SPOT_MIN) v
      && PrimFloat.leb v (Py.float_of_int NOTE_SWEET_SPOT_MAX)
  end.

(** [score += pts; reasons.append(reason)] *)
Definition bump (pts : Z) (reason : string) (st : Z * list string) : Z * list string :=
  (fst st + pts, snd st ++ [reason]).

(** [reasons.append(reason)] *)
Definition note (reason : string) (st : Z * list string) : Z * list string :=
  (fst st, snd st ++ [reason]).

(** The text handed to [int] for the property count:
    [row.get("property_count", "1") or "1"]. *)
Definition property_count_text (r : row) : string :=
  Py.str_or (default "1" (r !! "property_count")) "1".

(** The four output files and the counters of [process_targets_file]. *)
Record outputs : Type := mk_outputs {
  high_rows : list row;
  medium_rows : list row;
  low_rows : list row;
  review_rows : list row;
  count_high : Z;
  count_medium : Z;
  count_low : Z;
  count_review : Z
}.

Definition no_outputs : outputs := mk_outputs [] [] [] [] 0 0 0 0.

Section Interpreter.

(** [float(s)]; [None] stands for [ValueError]. *)
Variable float_of_str : string -> option float.
(** [f"{x:,.0f}"] *)
Variable format_comma_0f : float -> string.

Definition parse_amount (amount_str : string) : option float :=
  if negb (Py.truthy amount_str) || negb (Py.truthy (Py.strip amount_str)) then None
  else
    let cleaned :=
      Py.remove_char " " (Py.remove_char "," (Py.remove_char "$" (Py.strip amount_str))) in
    float_of_str cleaned.

Definition estimate_equity (r : row) : option float :=
  let total_value := parse_amount (Py.get r "total_value") in
  let improvement_value := parse_amount (Py.get r "improvement_value") in
  match total_value with
  | None => None
  | Some total =>
      let improvement := default (Py.float_of_int 0) improvement_value in
      let equity := PrimFloat.sub total improvement in
      if PrimFloat.ltb 0 equity then Some equity else None
  end.

Definition calculate_engagement_score (r : row) : Py.result (Z * string) :=
  let st : Z * list string := (0, []) in
  let st := if has_email r then bump WEIGHT_EMAIL "has email" st
            else note "no email" st in
  let st := if has_phone r then bump WEIGHT_PHONE "has phone" st
            else note "no phone" st in
  let mailing_address := Py.get r "mailing_address" in
  let st := if is_street_address mailing_address
            then bump WEIGHT_STREET_ADDRESS "street address" st
            else note "PO box or missing" st in
  let st := if is_strong_absentee r then bump WEIGHT_ABSENTEE_STRONG "strong absentee" st
            else if is_weak_absentee r then bump WEIGHT_ABSENTEE_WEAK "weak absentee" st
            else note "owner occupied" st in
  do property_count <- Py.int (property_count_text r);
  let st := if 3 <=? property_count
            then bump WEIGHT_MULTIPLE_PROPERTIES
                      (Py.str property_count +:+ " properties") st
            else if property_count =? 2
            then bump (WEIGHT_MULTIPLE_PROPERTIES / 2) "2 properties" st
            else st in
  let total_value := parse_amount (Py.get r "total_value") in
  let st := if is_in_note_sweet_spot total_value
            then bump WEIGHT_NOTE_SWEET_SPOT "note sweet spot value" st
            else st in
  let owner_name := Py.str_or (Py.get r "full_name") (Py.get r "company_name") in
  let st := if is_simple_name owner_name then bump WEIGHT_SIMPLE_NAME "simple name" st
            else st in
  let score := Z.max 0 (Z.min 100 (fst st)) in
  let why_flagged := Py.join " + " (take 6 (snd st)) in
  Ok (score, why_flagged).

Definition classify_for_note_broker (r : row) : Py.result (string * Z * string) :=
  do '(engagement_score, why_flagged) <- calculate_engagement_score r;
  let has_contact_info := has_email r || has_phone r in
  let total_value := parse_amount (Py.get r "total_value") in
  let equity := estimate_equity r in
  if has_contact_info && (60 <=? engagement_score) then
    Ok ("HIGH_PRIORITY", engagement_score, why_flagged)
  else if 50 <=? engagement_score then
    Ok ("MEDIUM_PRIORITY", engagement_score, why_flagged)
  else if 30 <=? engagement_score then
    Ok ("LOW_PRIORITY", engagement_score, why_flagged)
  else
    Ok ("REVIEW", engagement_score, why_flagged).

(** The row written for an input row and its classification. *)
Definition enrich (r : row) (engagement_score : Z) (why_flagged : string) : row :=
  let equity := estimate_equity r in
  let contact_quality :=
    (if has_email r then ["EMAIL"] else [])
    ++ (if has_phone r then ["PHONE"] else [])
    ++ (if is_street_address (Py.get r "mailing_address") then ["STREET_ADDRESS"] else []) in
  <["contact_quality" :=
      match contact_quality with
      | [] => "NONE"
      | _ :: _ => Py.join " | " contact_quality
      end]>
    (<["has_phone" := if has_phone r then "Y" else "N"]>
       (<["has_email" := if has_email r then "Y" else "N"]>
          (<["equity_estimate" :=
               match equity with
               | Some e => if Py.float_truthy e then format_comma_0f e else EmptyString
               | None => EmptyString
               end]>
             (<["engagement_reason" := why_flagged]>
                (<["engagement_score" := Py.str engagement_score]> r))))).

(** One iteration of the loop of [process_targets_file]. *)
Definition process_row (output_columns : list string) (out : outputs) (r : row)
  : Py.result outputs :=
  do '(classification, engagement_score, why_flagged) <- classify_for_note_broker r;
  let enriched_row := enrich r engagement_score why_flagged in
  if String.eqb classification "HIGH_PRIORITY" then
    do rows <- Py.writerow output_columns enriched_row (high_rows out);
    Ok (mk_outputs rows (medium_rows out) (low_rows out) (review_rows out)
                   (count_high out + 1) (count_medium out) (count_low out)
                   (count_review out))
  else if String.eqb classification "MEDIUM_PRIORITY" then
    do rows <- Py.writerow output_columns enriched_row (medium_rows out);
    Ok (mk_outputs (high_rows out) rows (low_rows out) (review_rows out)
                   (count_high out) (count_medium out + 1) (count_low out)
                   (count_review out))
  else if String.eqb classification "LOW_PRIORITY" then
    do rows <- Py.writerow output_columns enriched_row (low_rows out);
    Ok (mk_outputs (high_rows out) (medium_rows out) rows (review_rows out)
                   (count_high out) (count_medium out) (count_low out + 1)
                   (count_review out))
  else
    do rows <- Py.writerow output_columns enriched_row (review_rows out);
    Ok (mk_outputs (high_rows out) (medium_rows out) (low_rows out) rows
                   (count_high out) (count_medium out) (count_low out)
                   (count_review out + 1)).

(** The loop over the input rows; an exception in a row ends the run. *)
Fixpoint process_rows (output_columns : list string) (out : outputs) (rows : list row)
  : Py.result outputs :=
  match rows with
  | [] => Ok out
  | r :: rows' =>
      do out' <- process_row output_columns out r;
      process_rows output_columns out' rows'
  end.

(** [process_targets_file] on an input file with the header
    [input_columns] and the rows [rows]. *)
Definition process_targets_file (input_columns : list string) (rows : list row)
  : Py.result outputs :=
  let output_columns :=
    input_columns ++ ["engagement_score"; "engagement_reason"; "equity_estimate";
                      "has_email"; "has_phone"; "contact_quality"] in
  process_rows output_columns no_outputs rows.

End Interpreter.

End NoteBrokerRefine.

(** ** [scripts/group_by_owner.py] *)

Module GroupByOwner.

Definition normalize_owner_key (r : row) : string :=
  let full_name := Py.upper (Py.strip (Py.get r "full_name")) in
  let company_name := Py.upper (Py.strip (Py.get r "company_name")) in
  let mailing_zip := Py.strip (Py.get r "mailing_zip") in
  let name := if Py.truthy full_name then full_name else company_name in
  name +:+ "|" +:+ mailing_zip.

(** [owner_groups] is a dictionary from key to the list of its rows; the
    output follows its insertion order, so it is kept as an ordered
    association list with one entry per key. *)
Fixpoint add_to_group (owner_key : string) (r : row) (groups : list (string * list row))
  : list (string * list row) :=
  match groups with
  | [] => [(owner_key, [r])]
  | (k, properties) :: groups' =>
      if String.eqb k owner_key then (k, properties ++ [r]) :: groups'
      else (k, properties) :: add_to_group owner_key r groups'
  end.

Definition build_groups (rows : list row) : list (string * list row) :=
  fold_left (fun groups r => add_to_group (normalize_owner_key r) r groups) rows [].

(** [base_row.get("engagement_score", "0") or "0"] *)
Definition engagement_score_text (base_row : row) : string :=
  Py.str_or (default "0" (base_row !! "engagement_score")) "0".

Record counts : Type := mk_counts {
  total_owners : Z;
  single_property : Z;
  multiple_properties : Z;
  total_properties : Z
}.

Section Interpreter.

(** [float(s)]; [None] stands for [ValueError]. *)
Variable float_of_str : string -> option float.

(** The sum of the members' parseable [total_value] fields. *)
Definition portfolio_value (properties : list row) : float :=
  fold_left
    (fun total prop =>
       let total_value_str := Py.strip (Py.get prop "total_value") in
       let cleaned :=
         Py.remove_char " " (Py.remove_char "," (Py.remove_char "$" total_value_str)) in
       if Py.truthy cleaned then
         match float_of_str cleaned with
         | Some v => PrimFloat.add total v
         | None => total
         end
       else total)
    properties (Py.float_of_int 0).

(** [f"{int(total):,}" if total > 0 else ""] *)
Definition total_portfolio_text (total : float) : Py.result string :=
  if PrimFloat.ltb 0 total
  then do n <- Py.int_of_float total; Ok (Py.format_comma n)
  else Ok EmptyString.

(** The body of the output loop for one group: the consolidated row. *)
Definition consolidate (properties : list row) : Py.result row :=
  match properties with
  | [] => Raise Py.IndexError
  | first :: _ =>
      let base_row : row := first in
      let property_count := Z.of_nat (length properties) in
      let base_row := <["property_count_actual" := Py.str property_count]> base_row in
      let property_ids :=
        List.filter Py.truthy
          (List.map (fun p => Py.strip (Py.get p "tcad_account_id")) properties) in
      let base_row := <["property_ids" := Py.join " | " (take 10 property_ids)]> base_row in
      let total_portfolio_value := portfolio_value properties in
      do total_text <- total_portfolio_text total_portfolio_value;
      let base_row := <["total_portfolio_value" := total_text]> base_row in
      if 1 <? property_count then
        do engagement_score <- Py.int (engagement_score_text base_row);
        let engagement_score :=
          Z.min 100 (engagement_score + Z.min 10 (property_count - 1)) in
        let base_row := <["engagement_score" := Py.str engagement_score]> base_row in
        let why_flagged := Py.strip (Py.get base_row "why_flagged") in
        let base_row :=
          if Py.truthy why_flagged
          then <["why_flagged" :=
                   why_flagged +:+ " + " +:+ Py.str property_count +:+ " properties"]>
                 base_row
          else <["why_flagged" := Py.str property_count +:+ " properties"]> base_row in
        Ok base_row
      else Ok base_row
  end.

(** The output loop over the groups, in insertion order. *)
Fixpoint write_groups (output_columns : list string)
         (groups : list (string * list row)) (written : list row)
         (c : counts) : Py.result (list row * counts) :=
  match groups with
  | [] => Ok (written, c)
  | (_, properties) :: groups' =>
      let n := Z.of_nat (length properties) in
      let c :=
        if n =? 1
        then mk_counts (total_owners c) (single_property c + 1)
                       (multiple_properties c) (total_properties c + n)
        else mk_counts (total_owners c) (single_property c)
                       (multiple_properties c + 1) (total_properties c + n) in
      do base_row <- consolidate properties;
      do written <- Py.writerow output_columns base_row written;
      write_groups output_columns groups' written c
  end.

(** [group_properties_by_owner] on an input file with the header
    [input_columns] and the rows [rows]. *)
Definition group_properties_by_owner (input_columns : list string) (rows : list row)
  : Py.result (list row * counts) :=
  let owner_groups := build_groups rows in
  let output_columns :=
    Py.with_column "total_portfolio_value"
      (Py.with_column "property_ids"
         (Py.with_column "property_count_actual" input_columns)) in
  write_groups output_columns owner_groups []
               (mk_counts (Z.of_nat (length owner_groups)) 0 0 0).

End Interpreter.

End GroupByOwner.

(** ** [scripts/merge_enrichment.py] *)

Module MergeEnrichment.

(** The lookup built from the rows of the enrichment file (an absent file
    gives the empty lookup): later rows replace earlier ones. *)
Definition load_enrichment_results (enrichment_rows : list row) : gmap string row :=
  fold_left
    (fun enrichment_lookup r =>
       let lead_id := Py.strip (Py.get r "lead_id") in
       if Py.truthy lead_id then <[lead_id := r]> enrichment_lookup
       else enrichment_lookup)
    enrichment_rows ∅.

Record counts : Type := mk_counts {
  total_rows : Z;
  matched : Z;
  unmatched : Z;
  with_email : Z;
  with_phone : Z
}.

(** [if col not in output_row: output_row[col] = ""] *)
Definition fill_blank (col : string) (output_row : row) : row :=
  if Py.has_key output_row col then output_row else <[col := EmptyString]> output_row.

(** One iteration of the merge loop: the row written and the counters. *)
Definition merge_row (enrichment_lookup : gmap string row) (c : counts) (r : row)
  : row * counts :=
  let c := mk_counts (total_rows c + 1) (matched c) (unmatched c)
                     (with_email c) (with_phone c) in
  let lead_id := Py.strip (Py.get r "lead_id") in
  let output_row : row := r in
  match enrichment_lookup !! lead_id with
  | Some enrichment_row =>
      let c := mk_counts (total_rows c) (matched c + 1) (unmatched c)
                         (with_email c) (with_phone c) in
      let email := Py.strip (Py.get enrichment_row "email") in
      let '(output_row, c) :=
        if Py.truthy email
        then (<["email" := email]> output_row,
              mk_counts (total_rows c) (matched c) (unmatched c)
                        (with_email c + 1) (with_phone c))
        else (fill_blank "email" output_row, c) in
      let phone := Py.strip (Py.get enrichment_row "phone") in
      if Py.truthy phone
      then (<["phone" := phone]> output_row,
            mk_counts (total_rows c) (matched c) (unmatched c)
                      (with_email c) (with_phone c + 1))
      else (fill_blank "phone" output_row, c)
  | None =>
      let c := mk_counts (total_rows c) (matched c) (unmatched c + 1)
                         (with_email c) (with_phone c) in
      (fill_blank "phone" (fill_blank "email" output_row), c)
  end.

Fixpoint merge_rows (output_columns : list string) (enrichment_lookup : gmap string row)
         (written : list row) (c : counts) (leads : list row)
  : Py.result (list row * counts) :=
  match leads with
  | [] => Ok (written, c)
  | r :: leads' =>
      let '(output_row, c') := merge_row enrichment_lookup c r in
      do written <- Py.writerow output_columns output_row written;
      merge_rows output_columns enrichment_lookup written c' leads'
  end.

(** [merge_enrichment] on a leads file with the header [lead_columns] and
    the rows [leads], and on the rows of the enrichment file. *)
Definition merge_enrichment (lead_columns : list string) (leads enrichment_rows : list row)
  : Py.result (list row * counts) :=
  let enrichment_lookup := load_enrichment_results enrichment_rows in
  let output_columns := Py.with_column "phone" (Py.with_column "email" lead_columns) in
  merge_rows output_columns enrichment_lookup [] (mk_counts 0 0 0 0 0) leads.

(** The same script on rows as [csv.DictReader] returns them in general.
    A [None] cell under [lead_id], or under [email] or [phone] of an
    enrichment row, raises [AttributeError] at [.strip()]; the surplus
    cells of a long line are copied into the output row by [dict(row)]
    and make [writerow] raise [ValueError].  Nothing catches either, so
    the run ends there, with the output file as far as it was written. *)
Definition load_enrichment_records (enrichment_rows : list Py.record)
  : Py.result (gmap string Py.record) :=
  fold_left
    (fun loaded d =>
       do enrichment_lookup <- loaded;
       do lead_id <- Py.strip_cell (Py.get_cell d "lead_id");
       Ok (if Py.truthy lead_id then <[lead_id := d]> enrichment_lookup
           else enrichment_lookup))
    enrichment_rows (Ok ∅).

(** [if col not in output_row: output_row[col] = ""] *)
Definition fill_blank_cell (col : string) (output_row : Py.record) : Py.record :=
  if Py.has_cell output_row col then output_row
  else Py.set_cell col EmptyString output_row.

Definition merge_record (enrichment_lookup : gmap string Py.record) (c : counts)
           (d : Py.record) : Py.result (Py.record * counts) :=
  let c := mk_counts (total_rows c + 1) (matched c) (unmatched c)
                     (with_email c) (with_phone c) in
  do lead_id <- Py.strip_cell (Py.get_cell d "lead_id");
  let output_row : Py.record := d in
  match enrichment_lookup !! lead_id with
  | Some enrichment_row =>
      let c := mk_counts (total_rows c) (matched c + 1) (unmatched c)
                         (with_email c) (with_phone c) in
      do email <- Py.strip_cell (Py.get_cell enrichment_row "email");
      let '(output_row, c) :=
        if Py.truthy email
        then (Py.set_cell "email" email output_row,
              mk_counts (total_rows c) (matched c) (unmatched c)
                        (with_email c + 1) (with_phone c))
        else (fill_blank_cell "email" output_row, c) in
      do phone <- Py.strip_cell (Py.get_cell enrichment_row "phone");
      if Py.truthy phone
      then Ok (Py.set_cell "phone" phone output_row,
               mk_counts (total_rows c) (matched c) (unmatched c)
                         (with_email c) (with_phone c + 1))
      else Ok (fill_blank_cell "phone" output_row, c)
  | None =>
      let c := mk_counts (total_rows c) (matched c) (unmatched c + 1)
                         (with_email c) (with_phone c) in
      Ok (fill_blank_cell "phone" (fill_blank_cell "email" output_row), c)
  end.

(** The loop; its value is the output file as written, and the counters
    or the exception that ended the run. *)
Fixpoint merge_records (output_columns : list string)
         (enrichment_lookup : gmap string Py.record)
         (written : list row) (c : counts) (leads : list Py.record)
  : list row * Py.result counts :=
  match leads with
  | [] => (written, Ok c)
  | d :: leads' =>
      match merge_record enrichment_lookup c d with
      | Raise e => (written, Raise e)
      | Ok (output_row, c') =>
          match Py.writerow_record output_columns output_row written with
          | Raise e => (written, Raise e)
          | Ok written' =>
              merge_records output_columns enrichment_lookup written' c' leads'
          end
      end
  end.

Definition merge_enrichment_records (lead_columns : list string)
           (leads enrichment_rows : list Py.record) : list row * Py.result counts :=
  match load_enrichment_records enrichment_rows with
  | Raise e => ([], Raise e)
  | Ok enrichment_lookup =>
      let output_columns := Py.with_column "phone" (Py.with_column "email" lead_columns) in
      merge_records output_columns enrichment_lookup [] (mk_counts 0 0 0 0 0) leads
  end.

End MergeEnrichment.

(** ** [main.py] *)

Module Main.

(** Field positions, 1-based and inclusive, in declaration order. *)
Definition FIELD_SPECS : list (string * (Z * Z)) :=
  [("account_id", (1, 12));
   ("owner_name", (609, 678));
   ("situs_city", (1110, 1139));
   ("situs_state", (924, 925));
   ("situs_zip", (1140, 1149));
   ("mailing_address", (694, 753));
   ("mailing_city", (874, 923));
   ("mailing_state", (924, 925));
   ("mailing_zip", (979, 983));
   ("property_type", (13, 17));
   ("land_value", (1796, 1810));
   ("improvement_value", (1826, 1840));
   ("total_value", (1916, 1930));
   ("assessed_year", (18, 22));
   ("situs_street_prefx", (1040, 1049));
   ("situs_street", (1050, 1099));
   ("situs_street_suffix", (1100, 1109))].

Definition REQUIRED_COLUMNS : list string :=
  ["account_id"; "owner_name"; "situs_address"; "situs_city"; "situs_state"; "situs_zip";
   "mailing_address"; "mailing_city"; "mailing_state"; "mailing_zip"; "property_type";
   "land_value"; "improvement_value"; "total_value"; "assessed_year"].

(** [FIELD_SPECS[name]] when [name in FIELD_SPECS]. *)
Definition field_spec (specs : list (string * (Z * Z))) (name : string) : option (Z * Z) :=
  snd <$> List.find (fun kv => String.eqb (fst kv) name) specs.

(** [max(...)] of a sequence; the empty sequence raises [ValueError]. *)
Definition py_max (l : list Z) : Py.result Z :=
  match l with
  | [] => Raise Py.ValueError
  | x :: l' => Ok (fold_left Z.max l' x)
  end.

Definition extract_field (line : string) (start_pos end_pos : Z) : string :=
  let start_idx := start_pos - 1 in
  let end_idx := end_pos in
  let end_idx := if Py.len line <? end_idx then Py.len line else end_idx in
  if Py.len line <=? start_idx then EmptyString
  else Py.strip (Py.slice line start_idx end_idx).

(** The message of the length check. *)
Definition too_short_message (line_number max_end_pos got : Z) : string :=
  "Line " +:+ Py.str line_number +:+ ": Line too short (expected at least "
    +:+ Py.str max_end_pos +:+ " chars, got " +:+ Py.str got +:+ ")".

(** A row of the error file: line number, line content, reason. *)
Definition error_row : Type := Z * string * string.

Record streams : Type := mk_streams {
  clean_rows : list row;
  error_rows : list error_row;
  clean_count : Z;
  error_count : Z
}.

Section Interpreter.

(** [float(s)]; [None] stands for [ValueError]. *)
Variable float_of_str : string -> option float.
(** [str(e)] of a caught exception. *)
Variable exn_text : Py.exn -> string.

Definition parse_numeric_field (value : string) : option float :=
  if negb (Py.truthy value) || negb (Py.truthy (Py.strip value)) then None
  else
    let cleaned :=
      Py.remove_char " " (Py.remove_char "$" (Py.remove_char "," (Py.strip value))) in
    if Py.truthy cleaned then float_of_str cleaned else None.

(** [parse_line] over a table [specs] of field positions. *)
Definition parse_line_with (specs : list (string * (Z * Z)))
           (line : string) (line_number : Z)
  : Py.result (row * option string) :=
  do max_end_pos <- py_max (List.map (fun kv => snd (snd kv)) specs);
  if Py.len line <? max_end_pos then
    Ok (∅, Some (too_short_message line_number max_end_pos (Py.len line)))
  else
    let part (name : string) : list string :=
      match field_spec specs name with
      | Some (s, e) =>
          let v := extract_field line s e in
          if Py.truthy v then [v] else []
      | None => []
      end in
    let situs_parts :=
      part "situs_street_prefx" ++ part "situs_street" ++ part "situs_street_suffix" in
    let situs_address := Py.strip (Py.join " " situs_parts) in
    let record : row :=
      fold_left
        (fun (record : row) field_name =>
           if String.eqb field_name "situs_address"
           then <[field_name := situs_address]> record
           else
             match field_spec specs field_name with
             | Some (s, e) =>
                 let value := extract_field line s e in
                 let value :=
                   if (String.eqb field_name "situs_state"
                       || String.eqb field_name "mailing_state")
                      && (2 <? Py.len value)
                   then Py.strip (Py.slice value 0 2) else value in
                 <[field_name := value]> record
             | None => <[field_name := EmptyString]> record
             end)
        REQUIRED_COLUMNS ∅ in
    let numeric_fields := ["land_value"; "improvement_value"; "total_value"] in
    let errors :=
      fold_left
        (fun errors field_name =>
           match record !! field_name with
           | Some value =>
               if Py.truthy value then
                 match parse_numeric_field value with
                 | None =>
                     errors ++
                       ["Line " +:+ Py.str line_number
                          +:+ ": Failed to parse numeric field '" +:+ field_name
                          +:+ "': '" +:+ value +:+ "'"]
                 | Some _ => errors
                 end
               else errors
           | None => errors
           end)
        numeric_fields [] in
    let error_msg :=
      match errors with
      | [] => None
      | _ :: _ => Some (Py.join "; " errors)
      end in
    Ok (record, error_msg).

Definition parse_line (line : string) (line_number : Z)
  : Py.result (row * option string) :=
  parse_line_with FIELD_SPECS line line_number.

Definition newline_chars : string := String "010" (String "013" EmptyString).

(** One iteration of the loop of [process_property_file]. *)
Definition process_line (st : streams) (line_number : Z) (line : string) : streams :=
  if negb (Py.truthy (Py.strip line)) then st
  else
    let content := Py.rstrip_chars newline_chars line in
    let report (reason : string) : streams :=
      mk_streams (clean_rows st) (error_rows st ++ [(line_number, content, reason)])
                 (clean_count st) (error_count st + 1) in
    let write_clean (record : row) : Py.result streams :=
      do rows <- Py.writerow REQUIRED_COLUMNS record (clean_rows st);
      Ok (mk_streams rows (error_rows st) (clean_count st + 1) (error_count st)) in
    let attempt : Py.result streams :=
      do '(record, error_msg) <- parse_line content line_number;
      match error_msg with
      | Some msg => if Py.truthy msg then Ok (report msg) else write_clean record
      | None => write_clean record
      end in
    match attempt with
    | Ok st' => st'
    | Raise e => report ("Unexpected error: " +:+ exn_text e)
    end.

(** [for line_number, line in enumerate(infile, start=1)] *)
Fixpoint process_lines (st : streams) (line_number : Z) (lines : list string) : streams :=
  match lines with
  | [] => st
  | line :: lines' => process_lines (process_line st line_number line) (line_number + 1) lines'
  end.

Definition process_property_file (lines : list string) : streams :=
  process_lines (mk_streams [] [] 0 0) 1 lines.

End Interpreter.

End Main.

(** ** [scripts/export_enrichment_upload.py] *)

Module ExportEnrichmentUpload.

Definition output_columns : list string :=
  ["lead_id"; "full_name"; "mailing_address_1"; "mailing_city"; "mailing_state";
   "mailing_zip"].

(** The output file, the two sets of keys seen so far, and the counters. *)
Record state : Type := mk_state {
  written : list row;
  seen_lead_ids : gset string;
  seen_name_zip : gset string;
  total_rows : Z;
  unique_lead_ids : Z;
  unique_name_zip : Z;
  duplicates_skipped : Z
}.

(** [counts["duplicates_skipped"] += 1; continue] *)
Definition skip (st : state) : state :=
  mk_state (written st) (seen_lead_ids st) (seen_name_zip st) (total_rows st)
           (unique_lead_ids st) (unique_name_zip st) (duplicates_skipped st + 1).

(** One iteration of the loop of [process_enrichment_upload]. *)
Definition process_row (st : state) (r : row) : Py.result state :=
  let st := mk_state (written st) (seen_lead_ids st) (seen_name_zip st) (total_rows st + 1)
                     (unique_lead_ids st) (unique_name_zip st) (duplicates_skipped st) in
  let lead_id := Py.strip (Py.get r "lead_id") in
  let full_name := Py.strip (Py.get r "full_name") in
  let company_name := Py.strip (Py.get r "company_name") in
  let mailing_zip := Py.strip (Py.get r "mailing_zip") in
  let name := if Py.truthy full_name then full_name else company_name in
  if negb (Py.truthy name) then Ok (skip st)
  else if bool_decide (lead_id ∈ seen_lead_ids st) then Ok (skip st)
  else
    let name_zip_key := Py.upper name +:+ "|" +:+ mailing_zip in
    if bool_decide (name_zip_key ∈ seen_name_zip st) then Ok (skip st)
    else
      let seen_lead_ids' := {[lead_id]} ∪ seen_lead_ids st in
      let seen_name_zip' := {[name_zip_key]} ∪ seen_name_zip st in
      (* the dictionary literal; its keys are distinct *)
      let output_row : row :=
        list_to_map
          [("lead_id", lead_id);
           ("full_name", name);
           ("mailing_address_1", Py.strip (Py.get r "mailing_address"));
           ("mailing_city", Py.strip (Py.get r "mailing_city"));
           ("mailing_state", Py.strip (Py.get r "mailing_state"));
           ("mailing_zip", mailing_zip)] in
      do written' <- Py.writerow output_columns output_row (written st);
      Ok (mk_state written' seen_lead_ids' seen_name_zip' (total_rows st)
                   (unique_lead_ids st + 1) (unique_name_zip st + 1)
                   (duplicates_skipped st)).

Fixpoint process_rows (st : state) (rows : list row) : Py.result state :=
  match rows with
  | [] => Ok st
  | r :: rows' => do st' <- process_row st r; process_rows st' rows'
  end.

Definition process_enrichment_upload (rows : list row) : Py.result state :=
  process_rows (mk_state [] ∅ ∅ 0 0 0 0) rows.

End ExportEnrichmentUpload.

(** ** [scripts/export_instantly_upload.py] *)

Module ExportInstantlyUpload.

Definition output_columns : list string :=
  ["email"; "first_name"; "last_name"; "city"; "state"; "zip"; "engagement_score";
   "value_band"; "why_flagged"].

(** The script carries its own copy of [parse_name], the same text as the
    one of [filter_notes.py]. *)
Definition parse_name (full_name : string) : string * string :=
  if negb (Py.truthy full_name) || negb (Py.truthy (Py.strip full_name))
  then (EmptyString, EmptyString)
  else
    let full_name := Py.strip full_name in
    let by_words : string * string :=
      match Py.split full_name with
      | first :: second :: rest => (first, Py.join " " (second :: rest))
      | [only] => (EmptyString, only)
      | [] => (EmptyString, EmptyString)
      end in
    if Py.contains "," full_name then
      match List.map Py.strip (Py.split1 "," full_name) with
      | [last; first] => (first, last)
      | [last] => (EmptyString, last)
      | _ => by_words
      end
    else by_words.

Record state : Type := mk_state {
  written : list row;
  total_rows : Z;
  with_email : Z;
  without_email : Z
}.

Section Interpreter.

(** [float(s)]; [None] stands for [ValueError]. *)
Variable float_of_str : string -> option float.

Definition get_value_band (total_value_str : string) : string :=
  let cleaned :=
    Py.remove_char " " (Py.remove_char "," (Py.remove_char "$" (Py.strip total_value_str))) in
  match float_of_str cleaned with
  | Some total_value =>
      if PrimFloat.ltb total_value 100000 then "<100k"
      else if PrimFloat.ltb total_value 200000 then "100k-200k"
      else if PrimFloat.ltb total_value 300000 then "200k-300k"
      else if PrimFloat.ltb total_value 400000 then "300k-400k"
      else if PrimFloat.ltb total_value 500000 then "400k-500k"
      else "500k+"
  | None => "unknown"
  end.

(** One iteration of the loop of [process_instantly_upload]. *)
Definition process_row (st : state) (r : row) : Py.result state :=
  let st := mk_state (written st) (total_rows st + 1) (with_email st) (without_email st) in
  let email := Py.str_or (Py.get r "email") (Py.get r "Email") in
  let email := Py.strip email in
  if negb (Py.truthy email) || negb (Py.contains "@" email) then
    Ok (mk_state (written st) (total_rows st) (with_email st) (without_email st + 1))
  else
    let st := mk_state (written st) (total_rows st) (with_email st + 1) (without_email st) in
    let full_name := Py.strip (Py.get r "full_name") in
    let company_name := Py.strip (Py.get r "company_name") in
    let name := if Py.truthy full_name then full_name else company_name in
    let '(first_name, last_name) := parse_name name in
    let city := Py.str_or (Py.strip (Py.get r "mailing_city")) (Py.strip (Py.get r "situs_city")) in
    let state := Py.str_or (Py.strip (Py.get r "mailing_state")) (Py.strip (Py.get r "situs_state")) in
    let zip_code := Py.str_or (Py.strip (Py.get r "mailing_zip")) (Py.strip (Py.get r "situs_zip")) in
    let engagement_score := Py.str_or (Py.strip (Py.get r "engagement_score")) "0" in
    let total_value := Py.strip (Py.get r "total_value") in
    let value_band := get_value_band total_value in
    let why_flagged :=
      Py.str_or (Py.strip (Py.get r "why_flagged")) (Py.strip (Py.get r "engagement_reason")) in
    (* the dictionary literal; its keys are distinct *)
    let output_row : row :=
      list_to_map
        [("email", email);
         ("first_name", first_name);
         ("last_name", last_name);
         ("city", city);
         ("state", state);
         ("zip", zip_code);
         ("engagement_score", engagement_score);
         ("value_band", value_band);
         ("why_flagged", why_flagged)] in
    do written' <- Py.writerow output_columns output_row (written st);
    Ok (mk_state written' (total_rows st) (with_email st) (without_email st)).

Fixpoint process_rows (st : state) (rows : list row) : Py.result state :=
  match rows with
  | [] => Ok st
  | r :: rows' => do st' <- process_row st r; process_rows st' rows'
  end.

Definition process_instantly_upload (rows : list row) : Py.result state :=
  process_rows (mk_state [] 0 0 0) rows.

End Interpreter.

End ExportInstantlyUpload.

(** ** [scripts/group_investor_entities.py] *)

Module GroupInvestorEntities.

Definition normalize_entity_name (r : row) : string :=
  let company_name := Py.upper (Py.strip (Py.get r "company_name")) in
  let full_name := Py.upper (Py.strip (Py.get r "full_name")) in
  let entity_name := if Py.truthy company_name then company_name else full_name in
  Py.join " " (Py.split entity_name).

(** The grouping loop; [entity_groups] is a dictionary from key to the list
    of its rows, kept in insertion order as in [group_by_owner.py].  Rows
    without a name are skipped. *)
Definition build_groups (rows : list row) : list (string * list row) :=
  fold_left
    (fun entity_groups r =>
       let entity_key := normalize_entity_name r in
       if negb (Py.truthy entity_key) then entity_groups
       else GroupByOwner.add_to_group entity_key r entity_groups)
    rows [].

Definition aggregated_fields : list string :=
  ["properties_count"; "total_portfolio_value"; "avg_property_value"; "property_ids";
   "property_addresses"; "max_engagement_score"; "has_any_email"; "has_any_phone"].

Record counts : Type := mk_counts {
  total_entities : Z;
  single_property : Z;
  multiple_properties : Z;
  total_properties : Z
}.

(** The variables of the loop over the properties of one entity.  The sum
    starts as the integer 0 in the source and becomes a float with the first
    value added; it is a float from the start here, which the tests and the
    division below do not tell apart. *)
Record aggregate : Type := mk_aggregate {
  property_ids : list string;
  property_addresses : list string;
  total_portfolio_value : float;
  max_engagement_score : Z;
  has_any_email : bool;
  has_any_phone : bool
}.

Section Interpreter.

(** [float(s)]; [None] stands for [ValueError]. *)
Variable float_of_str : string -> option float.

Definition parse_amount (amount_str : string) : option float :=
  if negb (Py.truthy amount_str) || negb (Py.truthy (Py.strip amount_str)) then None
  else
    let cleaned :=
      Py.remove_char " " (Py.remove_char "," (Py.remove_char "$" (Py.strip amount_str))) in
    float_of_str cleaned.

(** One iteration of [for prop in properties]. *)
Definition aggregate_property (a : aggregate) (prop : row) : Py.result aggregate :=
  let tcad_id := Py.strip (Py.get prop "tcad_account_id") in
  let property_ids :=
    if Py.truthy tcad_id then property_ids a ++ [tcad_id] else property_ids a in
  let situs_addr := Py.strip (Py.get prop "situs_address") in
  let situs_city := Py.strip (Py.get prop "situs_city") in
  let property_addresses :=
    if Py.truthy situs_addr then
      let addr_str :=
        if Py.truthy situs_city then situs_addr +:+ ", " +:+ situs_city else situs_addr in
      property_addresses a ++ [addr_str]
    else property_addresses a in
  let total_value := parse_amount (Py.get prop "total_value") in
  let total_portfolio_value :=
    match total_value with
    | Some v =>
        if Py.float_truthy v then PrimFloat.add (total_portfolio_value a) v
        else total_portfolio_value a
    | None => total_portfolio_value a
    end in
  do engagement_score <- Py.int (Py.str_or (default "0" (prop !! "engagement_score")) "0");
  let max_engagement_score := Z.max (max_engagement_score a) engagement_score in
  let has_any_email :=
    if String.eqb (Py.upper (Py.get prop "has_email")) "Y" then true else has_any_email a in
  let has_any_phone :=
    if String.eqb (Py.upper (Py.get prop "has_phone")) "Y" then true else has_any_phone a in
  Ok (mk_aggregate property_ids property_addresses total_portfolio_value
                   max_engagement_score has_any_email has_any_phone).

Fixpoint aggregate_properties (a : aggregate) (properties : list row)
  : Py.result aggregate :=
  match properties with
  | [] => Ok a
  | prop :: properties' =>
      do a' <- aggregate_property a prop;
      aggregate_properties a' properties'
  end.

(** [f"{int(x):,}" if x > 0 else ""] *)
Definition amount_text (x : float) : Py.result string :=
  if PrimFloat.ltb 0 x
  then do n <- Py.int_of_float x; Ok (Py.format_comma n)
  else Ok EmptyString.

(** The body of the output loop for one entity: the consolidated row. *)
Definition consolidate (properties : list row) : Py.result row :=
  match properties with
  | [] => Raise Py.IndexError
  | first :: _ =>
      let property_count := Z.of_nat (length properties) in
      let base_row : row := first in
      let base_row := <["properties_count" := Py.str property_count]> base_row in
      do a <- aggregate_properties (mk_aggregate [] [] 0%float 0 false false) properties;
      do total_text <- amount_text (total_portfolio_value a);
      let base_row := <["total_portfolio_value" := total_text]> base_row in
      let avg_value :=
        if 0 <? property_count
        then PrimFloat.div (total_portfolio_value a) (Py.float_of_int property_count)
        else 0%float in
      do avg_text <- amount_text avg_value;
      let base_row := <["avg_property_value" := avg_text]> base_row in
      let ids_text := Py.join " | " (take 20 (property_ids a)) in
      let ids_text :=
        if 20 <? Z.of_nat (length (property_ids a))
        then ids_text +:+ " ... (+" +:+ Py.str (Z.of_nat (length (property_ids a)) - 20)
                      +:+ " more)"
        else ids_text in
      let base_row := <["property_ids" := ids_text]> base_row in
      let addresses_text := Py.join " | " (take 5 (property_addresses a)) in
      let addresses_text :=
        if 5 <? Z.of_nat (length (property_addresses a))
        then addresses_text +:+ " ... (+"
               +:+ Py.str (Z.of_nat (length (property_addresses a)) - 5) +:+ " more)"
        else addresses_text in
      let base_row := <["property_addresses" := addresses_text]> base_row in
      let base_row :=
        <["max_engagement_score" := Py.str (max_engagement_score a)]> base_row in
      let base_row :=
        <["has_any_email" := if has_any_email a then "Y" else "N"]> base_row in
      let base_row :=
        <["has_any_phone" := if has_any_phone a then "Y" else "N"]> base_row in
      let base_row := <["engagement_score" := Py.str (max_engagement_score a)]> base_row in
      let base_row :=
        if Py.has_key base_row "property_count"
        then <["property_count" := Py.str property_count]> base_row
        else base_row in
      let why_flagged := Py.strip (Py.get base_row "why_flagged") in
      let base_row :=
        if 1 <? property_count then
          if Py.truthy why_flagged
          then <["why_flagged" :=
                   why_flagged +:+ " | " +:+ Py.str property_count
                     +:+ " properties consolidated"]> base_row
          else <["why_flagged" := Py.str property_count +:+ " properties consolidated"]>
                 base_row
        else base_row in
      Ok base_row
  end.

(** The output loop over the entities, in insertion order. *)
Fixpoint write_groups (output_columns : list string)
         (groups : list (string * list row)) (written : list row)
         (c : counts) : Py.result (list row * counts) :=
  match groups with
  | [] => Ok (written, c)
  | (_, properties) :: groups' =>
      let property_count := Z.of_nat (length properties) in
      let c := mk_counts (total_entities c) (single_property c) (multiple_properties c)
                         (total_properties c + property_count) in
      let c :=
        if property_count =? 1
        then mk_counts (total_entities c) (single_property c + 1)
                       (multiple_properties c) (total_properties c)
        else mk_counts (total_entities c) (single_property c)
                       (multiple_properties c + 1) (total_properties c) in
      do base_row <- consolidate properties;
      do written <- Py.writerow output_columns base_row written;
      write_groups output_columns groups' written c
  end.

(** [group_entities_by_name] on an input file with the header
    [input_columns] and the rows [rows]. *)
Definition group_entities_by_name (input_columns : list string) (rows : list row)
  : Py.result (list row * counts) :=
  let entity_groups := build_groups rows in
  let output_columns :=
    fold_left (fun columns field => Py.with_column field columns)
              aggregated_fields input_columns in
  write_groups output_columns entity_groups []
               (mk_counts (Z.of_nat (length entity_groups)) 0 0 0).

End Interpreter.

End GroupInvestorEntities.

(** * Vocabulary of the specification

    Names the specification uses for sets and rules that the code leaves
    implicit, and the rules of the specification that are compared with
    the code. *)

Module EntityRoleSpec.
Import ClassifyEntityRoles.

(** The closed set of roles named by the module's documentation. *)
Definition ENTITY_ROLES : list string :=
  ["INVESTOR_ENTITY"; "TRUST_ENTITY"; "INDIVIDUAL_PERSON"; "LEGAL_ENTITY";
   "BANK_INSTITUTION"; "GOVERNMENT_ENTITY"; "UTILITY_OR_NONPROFIT"; "UNKNOWN"].

(** The keyword lists that are tried before the individual-person rules. *)
Definition HIGHER_PRECEDENCE_KEYWORDS : list string :=
  BANK_KEYWORDS ++ GOV_KEYWORDS ++ UTILITY_KEYWORDS ++ TRUST_KEYWORDS
    ++ INVESTOR_KEYWORDS ++ LEGAL_KEYWORDS.

(** [any(indicator in entity_name_upper for indicator in entity_indicators)] *)
Definition has_entity_indicator (entity_name : string) : bool :=
  existsb (fun indicator => Py.contains indicator (Py.upper entity_name)) entity_indicators.

(** The individual-person rule in the words of the specification: no
    higher-precedence keyword, no corporate-suffix token, and a person hint
    or a name of at most five tokens. *)
Definition spec_individual_person (r : row) : bool :=
  let entity_name := get_entity_name r in
  Py.truthy entity_name
  && negb (contains_keyword entity_name HIGHER_PRECEDENCE_KEYWORDS)
  && negb (existsb (fun token => existsb (String.eqb token) entity_indicators)
                   (Py.split (Py.upper entity_name)))
  && (String.eqb (Py.upper (Py.get r "owner_type")) "PERSON"
      || (Z.of_nat (length (Py.split entity_name)) <=? 5)).

End EntityRoleSpec.

Module LeadSpec.
Import FilterNotes.

(** The lender name [classify_row] works with: the mapped column, stripped. *)
Definition lender_name_of (r column_mapping : row) : string :=
  Py.strip (match column_mapping !! "lender_name" with
            | Some csv_col => Py.get r csv_col
            | None => EmptyString
            end).

End LeadSpec.

Module RouterSpec.
Import NoteBrokerRefine.

(** The four tiers of the note-broker router. *)
Definition TIERS : list string :=
  ["HIGH_PRIORITY"; "MEDIUM_PRIORITY"; "LOW_PRIORITY"; "REVIEW"].

(** The property count of the row is absent, empty or an integer literal. *)
Definition property_count_ok (r : row) : Prop :=
  is_Some (Py.int_of_str (property_count_text r)).

Definition has_contact_info (r : row) : bool := has_email r || has_phone r.

(** The header of the four output files. *)
Definition output_columns_of (input_columns : list string) : list string :=
  input_columns ++ ["engagement_score"; "engagement_reason"; "equity_estimate";
                    "has_email"; "has_phone"; "contact_quality"].

(** The tier of a row and the row written for it (a row the classifier
    raises on has neither; it is given the empty tier and left as it is). *)
Definition tier_of (float_of_str : string -> option float) (r : row) : string :=
  match classify_for_note_broker float_of_str r with
  | Ok (tier, _, _) => tier
  | Raise _ => EmptyString
  end.

Definition row_written (float_of_str : string -> option float)
           (format_comma_0f : float -> string) (r : row) : row :=
  match classify_for_note_broker float_of_str r with
  | Ok (_, score, why) => enrich float_of_str format_comma_0f r score why
  | Raise _ => r
  end.

(** The rows of an input that belong in the file of a tier, as written. *)
Definition rows_of_tier (float_of_str : string -> option float)
           (format_comma_0f : float -> string) (tier : string) (rows : list row)
  : list row :=
  List.map (row_written float_of_str format_comma_0f)
           (List.filter (fun r => String.eqb (tier_of float_of_str r) tier) rows).

(** Rows written to the four files, and rows counted by the four counters. *)
Definition rows_written (out : outputs) : Z :=
  Z.of_nat (length (high_rows out)) + Z.of_nat (length (medium_rows out))
  + Z.of_nat (length (low_rows out)) + Z.of_nat (length (review_rows out)).

Definition rows_counted (out : outputs) : Z :=
  count_high out + count_medium out + count_low out + count_review out.

(** The counters agree with the files. *)
Definition counters_agree (out : outputs) : Prop :=
  count_high out = Z.of_nat (length (high_rows out))
  /\ count_medium out = Z.of_nat (length (medium_rows out))
  /\ count_low out = Z.of_nat (length (low_rows out))
  /\ count_review out = Z.of_nat (length (review_rows out)).

(** The header of the sample file, and a sample row with both contact
    channels and the given property count. *)
Definition sample_columns : list string :=
  ["full_name"; "mailing_address"; "email"; "phone"; "property_count"].

Definition sample_contact_row (property_count : string) : row :=
  <["email" := "a@b.c"]>
    (<["phone" := "5125551212"]>
       (<["mailing_address" := "1 Main St"]>
          (<["full_name" := "John Smith"]> {["property_count" := property_count]}))).

End RouterSpec.

Module GroupSpec.
Import GroupByOwner.

(** Neither an infinity nor NaN. *)
Definition float_is_finite (x : float) : bool :=
  match Prim2SF x with
  | S754_zero _ | S754_finite _ _ _ => true
  | S754_infinity _ | S754_nan => false
  end.

(** A group the output loop can consolidate: it has a first member, its
    summed value is finite, and, when it has more members, the engagement
    score of the first one is absent, empty or an integer literal. *)
Definition group_readable (float_of_str : string -> option float)
           (properties : list row) : Prop :=
  match properties with
  | [] => False
  | first :: rest =>
      float_is_finite (portfolio_value float_of_str properties) = true
      /\ (rest <> [] -> is_Some (Py.int_of_str (engagement_score_text first)))
  end.

(** The columns the output loop sets in a consolidated row. *)
Definition consolidation_columns : list string :=
  ["property_count_actual"; "property_ids"; "total_portfolio_value";
   "engagement_score"; "why_flagged"].

(** What the consolidated row of a group says about count and score. *)
Definition consolidated_as (properties : list row) (out : row) : Prop :=
  match properties with
  | [] => False
  | first :: rest =>
      let n := Z.of_nat (length properties) in
      out !! "property_count_actual" = Some (Py.str n)
      /\ (rest = [] -> out !! "engagement_score" = first !! "engagement_score")
      /\ (rest <> [] ->
          exists base_score,
            Py.int_of_str (engagement_score_text first) = Some base_score
            /\ out !! "engagement_score"
               = Some (Py.str (Z.min 100 (base_score + Z.min 10 (n - 1)))))
  end.

(** The group score in the words of the specification: the maximum of the
    member scores, and the same with the bounded portfolio bonus added. *)
Definition spec_max_member_score (scores : list Z) : Z := fold_right Z.max 0 scores.

Definition spec_final_score (scores : list Z) : Z :=
  Z.min 100 (spec_max_member_score scores + Z.min 10 (Z.of_nat (length scores) - 1)).

(** The name the key is built from, as the code picks it (the personal
    name first) and as the specification words it (the company first). *)
Definition preferred_name (r : row) : string :=
  let full_name := Py.upper (Py.strip (Py.get r "full_name")) in
  let company_name := Py.upper (Py.strip (Py.get r "company_name")) in
  if Py.truthy full_name then full_name else company_name.

Definition spec_preferred_name (r : row) : string :=
  let full_name := Py.upper (Py.strip (Py.get r "full_name")) in
  let company_name := Py.upper (Py.strip (Py.get r "company_name")) in
  if Py.truthy company_name then company_name else full_name.

Definition postal_code (r : row) : string := Py.strip (Py.get r "mailing_zip").

Definition spec_owner_key (r : row) : string :=
  spec_preferred_name r +:+ "|" +:+ postal_code r.

(** Two rows of the input end up in the same group. *)
Definition same_group (rows : list row) (r1 r2 : row) : Prop :=
  exists k properties,
    In (k, properties) (build_groups rows) /\ In r1 properties /\ In r2 properties.

(** Every key occurs once, and the members of a group have its key. *)
Definition groups_wf (groups : list (string * list row)) : Prop :=
  NoDup (List.map fst groups)
  /\ forall k properties, In (k, properties) groups ->
       forall r, In r properties -> normalize_owner_key r = k.

(** The step of the grouping loop. *)
Definition group_step (groups : list (string * list row)) (r : row)
  : list (string * list row) :=
  add_to_group (normalize_owner_key r) r groups.

(** The header of the sample files, and a sample row with every column. *)
Definition sample_columns : list string :=
  ["tcad_account_id"; "full_name"; "company_name"; "mailing_zip"; "total_value";
   "engagement_score"; "why_flagged"].

Definition sample_owner (account full_name company_name score : string) : row :=
  <["tcad_account_id" := account]>
    (<["full_name" := full_name]>
       (<["company_name" := company_name]>
          (<["mailing_zip" := "78701"]>
             (<["total_value" := EmptyString]>
                (<["engagement_score" := score]> {["why_flagged" := EmptyString]}))))).

(** One company, different personal names. *)
Definition sample_officer (full_name : string) : row :=
  sample_owner "A0" full_name "Acme LLC" "50".

(** Two fields of each row written, and the counters. *)
Definition written_fields (k1 k2 : string) (res : Py.result (list row * counts))
  : Py.result (list (option string * option string) * counts) :=
  match res with
  | Ok (written, c) => Ok (List.map (fun out : row => (out !! k1, out !! k2)) written, c)
  | Raise e => Raise e
  end.

(** One person, different accounts and scores. *)
Definition sample_member (account score : string) : row :=
  sample_owner account "John Smith" EmptyString score.

End GroupSpec.

Module MergeSpec.
Import MergeEnrichment.

(** The key a lead is looked up by. *)
Definition lead_key (r : row) : string := Py.strip (Py.get r "lead_id").

Definition no_counts : counts := mk_counts 0 0 0 0 0.

(** The header of the output file. *)
Definition output_columns_of (lead_columns : list string) : list string :=
  Py.with_column "phone" (Py.with_column "email" lead_columns).

(** The merge of a leads file against a given lookup. *)
Definition merge_with (lead_columns : list string) (enrichment_lookup : gmap string row)
           (leads : list row) : Py.result (list row * counts) :=
  merge_rows (output_columns_of lead_columns) enrichment_lookup [] no_counts leads.

(** The row written for a lead. *)
Definition merged_row (enrichment_lookup : gmap string row) (r : row) : row :=
  fst (merge_row enrichment_lookup no_counts r).

(** What the row written for a lead must look like: every other column is
    untouched; on a miss email and phone keep their value, or become the
    empty string when the lead has no such column; on a hit a non-empty
    (trimmed) value of the enrichment row replaces the lead's, and an empty
    one changes nothing. *)
Definition merged_as (enrichment_lookup : gmap string row) (r out : row) : Prop :=
  (forall k, k <> "email" -> k <> "phone" -> out !! k = r !! k)
  /\ match enrichment_lookup !! lead_key r with
     | None =>
         out !! "email" = Some (Py.get r "email")
         /\ out !! "phone" = Some (Py.get r "phone")
     | Some enrichment_row =>
         out !! "email"
         = Some (Py.str_or (Py.strip (Py.get enrichment_row "email")) (Py.get r "email"))
         /\ out !! "phone"
            = Some (Py.str_or (Py.strip (Py.get enrichment_row "phone")) (Py.get r "phone"))
     end.

(** The number of leads found, and not found, in the lookup. *)
Definition hits (enrichment_lookup : gmap string row) (leads : list row) : Z :=
  Z.of_nat (length (List.filter
                      (fun r => bool_decide (is_Some (enrichment_lookup !! lead_key r)))
                      leads)).

Definition misses (enrichment_lookup : gmap string row) (leads : list row) : Z :=
  Z.of_nat (length (List.filter
                      (fun r => negb (bool_decide (is_Some (enrichment_lookup !! lead_key r))))
                      leads)).

(** The cells the merge reads of an enrichment row are strings. *)
Definition enrichment_cells_are_text (d : Py.record) : Prop :=
  Py.text_cell d "lead_id" /\ Py.text_cell d "email" /\ Py.text_cell d "phone".

(** The lookup the enrichment rows give. *)
Definition lookup_of (enrichment_rows : list Py.record) : gmap string row :=
  load_enrichment_results (List.map Py.text_of enrichment_rows).

End MergeSpec.

Module ExtractorSpec.
Import Main.

(** The declared end positions of a field table. *)
Definition declared_ends (specs : list (string * (Z * Z))) : list Z :=
  List.map (fun kv => snd (snd kv)) specs.

(** The line as [parse_line] receives it. *)
Definition line_content (raw : string) : string := Py.rstrip_chars newline_chars raw.

End ExtractorSpec.

Module EntityRunSpec.
Import ClassifyEntityRoles.

(** The header of the four output files. *)
Definition output_columns_of (input_columns : list string) : list string :=
  input_columns ++ ["entity_role"; "role_score_modifier"; "role_reason"].

(** The base score of the row can be read: [parse_engagement_score] returns
    (it does not for a score text that [float] reads as an infinity). *)
Definition score_readable (float_of_str : string -> option float) (r : row) : Prop :=
  exists base_score, parse_engagement_score float_of_str r = Ok base_score.

(** The role of a row and the file its role is mapped to. *)
Definition role_of (r : row) : string :=
  match classify_entity_role r with
  | Ok (entity_role, _) => entity_role
  | Raise _ => EmptyString
  end.

Definition file_of (r : row) : string := get_output_file_for_role (role_of r).

(** The row written for an input row (left as it is when the run stops). *)
Definition row_classified (float_of_str : string -> option float)
           (input_columns : list string) (r : row) : row :=
  match process_row float_of_str input_columns r with
  | Ok (_, enriched_row) => enriched_row
  | Raise _ => r
  end.

(** The rows of an input that belong in an output file, as written. *)
Definition rows_of_file (float_of_str : string -> option float)
           (input_columns : list string) (output_file : string) (rows : list row)
  : list row :=
  List.map (row_classified float_of_str input_columns)
           (List.filter (fun r => String.eqb (file_of r) output_file) rows).

(** The number of rows of an input with a given role. *)
Definition rows_with_role (entity_role : string) (rows : list row) : Z :=
  Z.of_nat (length (List.filter (fun r => String.eqb (role_of r) entity_role) rows)).

(** [role_counts[entity_role]], which is 0 for a role that was never
    counted. *)
Definition counted (out : role_outputs) (entity_role : string) : Z :=
  default 0 (role_counts out !! entity_role).

End EntityRunSpec.

Module WordSpec.

(** No character of the text is whitespace. *)
Fixpoint no_space (s : string) : bool :=
  match s with
  | EmptyString => true
  | String c s' => negb (Py.isspace c) && no_space s'
  end.

(** The text does not end in a character of the class [p]. *)
Fixpoint ends_well (p : ascii -> bool) (s : string) : bool :=
  match s with
  | EmptyString => true
  | String c s' => if Py.is_empty s' then negb (p c) else ends_well p s'
  end.

(** The text does not start with whitespace. *)
Definition starts_well (s : string) : bool :=
  match s with
  | EmptyString => true
  | String c _ => negb (Py.isspace c)
  end.

(** A word: not empty, and free of whitespace. *)
Definition is_word (s : string) : Prop := Py.is_empty s = false /\ no_space s = true.

(** Trimmed text: [strip] leaves it as it is. *)
Definition trimmed (s : string) : Prop := Py.strip s = s.

End WordSpec.

Module RecorderSpec.
Import FilterNotes.

(** The value of a canonical field of a recorder row: the mapped column. *)
Definition field_of (r column_mapping : row) (canonical_name : string) : string :=
  match column_mapping !! canonical_name with
  | Some csv_col => Py.get r csv_col
  | None => EmptyString
  end.

Definition doc_type_of (r column_mapping : row) : string :=
  Py.strip (field_of r column_mapping "doc_type").

(** The TCAD row that goes with a lead: looked up by the mapped parcel
    number, when the mapping has one and the row has that column. *)
Definition tcad_row_of (column_mapping : row) (tcad_lookup : gmap string row) (r : row)
  : option row :=
  let apn_field := Py.get column_mapping "apn" in
  if Py.truthy apn_field && Py.has_key r apn_field
  then tcad_lookup !! Py.strip (Py.get r apn_field)
  else None.

(** The owner types that are not BANK. *)
Definition PRIVATE_OWNER_TYPES : list string := ["PERSON"; "LLC"; "TRUST"; "UNKNOWN"].

(** A sample recorder file of three columns: its column mapping, and the
    row of a loan of 150,000 with a given lender. *)
Definition sample_mapping : row :=
  <["loan_amount" := "Amount"]>
    (<["recording_date" := "Date"]> {["lender_name" := "Lender"]}).

Definition sample_loan (lender : string) : row :=
  <["Amount" := "150,000"]> (<["Date" := "2015-01-01"]> {["Lender" := lender]}).

Section Interpreter.

Variable float_of_str : string -> option float.
Variable datetime : Type.
Variable strptime : string -> string -> option datetime.
Variable days_since : datetime -> Z.
Variable format_1f : float -> string.
Variable format_comma_0f : float -> string.
Variable format_float : float -> string.
Variable format_2f : float -> string.
Variable sha1_hexdigest : string -> string.

Definition classification_of (column_mapping r : row) : string :=
  fst (classify_row float_of_str datetime strptime days_since
                    format_1f format_comma_0f format_float r column_mapping).

Definition reason_of (column_mapping r : row) : string :=
  snd (classify_row float_of_str datetime strptime days_since
                    format_1f format_comma_0f format_float r column_mapping).

Definition loan_amount_of (r column_mapping : row) : option float :=
  parse_amount float_of_str (field_of r column_mapping "loan_amount").

Definition recording_age_of (r column_mapping : row) : option float :=
  get_recording_age_years datetime days_since
    (parse_date datetime strptime (field_of r column_mapping "recording_date")).

(** The rows written for a lead, and the row written for any other row. *)
Definition email_row_of (column_mapping : row) (tcad_lookup : gmap string row)
           (source_file : string) (r : row) : row :=
  build_email_ready_row float_of_str datetime strptime days_since format_2f sha1_hexdigest
                        r column_mapping (tcad_row_of column_mapping tcad_lookup r)
                        source_file.

Definition mail_row_of (column_mapping : row) (tcad_lookup : gmap string row)
           (source_file : string) (r : row) : row :=
  build_mail_ready_row (email_row_of column_mapping tcad_lookup source_file r)
                       (tcad_row_of column_mapping tcad_lookup r).

Definition with_reason (column_mapping r : row) : row :=
  <["classification_reason" := reason_of column_mapping r]> r.

(** The rows of an input with a given classification. *)
Definition rows_classified (classification : string) (column_mapping : row)
           (rows : list row) : list row :=
  List.filter (fun r => String.eqb (classification_of column_mapping r) classification) rows.

End Interpreter.

End RecorderSpec.

Module RecordSpec.
Import Main.

(** The parts of the situs address that are not empty. *)
Definition situs_part (line name : string) : list string :=
  match field_spec FIELD_SPECS name with
  | Some (s, e) =>
      let v := extract_field line s e in
      if Py.truthy v then [v] else []
  | None => []
  end.

Definition situs_address_of (line : string) : string :=
  Py.strip (Py.join " " (situs_part line "situs_street_prefx"
                           ++ situs_part line "situs_street"
                           ++ situs_part line "situs_street_suffix")).

(** The value of a column that has declared positions: the field at these
    positions, cut to two characters for the two state columns. *)
Definition field_value (line name : string) : string :=
  match field_spec FIELD_SPECS name with
  | Some (s, e) =>
      let value := extract_field line s e in
      if (String.eqb name "situs_state" || String.eqb name "mailing_state")
         && (2 <? Py.len value)
      then Py.strip (Py.slice value 0 2) else value
  | None => EmptyString
  end.

(** The value of a column of the clean file. *)
Definition column_value (line name : string) : string :=
  if String.eqb name "situs_address" then situs_address_of line else field_value line name.

Definition NUMERIC_FIELDS : list string := ["land_value"; "improvement_value"; "total_value"].

(** The error, if any, for a numeric column of a line. *)
Definition numeric_error (float_of_str : string -> option float)
           (line : string) (line_number : Z) (field_name : string) : list string :=
  let value := column_value line field_name in
  if Py.truthy value then
    match parse_numeric_field float_of_str value with
    | None =>
        ["Line " +:+ Py.str line_number +:+ ": Failed to parse numeric field '"
           +:+ field_name +:+ "': '" +:+ value +:+ "'"]
    | Some _ => []
    end
  else [].

(** The lines of a file that are not blank. *)
Definition nonblank_lines (lines : list string) : list string :=
  List.filter (fun raw => Py.truthy (Py.strip raw)) lines.

(** A line of [n] spaces. *)
Definition blank_line (n : nat) : string := string_of_list_ascii (repeat " "%char n).

(** Where a row of the clean file comes from: a line of the input, numbered
    from [first_number] on, on which [parse_line] reports nothing. *)
Definition clean_row_from (float_of_str : string -> option float)
           (lines : list string) (first_number : Z) (record : row) : Prop :=
  exists raw number,
    first_number <= number
    /\ lines !! Z.to_nat (number - first_number) = Some raw
    /\ Py.truthy (Py.strip raw) = true
    /\ parse_line float_of_str (Py.rstrip_chars newline_chars raw) number = Ok (record, None)
    /\ forall k, is_Some (record !! k) <-> In k REQUIRED_COLUMNS.

(** Where a row of the error file comes from: its number is the number of a
    line of the input, its content is that line without the line end, and
    its reason is what [parse_line] reports for that content and number. *)
Definition error_row_from (float_of_str : string -> option float)
           (lines : list string) (first_number : Z) (e : error_row) : Prop :=
  let '(number, content, reason) := e in
  exists raw record,
    first_number <= number
    /\ lines !! Z.to_nat (number - first_number) = Some raw
    /\ Py.truthy (Py.strip raw) = true
    /\ content = Py.rstrip_chars newline_chars raw
    /\ parse_line float_of_str content number = Ok (record, Some reason).

End RecordSpec.

Module GroupRunSpec.
Import GroupByOwner.

(** [groups.get(k, [])] on the ordered dictionary of groups. *)
Definition members_of (k : string) (groups : list (string * list row)) : list row :=
  match List.find (fun g => String.eqb (fst g) k) groups with
  | Some g => snd g
  | None => []
  end.

(** The rows of an input with a given key, in input order. *)
Definition rows_keyed (key : row -> string) (k : string) (rows : list row) : list row :=
  List.filter (fun r => String.eqb (key r) k) rows.

(** The number of rows in all groups, and the number of groups of one row. *)
Definition grouped_rows (groups : list (string * list row)) : nat :=
  list_sum (List.map (fun g => length (snd g)) groups).

Definition groups_of_one (groups : list (string * list row)) : nat :=
  length (List.filter (fun g => Nat.eqb (length (snd g)) 1) groups).

(** The header of the output file. *)
Definition output_columns_of (input_columns : list string) : list string :=
  Py.with_column "total_portfolio_value"
    (Py.with_column "property_ids"
       (Py.with_column "property_count_actual" input_columns)).

(** The three columns the output loop adds to every row. *)
Definition ADDED_COLUMNS : list string :=
  ["property_count_actual"; "property_ids"; "total_portfolio_value"].

End GroupRunSpec.

Module MergeRunSpec.
Import MergeEnrichment MergeSpec.

(** The enrichment row of a lead has a value that is not blank in a
    column. *)
Definition found (col : string) (enrichment_lookup : gmap string row) (r : row) : bool :=
  match enrichment_lookup !! lead_key r with
  | Some enrichment_row => Py.truthy (Py.strip (Py.get enrichment_row col))
  | None => false
  end.

Definition found_count (col : string) (enrichment_lookup : gmap string row)
           (leads : list row) : Z :=
  Z.of_nat (length (List.filter (found col enrichment_lookup) leads)).

(** The key of a row of the TCAD file. *)
Definition account_key (r : row) : string := Py.strip (Py.get r "account_id").

(** A contact column that has a value in the lead has one in the row
    written for it. *)
Definition keeps_contact (col : string) (r out : row) : Prop :=
  Py.truthy (Py.get r col) = true -> Py.truthy (Py.get out col) = true.

End MergeRunSpec.

Module UploadSpec.

(** The two keys of a row of the enrichment upload, as the deduplication
    sees them. *)
Definition written_lead_id (out : row) : string := Py.get out "lead_id".

Definition written_name_zip (out : row) : string :=
  Py.upper (Py.get out "full_name") +:+ "|" +:+ Py.get out "mailing_zip".

(** The email of an input row, as the exporters and the router read it. *)
Definition email_of (r : row) : string :=
  Py.strip (Py.str_or (Py.get r "email") (Py.get r "Email")).

(** The columns of a written row are those of the header. *)
Definition has_columns (columns : list string) (w : row) : Prop :=
  forall k, is_Some (w !! k) <-> In k columns.

(** What the deduplication loop keeps true of its state, [rows] being the
    rows read so far: the two sets hold the keys of the rows written, no
    key is written twice, the counters count the rows written and the rows
    read, and every row written has a name, the six columns of the header,
    and the lead id of a row read. *)
Record upload_invariant (rows : list row) (st : ExportEnrichmentUpload.state) : Prop := {
  inv_ids : forall x, x ∈ ExportEnrichmentUpload.seen_lead_ids st
                      <-> In x (List.map written_lead_id (ExportEnrichmentUpload.written st));
  inv_keys : forall x, x ∈ ExportEnrichmentUpload.seen_name_zip st
                       <-> In x (List.map written_name_zip (ExportEnrichmentUpload.written st));
  inv_ids_distinct : List.NoDup (List.map written_lead_id (ExportEnrichmentUpload.written st));
  inv_keys_distinct : List.NoDup (List.map written_name_zip (ExportEnrichmentUpload.written st));
  inv_unique : ExportEnrichmentUpload.unique_lead_ids st
               = Z.of_nat (length (ExportEnrichmentUpload.written st));
  inv_unique_keys : ExportEnrichmentUpload.unique_name_zip st
                    = Z.of_nat (length (ExportEnrichmentUpload.written st));
  inv_total : ExportEnrichmentUpload.total_rows st = Z.of_nat (length rows);
  inv_sum : ExportEnrichmentUpload.unique_lead_ids st
            + ExportEnrichmentUpload.duplicates_skipped st
            = ExportEnrichmentUpload.total_rows st;
  inv_rows : Forall (fun out : row =>
                       Py.truthy (Py.get out "full_name") = true
                       /\ (forall k, is_Some (out !! k)
                                     <-> In k ExportEnrichmentUpload.output_columns)
                       /\ In (written_lead_id out)
                             (List.map (fun r => Py.strip (Py.get r "lead_id")) rows))
                    (ExportEnrichmentUpload.written st)
}.

End UploadSpec.

Module PipelineSpec.

(** The rows of the four files of the router, and what the grouping script
    needs of a row: its score column holds [str(s)] for a score [s]
    between 0 and 100, and [int] reads [s] back from it. *)
Definition all_rows (out : NoteBrokerRefine.outputs) : list row :=
  NoteBrokerRefine.high_rows out ++ NoteBrokerRefine.medium_rows out
  ++ NoteBrokerRefine.low_rows out ++ NoteBrokerRefine.review_rows out.

Definition score_read_back (w : row) : Prop :=
  exists s : Z,
    0 <= s <= 100
    /\ w !! "engagement_score" = Some (Py.str s)
    /\ Py.int (GroupByOwner.engagement_score_text w) = Ok s.

(** The router's flag column says what the exporter's own test finds. *)
Definition flagged_with_email (w : row) : bool := String.eqb (Py.get w "has_email") "Y".

Definition email_flag_agrees (w : row) : Prop :=
  flagged_with_email w = NoteBrokerRefine.has_email w.

End PipelineSpec.

Module EntityGroupSpec.
Import GroupInvestorEntities.

(** The name the key of a row is made from: the trimmed company name, or
    the trimmed full name when there is no company name. *)
Definition entity_name_of (r : row) : string :=
  if Py.truthy (Py.strip (Py.get r "company_name"))
  then Py.strip (Py.get r "company_name")
  else Py.strip (Py.get r "full_name").

(** The text handed to [int] for the score of a property:
    [prop.get("engagement_score", "0") or "0"]. *)
Definition score_text (prop : row) : string :=
  Py.str_or (default "0" (prop !! "engagement_score")) "0".

(** The largest of 0 and the scores. *)
Definition max_score (scores : list Z) : Z := fold_left Z.max scores 0.

(** A flag column of a property says Y, in either case. *)
Definition flagged (col : string) (prop : row) : bool :=
  String.eqb (Py.upper (Py.get prop col)) "Y".

(** What the row written for an entity says about its properties. *)
Definition entity_consolidated (properties : list row) (out : row) : Prop :=
  exists scores,
    Forall2 (fun prop s => Py.int_of_str (score_text prop) = Some s) properties scores
    /\ out !! "engagement_score" = Some (Py.str (max_score scores))
    /\ out !! "max_engagement_score" = Some (Py.str (max_score scores))
    /\ out !! "properties_count" = Some (Py.str (Z.of_nat (length properties)))
    /\ out !! "has_any_email"
       = Some (if existsb (flagged "has_email") properties then "Y" else "N")
    /\ out !! "has_any_phone"
       = Some (if existsb (flagged "has_phone") properties then "Y" else "N").

(** The rows of an input that have a name. *)
Definition named_rows (rows : list row) : list row :=
  List.filter (fun r => Py.truthy (normalize_entity_name r)) rows.

End EntityGroupSpec.

(** * Properties *)

(** ** Facts about the builtins *)

Section PyFacts.

Lemma startswith_upper (s p : string) :
  Py.startswith s p = true -> Py.startswith (Py.upper s) (Py.upper p) = true.
Proof.
  revert s. induction p as [|a p IH]; intros s H; [reflexivity|].
  destruct s as [|b s]; [discriminate|].
  cbn in H |- *. apply andb_true_iff in H as [Hab Hrest].
  apply Ascii.eqb_eq in Hab. subst b.
  rewrite Ascii.eqb_refl. cbn. apply IH, Hrest.
Qed.

Lemma contains_upper (sub s : string) :
  Py.contains sub s = true -> Py.contains (Py.upper sub) (Py.upper s) = true.
Proof.
  induction s as [|c s IH]; intros H.
  - cbn in H |- *. rewrite orb_false_r in H |- *.
    apply (startswith_upper EmptyString sub H).
  - cbn [Py.contains] in H. apply orb_true_iff in H as [H|H].
    + change (Py.upper (String c s)) with (String (Py.upper_char c) (Py.upper s)).
      cbn [Py.contains].
      change (String (Py.upper_char c) (Py.upper s)) with (Py.upper (String c s)).
      rewrite (startswith_upper _ _ H). reflexivity.
    + change (Py.upper (String c s)) with (String (Py.upper_char c) (Py.upper s)).
      cbn [Py.contains]. rewrite (IH H). apply orb_true_r.
Qed.

(** Stripping: the result neither starts nor ends with a stripped
    character, so stripping again changes nothing. *)
Lemma rstrip_by_idem (p : ascii -> bool) (s : string) :
  Py.rstrip_by p (Py.rstrip_by p s) = Py.rstrip_by p s.
Proof.
  induction s as [|c s IH]; [reflexivity|].
  cbn [Py.rstrip_by].
  destruct (Py.is_empty (Py.rstrip_by p s) && p c) eqn:E; [reflexivity|].
  cbn [Py.rstrip_by]. rewrite IH, E. reflexivity.
Qed.

Lemma lstrip_by_head (p : ascii -> bool) (s : string) :
  Py.lstrip_by p s = EmptyString
  \/ exists c s', Py.lstrip_by p s = String c s' /\ p c = false.
Proof.
  induction s as [|c s IH]; [left; reflexivity|].
  cbn [Py.lstrip_by]. destruct (p c) eqn:E; [exact IH|].
  right. exists c, s. split; [reflexivity|exact E].
Qed.

Lemma strip_idem (s : string) : Py.strip (Py.strip s) = Py.strip s.
Proof.
  unfold Py.strip.
  destruct (lstrip_by_head Py.isspace s) as [->|(c & s' & -> & Hc)]; [reflexivity|].
  cbn [Py.rstrip_by]. rewrite Hc, andb_false_r.
  cbn [Py.lstrip_by]. rewrite Hc.
  change (Py.rstrip_by Py.isspace (String c (Py.rstrip_by Py.isspace s')))
    with (if Py.is_empty (Py.rstrip_by Py.isspace (Py.rstrip_by Py.isspace s'))
             && Py.isspace c
          then EmptyString
          else String c (Py.rstrip_by Py.isspace (Py.rstrip_by Py.isspace s'))).
  rewrite Hc, andb_false_r, rstrip_by_idem. reflexivity.
Qed.

Lemma existsb_first {A} (f : A -> bool) (l : list A) :
  existsb f l = true -> exists x l', List.filter f l = x :: l' /\ In x l.
Proof.
  induction l as [|a l IH]; [discriminate|].
  cbn. destruct (f a) eqn:E.
  - intros _. exists a, (List.filter f l). split; [reflexivity|left; reflexivity].
  - cbn. intros H. destruct (IH H) as (x & l' & Hx & Hin).
    exists x, l'. split; [exact Hx|right; exact Hin].
Qed.

(** Headers and the writer. *)
Lemma has_column_In (columns : list string) (col : string) :
  Py.has_column columns col = true <-> In col columns.
Proof.
  unfold Py.has_column. rewrite existsb_exists. split.
  - intros (x & Hin & Heq). apply String.eqb_eq in Heq. subst x. exact Hin.
  - intros Hin. exists col. split; [exact Hin|apply String.eqb_refl].
Qed.

Lemma In_with_column (col : string) (columns : list string) :
  In col (Py.with_column col columns).
Proof.
  unfold Py.with_column. destruct (Py.has_column columns col) eqn:E.
  - apply has_column_In, E.
  - apply in_or_app. right. left. reflexivity.
Qed.

Lemma In_with_column_keeps (col k : string) (columns : list string) :
  In k columns -> In k (Py.with_column col columns).
Proof.
  intros Hk. unfold Py.with_column. destruct (Py.has_column columns col); [exact Hk|].
  apply in_or_app. left. exact Hk.
Qed.

Lemma csv_row_insert (fieldnames : list string) (k v : string) (d : row) :
  In k fieldnames -> Py.csv_row fieldnames d -> Py.csv_row fieldnames (<[k := v]> d).
Proof.
  intros Hk Hd k' Hsome. destruct (decide (k = k')) as [<-|Hne]; [exact Hk|].
  rewrite lookup_insert_ne in Hsome by exact Hne. apply Hd, Hsome.
Qed.

Lemma csv_row_weaken (fieldnames fieldnames' : list string) (d : row) :
  (forall k, In k fieldnames -> In k fieldnames') ->
  Py.csv_row fieldnames d -> Py.csv_row fieldnames' d.
Proof. intros Hsub Hd k Hsome. apply Hsub, Hd, Hsome. Qed.

(** The columns of a given row can be checked by computation. *)
Lemma csv_row_check (fieldnames : list string) (d : row) :
  forallb (fun kv : string * string => Py.has_column fieldnames (fst kv)) (map_to_list d)
  = true ->
  Py.csv_row fieldnames d.
Proof.
  intros H k [v Hv]. rewrite forallb_forall in H.
  apply has_column_In, (H (k, v)), list_elem_of_In, elem_of_map_to_list, Hv.
Qed.

(** The writer accepts a row whose columns are columns of its header. *)
Lemma writerow_ok (fieldnames : list string) (d : row) (written : list row) :
  Py.csv_row fieldnames d -> Py.writerow fieldnames d written = Ok (written ++ [d]).
Proof.
  intros Hd. unfold Py.writerow.
  assert (H : forallb (fun kv : string * string => Py.has_column fieldnames (fst kv))
                      (map_to_list d) = true).
  { apply forallb_forall. intros [k v] Hin. cbn [fst].
    apply has_column_In, Hd. exists v.
    apply elem_of_map_to_list, list_elem_of_In, Hin. }
  rewrite H. reflexivity.
Qed.

End PyFacts.

(** ** Rows of lines that fit the header, and those that do not *)

Section CellFacts.

Lemma get_cell_text (d : Py.record) (k : string) :
  Py.text_cell d k -> Py.get_cell d k = Some (Py.get (Py.text_of d) k).
Proof.
  unfold Py.text_cell, Py.get_cell, Py.get, Py.text_of. intros Hk.
  rewrite lookup_omap. destruct (Py.cells d !! k) as [[s|]|]; [reflexivity| |reflexivity].
  now destruct Hk.
Qed.

Lemma text_of_record_of (r : row) : Py.text_of (Py.record_of r) = r.
Proof.
  unfold Py.text_of, Py.record_of. cbn [Py.cells]. apply map_eq. intros k.
  rewrite lookup_omap, lookup_fmap. now destruct (r !! k).
Qed.

(** A row of a line that fits the header is a row of strings. *)
Lemma well_formed_record_text (fieldnames : list string) (d : Py.record) :
  Py.well_formed_record fieldnames d ->
  d = Py.record_of (Py.text_of d) /\ Py.well_formed_row fieldnames (Py.text_of d).
Proof.
  intros (Hs & Htext & Hdom). destruct d as [c s]. cbn [Py.surplus Py.cells] in *.
  subst s. unfold Py.record_of, Py.text_of, Py.text_cell in *. cbn [Py.cells] in *. split.
  - f_equal. apply map_eq. intros k. rewrite lookup_fmap, lookup_omap.
    specialize (Htext k). destruct (c !! k) as [[v|]|]; [reflexivity| |reflexivity].
    now destruct Htext.
  - intros k. rewrite <- (Hdom k), lookup_omap. specialize (Htext k).
    destruct (c !! k) as [[v|]|]; cbn; split; intros [x Hx]; try discriminate; eauto.
    now destruct Htext.
Qed.

Lemma record_of_well_formed (fieldnames : list string) (r : row) :
  Py.well_formed_row fieldnames r -> Py.well_formed_record fieldnames (Py.record_of r).
Proof.
  intros Hr. unfold Py.well_formed_record, Py.record_of, Py.text_cell. cbn [Py.cells Py.surplus].
  split; [reflexivity|]. split.
  - intros k. rewrite lookup_fmap. now destruct (r !! k).
  - intros k. rewrite lookup_fmap, <- (Hr k). destruct (r !! k); cbn; split; intros [x Hx];
      try discriminate; eauto.
Qed.

Lemma well_formed_csv_row (fieldnames : list string) (r : row) :
  Py.well_formed_row fieldnames r -> Py.csv_row fieldnames r.
Proof. intros Hr k Hk. now apply Hr. Qed.

Lemma Forall_well_formed_csv_row (fieldnames : list string) (rows : list row) :
  Forall (Py.well_formed_row fieldnames) rows -> Forall (Py.csv_row fieldnames) rows.
Proof.
  intros H. eapply Forall_impl; [exact H|]. intros r. apply well_formed_csv_row.
Qed.

(** The columns of a given row can be checked by computation. *)
Lemma well_formed_row_check (fieldnames : list string) (r : row) :
  forallb (fun kv : string * string => Py.has_column fieldnames (fst kv)) (map_to_list r)
  = true ->
  forallb (Py.has_key r) fieldnames = true ->
  Py.well_formed_row fieldnames r.
Proof.
  intros Hsub Hall k. split.
  - apply (csv_row_check fieldnames r Hsub).
  - intros Hk. rewrite forallb_forall in Hall. specialize (Hall k Hk).
    unfold Py.has_key in Hall. now apply bool_decide_eq_true in Hall.
Qed.

(** The cells the reader sets from the line. *)
Lemma zipped_cells (pairs : list (string * string)) :
  forall (d : gmap string (option string)) (k : string),
    (forall k, d !! k <> Some None) ->
    fold_left (fun d kv => <[fst kv := Some (snd kv)]> d) pairs d !! k <> Some None
    /\ (is_Some (fold_left (fun d kv => <[fst kv := Some (snd kv)]> d) pairs d !! k)
        <-> is_Some (d !! k) \/ In k (List.map fst pairs)).
Proof.
  induction pairs as [|[k0 v0] pairs IH]; intros d k Hd; cbn [fold_left List.map In fst snd].
  - split; [apply Hd|tauto].
  - assert (Hd' : forall k, <[k0 := Some v0]> d !! k <> Some None).
    { intros k'. destruct (decide (k0 = k')) as [<-|Hne].
      - rewrite lookup_insert_eq. discriminate.
      - rewrite lookup_insert_ne by exact Hne. apply Hd. }
    destruct (IH (<[k0 := Some v0]> d) k Hd') as [H1 H2]. split; [exact H1|].
    rewrite H2. destruct (decide (k0 = k)) as [<-|Hne].
    + rewrite lookup_insert_eq. split; [intros _; right; now left|eauto].
    + rewrite lookup_insert_ne by exact Hne. intuition congruence.
Qed.

Lemma map_fst_combine (fieldnames line : list string) :
  length line = length fieldnames -> List.map fst (combine fieldnames line) = fieldnames.
Proof.
  revert line. induction fieldnames as [|f fieldnames IH]; intros [|c line] Hlen;
    try discriminate; [reflexivity|].
  cbn [combine List.map fst]. f_equal. apply IH. now injection Hlen.
Qed.

(** A line with as many cells as the header gives a row that fits it. *)
Lemma dict_reader_row_well_formed (fieldnames line : list string) :
  length line = length fieldnames ->
  Py.well_formed_record fieldnames (Py.dict_reader_row fieldnames line).
Proof.
  intros Hlen. unfold Py.dict_reader_row. cbv zeta. rewrite Hlen, Nat.ltb_irrefl.
  unfold Py.well_formed_record, Py.text_cell. cbn [Py.surplus Py.cells].
  split; [reflexivity|].
  assert (Hempty : forall k, (∅ : gmap string (option string)) !! k <> Some None)
    by (intros k; now rewrite lookup_empty).
  split.
  - intros k. apply (zipped_cells _ ∅ k Hempty).
  - intros k. rewrite (proj2 (zipped_cells _ ∅ k Hempty)), (map_fst_combine _ _ Hlen).
    rewrite lookup_empty. split; [intros [[x Hx]|H]; [discriminate|exact H]|tauto].
Qed.

Lemma get_cell_record_of (r : row) (k : string) :
  Py.get_cell (Py.record_of r) k = Some (Py.get r k).
Proof.
  unfold Py.get_cell, Py.record_of, Py.get. cbn [Py.cells]. rewrite lookup_fmap.
  now destruct (r !! k).
Qed.

Lemma has_cell_record_of (r : row) (k : string) :
  Py.has_cell (Py.record_of r) k = Py.has_key r k.
Proof.
  unfold Py.has_cell, Py.has_key, Py.record_of. cbn [Py.cells].
  apply bool_decide_ext. rewrite lookup_fmap.
  destruct (r !! k); cbn; split; intros [x Hx]; try discriminate; eauto.
Qed.

Lemma set_cell_record_of (k v : string) (r : row) :
  Py.set_cell k v (Py.record_of r) = Py.record_of (<[k := v]> r).
Proof.
  unfold Py.set_cell, Py.record_of. cbn [Py.cells Py.surplus]. now rewrite fmap_insert.
Qed.

(** [csv.DictWriter] takes a row of strings as it took it in [Py.writerow]. *)
Lemma writerow_record_ok (fieldnames : list string) (r : row) (written : list row) :
  Py.csv_row fieldnames r ->
  Py.writerow_record fieldnames (Py.record_of r) written = Ok (written ++ [r]).
Proof.
  intros Hr. unfold Py.writerow_record, Py.record_of. cbn [Py.cells Py.surplus].
  assert (H : forallb (fun kv : string * option string => Py.has_column fieldnames (fst kv))
                      (map_to_list (Some <$> r)) = true).
  { apply forallb_forall. intros [k v] Hin. cbn [fst].
    apply has_column_In, Hr.
    apply list_elem_of_In, elem_of_map_to_list in Hin. rewrite lookup_fmap in Hin.
    destruct (r !! k); [eauto|discriminate]. }
  rewrite H. do 3 f_equal. apply map_eq. intros k. rewrite !lookup_fmap.
  now destruct (r !! k).
Qed.

End CellFacts.

(** ** Entity roles ([scripts/classify_entity_roles.py]) *)

Module EntityRoleFacts.
Import ClassifyEntityRoles EntityRoleSpec.

Lemma contains_keyword_app (text : string) (k1 k2 : list string) :
  contains_keyword text (k1 ++ k2) = contains_keyword text k1 || contains_keyword text k2.
Proof.
  unfold contains_keyword. destruct (negb (Py.truthy text)); [reflexivity|].
  apply existsb_app.
Qed.

Lemma contains_keyword_first (text : string) (keywords : list string) :
  contains_keyword text keywords = true ->
  exists kw, first_of (matched_keywords keywords (Py.upper text)) = Ok kw /\ In kw keywords.
Proof.
  unfold contains_keyword, matched_keywords.
  destruct (negb (Py.truthy text)); [discriminate|].
  intros H. destruct (existsb_first _ _ H) as (kw & l' & Hf & Hin).
  exists kw. rewrite Hf. split; [reflexivity|exact Hin].
Qed.

(** The role returned when a keyword list matches at its turn. *)
Ltac keyword_branch H :=
  let kw := fresh "kw" in
  let Hkw := fresh "Hkw" in
  destruct (contains_keyword_first _ _ H) as (kw & Hkw & _);
  rewrite Hkw; cbn [Py.bind].

(** The shape of [classify_entity_role]: which rule fires, read off the
    tests in the order the function makes them. *)
Lemma classify_entity_role_cases (r : row) :
  let name := get_entity_name r in
  (Py.truthy name = false
   /\ classify_entity_role r = Ok ("UNKNOWN", "no name provided"))
  \/ (Py.truthy name = true /\
      ((contains_keyword name HIGHER_PRECEDENCE_KEYWORDS = true
        /\ exists role reason,
             classify_entity_role r = Ok (role, reason)
             /\ In role ["BANK_INSTITUTION"; "GOVERNMENT_ENTITY"; "UTILITY_OR_NONPROFIT";
                         "TRUST_ENTITY"; "INVESTOR_ENTITY"; "LEGAL_ENTITY"])
       \/ (contains_keyword name HIGHER_PRECEDENCE_KEYWORDS = false
           /\ has_entity_indicator name = false
           /\ Py.upper (Py.get r "owner_type") = "PERSON"
           /\ classify_entity_role r
              = Ok ("INDIVIDUAL_PERSON", "owner_type=PERSON, no entity keywords"))
       \/ (contains_keyword name HIGHER_PRECEDENCE_KEYWORDS = false
           /\ (has_entity_indicator name = true
               \/ Py.upper (Py.get r "owner_type") <> "PERSON")
           /\ classify_entity_role r
              = Ok ("UNKNOWN", "no matching keywords or patterns")))).
Proof.
  intros name. subst name. unfold classify_entity_role, HIGHER_PRECEDENCE_KEYWORDS.
  destruct (Py.truthy (get_entity_name r)) eqn:Hname; cbn [negb]; [right|left; auto].
  split; [reflexivity|].
  rewrite !contains_keyword_app.
  destruct (contains_keyword (get_entity_name r) BANK_KEYWORDS) eqn:Hbank.
  { left. split; [reflexivity|]. keyword_branch Hbank.
    do 2 eexists. split; [reflexivity|]. cbn; tauto. }
  destruct (contains_keyword (get_entity_name r) GOV_KEYWORDS) eqn:Hgov.
  { left. split; [reflexivity|]. keyword_branch Hgov.
    do 2 eexists. split; [reflexivity|]. cbn; tauto. }
  destruct (contains_keyword (get_entity_name r) UTILITY_KEYWORDS) eqn:Hutil.
  { left. split; [reflexivity|]. keyword_branch Hutil.
    do 2 eexists. split; [reflexivity|]. cbn; tauto. }
  destruct (contains_keyword (get_entity_name r) TRUST_KEYWORDS) eqn:Htrust.
  { left. split; [reflexivity|]. keyword_branch Htrust.
    do 2 eexists. split; [reflexivity|]. cbn; tauto. }
  destruct (contains_keyword (get_entity_name r) INVESTOR_KEYWORDS) eqn:Hinv.
  { left. split; [reflexivity|]. keyword_branch Hinv.
    do 2 eexists. split; [reflexivity|]. cbn; tauto. }
  destruct (contains_keyword (get_entity_name r) LEGAL_KEYWORDS) eqn:Hlegal.
  { left. split; [reflexivity|]. keyword_branch Hlegal.
    do 2 eexists. split; [reflexivity|]. cbn; tauto. }
  right. cbn [orb negb].
  fold (has_entity_indicator (get_entity_name r)).
  destruct (String.eqb (Py.upper (Py.get r "owner_type")) "PERSON") eqn:Hperson.
  - apply String.eqb_eq in Hperson.
    destruct (has_entity_indicator (get_entity_name r)) eqn:Hind; cbn [negb andb].
    + right. split; [reflexivity|]. split; [left; reflexivity|reflexivity].
    + left. split; [reflexivity|]. split; [reflexivity|]. split; [exact Hperson|reflexivity].
  - apply String.eqb_neq in Hperson. cbn [andb].
    right. split; [reflexivity|]. split; [right; exact Hperson|].
    destruct (negb (has_entity_indicator (get_entity_name r))); [|reflexivity].
    destruct (Z.of_nat (length (Py.split (get_entity_name r))) <=? 5); reflexivity.
Qed.

Lemma get_entity_name_blank (r : row) :
  Py.strip (Py.get r "company_name") = EmptyString ->
  Py.strip (Py.get r "full_name") = EmptyString ->
  get_entity_name r = EmptyString.
Proof. unfold get_entity_name. intros -> ->. reflexivity. Qed.

(** On a row of strings [classify_entity_role] does not raise: it returns
    one role of the closed set of eight together with a reason, and a row
    whose name fields are absent or blank gets UNKNOWN, "no name
    provided". *)
Lemma classify_entity_role_total (r : row) :
  (exists role reason,
      classify_entity_role r = Ok (role, reason) /\ In role ENTITY_ROLES)
  /\ (Py.strip (Py.get r "company_name") = EmptyString ->
      Py.strip (Py.get r "full_name") = EmptyString ->
      classify_entity_role r = Ok ("UNKNOWN", "no name provided")).
Proof.
  split.
  - destruct (classify_entity_role_cases r)
      as [[_ H]|[_ [(_ & role & reason & H & Hin)|[(_ & _ & _ & H)|(_ & _ & H)]]]].
    + do 2 eexists. split; [exact H|]. cbn; tauto.
    + exists role, reason. split; [exact H|]. cbn in Hin |- *.
      repeat destruct Hin as [<-|Hin]; tauto.
    + do 2 eexists. split; [exact H|]. cbn; tauto.
    + do 2 eexists. split; [exact H|]. cbn; tauto.
  - intros Hc Hf. unfold classify_entity_role.
    rewrite (get_entity_name_blank r Hc Hf). reflexivity.
Qed.

(** On a row whose name and owner-type cells are strings, the classifier
    of rows with [None] cells is the classifier of rows of strings. *)
Lemma classify_entity_role_cells_text (d : Py.record) :
  Py.text_cell d "full_name" -> Py.text_cell d "company_name" ->
  Py.text_cell d "owner_type" ->
  classify_entity_role_cells d = classify_entity_role (Py.text_of d).
Proof.
  intros Hfull Hcompany Howner.
  unfold classify_entity_role_cells, get_entity_name_cells.
  rewrite (get_cell_text d _ Hfull), (get_cell_text d _ Hcompany),
    (get_cell_text d _ Howner).
  reflexivity.
Qed.

(** C7, as the code has it.  On a row whose [full_name], [company_name]
    and [owner_type] cells are strings or absent, [classify_entity_role]
    does not raise: it is the classifier of rows of strings, and returns
    one role of the closed set of eight together with a reason.  A row
    whose two name cells are strings that are blank or absent gets UNKNOWN,
    "no name provided", whatever its other cells hold.  A row with [None]
    under [full_name] or [company_name], which [csv.DictReader] returns for
    a line too short to reach that column, makes it raise
    [AttributeError]. *)
Theorem classify_entity_role_total_on_text_cells (d : Py.record) :
  (Py.text_cell d "full_name" -> Py.text_cell d "company_name" ->
   Py.text_cell d "owner_type" ->
   classify_entity_role_cells d = classify_entity_role (Py.text_of d)
   /\ exists role reason,
        classify_entity_role_cells d = Ok (role, reason) /\ In role ENTITY_ROLES)
  /\ (forall full_name company_name,
        Py.get_cell d "full_name" = Some full_name ->
        Py.get_cell d "company_name" = Some company_name ->
        Py.strip company_name = EmptyString ->
        Py.strip full_name = EmptyString ->
        classify_entity_role_cells d = Ok ("UNKNOWN", "no name provided"))
  /\ (Py.get_cell d "full_name" = None \/ Py.get_cell d "company_name" = None ->
      classify_entity_role_cells d = Raise Py.AttributeError).
Proof.
  split; [|split].
  - intros Hfull Hcompany Howner.
    rewrite (classify_entity_role_cells_text d Hfull Hcompany Howner).
    split; [reflexivity|]. apply classify_entity_role_total.
  - intros full_name company_name Hfull Hcompany Hc Hf.
    unfold classify_entity_role_cells, get_entity_name_cells.
    rewrite Hfull, Hcompany. cbn [Py.strip_cell Py.bind]. rewrite Hc, Hf. reflexivity.
  - intros Hnone. unfold classify_entity_role_cells, get_entity_name_cells.
    destruct (Py.get_cell d "full_name") as [full_name|]; [|reflexivity].
    destruct Hnone as [Hnone|Hnone]; [discriminate|]. rewrite Hnone. reflexivity.
Qed.

(** The row of a line that fits a header of three columns. *)
Lemma classify_entity_role_total_on_text_cells_witness :
  exists role reason,
    classify_entity_role_cells
      (Py.dict_reader_row ["full_name"; "company_name"; "owner_type"]
                          ["JOHN SMITH"; ""; "PERSON"]) = Ok (role, reason)
    /\ In role ENTITY_ROLES.
Proof.
  apply (classify_entity_role_total_on_text_cells
           (Py.dict_reader_row ["full_name"; "company_name"; "owner_type"]
                               ["JOHN SMITH"; ""; "PERSON"]));
    unfold Py.text_cell; vm_compute; discriminate.
Defined.

(** A line with one cell under a header of three columns: [full_name] is
    [None], and [row.get("full_name", "").strip()] raises. *)
Lemma short_line_makes_the_classifier_raise :
  classify_entity_role_cells
    (Py.dict_reader_row ["company_name"; "full_name"; "owner_type"] ["ACME LLC"])
  = Raise Py.AttributeError.
Proof. vm_compute. reflexivity. Qed.

(** C6, as the code has it.  INDIVIDUAL_PERSON is returned exactly when the
    name is not empty, no keyword of a higher-precedence list occurs in it,
    none of the entity indicators (LLC, INC, CORP, LTD, LP, LLP, PC, PA, CO,
    COMPANY) occurs in the uppercased name as a substring, and the
    uppercased [owner_type] is PERSON.  The number of tokens of the name
    plays no part: without the person hint the row is never an individual. *)
Theorem individual_person_iff (r : row) :
  (exists reason, classify_entity_role r = Ok ("INDIVIDUAL_PERSON", reason))
  <->
  (Py.truthy (get_entity_name r) = true
   /\ contains_keyword (get_entity_name r) HIGHER_PRECEDENCE_KEYWORDS = false
   /\ has_entity_indicator (get_entity_name r) = false
   /\ Py.upper (Py.get r "owner_type") = "PERSON").
Proof.
  destruct (classify_entity_role_cases r)
    as [[Hn H]|[Hn [(Hk & role & reason & H & Hin)|[(Hk & Hi & Hp & H)|(Hk & Hor & H)]]]];
    rewrite H; split.
  - intros [reason Heq]. discriminate.
  - intros (Hn' & _). congruence.
  - intros [reason' Heq]. injection Heq as -> _.
    cbn in Hin. repeat destruct Hin as [Hin|Hin]; try discriminate. contradiction.
  - intros (_ & Hk' & _). congruence.
  - intros _. auto.
  - intros _. eexists. reflexivity.
  - intros [reason Heq]. discriminate.
  - intros (_ & _ & Hi & Hp). destruct Hor; congruence.
Qed.

(** A two-word name with the hint PERSON is an individual. *)
Lemma individual_person_iff_witness :
  exists reason,
    classify_entity_role (<["owner_type" := "Person"]> {["full_name" := "John Smith"]})
    = Ok ("INDIVIDUAL_PERSON", reason).
Proof.
  apply (proj2 (individual_person_iff
                  (<["owner_type" := "Person"]> {["full_name" := "John Smith"]}))).
  vm_compute. repeat split; reflexivity.
Defined.

(** C6 as the specification words it fails: a two-word name with no
    keyword, no corporate suffix and no person hint satisfies the rule of
    the specification and is classified UNKNOWN. *)
Lemma short_name_without_hint_is_unknown :
  spec_individual_person {["full_name" := "JOHN SMITH"]} = true
  /\ classify_entity_role {["full_name" := "JOHN SMITH"]}
     = Ok ("UNKNOWN", "no matching keywords or patterns").
Proof. vm_compute. split; reflexivity. Qed.

(** C10. Keyword matching is substring containment on the uppercased name:
    a row whose entity name contains "VA" (as written, or once uppercased)
    is a BANK_INSTITUTION, which is an excluded role, is routed to the
    excluded-entities file, and has its engagement score set to 0 whatever
    score it came with. *)
Theorem name_containing_VA_is_bank
    (float_of_str : string -> option float) (r : row)
    (HVA : Py.contains "VA" (get_entity_name r) = true
           \/ Py.contains "VA" (Py.upper (get_entity_name r)) = true) :
  (exists reason, classify_entity_role r = Ok ("BANK_INSTITUTION", reason))
  /\ is_excluded_role "BANK_INSTITUTION" = true
  /\ get_output_file_for_role "BANK_INSTITUTION" = "note_broker_excluded_entities.csv"
  /\ (forall base_score, modified_score_for "BANK_INSTITUTION" base_score = 0)
  /\ (forall input_columns base_score,
        Py.csv_row input_columns r ->
        In "engagement_score" input_columns ->
        parse_engagement_score float_of_str r = Ok base_score ->
        exists written,
          process_row float_of_str input_columns r
          = Ok ("note_broker_excluded_entities.csv", written)
          /\ written !! "engagement_score" = Some "0"
          /\ written !! "entity_role" = Some "BANK_INSTITUTION"
          /\ written !! "role_score_modifier" = Some "EXCLUDED").
Proof.
  assert (Hupper : Py.contains "VA" (Py.upper (get_entity_name r)) = true).
  { destruct HVA as [Hraw|Hup]; [|exact Hup]. apply (contains_upper "VA" _ Hraw). }
  clear HVA.
  assert (Hname : Py.truthy (get_entity_name r) = true).
  { destruct (get_entity_name r); [discriminate|reflexivity]. }
  assert (Hbank : contains_keyword (get_entity_name r) BANK_KEYWORDS = true).
  { unfold contains_keyword. rewrite Hname. cbn [negb].
    apply existsb_exists. exists "VA". split; [|exact Hupper].
    unfold BANK_KEYWORDS. cbn. tauto. }
  assert (Hrole : exists reason, classify_entity_role r = Ok ("BANK_INSTITUTION", reason)).
  { unfold classify_entity_role. rewrite Hname, Hbank. cbn [negb].
    destruct (contains_keyword_first _ _ Hbank) as (kw & Hkw & _).
    rewrite Hkw. cbn [Py.bind]. eexists. reflexivity. }
  split; [exact Hrole|].
  split; [reflexivity|]. split; [reflexivity|].
  split; [intros base_score; reflexivity|].
  intros input_columns base_score Hcsv Hcol Hbase. destruct Hrole as [reason Hrole].
  unfold process_row. cbv zeta. rewrite Hrole. cbn [Py.bind]. rewrite Hbase. cbn [Py.bind].
  rewrite writerow_ok.
  - cbn [Py.bind]. eexists. split; [reflexivity|].
    split; [apply lookup_insert_eq|].
    split.
    + rewrite !lookup_insert_ne by discriminate. apply lookup_insert_eq.
    + rewrite !lookup_insert_ne by discriminate. apply lookup_insert_eq.
  - apply csv_row_insert; [apply in_or_app; left; exact Hcol|].
    apply csv_row_insert; [apply in_or_app; right; cbn; tauto|].
    apply csv_row_insert; [apply in_or_app; right; cbn; tauto|].
    apply csv_row_insert; [apply in_or_app; right; cbn; tauto|].
    apply (csv_row_weaken input_columns); [|exact Hcsv].
    intros k Hk. apply in_or_app. left. exact Hk.
Qed.

(** SILVA, NOVA and VALLEY: names of people and places caught by "VA". *)
Lemma name_containing_VA_is_bank_witness :
  (exists reason,
      classify_entity_role {["full_name" := "Maria Silva"]} = Ok ("BANK_INSTITUTION", reason))
  /\ (exists reason,
      classify_entity_role {["company_name" := "NOVA HOMES"]} = Ok ("BANK_INSTITUTION", reason))
  /\ (exists reason,
      classify_entity_role {["full_name" := "GREEN VALLEY RANCH"]}
      = Ok ("BANK_INSTITUTION", reason)).
Proof.
  split; [|split].
  - apply (name_containing_VA_is_bank (fun _ => None) {["full_name" := "Maria Silva"]}).
    right. vm_compute. reflexivity.
  - apply (name_containing_VA_is_bank (fun _ => None) {["company_name" := "NOVA HOMES"]}).
    left. vm_compute. reflexivity.
  - apply (name_containing_VA_is_bank (fun _ => None) {["full_name" := "GREEN VALLEY RANCH"]}).
    left. vm_compute. reflexivity.
Defined.

End EntityRoleFacts.

(** ** Lead scoring and the bank gate ([scripts/filter_notes.py]) *)

Module LeadFacts.
Import FilterNotes LeadSpec.

Lemma is_bank_lender_truthy (name : string) :
  is_bank_lender name = true -> Py.truthy name = true.
Proof. unfold is_bank_lender. destruct (Py.truthy name); [reflexivity|discriminate]. Qed.

Lemma calculate_lead_score_bank
    (loan_amount : option float) (doc_type : string) (recording_age : option float)
    (is_seller_finance : bool) :
  calculate_lead_score "BANK" loan_amount doc_type recording_age is_seller_finance
  = (0, "bank lender").
Proof. reflexivity. Qed.

Lemma detect_owner_type_bank (name : string) :
  Py.truthy (Py.strip name) = true ->
  is_bank_lender name = true ->
  detect_owner_type name = "BANK".
Proof.
  intros Hs Hb. unfold detect_owner_type.
  rewrite (is_bank_lender_truthy _ Hb), Hs, Hb. reflexivity.
Qed.

Section Gate.

Variable float_of_str : string -> option float.
Variable datetime : Type.
Variable strptime : string -> string -> option datetime.
Variable days_since : datetime -> Z.
Variable format_1f format_comma_0f format_float : float -> string.

(** C1. A row whose lender name matches a bank keyword is discarded by
    [classify_row] before any other rule is looked at; the owner type
    detected for that name is BANK; and [calculate_lead_score] gives a BANK
    owner the score 0 with the reason "bank lender", whatever the loan
    amount, the document type and the recording age. *)
Theorem bank_lender_discarded_with_zero_score (r column_mapping : row)
    (Hbank : is_bank_lender (lender_name_of r column_mapping) = true) :
  classify_row float_of_str datetime strptime days_since
               format_1f format_comma_0f format_float r column_mapping
  = ("DISCARD", "Lender is a bank or large financial institution")
  /\ detect_owner_type (lender_name_of r column_mapping) = "BANK"
  /\ (forall loan_amount doc_type recording_age is_seller_finance,
        calculate_lead_score (detect_owner_type (lender_name_of r column_mapping))
                             loan_amount doc_type recording_age is_seller_finance
        = (0, "bank lender"))
  /\ (forall loan_amount doc_type recording_age is_seller_finance,
        calculate_lead_score "BANK" loan_amount doc_type recording_age is_seller_finance
        = (0, "bank lender")).
Proof.
  assert (Htype : detect_owner_type (lender_name_of r column_mapping) = "BANK").
  { apply detect_owner_type_bank; [|exact Hbank].
    unfold lender_name_of in *. rewrite strip_idem.
    apply is_bank_lender_truthy, Hbank. }
  split; [|split; [exact Htype|split]].
  - unfold classify_row. unfold lender_name_of in Hbank. cbv zeta.
    rewrite Hbank. reflexivity.
  - intros. rewrite Htype. apply calculate_lead_score_bank.
  - intros. apply calculate_lead_score_bank.
Qed.

End Gate.

(** The scenario of the specification: WELLS FARGO BANK, N.A. *)
Lemma bank_lender_discarded_with_zero_score_witness :
  classify_row (fun _ => None) unit (fun _ _ => None) (fun _ => 0)
               (fun _ => EmptyString) (fun _ => EmptyString) (fun _ => EmptyString)
               (<["Amount" := "150,000"]> {["Lender" := "WELLS FARGO BANK, N.A."]})
               (<["loan_amount" := "Amount"]> {["lender_name" := "Lender"]})
  = ("DISCARD", "Lender is a bank or large financial institution")
  /\ detect_owner_type "WELLS FARGO BANK, N.A." = "BANK".
Proof.
  pose proof (bank_lender_discarded_with_zero_score
                (fun _ => None) unit (fun _ _ => None) (fun _ => 0)
                (fun _ => EmptyString) (fun _ => EmptyString) (fun _ => EmptyString)
                (<["Amount" := "150,000"]> {["Lender" := "WELLS FARGO BANK, N.A."]})
                (<["loan_amount" := "Amount"]> {["lender_name" := "Lender"]})
                eq_refl) as (Hrow & Htype & _).
  split; [exact Hrow|exact Htype].
Defined.

End LeadFacts.

(** ** Score bounds ([calculate_lead_score], [calculate_engagement_score]) *)

Module ScoreFacts.
Import RouterSpec.

Lemma clamp_bounds (x : Z) : 0 <= Z.max 0 (Z.min 100 x) <= 100.
Proof. lia. Qed.

Lemma calculate_lead_score_bounds
    (owner_type : string) (loan_amount : option float) (doc_type : string)
    (recording_age : option float) (is_seller_finance : bool) :
  0 <= fst (FilterNotes.calculate_lead_score owner_type loan_amount doc_type
                                             recording_age is_seller_finance) <= 100.
Proof.
  unfold FilterNotes.calculate_lead_score. cbv zeta beta.
  destruct (String.eqb owner_type "PERSON"); [cbn [fst]; apply clamp_bounds|].
  destruct (String.eqb owner_type "LLC"); [cbn [fst]; apply clamp_bounds|].
  destruct (String.eqb owner_type "TRUST"); [cbn [fst]; apply clamp_bounds|].
  destruct (String.eqb owner_type "BANK"); [cbn [fst]; lia|].
  cbn [fst]; apply clamp_bounds.
Qed.

Section Engagement.

Variable float_of_str : string -> option float.

(** The engagement scorer raises exactly when the property count is not an
    integer literal; otherwise it returns a clamped score. *)
Lemma calculate_engagement_score_cases (r : row) :
  (Py.int_of_str (NoteBrokerRefine.property_count_text r) = None
   /\ NoteBrokerRefine.calculate_engagement_score float_of_str r = Raise Py.ValueError)
  \/ (exists score why,
        property_count_ok r
        /\ NoteBrokerRefine.calculate_engagement_score float_of_str r = Ok (score, why)
        /\ 0 <= score <= 100).
Proof.
  unfold NoteBrokerRefine.calculate_engagement_score, property_count_ok, Py.int.
  cbv zeta.
  destruct (Py.int_of_str (NoteBrokerRefine.property_count_text r)) as [n|] eqn:E;
    cbn [Py.bind].
  - right. do 2 eexists. split; [eexists; reflexivity|].
    split; [reflexivity|]. apply clamp_bounds.
  - left. split; reflexivity.
Qed.

(** C2. Both scorers return integers between 0 and 100.  The lead scorer
    returns for every input.  The engagement scorer returns for every row
    whose property count it can read, and raises [ValueError] (returning no
    score at all) on the others. *)
Theorem scores_between_0_and_100 :
  (forall owner_type loan_amount doc_type recording_age is_seller_finance,
      0 <= fst (FilterNotes.calculate_lead_score owner_type loan_amount doc_type
                                                 recording_age is_seller_finance) <= 100)
  /\ (forall r : row,
        match NoteBrokerRefine.calculate_engagement_score float_of_str r with
        | Ok (score, _) => 0 <= score <= 100 /\ property_count_ok r
        | Raise e =>
            e = Py.ValueError
            /\ Py.int_of_str (NoteBrokerRefine.property_count_text r) = None
        end).
Proof.
  split; [exact calculate_lead_score_bounds|].
  intros r.
  destruct (calculate_engagement_score_cases r) as [[Hnone ->]|(score & why & Hok & -> & Hb)].
  - split; [reflexivity|exact Hnone].
  - split; [exact Hb|exact Hok].
Qed.

End Engagement.

(** Extremes: every bonus at once is capped at 100, every penalty at once
    is raised to 0. *)
Lemma scores_between_0_and_100_witness :
  (0 <= fst (FilterNotes.calculate_lead_score "PERSON" (Some 150000%float) "DEED OF TRUST"
                                              (Some 5%float) true) <= 100
   /\ FilterNotes.calculate_lead_score "PERSON" (Some 150000%float) "DEED OF TRUST"
                                       (Some 5%float) true
      = (100, "person lender + medium amount + seller finance doc + recent recording"))
  /\ (0 <= fst (FilterNotes.calculate_lead_score "OTHER" None EmptyString None false) <= 100
      /\ fst (FilterNotes.calculate_lead_score "OTHER" None EmptyString None false) = 0).
Proof.
  split; (split; [apply (proj1 (scores_between_0_and_100 (fun _ => None)))|reflexivity]).
Defined.

End ScoreFacts.

(** ** The note-broker router ([classify_for_note_broker], [process_targets_file]) *)

Module RouterFacts.
Import NoteBrokerRefine RouterSpec.

Section Router.

Variable float_of_str : string -> option float.
Variable format_comma_0f : float -> string.

(** The tier of a row follows from its score and contact channels by the
    first rule that applies. *)
Lemma classify_for_note_broker_tier (r : row) (score : Z) (why : string) :
  calculate_engagement_score float_of_str r = Ok (score, why) ->
  classify_for_note_broker float_of_str r
  = Ok (if has_contact_info r && (60 <=? score) then "HIGH_PRIORITY"
        else if 50 <=? score then "MEDIUM_PRIORITY"
        else if 30 <=? score then "LOW_PRIORITY"
        else "REVIEW", score, why).
Proof.
  intros H. unfold classify_for_note_broker, has_contact_info. rewrite H. cbn [Py.bind].
  destruct ((has_email r || has_phone r) && (60 <=? score)); [reflexivity|].
  destruct (50 <=? score); [reflexivity|].
  destruct (30 <=? score); reflexivity.
Qed.

(** A row with a readable property count is classified, into one tier,
    and each tier is characterised by the score and the contact channels. *)
Lemma classify_for_note_broker_spec (r : row) :
  property_count_ok r ->
  exists tier score why,
    classify_for_note_broker float_of_str r = Ok (tier, score, why)
    /\ calculate_engagement_score float_of_str r = Ok (score, why)
    /\ In tier TIERS
    /\ (tier = "HIGH_PRIORITY" <-> has_contact_info r = true /\ 60 <= score)
    /\ (tier = "MEDIUM_PRIORITY"
        <-> ~ (has_contact_info r = true /\ 60 <= score) /\ 50 <= score)
    /\ (tier = "LOW_PRIORITY" <-> 30 <= score < 50)
    /\ (tier = "REVIEW" <-> score < 30).
Proof.
  intros [n Hn].
  destruct (ScoreFacts.calculate_engagement_score_cases float_of_str r)
    as [[Hnone _]|(score & why & _ & Hscore & _)]; [congruence|].
  eexists _, score, why.
  split; [apply classify_for_note_broker_tier, Hscore|].
  split; [exact Hscore|].
  destruct (has_contact_info r); cbn [andb];
    destruct (60 <=? score) eqn:E60; destruct (50 <=? score) eqn:E50;
    destruct (30 <=? score) eqn:E30;
    repeat match goal with
           | H : (_ <=? _) = true |- _ => apply Z.leb_le in H
           | H : (_ <=? _) = false |- _ => apply Z.leb_gt in H
           end;
    try lia;
    (split; [cbn; tauto|]);
    repeat split; intros; try discriminate; try lia; try reflexivity;
    try (intros [? ?]; try discriminate; lia);
    try tauto.
Qed.

(** The row written has the columns of the output header. *)
Lemma enrich_csv_row (input_columns : list string) (r : row) (score : Z) (why : string) :
  Py.csv_row input_columns r ->
  Py.csv_row (output_columns_of input_columns)
             (enrich float_of_str format_comma_0f r score why).
Proof.
  intros Hcsv. unfold enrich, output_columns_of. cbv zeta.
  repeat (apply csv_row_insert; [apply in_or_app; right; cbn; tauto|]).
  apply (csv_row_weaken input_columns); [|exact Hcsv].
  intros k Hk. apply in_or_app. left. exact Hk.
Qed.

(** Comparisons of tier names are decided by evaluation. *)
Ltac eval_tier_tests :=
  repeat match goal with
         | |- context [String.eqb ?a ?b] =>
             let v := eval vm_compute in (String.eqb a b) in
             progress change (String.eqb a b) with v
         end.

Lemma rows_of_tier_single (r : row) (tier : string) (score : Z) (why t : string) :
  classify_for_note_broker float_of_str r = Ok (tier, score, why) ->
  rows_of_tier float_of_str format_comma_0f t [r]
  = if String.eqb tier t
    then [enrich float_of_str format_comma_0f r score why] else [].
Proof.
  intros Hc. unfold rows_of_tier, tier_of, row_written. cbn [List.filter]. rewrite Hc.
  destruct (String.eqb tier t); cbn [List.map]; [rewrite Hc|]; reflexivity.
Qed.

(** One step of the output loop writes the row to the file of its tier,
    and to no other, and counts it there. *)
Lemma process_row_routes (input_columns : list string) (out : outputs) (r : row) :
  Py.csv_row input_columns r ->
  property_count_ok r ->
  exists out',
    process_row float_of_str format_comma_0f (output_columns_of input_columns) out r
    = Ok out'
    /\ high_rows out'
       = high_rows out ++ rows_of_tier float_of_str format_comma_0f "HIGH_PRIORITY" [r]
    /\ medium_rows out'
       = medium_rows out ++ rows_of_tier float_of_str format_comma_0f "MEDIUM_PRIORITY" [r]
    /\ low_rows out'
       = low_rows out ++ rows_of_tier float_of_str format_comma_0f "LOW_PRIORITY" [r]
    /\ review_rows out'
       = review_rows out ++ rows_of_tier float_of_str format_comma_0f "REVIEW" [r]
    /\ rows_counted out' = rows_counted out + 1
    /\ (counters_agree out -> counters_agree out').
Proof.
  intros Hcsv Hok.
  destruct (classify_for_note_broker_spec r Hok) as (tier & score & why & Hc & _ & Hin & _).
  rewrite !(rows_of_tier_single r tier score why _ Hc).
  unfold process_row. rewrite Hc. cbn [Py.bind].
  cbn in Hin. destruct Hin as [<-|[<-|[<-|[<-|[]]]]]; eval_tier_tests; cbv iota;
    rewrite writerow_ok by (apply enrich_csv_row, Hcsv); cbn [Py.bind];
    eexists; (split; [reflexivity|]);
    cbn [high_rows medium_rows low_rows review_rows List.map];
    rewrite ?app_nil_r; repeat (split; [reflexivity|]);
    (split; [unfold rows_counted; cbn [count_high count_medium count_low count_review]; lia|]);
    unfold counters_agree;
    cbn [high_rows medium_rows low_rows review_rows
         count_high count_medium count_low count_review];
    intros (Hh & Hm & Hl & Hr); rewrite ?length_app; cbn [length]; repeat split; lia.
Qed.

Lemma rows_of_tier_cons (tier : string) (r : row) (rows : list row) :
  rows_of_tier float_of_str format_comma_0f tier (r :: rows)
  = rows_of_tier float_of_str format_comma_0f tier [r]
      ++ rows_of_tier float_of_str format_comma_0f tier rows.
Proof.
  unfold rows_of_tier. cbn [List.filter].
  destruct (String.eqb (tier_of float_of_str r) tier); reflexivity.
Qed.

Lemma process_rows_routes (input_columns : list string) (rows : list row)
      (out : outputs) :
  Forall (Py.csv_row input_columns) rows ->
  Forall property_count_ok rows ->
  counters_agree out ->
  exists out',
    process_rows float_of_str format_comma_0f (output_columns_of input_columns) out rows
    = Ok out'
    /\ high_rows out'
       = high_rows out ++ rows_of_tier float_of_str format_comma_0f "HIGH_PRIORITY" rows
    /\ medium_rows out'
       = medium_rows out ++ rows_of_tier float_of_str format_comma_0f "MEDIUM_PRIORITY" rows
    /\ low_rows out'
       = low_rows out ++ rows_of_tier float_of_str format_comma_0f "LOW_PRIORITY" rows
    /\ review_rows out'
       = review_rows out ++ rows_of_tier float_of_str format_comma_0f "REVIEW" rows
    /\ rows_counted out' = rows_counted out + Z.of_nat (length rows)
    /\ counters_agree out'.
Proof.
  revert out. induction rows as [|r rows IH]; intros out Hcsv Hall Hagree.
  - exists out. cbn [process_rows]. unfold rows_of_tier. cbn [List.filter List.map length].
    rewrite !app_nil_r. repeat (split; [reflexivity|]). split; [lia|exact Hagree].
  - apply Forall_cons in Hall as [Hr Hrows]. apply Forall_cons in Hcsv as [Hc Hcsv].
    destruct (process_row_routes input_columns out r Hc Hr)
      as (out1 & H1 & Hh1 & Hm1 & Hl1 & Hr1 & Hn1 & Hagree1).
    assert (Hag1 : counters_agree out1).
    { apply Hagree1, Hagree. }
    destruct (IH out1 Hcsv Hrows Hag1) as (out' & H' & Hh & Hm & Hl & Hrv & Hn & Hag).
    exists out'. cbn [process_rows]. rewrite H1. cbn [Py.bind].
    split; [exact H'|].
    rewrite Hh, Hm, Hl, Hrv, Hn, Hh1, Hm1, Hl1, Hr1, Hn1.
    rewrite (rows_of_tier_cons "HIGH_PRIORITY" r rows),
      (rows_of_tier_cons "MEDIUM_PRIORITY" r rows),
      (rows_of_tier_cons "LOW_PRIORITY" r rows), (rows_of_tier_cons "REVIEW" r rows).
    rewrite <- !app_assoc. repeat (split; [reflexivity|]).
    split; [cbn [length]; lia|exact Hag].
Qed.

(** Every row is in the rows of exactly one tier. *)
Lemma rows_of_tiers_length (rows : list row) :
  Forall property_count_ok rows ->
  (length (rows_of_tier float_of_str format_comma_0f "HIGH_PRIORITY" rows)
   + length (rows_of_tier float_of_str format_comma_0f "MEDIUM_PRIORITY" rows)
   + length (rows_of_tier float_of_str format_comma_0f "LOW_PRIORITY" rows)
   + length (rows_of_tier float_of_str format_comma_0f "REVIEW" rows))%nat
  = length rows.
Proof.
  induction rows as [|r rows IH]; intros Hall; [reflexivity|].
  apply Forall_cons in Hall as [Hr Hrows]. specialize (IH Hrows).
  rewrite (rows_of_tier_cons "HIGH_PRIORITY" r rows),
    (rows_of_tier_cons "MEDIUM_PRIORITY" r rows),
    (rows_of_tier_cons "LOW_PRIORITY" r rows), (rows_of_tier_cons "REVIEW" r rows).
  rewrite !length_app. cbn [length]. rewrite <- IH.
  destruct (classify_for_note_broker_spec r Hr) as (tier & score & why & Hc & _ & Hin & _).
  rewrite !(rows_of_tier_single r tier score why _ Hc).
  cbn in Hin. destruct Hin as [<-|[<-|[<-|[<-|[]]]]]; eval_tier_tests;
    cbn [length]; lia.
Qed.

(** C3, as the code has it.  On an input file every line of which has as
    many cells as the header, and all of whose rows carry a property count
    that is empty or an integer literal, every row is given exactly one of
    the four tiers, by the first rule that applies (HIGH: a contact channel
    and score >= 60; MEDIUM: score >= 50; LOW: score >= 30; REVIEW: the
    rest); the run returns, each of the four files holds the rows of its
    tier, in input order, and the rows written to the four files, like the
    four counters, add up to the number of input rows.  (A file without the
    column [property_count] falls under it: the count then reads as 1.) *)
Theorem router_partitions_well_formed_input
    (input_columns : list string) (rows : list row)
    (Hfull : Forall (Py.well_formed_row input_columns) rows)
    (Hrows : Forall property_count_ok rows) :
  (forall r, In r rows ->
     exists tier score why,
       classify_for_note_broker float_of_str r = Ok (tier, score, why)
       /\ calculate_engagement_score float_of_str r = Ok (score, why)
       /\ In tier TIERS
       /\ (tier = "HIGH_PRIORITY" <-> has_contact_info r = true /\ 60 <= score)
       /\ (tier = "MEDIUM_PRIORITY"
           <-> ~ (has_contact_info r = true /\ 60 <= score) /\ 50 <= score)
       /\ (tier = "LOW_PRIORITY" <-> 30 <= score < 50)
       /\ (tier = "REVIEW" <-> score < 30))
  /\ (exists out,
        process_targets_file float_of_str format_comma_0f input_columns rows = Ok out
        /\ high_rows out
           = rows_of_tier float_of_str format_comma_0f "HIGH_PRIORITY" rows
        /\ medium_rows out
           = rows_of_tier float_of_str format_comma_0f "MEDIUM_PRIORITY" rows
        /\ low_rows out
           = rows_of_tier float_of_str format_comma_0f "LOW_PRIORITY" rows
        /\ review_rows out
           = rows_of_tier float_of_str format_comma_0f "REVIEW" rows
        /\ rows_written out = Z.of_nat (length rows)
        /\ rows_counted out = Z.of_nat (length rows)).
Proof.
  split.
  - intros r Hin. apply classify_for_note_broker_spec.
    rewrite List.Forall_forall in Hrows. apply Hrows, Hin.
  - destruct (process_rows_routes input_columns rows no_outputs
                (Forall_well_formed_csv_row _ _ Hfull) Hrows)
      as (out & H & Hh & Hm & Hl & Hr & Hn & Hag);
      [repeat split; reflexivity|].
    cbn [app no_outputs high_rows medium_rows low_rows review_rows] in Hh, Hm, Hl, Hr.
    exists out. split; [exact H|]. repeat (split; [assumption|]).
    split; [|exact Hn].
    unfold rows_written. rewrite Hh, Hm, Hl, Hr.
    rewrite <- (rows_of_tiers_length rows Hrows). lia.
Qed.

End Router.

(** Three rows of one file, with the property counts 1, blank and 3. *)
Lemma router_partitions_well_formed_input_witness :
  exists out,
    process_targets_file (fun _ => None) (fun _ => EmptyString) sample_columns
      [sample_contact_row "1"; sample_contact_row EmptyString; sample_contact_row "3"]
    = Ok out
    /\ rows_written out = 3
    /\ rows_counted out = 3.
Proof.
  destruct (router_partitions_well_formed_input (fun _ => None) (fun _ => EmptyString)
              sample_columns
              [sample_contact_row "1"; sample_contact_row EmptyString;
               sample_contact_row "3"])
    as (_ & out & Hout & _ & _ & _ & _ & Hw & Hc).
  - repeat (apply List.Forall_cons;
            [apply well_formed_row_check; vm_compute; reflexivity|]).
    apply List.Forall_nil.
  - repeat (apply List.Forall_cons; [vm_compute; eexists; reflexivity|]).
    apply List.Forall_nil.
  - exists out. split; [exact Hout|]. split; [exact Hw|exact Hc].
Defined.

(** C3 as the specification words it fails: a row whose property count is
    not an integer literal is given no tier, and the run over a file that
    contains it raises instead of returning counts. *)
Lemma unreadable_property_count_gets_no_tier :
  classify_for_note_broker (fun _ => None) (sample_contact_row "abc")
  = Raise Py.ValueError
  /\ process_targets_file (fun _ => None) (fun _ => EmptyString) sample_columns
       [sample_contact_row "1"; sample_contact_row "abc"]
     = Raise Py.ValueError.
Proof. vm_compute. split; reflexivity. Qed.

End RouterFacts.

(** ** Grouping by owner ([scripts/group_by_owner.py]) *)

Module GroupFacts.
Import GroupByOwner GroupSpec.

Section Grouping.

Lemma add_to_group_keys (k : string) (r : row) (groups : list (string * list row))
      (k' : string) :
  In k' (List.map fst (add_to_group k r groups)) <-> k' = k \/ In k' (List.map fst groups).
Proof.
  induction groups as [|[k0 p0] groups IH]; cbn [add_to_group List.map fst In].
  - intuition congruence.
  - destruct (String.eqb k0 k) eqn:E; cbn [List.map fst In].
    + apply String.eqb_eq in E. subst k0. intuition congruence.
    + rewrite IH. tauto.
Qed.

Lemma add_to_group_members (k : string) (r : row) (groups : list (string * list row))
      (k' : string) (properties : list row) :
  In (k', properties) (add_to_group k r groups) ->
  In (k', properties) groups
  \/ (k' = k /\ forall x, In x properties ->
                  x = r \/ exists old, In (k, old) groups /\ In x old).
Proof.
  induction groups as [|[k0 p0] groups IH]; cbn [add_to_group In].
  - intros [H|[]]. injection H as <- <-. right. split; [reflexivity|].
    intros x [<-|[]]. left; reflexivity.
  - destruct (String.eqb k0 k) eqn:E; cbn [In].
    + apply String.eqb_eq in E. subst k0. intros [H|H]; [|left; right; exact H].
      injection H as <- <-. right. split; [reflexivity|].
      intros x Hx. apply in_app_or in Hx as [Hx|[<-|[]]]; [|left; reflexivity].
      right. exists p0. split; [left; reflexivity|exact Hx].
    + intros [H|H]; [left; left; exact H|].
      destruct (IH H) as [Hin|[-> Hmem]]; [left; right; exact Hin|].
      right. split; [reflexivity|]. intros x Hx.
      destruct (Hmem x Hx) as [->|(old & Hold & Hxo)]; [left; reflexivity|].
      right. exists old. split; [right; exact Hold|exact Hxo].
Qed.

Lemma add_to_group_wf (r : row) (groups : list (string * list row)) :
  groups_wf groups -> groups_wf (add_to_group (normalize_owner_key r) r groups).
Proof.
  intros [Hnd Hkey]. split.
  - clear Hkey. induction groups as [|[k0 p0] groups IH]; cbn [add_to_group List.map fst].
    + apply NoDup_singleton.
    + apply NoDup_cons in Hnd as [Hk0 Hnd].
      destruct (String.eqb k0 (normalize_owner_key r)) eqn:E; cbn [List.map fst].
      * apply NoDup_cons. split; [exact Hk0|exact Hnd].
      * apply String.eqb_neq in E. apply NoDup_cons. split; [|apply IH, Hnd].
        rewrite list_elem_of_In, add_to_group_keys. intros [H|H]; [congruence|].
        apply Hk0. rewrite list_elem_of_In. exact H.
  - intros k properties Hin x Hx.
    destruct (add_to_group_members _ _ _ _ _ Hin) as [Hold|[-> Hmem]].
    + apply (Hkey k properties Hold x Hx).
    + destruct (Hmem x Hx) as [->|(old & Hold & Hxo)]; [reflexivity|].
      apply (Hkey _ old Hold x Hxo).
Qed.

(** The row added is in the group of its key, and rows already grouped
    stay in the group of theirs. *)
Lemma add_to_group_adds (k : string) (r : row) (groups : list (string * list row)) :
  exists properties, In (k, properties) (add_to_group k r groups) /\ In r properties.
Proof.
  induction groups as [|[k0 p0] groups IH]; cbn [add_to_group].
  - exists [r]. split; left; reflexivity.
  - destruct (String.eqb k0 k) eqn:E.
    + apply String.eqb_eq in E. subst k0. exists (p0 ++ [r]).
      split; [left; reflexivity|]. apply in_or_app. right. left. reflexivity.
    + destruct IH as (properties & Hin & Hr). exists properties.
      split; [right; exact Hin|exact Hr].
Qed.

Lemma add_to_group_keeps (k : string) (r : row) (groups : list (string * list row))
      (k' : string) (properties : list row) (x : row) :
  In (k', properties) groups -> In x properties ->
  exists properties', In (k', properties') (add_to_group k r groups) /\ In x properties'.
Proof.
  induction groups as [|[k0 p0] groups IH]; [intros []|].
  cbn [add_to_group In]. intros [H|H] Hx.
  - injection H as -> ->. destruct (String.eqb k' k).
    + exists (properties ++ [r]). split; [left; reflexivity|].
      apply in_or_app. left. exact Hx.
    + exists properties. split; [left; reflexivity|exact Hx].
  - destruct (String.eqb k0 k).
    + exists properties. split; [right; exact H|exact Hx].
    + destruct (IH H Hx) as (properties' & Hin & Hx'). exists properties'.
      split; [right; exact Hin|exact Hx'].
Qed.

Lemma fold_groups_wf (rows : list row) (groups : list (string * list row)) :
  groups_wf groups -> groups_wf (fold_left group_step rows groups).
Proof.
  revert groups. induction rows as [|r rows IH]; intros groups Hwf; [exact Hwf|].
  cbn [fold_left]. apply IH, add_to_group_wf, Hwf.
Qed.

Lemma fold_groups_keeps (rows : list row) (groups : list (string * list row))
      (k : string) (properties : list row) (x : row) :
  In (k, properties) groups -> In x properties ->
  exists properties', In (k, properties') (fold_left group_step rows groups)
                      /\ In x properties'.
Proof.
  revert groups properties. induction rows as [|r rows IH]; intros groups properties Hin Hx.
  - exists properties. split; [exact Hin|exact Hx].
  - cbn [fold_left].
    destruct (add_to_group_keeps (normalize_owner_key r) r groups k properties x Hin Hx)
      as (p' & Hin' & Hx').
    apply (IH _ p' Hin' Hx').
Qed.

Lemma fold_groups_has (rows : list row) (groups : list (string * list row)) (x : row) :
  In x rows ->
  exists properties,
    In (normalize_owner_key x, properties) (fold_left group_step rows groups)
    /\ In x properties.
Proof.
  revert groups. induction rows as [|r rows IH]; intros groups; [intros []|].
  cbn [fold_left In]. intros [->|Hx]; [|apply IH, Hx].
  destruct (add_to_group_adds (normalize_owner_key x) x groups) as (p & Hin & Hxp).
  apply (fold_groups_keeps rows _ _ p x Hin Hxp).
Qed.

Lemma build_groups_wf (rows : list row) : groups_wf (build_groups rows).
Proof.
  apply (fold_groups_wf rows []). split; [constructor|intros k p []].
Qed.

Lemma groups_wf_functional (groups : list (string * list row)) (k : string)
      (p1 p2 : list row) :
  NoDup (List.map fst groups) -> In (k, p1) groups -> In (k, p2) groups -> p1 = p2.
Proof.
  induction groups as [|[k0 p0] groups IH]; [intros _ []|].
  cbn [List.map fst In]. intros Hnd H1 H2. apply NoDup_cons in Hnd as [Hk0 Hnd].
  assert (Hnot : forall p, In (k0, p) groups -> False).
  { intros p Hp. apply Hk0. rewrite list_elem_of_In.
    apply (in_map fst) in Hp. exact Hp. }
  destruct H1 as [H1|H1], H2 as [H2|H2].
  - congruence.
  - injection H1 as -> _. destruct (Hnot _ H2).
  - injection H2 as -> _. destruct (Hnot _ H1).
  - apply (IH Hnd H1 H2).
Qed.

(** Rows of the input share a group exactly when they have the same key. *)
Lemma same_group_iff_same_key (rows : list row) (r1 r2 : row) :
  In r1 rows -> In r2 rows ->
  (same_group rows r1 r2 <-> normalize_owner_key r1 = normalize_owner_key r2).
Proof.
  intros H1 H2. destruct (build_groups_wf rows) as [Hnd Hkey]. split.
  - intros (k & properties & Hin & Hr1 & Hr2).
    rewrite (Hkey k properties Hin r1 Hr1), (Hkey k properties Hin r2 Hr2). reflexivity.
  - intros Heq.
    destruct (fold_groups_has rows [] r1 H1) as (p1 & Hp1 & Hr1).
    destruct (fold_groups_has rows [] r2 H2) as (p2 & Hp2 & Hr2).
    fold (build_groups rows) in Hp1, Hp2. rewrite <- Heq in Hp2.
    rewrite (groups_wf_functional _ _ _ _ Hnd Hp2 Hp1) in Hr2.
    exists (normalize_owner_key r1), p1. auto.
Qed.

(** The key determines name and postal code when postal codes have no "|". *)
Lemma contains_pipe_app (a b : string) : Py.contains "|" (a +:+ "|" +:+ b) = true.
Proof.
  induction a as [|c a IH]; [reflexivity|].
  change (String c a +:+ "|" +:+ b) with (String c (a +:+ "|" +:+ b)).
  cbn [Py.contains]. rewrite IH. apply orb_true_r.
Qed.

Lemma key_parts_inj (n1 n2 z1 z2 : string) :
  Py.contains "|" z1 = false -> Py.contains "|" z2 = false ->
  n1 +:+ "|" +:+ z1 = n2 +:+ "|" +:+ z2 -> n1 = n2 /\ z1 = z2.
Proof.
  intros Hz1 Hz2. revert n2.
  induction n1 as [|c n1 IH]; intros [|d n2] H.
  - change (String "|" z1 = String "|" z2) in H. injection H as ->. auto.
  - change (String "|" z1 = String d (n2 +:+ "|" +:+ z2)) in H.
    injection H as <- ->. rewrite contains_pipe_app in Hz1. discriminate.
  - change (String c (n1 +:+ "|" +:+ z1) = String "|" z2) in H.
    injection H as -> <-. rewrite contains_pipe_app in Hz2. discriminate.
  - change (String c (n1 +:+ "|" +:+ z1) = String d (n2 +:+ "|" +:+ z2)) in H.
    injection H as -> H. destruct (IH n2 H) as [-> ->]. auto.
Qed.

(** C5, as the code has it.  The key is the uppercased, trimmed name and the
    trimmed postal code joined by "|", where the name is the personal name
    [full_name] when it is not blank and the company name otherwise.  Rows
    of an input are in one group exactly when their keys are equal: rows
    that agree on that name and on the postal code share a group, and rows
    that differ on either are in different groups (as long as the postal
    codes contain no "|"). *)
Theorem owner_key_prefers_full_name (rows : list row) (r1 r2 : row)
    (H1 : In r1 rows) (H2 : In r2 rows) :
  normalize_owner_key r1 = preferred_name r1 +:+ "|" +:+ postal_code r1
  /\ (same_group rows r1 r2 <-> normalize_owner_key r1 = normalize_owner_key r2)
  /\ (preferred_name r1 = preferred_name r2 -> postal_code r1 = postal_code r2 ->
      same_group rows r1 r2)
  /\ (Py.contains "|" (postal_code r1) = false ->
      Py.contains "|" (postal_code r2) = false ->
      preferred_name r1 <> preferred_name r2 \/ postal_code r1 <> postal_code r2 ->
      ~ same_group rows r1 r2).
Proof.
  pose proof (same_group_iff_same_key rows r1 r2 H1 H2) as Hiff.
  split; [reflexivity|]. split; [exact Hiff|]. split.
  - intros Hn Hz. apply Hiff.
    change (normalize_owner_key r1) with (preferred_name r1 +:+ "|" +:+ postal_code r1).
    change (normalize_owner_key r2) with (preferred_name r2 +:+ "|" +:+ postal_code r2).
    rewrite Hn, Hz. reflexivity.
  - intros Hz1 Hz2 Hdiff Hsame. apply Hiff in Hsame.
    change (normalize_owner_key r1) with (preferred_name r1 +:+ "|" +:+ postal_code r1)
      in Hsame.
    change (normalize_owner_key r2) with (preferred_name r2 +:+ "|" +:+ postal_code r2)
      in Hsame.
    destruct (key_parts_inj _ _ _ _ Hz1 Hz2 Hsame) as [Hn Hz].
    destruct Hdiff as [Hd|Hd]; contradiction.
Qed.

End Grouping.

(** Two rows with the same personal name and zip share a group. *)
Lemma owner_key_prefers_full_name_witness :
  same_group [sample_member "A1" "10"; sample_officer "Jane Doe"; sample_member "A2" "90"]
             (sample_member "A1" "10") (sample_member "A2" "90").
Proof.
  apply (owner_key_prefers_full_name
           [sample_member "A1" "10"; sample_officer "Jane Doe"; sample_member "A2" "90"]
           (sample_member "A1" "10") (sample_member "A2" "90")).
  - left. reflexivity.
  - right. right. left. reflexivity.
  - vm_compute. reflexivity.
  - vm_compute. reflexivity.
Defined.

(** C5 as the specification words it fails: with both names present the key
    is built from the personal name, so two rows of one company and one zip
    with different personal names get different keys and two groups. *)
Lemma owner_key_ignores_company_when_named :
  normalize_owner_key (sample_officer "John Smith") = "JOHN SMITH|78701"
  /\ spec_owner_key (sample_officer "John Smith") = "ACME LLC|78701"
  /\ spec_owner_key (sample_officer "Jane Doe") = "ACME LLC|78701"
  /\ normalize_owner_key (sample_officer "Jane Doe") = "JANE DOE|78701"
  /\ List.map fst (build_groups [sample_officer "John Smith"; sample_officer "Jane Doe"])
     = ["JOHN SMITH|78701"; "JANE DOE|78701"].
Proof. vm_compute. repeat split; reflexivity. Qed.

Section Consolidation.

Variable float_of_str : string -> option float.

Lemma total_portfolio_text_returns (total : float) :
  float_is_finite total = true ->
  exists text, total_portfolio_text total = Ok text.
Proof.
  unfold float_is_finite, total_portfolio_text, Py.int_of_float.
  destruct (PrimFloat.ltb 0 total); [|eexists; reflexivity].
  destruct (Prim2SF total); intros H; try discriminate; eexists; reflexivity.
Qed.

Lemma engagement_score_text_insert (k v : string) (r : row) :
  k <> "engagement_score" ->
  engagement_score_text (<[k := v]> r) = engagement_score_text r.
Proof.
  intros Hk. unfold engagement_score_text. rewrite lookup_insert_ne by exact Hk.
  reflexivity.
Qed.

(** The consolidated row of a readable group; its columns are those of the
    first member and the columns the loop sets. *)
Lemma consolidate_spec (output_columns : list string) (properties : list row) :
  group_readable float_of_str properties ->
  Forall (Py.csv_row output_columns) properties ->
  (forall k, In k consolidation_columns -> In k output_columns) ->
  exists out,
    consolidate float_of_str properties = Ok out
    /\ consolidated_as properties out
    /\ Py.csv_row output_columns out.
Proof.
  destruct properties as [|first rest]; [intros []|]. intros [Hfin Hscore] Hcsv Hcols.
  apply Forall_cons in Hcsv as [Hfirst _].
  assert (Hbase : forall v1 v2 v3,
             Py.csv_row output_columns
               (<["total_portfolio_value" := v3]>
                  (<["property_ids" := v2]> (<["property_count_actual" := v1]> first)))).
  { intros. repeat (apply csv_row_insert; [apply Hcols; cbn; tauto|]). exact Hfirst. }
  destruct (total_portfolio_text_returns _ Hfin) as [text Htext].
  unfold consolidate, consolidated_as. cbv zeta. rewrite Htext. cbn [Py.bind].
  destruct rest as [|second rest].
  - cbn [length]. change (1 <? Z.of_nat 1) with false. cbv iota.
    eexists. split; [reflexivity|]. split; [|apply Hbase]. split; [|split].
    + rewrite !lookup_insert_ne by discriminate. apply lookup_insert_eq.
    + intros _. rewrite !lookup_insert_ne by discriminate. reflexivity.
    + intros H. congruence.
  - assert (Hlen : (1 <? Z.of_nat (length (first :: second :: rest))) = true).
    { apply Z.ltb_lt. cbn [length]. lia. }
    rewrite Hlen. destruct Hscore as [base_score Hbase_score]; [discriminate|].
    rewrite !engagement_score_text_insert by discriminate.
    unfold Py.int. rewrite Hbase_score. cbn [Py.bind].
    eexists. split; [reflexivity|]. split.
    + split; [|split].
      * destruct (Py.truthy _);
          rewrite !lookup_insert_ne by discriminate; apply lookup_insert_eq.
      * intros H. discriminate.
      * intros _. exists base_score. split; [reflexivity|].
        destruct (Py.truthy _);
          rewrite lookup_insert_ne by discriminate; apply lookup_insert_eq.
    + destruct (Py.truthy _);
        repeat (apply csv_row_insert; [apply Hcols; cbn; tauto|]); exact Hfirst.
Qed.

Lemma write_groups_spec (output_columns : list string)
      (groups : list (string * list row)) (written : list row) (c : counts) :
  (forall k, In k consolidation_columns -> In k output_columns) ->
  Forall (fun g => group_readable float_of_str (snd g)) groups ->
  Forall (fun g => Forall (Py.csv_row output_columns) (snd g)) groups ->
  exists news c',
    write_groups float_of_str output_columns groups written c = Ok (written ++ news, c')
    /\ Forall2 (fun g out => consolidated_as (snd g) out) groups news.
Proof.
  intros Hcols. revert written c.
  induction groups as [|[k properties] groups IH]; intros written c Hall Hcsv.
  - exists [], c. cbn. rewrite app_nil_r. split; [reflexivity|constructor].
  - apply Forall_cons in Hall as [Hg Hrest]. apply Forall_cons in Hcsv as [Hc Hcsv].
    cbn [snd] in Hg, Hc.
    destruct (consolidate_spec output_columns properties Hg Hc Hcols)
      as (out & Hout & Has & Hrow).
    cbn [write_groups]. cbv zeta. rewrite Hout. cbn [Py.bind].
    rewrite (writerow_ok _ _ _ Hrow). cbn [Py.bind].
    match goal with
    | |- context [write_groups _ _ groups ?w ?c0] =>
        destruct (IH w c0 Hrest Hcsv) as (news & c' & Hw & Hall2)
    end.
    exists (out :: news), c'. rewrite Hw, <- app_assoc. cbn [app].
    split; [reflexivity|]. constructor; [exact Has|exact Hall2].
Qed.

(** The members of the groups are rows of the input. *)
Lemma add_to_group_Forall (Q : row -> Prop) (k : string) (r : row)
      (groups : list (string * list row)) :
  Q r ->
  Forall (fun g => Forall Q (snd g)) groups ->
  Forall (fun g => Forall Q (snd g)) (add_to_group k r groups).
Proof.
  intros Hr. induction groups as [|[k0 p0] groups IH]; intros Hall; cbn [add_to_group].
  - repeat constructor. exact Hr.
  - apply Forall_cons in Hall as [Hp0 Hall]. cbn [snd] in Hp0.
    destruct (String.eqb k0 k).
    + constructor; [|exact Hall]. cbn [snd]. apply Forall_app. split; [exact Hp0|].
      repeat constructor. exact Hr.
    + constructor; [exact Hp0|apply IH, Hall].
Qed.

Lemma build_groups_Forall (Q : row -> Prop) (rows : list row) :
  Forall Q rows -> Forall (fun g => Forall Q (snd g)) (build_groups rows).
Proof.
  unfold build_groups.
  assert (H : forall groups,
             Forall Q rows -> Forall (fun g => Forall Q (snd g)) groups ->
             Forall (fun g => Forall Q (snd g))
                    (fold_left (fun groups r => add_to_group (normalize_owner_key r) r groups)
                               rows groups)).
  { induction rows as [|r rows IH]; intros groups Hrows Hg; [exact Hg|].
    apply Forall_cons in Hrows as [Hr Hrows]. cbn [fold_left].
    apply IH; [exact Hrows|]. apply add_to_group_Forall; [exact Hr|exact Hg]. }
  intros Hrows. apply H; [exact Hrows|constructor].
Qed.

(** C4, as the code has it.  The consolidated row of a group carries the
    number of its members; for a group with more than one member its score
    is the score of the first member plus a bonus of one point per further
    member, the bonus at most 10 and the sum at most 100; a group with one
    member keeps its score.  The scores of the other members are not read.
    (The input file has the columns engagement_score and why_flagged, and
    the groups are readable: a finite summed value, and a first member
    whose score is an integer literal.) *)
Theorem group_score_is_first_member_plus_bonus
    (input_columns : list string) (rows : list row)
    (Hcsv : Forall (Py.csv_row input_columns) rows)
    (Hscore : In "engagement_score" input_columns)
    (Hwhy : In "why_flagged" input_columns)
    (Hok : Forall (fun g => group_readable float_of_str (snd g)) (build_groups rows)) :
  exists written c,
    group_properties_by_owner float_of_str input_columns rows = Ok (written, c)
    /\ Forall2 (fun g out => consolidated_as (snd g) out) (build_groups rows) written.
Proof.
  unfold group_properties_by_owner. cbv zeta.
  set (output_columns :=
         Py.with_column "total_portfolio_value"
           (Py.with_column "property_ids"
              (Py.with_column "property_count_actual" input_columns))).
  assert (Hsub : forall k, In k input_columns -> In k output_columns).
  { intros k Hk. subst output_columns. repeat apply In_with_column_keeps. exact Hk. }
  assert (Hcols : forall k, In k consolidation_columns -> In k output_columns).
  { intros k Hk. cbn in Hk. subst output_columns.
    destruct Hk as [<-|[<-|[<-|[<-|[<-|[]]]]]].
    - do 2 apply In_with_column_keeps. apply In_with_column.
    - apply In_with_column_keeps. apply In_with_column.
    - apply In_with_column.
    - repeat apply In_with_column_keeps. exact Hscore.
    - repeat apply In_with_column_keeps. exact Hwhy. }
  assert (Hmem : Forall (fun g => Forall (Py.csv_row output_columns) (snd g))
                        (build_groups rows)).
  { apply build_groups_Forall. apply (Forall_impl _ _ _ Hcsv).
    intros r Hr. apply (csv_row_weaken input_columns); [exact Hsub|exact Hr]. }
  match goal with
  | |- context [write_groups _ _ _ [] ?c0] =>
      destruct (write_groups_spec output_columns (build_groups rows) [] c0 Hcols Hok Hmem)
        as (news & c' & Hw & Hall)
  end.
  exists news, c'. split; [exact Hw|exact Hall].
Qed.

End Consolidation.

(** Two records with the same name and zip, scores 10 and 90: one group of
    two whose score is 10 + 1. *)
Lemma group_score_is_first_member_plus_bonus_witness :
  exists written c,
    group_properties_by_owner (fun _ => None) sample_columns
      [sample_member "A1" "10"; sample_member "A2" "90"] = Ok (written, c)
    /\ Forall2 (fun g out => consolidated_as (snd g) out)
         (build_groups [sample_member "A1" "10"; sample_member "A2" "90"]) written.
Proof.
  apply (group_score_is_first_member_plus_bonus (fun _ => None) sample_columns
           [sample_member "A1" "10"; sample_member "A2" "90"]).
  - repeat (apply List.Forall_cons; [apply csv_row_check; vm_compute; reflexivity|]).
    apply List.Forall_nil.
  - cbn. tauto.
  - cbn. tauto.
  - apply List.Forall_cons; [|apply List.Forall_nil].
    split; [vm_compute; reflexivity|]. intros _. vm_compute. eexists. reflexivity.
Defined.

(** C4 as the specification words it fails: the two members score 10 and
    90, the maximum is 90 (91 with the bonus), and the one group written has
    the score 11 and the count 2. *)
Lemma group_score_is_not_the_maximum :
  written_fields "engagement_score" "property_count_actual"
    (group_properties_by_owner (fun _ => None) sample_columns
       [sample_member "A1" "10"; sample_member "A2" "90"])
  = Ok ([(Some "11", Some "2")], mk_counts 1 0 1 2)
  /\ spec_max_member_score [10; 90] = 90
  /\ spec_final_score [10; 90] = 91.
Proof. vm_compute. repeat split; reflexivity. Qed.

End GroupFacts.

(** ** The enrichment merge ([scripts/merge_enrichment.py]) *)

Module MergeFacts.
Import MergeEnrichment MergeSpec.

Lemma fill_blank_lookup (col : string) (r : row) (k : string) :
  fill_blank col r !! k = if decide (col = k) then Some (Py.get r col) else r !! k.
Proof.
  unfold fill_blank, Py.has_key, Py.get. case_bool_decide as Hkey.
  - destruct Hkey as [v Hv]. case_decide as Hk; [subst k; rewrite Hv|]; reflexivity.
  - rewrite lookup_insert. apply eq_None_not_Some in Hkey. rewrite Hkey.
    case_decide; reflexivity.
Qed.

(** The row written does not depend on the counters. *)
Lemma merge_row_fst (lk : gmap string row) (c : counts) (r : row) :
  fst (merge_row lk c r) = merged_row lk r.
Proof.
  unfold merged_row, merge_row. cbv zeta.
  destruct (lk !! Py.strip (Py.get r "lead_id")) as [e|]; [|reflexivity].
  destruct (Py.truthy (Py.strip (Py.get e "email")));
    destruct (Py.truthy (Py.strip (Py.get e "phone"))); reflexivity.
Qed.

Lemma merge_row_counts (lk : gmap string row) (c : counts) (r : row) :
  let c' := snd (merge_row lk c r) in
  let hit := bool_decide (is_Some (lk !! lead_key r)) in
  total_rows c' = total_rows c + 1
  /\ matched c' = matched c + (if hit then 1 else 0)
  /\ unmatched c' = unmatched c + (if hit then 0 else 1).
Proof.
  unfold merge_row, lead_key. cbv zeta.
  destruct (lk !! Py.strip (Py.get r "lead_id")) as [e|].
  - rewrite bool_decide_eq_true_2 by (eexists; reflexivity).
    destruct (Py.truthy (Py.strip (Py.get e "email")));
      destruct (Py.truthy (Py.strip (Py.get e "phone"))); cbn; repeat split; lia.
  - rewrite bool_decide_eq_false_2 by (intros [? ?]; discriminate).
    cbn. repeat split; lia.
Qed.

Lemma get_insert_ne (k k' v : string) (r : row) :
  k <> k' -> Py.get (<[k := v]> r) k' = Py.get r k'.
Proof. intros Hk. unfold Py.get. rewrite lookup_insert_ne by exact Hk. reflexivity. Qed.

Lemma get_fill_blank_ne (col k' : string) (r : row) :
  col <> k' -> Py.get (fill_blank col r) k' = Py.get r k'.
Proof.
  intros Hk. unfold Py.get. rewrite fill_blank_lookup.
  case_decide; [contradiction|reflexivity].
Qed.

Lemma merged_row_spec (lk : gmap string row) (r : row) : merged_as lk r (merged_row lk r).
Proof.
  unfold merged_as, merged_row, merge_row, lead_key. cbv zeta.
  destruct (lk !! Py.strip (Py.get r "lead_id")) as [e|].
  - unfold Py.str_or.
    destruct (Py.truthy (Py.strip (Py.get e "email")));
      destruct (Py.truthy (Py.strip (Py.get e "phone"))); cbn [fst];
      (split; [intros k Hk1 Hk2|split]);
      rewrite ?lookup_insert, ?fill_blank_lookup;
      repeat case_decide; try congruence; try reflexivity;
      rewrite ?lookup_insert, ?fill_blank_lookup;
      repeat case_decide; try congruence; try reflexivity;
      rewrite ?get_insert_ne, ?get_fill_blank_ne by discriminate; reflexivity.
  - cbn [fst]. split; [intros k Hk1 Hk2|split];
      rewrite !fill_blank_lookup; repeat case_decide; try congruence; try reflexivity.
    rewrite get_fill_blank_ne by discriminate. reflexivity.
Qed.

Lemma csv_row_fill_blank (fieldnames : list string) (col : string) (d : row) :
  In col fieldnames -> Py.csv_row fieldnames d -> Py.csv_row fieldnames (fill_blank col d).
Proof.
  intros Hcol Hd. unfold fill_blank. destruct (Py.has_key d col); [exact Hd|].
  apply csv_row_insert; [exact Hcol|exact Hd].
Qed.

(** The row written has the columns of the output header. *)
Lemma merged_row_csv_row (lead_columns : list string) (lk : gmap string row) (r : row) :
  Py.csv_row lead_columns r ->
  Py.csv_row (output_columns_of lead_columns) (merged_row lk r).
Proof.
  intros Hr. unfold output_columns_of.
  assert (He : In "email" (Py.with_column "phone" (Py.with_column "email" lead_columns))).
  { apply In_with_column_keeps, In_with_column. }
  assert (Hp : In "phone" (Py.with_column "phone" (Py.with_column "email" lead_columns))).
  { apply In_with_column. }
  assert (Hr' : Py.csv_row (Py.with_column "phone" (Py.with_column "email" lead_columns)) r).
  { apply (csv_row_weaken lead_columns); [|exact Hr].
    intros k Hk. do 2 apply In_with_column_keeps. exact Hk. }
  unfold merged_row, merge_row. cbv zeta.
  destruct (lk !! Py.strip (Py.get r "lead_id")) as [e|].
  - destruct (Py.truthy (Py.strip (Py.get e "email")));
      destruct (Py.truthy (Py.strip (Py.get e "phone"))); cbn [fst];
      repeat first [apply csv_row_insert; [assumption|]
                   |apply csv_row_fill_blank; [assumption|]];
      exact Hr'.
  - cbn [fst].
    repeat (apply csv_row_fill_blank; [assumption|]). exact Hr'.
Qed.

Lemma merge_rows_spec (lead_columns : list string) (lk : gmap string row)
      (leads written : list row) (c : counts) :
  Forall (Py.csv_row lead_columns) leads ->
  exists c',
    merge_rows (output_columns_of lead_columns) lk written c leads
    = Ok (written ++ List.map (merged_row lk) leads, c')
    /\ total_rows c' = total_rows c + Z.of_nat (length leads)
    /\ matched c' = matched c + hits lk leads
    /\ unmatched c' = unmatched c + misses lk leads.
Proof.
  revert written c. induction leads as [|r leads IH]; intros written c Hcsv.
  - exists c. cbn. rewrite app_nil_r. unfold hits, misses. cbn.
    split; [reflexivity|]. repeat split; lia.
  - apply Forall_cons in Hcsv as [Hr Hcsv]. cbn [merge_rows].
    pose proof (merge_row_fst lk c r) as Hf.
    pose proof (merge_row_counts lk c r) as (Ht & Hm & Hu).
    destruct (merge_row lk c r) as [out c1] eqn:E. cbn [fst snd] in Hf, Ht, Hm, Hu.
    subst out.
    rewrite (writerow_ok _ _ _ (merged_row_csv_row lead_columns lk r Hr)). cbn [Py.bind].
    destruct (IH (written ++ [merged_row lk r]) c1 Hcsv) as (c' & IHf & IHt & IHm & IHu).
    exists c'. rewrite IHf, IHt, IHm, IHu, Ht, Hm, Hu, <- app_assoc.
    unfold hits, misses. cbn [List.map List.filter app length].
    split; [reflexivity|].
    destruct (bool_decide (is_Some (lk !! lead_key r))); cbn [negb length];
      repeat split; lia.
Qed.

Lemma hits_plus_misses (lk : gmap string row) (leads : list row) :
  hits lk leads + misses lk leads = Z.of_nat (length leads).
Proof.
  unfold hits, misses.
  induction leads as [|r leads IH]; cbn [List.filter length]; [reflexivity|].
  destruct (bool_decide (is_Some (lk !! lead_key r))); cbn [negb length]; lia.
Qed.

Lemma fill_blank_cell_record_of (col : string) (r : row) :
  fill_blank_cell col (Py.record_of r) = Py.record_of (fill_blank col r).
Proof.
  unfold fill_blank_cell, fill_blank. rewrite has_cell_record_of.
  destruct (Py.has_key r col); [reflexivity|apply set_cell_record_of].
Qed.

Lemma strip_cell_text (d : Py.record) (k : string) :
  Py.text_cell d k ->
  Py.strip_cell (Py.get_cell d k) = Ok (Py.strip (Py.get (Py.text_of d) k)).
Proof. intros Hk. rewrite (get_cell_text d k Hk). reflexivity. Qed.

Lemma load_enrichment_records_from (enrichment_rows : list Py.record) :
  Forall enrichment_cells_are_text enrichment_rows ->
  forall records : gmap string Py.record,
    map_Forall (fun _ => enrichment_cells_are_text) records ->
    exists records',
      fold_left
        (fun loaded d =>
           do enrichment_lookup <- loaded;
           do lead_id <- Py.strip_cell (Py.get_cell d "lead_id");
           Ok (if Py.truthy lead_id then <[lead_id := d]> enrichment_lookup
               else enrichment_lookup))
        enrichment_rows (Ok records) = Ok records'
      /\ Py.text_of <$> records'
         = fold_left
             (fun enrichment_lookup r =>
                let lead_id := Py.strip (Py.get r "lead_id") in
                if Py.truthy lead_id then <[lead_id := r]> enrichment_lookup
                else enrichment_lookup)
             (List.map Py.text_of enrichment_rows) (Py.text_of <$> records)
      /\ map_Forall (fun _ => enrichment_cells_are_text) records'.
Proof.
  induction 1 as [|d rows Hd _ IH]; intros records Hrecords; cbn [fold_left List.map].
  - exists records. auto.
  - cbn [Py.bind]. rewrite (strip_cell_text d "lead_id" (proj1 Hd)). cbn [Py.bind].
    cbv zeta.
    destruct (Py.truthy (Py.strip (Py.get (Py.text_of d) "lead_id"))).
    + rewrite <- fmap_insert. apply IH. apply map_Forall_insert_2; assumption.
    + apply IH; assumption.
Qed.

(** Loading enrichment rows whose cells are strings does not raise, and
    gives the lookup of the rows of strings. *)
Lemma load_enrichment_records_text (enrichment_rows : list Py.record) :
  Forall enrichment_cells_are_text enrichment_rows ->
  exists records,
    load_enrichment_records enrichment_rows = Ok records
    /\ Py.text_of <$> records = lookup_of enrichment_rows
    /\ map_Forall (fun _ => enrichment_cells_are_text) records.
Proof.
  intros Hrows.
  destruct (load_enrichment_records_from enrichment_rows Hrows ∅ (map_Forall_empty _))
    as (records & Hload & Hlookup & Htext).
  exists records. rewrite fmap_empty in Hlookup. auto.
Qed.

(** One iteration on a row of strings. *)
Lemma merge_record_text (records : gmap string Py.record) (c : counts) (r : row) :
  map_Forall (fun _ => enrichment_cells_are_text) records ->
  merge_record records c (Py.record_of r)
  = Ok (Py.record_of (fst (merge_row (Py.text_of <$> records) c r)),
        snd (merge_row (Py.text_of <$> records) c r)).
Proof.
  intros Hrecords. unfold merge_record, merge_row. cbv zeta.
  rewrite get_cell_record_of. cbn [Py.strip_cell Py.bind]. rewrite lookup_fmap.
  destruct (records !! Py.strip (Py.get r "lead_id")) as [e|] eqn:He;
    cbn [fmap option_fmap option_map].
  - destruct (Hrecords _ _ He) as (_ & Hemail & Hphone).
    rewrite (strip_cell_text e "email" Hemail), (strip_cell_text e "phone" Hphone).
    cbn [Py.bind].
    destruct (Py.truthy (Py.strip (Py.get (Py.text_of e) "email")));
      destruct (Py.truthy (Py.strip (Py.get (Py.text_of e) "phone")));
      cbn [Py.bind fst snd];
      rewrite ?set_cell_record_of, ?fill_blank_cell_record_of, ?set_cell_record_of;
      reflexivity.
  - cbn [fst snd]. rewrite !fill_blank_cell_record_of. reflexivity.
Qed.

(** The loop on rows of strings: where [merge_rows] returns, the loop on
    records has written the same file and returns the same counters. *)
Lemma merge_records_text (output_columns : list string)
      (records : gmap string Py.record) (leads : list row) :
  map_Forall (fun _ => enrichment_cells_are_text) records ->
  forall (written : list row) (c : counts) (res : list row * counts),
    merge_rows output_columns (Py.text_of <$> records) written c leads = Ok res ->
    merge_records output_columns records written c (List.map Py.record_of leads)
    = (fst res, Ok (snd res)).
Proof.
  intros Hrecords. induction leads as [|r leads IH]; intros written c res Hres;
    cbn [merge_rows merge_records List.map] in *.
  - injection Hres as <-. reflexivity.
  - rewrite (merge_record_text records c r Hrecords).
    destruct (merge_row (Py.text_of <$> records) c r) as [out c1]. cbn [fst snd].
    unfold Py.writerow in Hres.
    destruct (forallb _ (map_to_list out)) eqn:Hcols; [|discriminate].
    cbn [Py.bind] in Hres.
    rewrite (writerow_record_ok output_columns out written (csv_row_check _ _ Hcols)).
    apply IH, Hres.
Qed.

Lemma map_record_of_text_of (fieldnames : list string) (leads : list Py.record) :
  Forall (Py.well_formed_record fieldnames) leads ->
  leads = List.map Py.record_of (List.map Py.text_of leads)
  /\ Forall (Py.well_formed_row fieldnames) (List.map Py.text_of leads).
Proof.
  induction 1 as [|d leads Hd _ [IH1 IH2]]; cbn [List.map]; [split; [reflexivity|constructor]|].
  destruct (well_formed_record_text fieldnames d Hd) as [Hd1 Hd2]. split.
  - rewrite <- Hd1. f_equal. exact IH1.
  - constructor; assumption.
Qed.

(** C9, as the code has it.  On a leads file every line of which has as
    many cells as the header, and enrichment rows whose [lead_id], [email]
    and [phone] cells are strings or absent, the merge returns and has
    written one row per lead, in order.  A lead that is not in the lookup
    is written with its own columns, email and phone set to the empty
    string when it has no such column, and counts as unmatched; a lead that
    is in the lookup only takes over the non-empty email and phone of its
    enrichment row and counts as matched. *)
Theorem merge_keeps_every_lead_of_well_formed_files
    (lead_columns : list string) (leads enrichment_rows : list Py.record)
    (Hleads : Forall (Py.well_formed_record lead_columns) leads)
    (Henrichment : Forall enrichment_cells_are_text enrichment_rows) :
  exists written c,
    merge_enrichment_records lead_columns leads enrichment_rows = (written, Ok c)
    /\ length written = length leads
    /\ Forall2 (merged_as (lookup_of enrichment_rows)) (List.map Py.text_of leads) written
    /\ total_rows c = Z.of_nat (length leads)
    /\ unmatched c = misses (lookup_of enrichment_rows) (List.map Py.text_of leads)
    /\ matched c = hits (lookup_of enrichment_rows) (List.map Py.text_of leads)
    /\ matched c + unmatched c = Z.of_nat (length leads).
Proof.
  destruct (map_record_of_text_of lead_columns leads Hleads) as [Hrecords Hrows].
  destruct (load_enrichment_records_text enrichment_rows Henrichment)
    as (records & Hload & Hlookup & Htext).
  set (rows := List.map Py.text_of leads) in *.
  destruct (merge_rows_spec lead_columns (lookup_of enrichment_rows) rows [] no_counts
              (Forall_well_formed_csv_row _ _ Hrows))
    as (c & Hf & Ht & Hm & Hu).
  cbn [app total_rows matched unmatched no_counts] in Hf, Ht, Hm, Hu.
  assert (Hlen : length rows = length leads) by apply length_map.
  exists (List.map (merged_row (lookup_of enrichment_rows)) rows), c.
  split; [|split; [|split]].
  - unfold merge_enrichment_records. rewrite Hload, Hrecords. fold rows.
    rewrite <- Hlookup in Hf |- *.
    exact (merge_records_text _ records rows Htext [] _ _ Hf).
  - rewrite length_map. exact Hlen.
  - clear. induction rows as [|r rows IH]; cbn [List.map]; constructor;
      [apply merged_row_spec|exact IH].
  - pose proof (hits_plus_misses (lookup_of enrichment_rows) rows).
    rewrite <- Hlen. repeat split; lia.
Qed.

(** Two leads against an enrichment file that knows the first. *)
Lemma merge_keeps_every_lead_of_well_formed_files_witness :
  exists written c,
    merge_enrichment_records ["lead_id"; "full_name"]
      [Py.dict_reader_row ["lead_id"; "full_name"] ["k1"; "A"];
       Py.dict_reader_row ["lead_id"; "full_name"] ["k2"; "B"]]
      [Py.dict_reader_row ["lead_id"; "email"; "phone"] ["k1"; "a@x.org"; ""]]
    = (written, Ok c)
    /\ length written = 2%nat
    /\ matched c = 1
    /\ unmatched c = 1.
Proof.
  destruct (merge_keeps_every_lead_of_well_formed_files ["lead_id"; "full_name"]
              [Py.dict_reader_row ["lead_id"; "full_name"] ["k1"; "A"];
               Py.dict_reader_row ["lead_id"; "full_name"] ["k2"; "B"]]
              [Py.dict_reader_row ["lead_id"; "email"; "phone"] ["k1"; "a@x.org"; ""]])
    as (written & c & Hm & Hlen & _ & _ & Hun & Hma & _).
  - repeat (apply List.Forall_cons; [apply dict_reader_row_well_formed; reflexivity|]).
    apply List.Forall_nil.
  - apply List.Forall_cons; [|apply List.Forall_nil].
    unfold enrichment_cells_are_text, Py.text_cell. repeat split; vm_compute; discriminate.
  - exists written, c. split; [exact Hm|]. split; [exact Hlen|].
    rewrite Hun, Hma. vm_compute. split; reflexivity.
Defined.

(** A leads file of three lines whose second line has one cell too many:
    the first row is written, [writerow] raises [ValueError] on the second
    and the third is never read.  A line one cell short of a header that
    ends in [lead_id] raises [AttributeError] before anything is written. *)
Lemma ragged_line_ends_the_merge :
  length (Py.dict_reader ["lead_id"; "full_name"]
            [["k1"; "A"]; ["k2"; "B"; "extra"]; ["k3"; "C"]]) = 3%nat
  /\ length (fst (merge_enrichment_records ["lead_id"; "full_name"]
                    (Py.dict_reader ["lead_id"; "full_name"]
                       [["k1"; "A"]; ["k2"; "B"; "extra"]; ["k3"; "C"]]) [])) = 1%nat
  /\ snd (merge_enrichment_records ["lead_id"; "full_name"]
            (Py.dict_reader ["lead_id"; "full_name"]
               [["k1"; "A"]; ["k2"; "B"; "extra"]; ["k3"; "C"]]) [])
     = Raise Py.ValueError
  /\ merge_enrichment_records ["full_name"; "lead_id"]
       (Py.dict_reader ["full_name"; "lead_id"] [["A"]]) []
     = ([], Raise Py.AttributeError).
Proof. vm_compute. repeat split; reflexivity. Qed.

End MergeFacts.

(** ** The fixed-width extractor ([main.py]) *)

Module ExtractorFacts.
Import Main ExtractorSpec.

Section Extractor.

Variable float_of_str : string -> option float.
Variable exn_text : Py.exn -> string.

Lemma max_declared_end : py_max (declared_ends FIELD_SPECS) = Ok 1930.
Proof. reflexivity. Qed.

(** The length check over any table of field positions. *)
Lemma parse_line_with_too_short (specs : list (string * (Z * Z))) (max_end_pos : Z)
      (line : string) (line_number : Z) :
  py_max (declared_ends specs) = Ok max_end_pos ->
  Py.len line < max_end_pos ->
  parse_line_with float_of_str specs line line_number
  = Ok (∅, Some (too_short_message line_number max_end_pos (Py.len line))).
Proof.
  intros Hmax Hlen. unfold parse_line_with. unfold declared_ends in Hmax.
  rewrite Hmax. cbn [Py.bind].
  apply Z.ltb_lt in Hlen. rewrite Hlen. reflexivity.
Qed.

Lemma too_short_message_truthy (line_number max_end_pos got : Z) :
  Py.truthy (too_short_message line_number max_end_pos got) = true.
Proof. reflexivity. Qed.

(** What the loop does with a line whose content is too short. *)
Lemma process_line_too_short (st : streams) (line_number : Z) (raw : string) :
  Py.len (line_content raw) < 1930 ->
  let st' := process_line float_of_str exn_text st line_number raw in
  clean_rows st' = clean_rows st
  /\ clean_count st' = clean_count st
  /\ (Py.truthy (Py.strip raw) = true ->
      error_rows st'
      = error_rows st
          ++ [(line_number, line_content raw,
               too_short_message line_number 1930 (Py.len (line_content raw)))]
      /\ error_count st' = error_count st + 1)
  /\ (Py.truthy (Py.strip raw) = false -> st' = st).
Proof.
  intros Hlen. unfold process_line. fold (line_content raw).
  destruct (Py.truthy (Py.strip raw)); cbn [negb].
  - unfold parse_line.
    rewrite (parse_line_with_too_short FIELD_SPECS 1930 _ _ max_declared_end Hlen).
    cbv zeta. cbn [Py.bind]. rewrite too_short_message_truthy. cbn.
    repeat split; try reflexivity; intros; discriminate.
  - cbv zeta. repeat split; try reflexivity; intros; discriminate.
Qed.

Lemma process_lines_all_short (lines : list string) (st : streams) (line_number : Z) :
  Forall (fun raw => Py.len (line_content raw) < 1930) lines ->
  clean_rows (process_lines float_of_str exn_text st line_number lines) = clean_rows st
  /\ clean_count (process_lines float_of_str exn_text st line_number lines)
     = clean_count st.
Proof.
  revert st line_number. induction lines as [|raw lines IH]; intros st line_number Hall.
  - split; reflexivity.
  - apply Forall_cons in Hall as [Hraw Hrest]. cbn [process_lines].
    destruct (process_line_too_short st line_number raw Hraw) as (Hc & Hn & _).
    destruct (IH (process_line float_of_str exn_text st line_number raw)
                 (line_number + 1) Hrest) as [IHc IHn].
    rewrite IHc, IHn. split; [exact Hc|exact Hn].
Qed.

(** C8, as the code has it.  A line shorter than 1930 characters, the
    largest end position declared in FIELD_SPECS, gives no record and the
    message "Line N: Line too short (expected at least 1930 chars, got M)".
    The loop over the file never writes such a line to the clean output; it
    writes it to the error stream with that message, unless the line is
    blank, in which case it is skipped before it is parsed and written
    nowhere. *)
Theorem short_line_goes_to_error_stream (line : string) (line_number : Z)
    (Hshort : Py.len line < 1930) :
  py_max (declared_ends FIELD_SPECS) = Ok 1930
  /\ parse_line float_of_str line line_number
     = Ok (∅, Some ("Line " +:+ Py.str line_number
                      +:+ ": Line too short (expected at least " +:+ Py.str 1930
                      +:+ " chars, got " +:+ Py.str (Py.len line) +:+ ")"))
  /\ (forall (st : streams) (raw : string),
        line_content raw = line ->
        let st' := process_line float_of_str exn_text st line_number raw in
        clean_rows st' = clean_rows st
        /\ clean_count st' = clean_count st
        /\ (Py.truthy (Py.strip raw) = true ->
            error_rows st'
            = error_rows st
                ++ [(line_number, line,
                     "Line " +:+ Py.str line_number
                       +:+ ": Line too short (expected at least " +:+ Py.str 1930
                       +:+ " chars, got " +:+ Py.str (Py.len line) +:+ ")")]
            /\ error_count st' = error_count st + 1)
        /\ (Py.truthy (Py.strip raw) = false -> st' = st))
  /\ (forall lines : list string,
        Forall (fun raw => Py.len (line_content raw) < 1930) lines ->
        clean_rows (process_property_file float_of_str exn_text lines) = []
        /\ clean_count (process_property_file float_of_str exn_text lines) = 0).
Proof.
  split; [exact max_declared_end|]. split; [|split].
  - apply (parse_line_with_too_short FIELD_SPECS 1930 line line_number
             max_declared_end Hshort).
  - intros st raw <-. apply (process_line_too_short st line_number raw Hshort).
  - intros lines Hall.
    apply (process_lines_all_short lines (mk_streams [] [] 0 0) 1 Hall).
Qed.

End Extractor.

(** The third line of a file is "abc": rejected with the message for N = 3
    and M = 3. *)
Lemma short_line_goes_to_error_stream_witness :
  Main.parse_line (fun _ => None) "abc" 3
  = Ok (∅, Some "Line 3: Line too short (expected at least 1930 chars, got 3)").
Proof.
  apply (short_line_goes_to_error_stream (fun _ => None) (fun _ => EmptyString) "abc" 3).
  vm_compute. reflexivity.
Defined.

(** C8 as the specification words it fails: an empty line and a line of
    three blanks are shorter than 1930 characters, [parse_line] would reject
    them with the message, and the loop writes them to neither stream. *)
Lemma blank_short_line_is_skipped :
  Main.parse_line (fun _ => None) "   " 2
  = Ok (∅, Some "Line 2: Line too short (expected at least 1930 chars, got 3)")
  /\ Main.process_property_file (fun _ => None) (fun _ => EmptyString)
       [String "010" EmptyString; "   " +:+ String "010" EmptyString]
     = Main.mk_streams [] [] 0 0.
Proof. vm_compute. split; reflexivity. Qed.

End ExtractorFacts.

(** * Further properties of the scripts *)

(** ** More facts about the builtins *)

Section PyMoreFacts.

Lemma upper_char_idem (c : ascii) : Py.upper_char (Py.upper_char c) = Py.upper_char c.
Proof. destruct c as [[] [] [] [] [] [] [] []]; reflexivity. Qed.

Lemma isspace_upper_char (c : ascii) : Py.isspace (Py.upper_char c) = Py.isspace c.
Proof. destruct c as [[] [] [] [] [] [] [] []]; reflexivity. Qed.

Lemma upper_idem (s : string) : Py.upper (Py.upper s) = Py.upper s.
Proof. induction s as [|c s IH]; cbn; [reflexivity|]. now rewrite upper_char_idem, IH. Qed.

Lemma truthy_upper (s : string) : Py.truthy (Py.upper s) = Py.truthy s.
Proof. destruct s; reflexivity. Qed.

Lemma is_empty_upper (s : string) : Py.is_empty (Py.upper s) = Py.is_empty s.
Proof. destruct s; reflexivity. Qed.

(** The number of words of a text does not depend on the case of its
    letters. *)
Lemma split_go_upper_length (s cur cur' : string) :
  Py.is_empty cur = Py.is_empty cur' ->
  length (Py.split_go cur s) = length (Py.split_go cur' (Py.upper s)).
Proof.
  revert cur cur'. induction s as [|c s IH]; intros cur cur' Hcur; cbn.
  - rewrite <- Hcur. now destruct (Py.is_empty cur).
  - rewrite isspace_upper_char, <- Hcur.
    destruct (Py.isspace c); [destruct (Py.is_empty cur); cbn|]; auto.
Qed.

Lemma split_length_upper (a b : string) :
  Py.upper a = Py.upper b -> length (Py.split a) = length (Py.split b).
Proof.
  intros Hab. unfold Py.split.
  rewrite (split_go_upper_length a EmptyString EmptyString eq_refl).
  rewrite (split_go_upper_length b EmptyString EmptyString eq_refl).
  now rewrite Hab.
Qed.

Lemma truthy_of_upper_eq (a b : string) :
  Py.upper a = Py.upper b -> Py.truthy a = Py.truthy b.
Proof. intros Hab. now rewrite <- (truthy_upper a), <- (truthy_upper b), Hab. Qed.

End PyMoreFacts.

(** Tests between two string literals are decided by evaluation. *)
Ltac eval_string_tests :=
  repeat match goal with
         | |- context [String.eqb ?a ?b] =>
             let v := eval vm_compute in (String.eqb a b) in
             match v with
             | true => idtac
             | false => idtac
             end;
             progress change (String.eqb a b) with v
         end.

(** ** Role tables and the classification run ([scripts/classify_entity_roles.py]) *)

Module RoleTableFacts.
Import ClassifyEntityRoles EntityRoleSpec.

(** A role name is one of the eight roles of the tables or none of them. *)
Lemma role_name_cases (entity_role : string) :
  In entity_role ENTITY_ROLES
  \/ (get_role_score_modifier entity_role = Some 0
      /\ is_excluded_role entity_role = false
      /\ get_output_file_for_role entity_role = "note_broker_individual_priority.csv").
Proof.
  unfold ENTITY_ROLES.
  destruct (String.eqb_spec "INVESTOR_ENTITY" entity_role) as [<-|H1]; [left; cbn; tauto|].
  destruct (String.eqb_spec "TRUST_ENTITY" entity_role) as [<-|H2]; [left; cbn; tauto|].
  destruct (String.eqb_spec "INDIVIDUAL_PERSON" entity_role) as [<-|H3]; [left; cbn; tauto|].
  destruct (String.eqb_spec "LEGAL_ENTITY" entity_role) as [<-|H4]; [left; cbn; tauto|].
  destruct (String.eqb_spec "BANK_INSTITUTION" entity_role) as [<-|H5]; [left; cbn; tauto|].
  destruct (String.eqb_spec "GOVERNMENT_ENTITY" entity_role) as [<-|H6]; [left; cbn; tauto|].
  destruct (String.eqb_spec "UTILITY_OR_NONPROFIT" entity_role) as [<-|H7]; [left; cbn; tauto|].
  destruct (String.eqb_spec "UNKNOWN" entity_role) as [<-|H8]; [left; cbn; tauto|].
  right.
  apply String.eqb_neq in H1, H2, H3, H4, H5, H6, H7, H8.
  unfold get_role_score_modifier, is_excluded_role, get_output_file_for_role.
  cbn [List.find existsb fst snd].
  rewrite H1, H2, H3, H4, H5, H6, H7, H8.
  rewrite (String.eqb_sym entity_role "BANK_INSTITUTION"), H5.
  rewrite (String.eqb_sym entity_role "GOVERNMENT_ENTITY"), H6.
  rewrite (String.eqb_sym entity_role "UTILITY_OR_NONPROFIT"), H7.
  repeat split.
Qed.

(** Every role text is mapped to one of the four output files. *)
Lemma output_file_cases (entity_role : string) :
  In (get_output_file_for_role entity_role)
     ["note_broker_investor_priority.csv"; "note_broker_individual_priority.csv";
      "note_broker_legal_review.csv"; "note_broker_excluded_entities.csv"].
Proof.
  destruct (role_name_cases entity_role) as [Hin | (_ & _ & Hf)].
  - unfold ENTITY_ROLES in Hin. cbn [In] in Hin.
    destruct Hin as [<-|[<-|[<-|[<-|[<-|[<-|[<-|[<-|[]]]]]]]]]; vm_compute; tauto.
  - rewrite Hf. cbn [In]. tauto.
Qed.

(** X1.  The three tables of the module agree on what is excluded: a role is in
    the exclusion list exactly when its score modifier is the discard
    marker, and exactly when its rows go to the excluded-entities file; this
    holds for every text, also one that is no role at all. *)
Theorem excluded_roles_agree (entity_role : string) :
  (is_excluded_role entity_role = true <-> get_role_score_modifier entity_role = None)
  /\ (is_excluded_role entity_role = true
      <-> get_output_file_for_role entity_role = "note_broker_excluded_entities.csv")
  /\ (is_excluded_role entity_role = true
      <-> In entity_role ["BANK_INSTITUTION"; "GOVERNMENT_ENTITY"; "UTILITY_OR_NONPROFIT"]).
Proof.
  destruct (role_name_cases entity_role) as [Hin | (Hm & Hx & Hf)].
  - unfold ENTITY_ROLES in Hin. cbn [In] in Hin.
    destruct Hin as [<-|[<-|[<-|[<-|[<-|[<-|[<-|[<-|[]]]]]]]]]; vm_compute;
      repeat split; intros; try discriminate; try reflexivity; try tauto;
      repeat match goal with H : _ \/ _ |- _ => destruct H end;
      try discriminate; try contradiction.
  - rewrite Hx, Hm, Hf. repeat split; intros; try discriminate.
    cbn [In] in *.
    repeat match goal with H : _ \/ _ |- _ => destruct H end; try contradiction;
      subst; vm_compute in Hx; discriminate.
Qed.

(** X2.  The score written back for a row is always between 0 and 100, for every
    role text and every base score: an excluded role gives 0 (the marker -1
    of [apply_role_modifier] never reaches the file), and any other role
    adds a bonus between 0 and 20 and clamps, so it never lowers a base
    score that is itself between 0 and 100. *)
Theorem written_role_score_in_range (entity_role : string) (base_score : Z) :
  0 <= modified_score_for entity_role base_score <= 100
  /\ (is_excluded_role entity_role = true ->
      modified_score_for entity_role base_score = 0)
  /\ (is_excluded_role entity_role = false ->
      exists m, get_role_score_modifier entity_role = Some m
                /\ 0 <= m <= 20
                /\ modified_score_for entity_role base_score
                   = Z.min 100 (Z.max 0 (base_score + m))
                /\ (0 <= base_score <= 100 ->
                    base_score <= modified_score_for entity_role base_score)).
Proof.
  assert (Hshape :
    (is_excluded_role entity_role = true /\ get_role_score_modifier entity_role = None)
    \/ (is_excluded_role entity_role = false
        /\ exists m, get_role_score_modifier entity_role = Some m /\ 0 <= m <= 20)).
  { destruct (role_name_cases entity_role) as [Hin | (Hm & Hx & _)].
    - unfold ENTITY_ROLES in Hin. cbn [In] in Hin.
      destruct Hin as [<-|[<-|[<-|[<-|[<-|[<-|[<-|[<-|[]]]]]]]]];
        first [ left; split; reflexivity
              | right; split; [reflexivity|]; eexists; split; [reflexivity|]; lia ].
    - right. split; [exact Hx|]. exists 0. split; [exact Hm|lia]. }
  unfold modified_score_for, apply_role_modifier.
  destruct Hshape as [[Hx Hm] | [Hx (m & Hm & Hrange)]]; rewrite Hm, Hx.
  - cbn. repeat split; try lia; intros; try discriminate; reflexivity.
  - assert (Hne : (Z.min 100 (Z.max 0 (base_score + m)) =? -1) = false)
      by (apply Z.eqb_neq; lia).
    rewrite Hne.
    repeat split; try lia; intros; try discriminate.
    exists m. repeat split; try lia.
Qed.

Section Run.

Variable float_of_str : string -> option float.

Lemma classify_entity_role_returns (r : row) :
  exists role reason, classify_entity_role r = Ok (role, reason).
Proof.
  destruct (EntityRoleFacts.classify_entity_role_cases r)
    as [[_ H] | [_ [(_ & role & reason & H & _) | [(_ & _ & _ & H) | (_ & _ & H)]]]];
    eauto.
Qed.

Lemma get_absent_column (input_columns : list string) (r : row) (k : string) :
  Py.csv_row input_columns r -> ~ In k input_columns -> Py.get r k = EmptyString.
Proof.
  intros Hcsv Hno. unfold Py.get.
  destruct (r !! k) as [v|] eqn:Hk; [|reflexivity].
  exfalso. apply Hno, Hcsv. rewrite Hk. eauto.
Qed.

Lemma writerow_extra_column (fieldnames : list string) (d : row) (written : list row)
      (k : string) :
  is_Some (d !! k) -> ~ In k fieldnames ->
  Py.writerow fieldnames d written = Raise Py.ValueError.
Proof.
  intros [v Hk] Hno. unfold Py.writerow.
  destruct (forallb _ (map_to_list d)) eqn:Hall; [|reflexivity].
  exfalso. apply Hno.
  rewrite forallb_forall in Hall.
  specialize (Hall (k, v)).
  apply has_column_In. apply Hall.
  apply list_elem_of_In, elem_of_map_to_list. exact Hk.
Qed.

(** X3.  Error behaviour.  The classification run writes the column
    [engagement_score] into every row, but does not add it to the header of
    its output files: on an input file that has no such column, the first
    row already stops the run with the [ValueError] of [csv.DictWriter]. *)
Theorem missing_score_column_stops_the_run
    (input_columns : list string) (r : row) (rows : list row)
    (Hcsv : Py.csv_row input_columns r)
    (Hno : ~ In "engagement_score" input_columns) :
  process_row float_of_str input_columns r = Raise Py.ValueError
  /\ process_entity_classification float_of_str input_columns (r :: rows)
     = Raise Py.ValueError.
Proof.
  assert (Hget : Py.get r "engagement_score" = EmptyString)
    by (eapply get_absent_column; eauto).
  assert (Hparse : parse_engagement_score float_of_str r = Ok 0).
  { unfold parse_engagement_score. rewrite Hget. reflexivity. }
  assert (Hout : ~ In "engagement_score"
                   (input_columns ++ ["entity_role"; "role_score_modifier"; "role_reason"])).
  { rewrite in_app_iff. cbn [In]. intros [H|[H|[H|[H|[]]]]]; try discriminate. auto. }
  destruct (classify_entity_role_returns r) as (role & reason & Hrole).
  split.
  - unfold process_row. rewrite Hrole, Hparse. cbn [Py.bind].
    erewrite writerow_extra_column; [reflexivity| |exact Hout].
    rewrite lookup_insert_eq. eauto.
  - unfold process_entity_classification. cbn [process_entity_rows].
    unfold process_entity_row. rewrite Hrole, Hparse. cbn [Py.bind].
    set (enriched_row := <["engagement_score" := _]> _).
    assert (Hw : forall written,
               Py.writerow
                 (input_columns ++ ["entity_role"; "role_score_modifier"; "role_reason"])
                 enriched_row written
               = Raise Py.ValueError).
    { intros written. eapply writerow_extra_column; [|exact Hout].
      unfold enriched_row. rewrite lookup_insert_eq. eauto. }
    clearbody enriched_row.
    destruct (output_file_cases role) as [Hf|[Hf|[Hf|[Hf|[]]]]]; rewrite <- Hf;
      eval_string_tests; cbv iota; rewrite Hw; reflexivity.
Qed.

End Run.

(** A file with the columns [full_name] and [owner_type] only. *)
Lemma missing_score_column_stops_the_run_witness :
  process_row (fun _ => None) ["full_name"; "owner_type"]
              (<["owner_type" := "PERSON"]> {["full_name" := "John Smith"]})
  = Raise Py.ValueError
  /\ process_entity_classification (fun _ => None) ["full_name"; "owner_type"]
       [<["owner_type" := "PERSON"]> {["full_name" := "John Smith"]}]
     = Raise Py.ValueError.
Proof.
  apply (missing_score_column_stops_the_run (fun _ => None) ["full_name"; "owner_type"]).
  - apply csv_row_check. vm_compute. reflexivity.
  - cbn [In]. intros [H|[H|[]]]; discriminate.
Defined.

(** What the three tables say about a role text, in one statement. *)
Lemma role_tables (entity_role : string) :
  (is_excluded_role entity_role = true
   /\ get_role_score_modifier entity_role = None
   /\ get_output_file_for_role entity_role = "note_broker_excluded_entities.csv")
  \/ (is_excluded_role entity_role = false
      /\ (exists m, get_role_score_modifier entity_role = Some m /\ 0 <= m <= 20)
      /\ In (get_output_file_for_role entity_role)
            ["note_broker_investor_priority.csv"; "note_broker_individual_priority.csv";
             "note_broker_legal_review.csv"]).
Proof.
  destruct (role_name_cases entity_role) as [Hin | (Hm & Hx & Hf)].
  - unfold ENTITY_ROLES in Hin. cbn [In] in Hin.
    destruct Hin as [<-|[<-|[<-|[<-|[<-|[<-|[<-|[<-|[]]]]]]]]];
      first [ left; repeat split; reflexivity
            | right; split; [reflexivity|]; split;
              [eexists; split; [reflexivity|lia] | vm_compute; tauto] ].
  - right. rewrite Hx, Hm, Hf. split; [reflexivity|]. split.
    + exists 0. split; [reflexivity|lia].
    + cbn [In]. tauto.
Qed.

(** X4.  Letter case plays no part in the role of an entity: two rows whose
    entity names and owner types agree once uppercased get the same role
    and the same reason. *)
Theorem entity_role_ignores_letter_case (r r' : row)
    (Hname : Py.upper (get_entity_name r) = Py.upper (get_entity_name r'))
    (Htype : Py.upper (Py.get r "owner_type") = Py.upper (Py.get r' "owner_type")) :
  classify_entity_role r = classify_entity_role r'.
Proof.
  unfold classify_entity_role, contains_keyword, matched_keywords.
  rewrite (truthy_of_upper_eq _ _ Hname), Hname, Htype, (split_length_upper _ _ Hname).
  reflexivity.
Qed.

Lemma entity_role_ignores_letter_case_witness :
  classify_entity_role (<["owner_type" := "person"]> {["full_name" := "  maria lopez "]})
  = classify_entity_role (<["owner_type" := "PERSON"]> {["full_name" := "Maria LOPEZ"]})
  /\ classify_entity_role (<["owner_type" := "PERSON"]> {["full_name" := "Maria LOPEZ"]})
     = Ok ("INDIVIDUAL_PERSON", "owner_type=PERSON, no entity keywords").
Proof.
  split.
  - apply entity_role_ignores_letter_case; reflexivity.
  - reflexivity.
Defined.

Section Files.

Variable float_of_str : string -> option float.

Import EntityRunSpec.

(** The row written for an input row of a file that has the score column. *)
Lemma process_row_returns (input_columns : list string) (r : row) :
  Py.csv_row input_columns r ->
  In "engagement_score" input_columns ->
  score_readable float_of_str r ->
  exists entity_role role_reason base_score enriched_row,
    classify_entity_role r = Ok (entity_role, role_reason)
    /\ parse_engagement_score float_of_str r = Ok base_score
    /\ process_row float_of_str input_columns r
       = Ok (get_output_file_for_role entity_role, enriched_row)
    /\ enriched_row
       = <["engagement_score" := Py.str (modified_score_for entity_role base_score)]>
           (<["role_reason" := role_reason]>
              (<["role_score_modifier" :=
                   match get_role_score_modifier entity_role with
                   | Some m => Py.str m
                   | None => "EXCLUDED"
                   end]>
                 (<["entity_role" := entity_role]> r)))
    /\ Py.csv_row (output_columns_of input_columns) enriched_row.
Proof.
  intros Hcsv Hscore [base_score Hparse].
  destruct (classify_entity_role_returns r) as (entity_role & role_reason & Hrole).
  exists entity_role, role_reason, base_score.
  eexists. split; [exact Hrole|]. split; [exact Hparse|].
  assert (Hrow : Py.csv_row (output_columns_of input_columns)
                   (<["engagement_score" := Py.str (modified_score_for entity_role base_score)]>
                      (<["role_reason" := role_reason]>
                         (<["role_score_modifier" :=
                              match get_role_score_modifier entity_role with
                              | Some m => Py.str m
                              | None => "EXCLUDED"
                              end]>
                            (<["entity_role" := entity_role]> r))))).
  { unfold output_columns_of.
    repeat apply csv_row_insert;
      try (apply in_or_app; first [left; exact Hscore | right; cbn [In]; tauto]).
    eapply csv_row_weaken; [|exact Hcsv]. intros k Hk. apply in_or_app. now left. }
  split; [|split; [reflexivity|exact Hrow]].
  unfold process_row. rewrite Hrole, Hparse. cbn [Py.bind].
  fold (output_columns_of input_columns).
  rewrite (writerow_ok _ _ [] Hrow). reflexivity.
Qed.

Lemma counted_step (out : role_outputs) (entity_role role : string) (m : gmap string Z) :
  m = <[entity_role := default 0 (role_counts out !! entity_role) + 1]> (role_counts out) ->
  default 0 (m !! role)
  = counted out role + (if String.eqb entity_role role then 1 else 0).
Proof.
  intros ->. unfold counted.
  destruct (String.eqb_spec entity_role role) as [->|Hne].
  - rewrite lookup_insert_eq. reflexivity.
  - rewrite lookup_insert_ne by exact Hne. lia.
Qed.

Lemma rows_of_file_single (input_columns : list string) (r : row)
      (entity_role role_reason : string) (enriched_row : row) (f : string) :
  classify_entity_role r = Ok (entity_role, role_reason) ->
  process_row float_of_str input_columns r
  = Ok (get_output_file_for_role entity_role, enriched_row) ->
  rows_of_file float_of_str input_columns f [r]
  = if String.eqb (get_output_file_for_role entity_role) f then [enriched_row] else [].
Proof.
  intros Hrole Hrow. unfold rows_of_file, file_of, role_of, row_classified.
  cbn [List.filter]. rewrite Hrole.
  destruct (String.eqb _ f); cbn [List.map]; [rewrite Hrow|]; reflexivity.
Qed.

Lemma rows_of_file_cons (input_columns : list string) (f : string) (r : row)
      (rows : list row) :
  rows_of_file float_of_str input_columns f (r :: rows)
  = rows_of_file float_of_str input_columns f [r]
      ++ rows_of_file float_of_str input_columns f rows.
Proof.
  unfold rows_of_file. cbn [List.filter].
  destruct (String.eqb (file_of r) f); reflexivity.
Qed.

Lemma rows_with_role_cons (role : string) (r : row) (rows : list row) :
  rows_with_role role (r :: rows)
  = (if String.eqb (role_of r) role then 1 else 0) + rows_with_role role rows.
Proof.
  unfold rows_with_role. cbn [List.filter].
  destruct (String.eqb (role_of r) role); cbn [length]; lia.
Qed.

(** One row of the run: it is appended to the file of its role, and its
    role is counted. *)
Lemma process_entity_row_routes (input_columns : list string) (out : role_outputs)
      (r : row) :
  Py.csv_row input_columns r ->
  In "engagement_score" input_columns ->
  score_readable float_of_str r ->
  exists out',
    process_entity_row float_of_str (output_columns_of input_columns) out r = Ok out'
    /\ investor_rows out'
       = investor_rows out
           ++ rows_of_file float_of_str input_columns "note_broker_investor_priority.csv" [r]
    /\ individual_rows out'
       = individual_rows out
           ++ rows_of_file float_of_str input_columns "note_broker_individual_priority.csv" [r]
    /\ legal_rows out'
       = legal_rows out
           ++ rows_of_file float_of_str input_columns "note_broker_legal_review.csv" [r]
    /\ excluded_rows out'
       = excluded_rows out
           ++ rows_of_file float_of_str input_columns "note_broker_excluded_entities.csv" [r]
    /\ (forall role, counted out' role
                     = counted out role + (if String.eqb (role_of r) role then 1 else 0)).
Proof.
  intros Hcsv Hscore Hread.
  destruct (process_row_returns input_columns r Hcsv Hscore Hread)
    as (entity_role & role_reason & base_score & enriched_row
        & Hrole & Hparse & Hrow & Henriched & Hcols).
  pose proof (rows_of_file_single input_columns r entity_role role_reason enriched_row)
    as Hsingle.
  assert (Hrole_of : role_of r = entity_role) by (unfold role_of; now rewrite Hrole).
  unfold process_entity_row. rewrite Hrole, Hparse. cbn [Py.bind].
  change (if apply_role_modifier base_score (get_role_score_modifier entity_role) =? -1
          then 0
          else apply_role_modifier base_score (get_role_score_modifier entity_role))
    with (modified_score_for entity_role base_score).
  rewrite <- Henriched.
  rewrite !(Hsingle _ Hrole Hrow), Hrole_of.
  set (m := <[entity_role := _]> (role_counts out)).
  assert (Hm : forall role,
             default 0 (m !! role)
             = counted out role + (if String.eqb entity_role role then 1 else 0))
    by (intros role; now apply counted_step).
  clearbody m.
  destruct (output_file_cases entity_role) as [Hf|[Hf|[Hf|[Hf|[]]]]]; rewrite <- Hf;
    eval_string_tests; cbv iota;
    rewrite (writerow_ok _ _ _ Hcols); cbn [Py.bind];
    eexists; (split; [reflexivity|]); cbn [investor_rows individual_rows legal_rows
                                           excluded_rows];
    rewrite ?app_nil_r; repeat split; try reflexivity; exact Hm.
Qed.

Lemma process_entity_rows_routes (input_columns : list string) (rows : list row)
      (out : role_outputs) :
  Forall (Py.csv_row input_columns) rows ->
  In "engagement_score" input_columns ->
  Forall (score_readable float_of_str) rows ->
  exists out',
    process_entity_rows float_of_str (output_columns_of input_columns) out rows = Ok out'
    /\ investor_rows out'
       = investor_rows out
           ++ rows_of_file float_of_str input_columns "note_broker_investor_priority.csv" rows
    /\ individual_rows out'
       = individual_rows out
           ++ rows_of_file float_of_str input_columns "note_broker_individual_priority.csv"
                rows
    /\ legal_rows out'
       = legal_rows out
           ++ rows_of_file float_of_str input_columns "note_broker_legal_review.csv" rows
    /\ excluded_rows out'
       = excluded_rows out
           ++ rows_of_file float_of_str input_columns "note_broker_excluded_entities.csv" rows
    /\ (forall role, counted out' role = counted out role + rows_with_role role rows).
Proof.
  intros Hcsv Hscore Hread. revert out.
  induction rows as [|r rows IH]; intros out.
  - exists out. cbn [process_entity_rows]. unfold rows_of_file, rows_with_role.
    cbn [List.filter List.map length]. rewrite !app_nil_r.
    repeat split; try reflexivity. intros role. cbn. lia.
  - apply List.Forall_cons_iff in Hcsv as [Hr Hcsv].
    apply List.Forall_cons_iff in Hread as [Hrr Hread].
    destruct (process_entity_row_routes input_columns out r Hr Hscore Hrr)
      as (out1 & Hstep & H1 & H2 & H3 & H4 & H5).
    destruct (IH Hcsv Hread out1) as (out2 & Hrest & G1 & G2 & G3 & G4 & G5).
    exists out2. cbn [process_entity_rows]. rewrite Hstep. cbn [Py.bind].
    split; [exact Hrest|].
    rewrite G1, G2, G3, G4, H1, H2, H3, H4.
    rewrite !(rows_of_file_cons input_columns _ r rows), <- !app_assoc.
    repeat split; try reflexivity.
    intros role. rewrite G5, H5, rows_with_role_cons. lia.
Qed.

Lemma rows_of_files_length (input_columns : list string) (rows : list row) :
  (length (rows_of_file float_of_str input_columns "note_broker_investor_priority.csv" rows)
   + length (rows_of_file float_of_str input_columns "note_broker_individual_priority.csv"
               rows)
   + length (rows_of_file float_of_str input_columns "note_broker_legal_review.csv" rows)
   + length (rows_of_file float_of_str input_columns "note_broker_excluded_entities.csv"
               rows))%nat
  = length rows.
Proof.
  induction rows as [|r rows IH]; [reflexivity|].
  rewrite !(rows_of_file_cons input_columns _ r rows), !length_app.
  cbn [length]. rewrite <- IH.
  unfold rows_of_file at 1 3 5 7. cbn [List.filter]. unfold file_of.
  destruct (output_file_cases (role_of r)) as [Hf|[Hf|[Hf|[Hf|[]]]]]; rewrite <- Hf;
    eval_string_tests; cbn [List.map length]; lia.
Qed.

(** The rows of the excluded-entities file carry the score 0. *)
Lemma excluded_rows_score_zero (input_columns : list string) (rows : list row) :
  Forall (Py.csv_row input_columns) rows ->
  In "engagement_score" input_columns ->
  Forall (score_readable float_of_str) rows ->
  Forall (fun w : row => w !! "engagement_score" = Some "0"
                         /\ w !! "role_score_modifier" = Some "EXCLUDED")
         (rows_of_file float_of_str input_columns "note_broker_excluded_entities.csv" rows).
Proof.
  intros Hcsv Hscore Hread.
  induction rows as [|r rows IH]; [constructor|].
  apply List.Forall_cons_iff in Hcsv as [Hr Hcsv].
  apply List.Forall_cons_iff in Hread as [Hrr Hread].
  rewrite rows_of_file_cons. apply Forall_app. split; [|now apply IH].
  destruct (process_row_returns input_columns r Hr Hscore Hrr)
    as (entity_role & role_reason & base_score & enriched_row
        & Hrole & Hparse & Hrow & Henriched & Hcols).
  rewrite (rows_of_file_single input_columns r entity_role role_reason enriched_row _
             Hrole Hrow).
  destruct (String.eqb_spec (get_output_file_for_role entity_role)
                            "note_broker_excluded_entities.csv") as [Hf|Hf];
    [|constructor].
  apply List.Forall_cons; [|constructor].
  destruct (role_tables entity_role) as [(Hx & Hm & _) | (_ & _ & Hin)].
  - subst enriched_row. rewrite lookup_insert_eq.
    rewrite lookup_insert_ne by discriminate.
    rewrite lookup_insert_ne by discriminate.
    rewrite lookup_insert_eq, Hm.
    unfold modified_score_for, apply_role_modifier. rewrite Hm. split; reflexivity.
  - exfalso. rewrite Hf in Hin. cbn [In] in Hin.
    destruct Hin as [H|[H|[H|[]]]]; discriminate.
Qed.

(** X5.  The classification run as a whole, on an input file every line of
    which has as many cells as the header, that has the score column and
    whose scores can be read: it returns; each of the four files
    holds the rows whose role is mapped to it, in input order; the four
    files together hold as many rows as the input; the counter of every
    role is the number of input rows with that role; and every row of the
    excluded-entities file carries the score 0 and the modifier
    EXCLUDED. *)
Theorem every_row_reaches_one_role_file
    (input_columns : list string) (rows : list row)
    (Hfull : Forall (Py.well_formed_row input_columns) rows)
    (Hscore : In "engagement_score" input_columns)
    (Hread : Forall (score_readable float_of_str) rows) :
  exists out,
    process_entity_classification float_of_str input_columns rows = Ok out
    /\ investor_rows out
       = rows_of_file float_of_str input_columns "note_broker_investor_priority.csv" rows
    /\ individual_rows out
       = rows_of_file float_of_str input_columns "note_broker_individual_priority.csv" rows
    /\ legal_rows out
       = rows_of_file float_of_str input_columns "note_broker_legal_review.csv" rows
    /\ excluded_rows out
       = rows_of_file float_of_str input_columns "note_broker_excluded_entities.csv" rows
    /\ (length (investor_rows out) + length (individual_rows out)
        + length (legal_rows out) + length (excluded_rows out))%nat = length rows
    /\ (forall role, counted out role = rows_with_role role rows)
    /\ Forall (fun w : row => w !! "engagement_score" = Some "0"
                              /\ w !! "role_score_modifier" = Some "EXCLUDED")
              (excluded_rows out).
Proof.
  destruct (process_entity_rows_routes input_columns rows (mk_role_outputs [] [] [] [] ∅)
              (Forall_well_formed_csv_row _ _ Hfull) Hscore Hread)
    as (out & Hrun & H1 & H2 & H3 & H4 & H5).
  cbn [investor_rows individual_rows legal_rows excluded_rows app] in H1, H2, H3, H4.
  exists out. split; [exact Hrun|].
  rewrite H1, H2, H3, H4.
  repeat split; try reflexivity.
  - apply rows_of_files_length.
  - intros role. rewrite H5. unfold counted. cbn [role_counts].
    rewrite lookup_empty. cbn. lia.
  - apply excluded_rows_score_zero;
      [exact (Forall_well_formed_csv_row _ _ Hfull)|exact Hscore|exact Hread].
Qed.

End Files.

(** A bank, a trust and a person in one file. *)
Lemma every_row_reaches_one_role_file_witness :
  exists out,
    process_entity_classification (fun _ => None) ["full_name"; "engagement_score"]
      [<["engagement_score" := "70"]> {["full_name" := "FIRST BANK"]};
       <["engagement_score" := "70"]> {["full_name" := "SMITH FAMILY TRUST"]};
       <["engagement_score" := "70"]> {["full_name" := "John Smith"]}] = Ok out
    /\ (length (investor_rows out) + length (individual_rows out)
        + length (legal_rows out) + length (excluded_rows out))%nat = 3%nat
    /\ EntityRunSpec.counted out "BANK_INSTITUTION" = 1.
Proof.
  destruct (every_row_reaches_one_role_file (fun _ => None)
              ["full_name"; "engagement_score"]
              [<["engagement_score" := "70"]> {["full_name" := "FIRST BANK"]};
               <["engagement_score" := "70"]> {["full_name" := "SMITH FAMILY TRUST"]};
               <["engagement_score" := "70"]> {["full_name" := "John Smith"]}])
    as (out & Hrun & _ & _ & _ & _ & Hlen & Hcount & _).
  - repeat apply List.Forall_cons; try apply List.Forall_nil;
      apply well_formed_row_check; vm_compute; reflexivity.
  - cbn [In]. tauto.
  - repeat apply List.Forall_cons; try apply List.Forall_nil;
      exists 0; vm_compute; reflexivity.
  - exists out. split; [exact Hrun|]. split; [exact Hlen|].
    rewrite Hcount. vm_compute. reflexivity.
Defined.

End RoleTableFacts.

(** ** Words and trimmed text *)

Section WordFacts.

Import WordSpec.

Lemma append_nil_l (s : string) : EmptyString +:+ s = s.
Proof. reflexivity. Qed.

Lemma append_cons (c : ascii) (a b : string) : String c a +:+ b = String c (a +:+ b).
Proof. reflexivity. Qed.

Lemma rstrip_by_ends_well (p : ascii -> bool) (s : string) :
  ends_well p s = true -> Py.rstrip_by p s = s.
Proof.
  induction s as [|c s IH]; [reflexivity|]. cbn [ends_well Py.rstrip_by].
  destruct s as [|d s'].
  - cbn. intros H. apply negb_true_iff in H. now rewrite H.
  - cbn [Py.is_empty]. intros H. rewrite (IH H). reflexivity.
Qed.

Lemma ends_well_app (p : ascii -> bool) (a b : string) :
  Py.is_empty b = false -> ends_well p b = true -> ends_well p (a +:+ b) = true.
Proof.
  intros Hb Hend. induction a as [|c a IH]; [exact Hend|].
  change (String c a +:+ b) with (String c (a +:+ b)). cbn [ends_well].
  destruct (a +:+ b) eqn:Hab; [|exact IH].
  destruct a; [rewrite append_nil_l in Hab; subst b; discriminate|discriminate].
Qed.

Lemma no_space_ends_well (s : string) : no_space s = true -> ends_well Py.isspace s = true.
Proof.
  induction s as [|c s IH]; [reflexivity|]. cbn [no_space ends_well].
  intros H. apply andb_true_iff in H as [Hc Hs].
  destruct (Py.is_empty s); auto.
Qed.

Lemma no_space_app (a b : string) :
  no_space (a +:+ b) = no_space a && no_space b.
Proof.
  induction a as [|c a IH]; [reflexivity|].
  change (String c a +:+ b) with (String c (a +:+ b)). cbn [no_space].
  now rewrite IH, andb_assoc.
Qed.

Lemma no_space_rev_app (s acc : string) :
  no_space (String.rev_app s acc) = no_space s && no_space acc.
Proof.
  revert acc. induction s as [|c s IH]; intros acc; [reflexivity|].
  cbn [String.rev_app no_space]. rewrite IH. cbn [no_space].
  destruct (Py.isspace c), (no_space s), (no_space acc); reflexivity.
Qed.

Lemma no_space_rev (s : string) : no_space (String.rev s) = no_space s.
Proof. unfold String.rev. rewrite no_space_rev_app. cbn. apply andb_true_r. Qed.

Lemma is_empty_app (a b : string) :
  Py.is_empty (a +:+ b) = Py.is_empty a && Py.is_empty b.
Proof. destruct a; reflexivity. Qed.

Lemma is_empty_rev_app (s acc : string) :
  Py.is_empty (String.rev_app s acc) = Py.is_empty s && Py.is_empty acc.
Proof.
  revert acc. induction s as [|c s IH]; intros acc; [reflexivity|].
  cbn [String.rev_app]. rewrite IH. cbn. apply andb_false_r.
Qed.

Lemma is_empty_rev (s : string) : Py.is_empty (String.rev s) = Py.is_empty s.
Proof. unfold String.rev. rewrite is_empty_rev_app. cbn. apply andb_true_r. Qed.

(** [s.split()] returns words. *)
Lemma split_go_words (s cur : string) :
  no_space cur = true -> Forall is_word (Py.split_go cur s).
Proof.
  revert cur. induction s as [|c s IH]; intros cur Hcur; cbn [Py.split_go].
  - destruct (Py.is_empty cur) eqn:He; [constructor|].
    apply List.Forall_cons; [|constructor].
    split; [now rewrite is_empty_rev | now rewrite no_space_rev].
  - destruct (Py.isspace c) eqn:Hc.
    + destruct (Py.is_empty cur) eqn:He; [now apply IH|].
      apply List.Forall_cons; [|now apply IH].
      split; [now rewrite is_empty_rev | now rewrite no_space_rev].
    + apply IH. cbn [no_space]. now rewrite Hc, Hcur.
Qed.

Lemma split_words (s : string) : Forall is_word (Py.split s).
Proof. apply split_go_words. reflexivity. Qed.

Lemma strip_fixed (s : string) :
  starts_well s = true -> ends_well Py.isspace s = true -> Py.strip s = s.
Proof.
  intros Hs He. unfold Py.strip.
  assert (Hl : Py.lstrip_by Py.isspace s = s).
  { destruct s as [|c s]; [reflexivity|]. cbn in Hs. cbn [Py.lstrip_by].
    apply negb_true_iff in Hs. now rewrite Hs. }
  rewrite Hl. now apply rstrip_by_ends_well.
Qed.

Lemma word_starts_well (s : string) : is_word s -> starts_well s = true.
Proof.
  intros [_ Hs]. destruct s as [|c s]; [reflexivity|]. cbn in *.
  now apply andb_true_iff in Hs as [Hc _].
Qed.

Lemma strip_word (s : string) : is_word s -> Py.strip s = s.
Proof.
  intros Hw. apply strip_fixed; [now apply word_starts_well|].
  apply no_space_ends_well, Hw.
Qed.

Lemma join_words_shape (l : list string) (w : string) :
  Forall is_word (w :: l) ->
  Py.is_empty (Py.join " " (w :: l)) = false
  /\ starts_well (Py.join " " (w :: l)) = true
  /\ ends_well Py.isspace (Py.join " " (w :: l)) = true.
Proof.
  revert w. induction l as [|x l IH]; intros w Hall.
  - apply List.Forall_cons_iff in Hall as [Hw _]. cbn [Py.join].
    split; [apply Hw|]. split; [now apply word_starts_well|].
    apply no_space_ends_well, Hw.
  - apply List.Forall_cons_iff in Hall as [Hw Hall].
    destruct (IH x Hall) as (Hne & _ & Hend).
    change (Py.join " " (w :: x :: l)) with (w +:+ " " +:+ Py.join " " (x :: l)).
    split; [|split].
    + rewrite is_empty_app. destruct Hw as [-> _]. reflexivity.
    + pose proof (word_starts_well w Hw) as Hs. destruct Hw as [Hwe _].
      destruct w; [discriminate|exact Hs].
    + apply ends_well_app.
      * reflexivity.
      * apply (ends_well_app Py.isspace " " _ Hne Hend).
Qed.

Lemma strip_join_words (l : list string) :
  Forall is_word l -> Py.strip (Py.join " " l) = Py.join " " l.
Proof.
  destruct l as [|w l]; [reflexivity|]. intros Hall.
  destruct (join_words_shape l w Hall) as (_ & Hs & He). now apply strip_fixed.
Qed.

(** [find_char] splits the text at the first occurrence of the character. *)
Lemma find_char_spec (sep : ascii) (s before after : string) :
  Py.find_char sep s = Some (before, after) ->
  s = before +:+ String sep after
  /\ Py.contains (String sep EmptyString) before = false.
Proof.
  revert before after. induction s as [|c s IH]; intros before after; cbn [Py.find_char].
  - discriminate.
  - destruct (Ascii.eqb_spec c sep) as [->|Hne].
    + intros [= <- <-]. split; reflexivity.
    + destruct (Py.find_char sep s) as [[b a]|]; [|discriminate].
      intros [= <- <-]. destruct (IH b a eq_refl) as [-> Hb]. split; [reflexivity|].
      cbn [Py.contains Py.startswith].
      rewrite Hb. destruct (Ascii.eqb_spec sep c) as [->|_]; [contradiction|reflexivity].
Qed.

Lemma find_char_app (sep : ascii) (before after : string) :
  Py.contains (String sep EmptyString) before = false ->
  Py.find_char sep (before +:+ String sep after) = Some (before, after).
Proof.
  induction before as [|c before IH]; intros Hno.
  - rewrite append_nil_l. cbn [Py.find_char]. now rewrite Ascii.eqb_refl.
  - change (String c before +:+ String sep after)
      with (String c (before +:+ String sep after)).
    cbn [Py.find_char]. cbn [Py.contains Py.startswith] in Hno.
    apply orb_false_iff in Hno as [Hc Hrest].
    destruct (Ascii.eqb_spec c sep) as [->|_].
    + rewrite Ascii.eqb_refl in Hc.
      destruct before; cbn in Hc; discriminate.
    + now rewrite (IH Hrest).
Qed.

Lemma contains_char_app (sep : ascii) (before after : string) :
  Py.contains (String sep EmptyString) (before +:+ String sep after) = true.
Proof.
  induction before as [|c before IH].
  - rewrite append_nil_l. cbn [Py.contains Py.startswith]. now rewrite Ascii.eqb_refl.
  - change (String c before +:+ String sep after)
      with (String c (before +:+ String sep after)).
    cbn [Py.contains]. rewrite IH. apply orb_true_r.
Qed.

Lemma find_char_none (sep : ascii) (s : string) :
  Py.find_char sep s = None -> Py.contains (String sep EmptyString) s = false.
Proof.
  induction s as [|c s IH]; [reflexivity|]. cbn [Py.find_char].
  destruct (Ascii.eqb_spec c sep) as [->|Hne]; [discriminate|].
  destruct (Py.find_char sep s) as [[b a]|]; [discriminate|]. intros _.
  cbn [Py.contains Py.startswith]. rewrite (IH eq_refl).
  destruct (Ascii.eqb_spec sep c) as [->|_]; [contradiction|reflexivity].
Qed.

Lemma strip_empty_is_empty (s : string) :
  Py.truthy (Py.strip s) = true -> Py.truthy s = true.
Proof. destruct s; [discriminate|reflexivity]. Qed.

End WordFacts.

(** ** Names ([parse_name] of [scripts/filter_notes.py]) *)

Module NameFacts.
Import FilterNotes WordSpec.

Lemma strip_starts_with_text (s : string) :
  Py.strip s = EmptyString
  \/ exists c rest, Py.strip s = String c rest /\ Py.isspace c = false.
Proof.
  unfold Py.strip.
  destruct (lstrip_by_head Py.isspace s) as [->|(c & s' & -> & Hc)]; [now left|].
  right. cbn [Py.rstrip_by]. rewrite Hc, andb_false_r. eauto.
Qed.

Lemma split_go_started (s cur : string) :
  Py.is_empty cur = false -> Py.split_go cur s <> [].
Proof.
  revert cur. induction s as [|c s IH]; intros cur Hcur; cbn [Py.split_go].
  - now rewrite Hcur.
  - destruct (Py.isspace c); [now rewrite Hcur|]. now apply IH.
Qed.

Lemma split_of_text (s : string) :
  Py.truthy (Py.strip s) = true -> Py.split (Py.strip s) <> [].
Proof.
  intros Ht. destruct (strip_starts_with_text s) as [He|(c & rest & He & Hc)];
    rewrite He in *; [discriminate|].
  unfold Py.split. cbn [Py.split_go]. rewrite Hc. now apply split_go_started.
Qed.

(** The value of [parse_name] on text that is not blank, with the two ways
    of reading it side by side. *)
Lemma parse_name_unfold (full_name : string) :
  Py.truthy (Py.strip full_name) = true ->
  parse_name full_name
  = if Py.contains "," (Py.strip full_name)
    then match Py.find_char "," (Py.strip full_name) with
         | Some (last, first) => (Py.strip first, Py.strip last)
         | None => (EmptyString, Py.strip (Py.strip full_name))
         end
    else match Py.split (Py.strip full_name) with
         | first :: second :: rest => (first, Py.join " " (second :: rest))
         | [only] => (EmptyString, only)
         | [] => (EmptyString, EmptyString)
         end.
Proof.
  intros Ht. unfold parse_name.
  rewrite Ht, (strip_empty_is_empty _ Ht). cbn [negb orb].
  destruct (Py.contains "," (Py.strip full_name)); [|reflexivity].
  unfold Py.split1.
  destruct (Py.find_char "," (Py.strip full_name)) as [[last first]|]; reflexivity.
Qed.

(** X6.  "LAST, FIRST": text with a comma is cut at its first comma, the part
    before it is the last name and the part after it the first name, both
    trimmed. *)
Theorem parse_name_reads_last_comma_first (full_name last first : string)
    (Hname : Py.strip full_name = last +:+ "," +:+ first)
    (Hlast : Py.contains "," last = false) :
  parse_name full_name = (Py.strip first, Py.strip last).
Proof.
  assert (Ht : Py.truthy (Py.strip full_name) = true).
  { rewrite Hname. destruct last; reflexivity. }
  rewrite (parse_name_unfold _ Ht), Hname.
  change (last +:+ "," +:+ first) with (last +:+ String "," first).
  rewrite contains_char_app, (find_char_app "," last first Hlast). reflexivity.
Qed.

Lemma parse_name_reads_last_comma_first_witness :
  parse_name "  SMITH,  JOHN A. " = ("JOHN A.", "SMITH")
  /\ parse_name "SMITH," = (EmptyString, "SMITH")
  /\ parse_name "DOE, JANE, TRUSTEE" = ("JANE, TRUSTEE", "DOE").
Proof.
  split; [|split].
  - apply (parse_name_reads_last_comma_first "  SMITH,  JOHN A. " "SMITH" "  JOHN A.");
      reflexivity.
  - apply (parse_name_reads_last_comma_first "SMITH," "SMITH" EmptyString); reflexivity.
  - apply (parse_name_reads_last_comma_first "DOE, JANE, TRUSTEE" "DOE" " JANE, TRUSTEE");
      reflexivity.
Defined.

(** X7.  Both parts of a parsed name are trimmed, whatever the text.  Blank
    text gives two empty parts.  Text without a comma is read by words: the
    first word is the first name and the other words, joined by single
    spaces, are the last name; a single word is a last name, with an empty
    first name. *)
Theorem parse_name_parts_are_trimmed (full_name : string) :
  trimmed (fst (parse_name full_name))
  /\ trimmed (snd (parse_name full_name))
  /\ (Py.truthy (Py.strip full_name) = false ->
      parse_name full_name = (EmptyString, EmptyString))
  /\ (Py.truthy (Py.strip full_name) = true ->
      Py.contains "," (Py.strip full_name) = false ->
      exists word words,
        Py.split (Py.strip full_name) = word :: words
        /\ parse_name full_name
           = match words with
             | [] => (EmptyString, word)
             | _ :: _ => (word, Py.join " " words)
             end).
Proof.
  destruct (Py.truthy (Py.strip full_name)) eqn:Ht.
  - rewrite (parse_name_unfold _ Ht).
    destruct (Py.contains "," (Py.strip full_name)) eqn:Hc.
    + destruct (Py.find_char "," (Py.strip full_name)) as [[last first]|] eqn:Hf.
      * cbn [fst snd]. unfold trimmed. rewrite !strip_idem.
        repeat split; intros; discriminate.
      * apply find_char_none in Hf. rewrite Hf in Hc. discriminate.
    + pose proof (split_words (Py.strip full_name)) as Hwords.
      pose proof (split_of_text _ Ht) as Hne.
      destruct (Py.split (Py.strip full_name)) as [|word [|second rest]] eqn:Hs;
        [contradiction| |].
      * apply List.Forall_cons_iff in Hwords as [Hw _]. cbn [fst snd]. unfold trimmed.
        split; [reflexivity|]. split; [now apply strip_word|].
        split; [intros; discriminate|]. intros _ _. exists word, []. split; reflexivity.
      * apply List.Forall_cons_iff in Hwords as [Hw Hrest]. cbn [fst snd]. unfold trimmed.
        split; [now apply strip_word|]. split; [now apply strip_join_words|].
        split; [intros; discriminate|]. intros _ _. eexists word, _. split; reflexivity.
  - assert (Hp : parse_name full_name = (EmptyString, EmptyString)).
    { unfold parse_name. rewrite Ht. now rewrite orb_true_r. }
    rewrite Hp. cbn [fst snd]. unfold trimmed.
    repeat split; intros; try reflexivity; discriminate.
Qed.

End NameFacts.

(** ** The recorder run ([classify_row], [process_recorder_file]) *)

Module RecorderFacts.
Import FilterNotes LeadSpec RecorderSpec.

Section Recorder.

Variable float_of_str : string -> option float.
Variable datetime : Type.
Variable strptime : string -> string -> option datetime.
Variable days_since : datetime -> Z.
Variable format_1f format_comma_0f format_float format_2f : float -> string.
Variable sha1_hexdigest : string -> string.

Local Abbreviation classification_of :=
  (classification_of float_of_str datetime strptime days_since
                     format_1f format_comma_0f format_float).
Local Abbreviation loan_amount_of := (loan_amount_of float_of_str).
Local Abbreviation recording_age_of := (recording_age_of datetime strptime days_since).

(** One combination of test results: both sides are read off. *)
Ltac lead_case :=
  cbn [fst In]; split; [tauto|];
  split;
  [ let H := fresh in
    intros H; first [ discriminate H | repeat split; eauto ]
  | let H := fresh in
    intros H; decompose record H; first [ reflexivity | congruence ] ].

(** The tests of [classify_row], read off in the order it makes them. *)
Lemma classify_row_cases (r column_mapping : row) :
  In (classification_of column_mapping r) ["LEAD"; "REVIEW"; "DISCARD"]
  /\ (classification_of column_mapping r = "LEAD"
      <-> is_bank_lender (lender_name_of r column_mapping) = false
          /\ Py.truthy (lender_name_of r column_mapping) = true
          /\ is_discard_doc_type (doc_type_of r column_mapping) = false
          /\ (exists amt,
                 loan_amount_of r column_mapping = Some amt
                 /\ PrimFloat.leb amt 0 = false
                 /\ PrimFloat.leb (Py.float_of_int MAX_LOAN_AMOUNT) amt = false)
          /\ (exists age,
                 recording_age_of r column_mapping = Some age
                 /\ PrimFloat.ltb age (Py.float_of_int MIN_AGE_YEARS) = false
                 /\ PrimFloat.ltb (Py.float_of_int MAX_AGE_YEARS) age = false)).
Proof.
  unfold RecorderSpec.classification_of, classify_row, lender_name_of, doc_type_of,
    RecorderSpec.loan_amount_of, RecorderSpec.recording_age_of, field_of.
  set (lender := Py.strip match column_mapping !! "lender_name" with
                          | Some csv_col => Py.get r csv_col
                          | None => EmptyString
                          end).
  set (doc := Py.strip match column_mapping !! "doc_type" with
                       | Some csv_col => Py.get r csv_col
                       | None => EmptyString
                       end).
  set (amount := parse_amount float_of_str _).
  set (recording_age := get_recording_age_years datetime days_since _).
  clearbody lender doc amount recording_age.
  destruct (is_bank_lender lender) eqn:Hbank; [lead_case|].
  destruct (is_discard_doc_type doc) eqn:Hdoc; [lead_case|].
  destruct amount as [amt|]; destruct (Py.truthy lender) eqn:Hlender;
    destruct (Py.truthy doc) eqn:Htdoc; destruct recording_age as [age|];
    cbn [negb andb];
    try rewrite (bool_decide_eq_false_2 (Some amt = None)) by discriminate;
    try rewrite (bool_decide_eq_true_2 (None = None)) by reflexivity;
    cbn [negb andb];
    repeat match goal with
           | |- context [if ?b then _ else _] => destruct b eqn:?
           end;
    lead_case.
Qed.

(** X8.  The classification is one of three; a row is a lead exactly when it
    passes every test of [classify_row]: the lender is named and is no bank,
    the document type is not a release, the loan amount is read, is above 0
    and below the maximum, and the recording date is read and gives an age
    that is neither below the minimum nor above the maximum. *)
Theorem lead_passes_every_test (r column_mapping : row) :
  In (classification_of column_mapping r) ["LEAD"; "REVIEW"; "DISCARD"]
  /\ (classification_of column_mapping r = "LEAD"
      <-> is_bank_lender (lender_name_of r column_mapping) = false
          /\ Py.truthy (lender_name_of r column_mapping) = true
          /\ is_discard_doc_type (doc_type_of r column_mapping) = false
          /\ (exists amt,
                 loan_amount_of r column_mapping = Some amt
                 /\ PrimFloat.leb amt 0 = false
                 /\ PrimFloat.leb (Py.float_of_int MAX_LOAN_AMOUNT) amt = false)
          /\ (exists age,
                 recording_age_of r column_mapping = Some age
                 /\ PrimFloat.ltb age (Py.float_of_int MIN_AGE_YEARS) = false
                 /\ PrimFloat.ltb (Py.float_of_int MAX_AGE_YEARS) age = false)).
Proof. exact (classify_row_cases r column_mapping). Qed.

Local Abbreviation email_row_of :=
  (email_row_of float_of_str datetime strptime days_since format_2f sha1_hexdigest).
Local Abbreviation mail_row_of :=
  (mail_row_of float_of_str datetime strptime days_since format_2f sha1_hexdigest).
Local Abbreviation reason_of :=
  (reason_of float_of_str datetime strptime days_since
             format_1f format_comma_0f format_float).
Local Abbreviation with_reason :=
  (with_reason float_of_str datetime strptime days_since
               format_1f format_comma_0f format_float).
Local Abbreviation rows_classified :=
  (rows_classified float_of_str datetime strptime days_since
                   format_1f format_comma_0f format_float).

(** A dictionary literal has the keys it lists. *)
Lemma list_to_map_csv_row (l : list (string * string)) (fieldnames : list string) :
  (forall k, In k (List.map fst l) -> In k fieldnames) ->
  Py.csv_row fieldnames (list_to_map l).
Proof.
  intros Hkeys k [v Hk]. apply Hkeys.
  apply elem_of_list_to_map_2 in Hk. apply list_elem_of_In in Hk.
  apply in_map_iff. exists (k, v). split; [reflexivity|exact Hk].
Qed.

Lemma list_to_map_lookup (l : list (string * string)) (k v : string) :
  NoDup (List.map fst l) -> In (k, v) l -> (list_to_map l : row) !! k = Some v.
Proof.
  intros Hnd Hin. apply elem_of_list_to_map_1.
  - exact Hnd.
  - apply list_elem_of_In. exact Hin.
Qed.

Lemma email_columns_NoDup : NoDup email_columns.
Proof. apply (bool_decide_unpack _). vm_compute. exact I. Qed.

(** The columns of an email-ready row that the facts below look at. *)
Lemma email_row_fields (r column_mapping : row) (tcad_row : option row)
      (source_file : string) :
  let email_row :=
    build_email_ready_row float_of_str datetime strptime days_since format_2f
                          sha1_hexdigest r column_mapping tcad_row source_file in
  let lender_name := lender_name_of r column_mapping in
  Py.csv_row email_columns email_row
  /\ email_row !! "email" = Some EmptyString
  /\ email_row !! "full_name" = Some (Py.strip lender_name)
  /\ email_row !! "owner_type" = Some (detect_owner_type lender_name)
  /\ email_row !! "company_name"
     = Some (extract_company_name lender_name (detect_owner_type lender_name))
  /\ email_row !! "lead_score"
     = Some (Py.str (fst (calculate_lead_score
                            (detect_owner_type lender_name)
                            (loan_amount_of r column_mapping)
                            (doc_type_of r column_mapping)
                            (recording_age_of r column_mapping)
                            (is_seller_finance_doc (doc_type_of r column_mapping)))))
  /\ email_row !! "first_name" = Some (fst (parse_name lender_name))
  /\ email_row !! "last_name" = Some (snd (parse_name lender_name)).
Proof.
  unfold build_email_ready_row, lender_name_of, doc_type_of,
    RecorderSpec.loan_amount_of, RecorderSpec.recording_age_of, field_of.
  cbv zeta.
  destruct (parse_name _) as [first_name last_name].
  destruct (calculate_lead_score _ _ _ _ _) as [lead_score why_flagged].
  match goal with
  | |- context [if negb (Py.truthy ?a) then ?x else ?y] =>
      destruct (if negb (Py.truthy a) then x else y)
        as [[[property_address_1 property_city] property_state] property_zip]
  end.
  cbn [fst snd].
  split.
  { apply list_to_map_csv_row. cbn [List.map fst]. intros k Hk. exact Hk. }
  repeat split;
    (apply list_to_map_lookup;
     [ cbn [List.map fst]; exact email_columns_NoDup
     | cbn [In]; tauto ]).
Qed.

Lemma mail_row_csv_row (email_row : row) (tcad_row : option row) :
  Py.csv_row email_columns email_row ->
  Py.csv_row mail_columns (build_mail_ready_row email_row tcad_row).
Proof.
  intros Hcsv. unfold build_mail_ready_row, mail_columns.
  repeat apply csv_row_insert; try (apply in_or_app; right; cbn [In]; tauto).
  eapply csv_row_weaken; [|exact Hcsv]. intros k Hk. apply in_or_app. now left.
Qed.

Lemma with_reason_csv_row (original_columns : list string) (r : row) (reason : string) :
  Py.csv_row original_columns r ->
  Py.csv_row (original_columns ++ ["classification_reason"])
             (<["classification_reason" := reason]> r).
Proof.
  intros Hcsv. apply csv_row_insert.
  - apply in_or_app. right. cbn [In]. tauto.
  - eapply csv_row_weaken; [|exact Hcsv]. intros k Hk. apply in_or_app. now left.
Qed.

(** The owner type detected for a name is one of five, and it is BANK only
    for a bank name. *)
Lemma detect_owner_type_cases (name : string) :
  In (detect_owner_type name) ["UNKNOWN"; "BANK"; "TRUST"; "LLC"; "PERSON"]
  /\ (is_bank_lender name = false -> detect_owner_type name <> "BANK").
Proof.
  unfold detect_owner_type.
  repeat match goal with
         | |- context [if ?b then _ else _] => destruct b eqn:?
         end;
    (split; [cbn [In]; tauto | intros; try discriminate]).
Qed.

Lemma rows_classified_cons (classification : string) (column_mapping r : row)
      (rows : list row) :
  rows_classified classification column_mapping (r :: rows)
  = rows_classified classification column_mapping [r]
      ++ rows_classified classification column_mapping rows.
Proof.
  unfold RecorderSpec.rows_classified. cbn [List.filter].
  now destruct (String.eqb _ classification).
Qed.

(** One row of the recorder run: it is appended to the files of its
    classification, and counted there. *)
Lemma process_recorder_row_files (original_columns : list string) (column_mapping : row)
      (tcad_lookup : gmap string row) (source_file : string)
      (out : recorder_outputs) (r : row) :
  Py.csv_row original_columns r ->
  exists out',
    process_recorder_row float_of_str datetime strptime days_since
                         format_1f format_comma_0f format_float format_2f sha1_hexdigest
                         original_columns column_mapping tcad_lookup source_file out r
    = Ok out'
    /\ email_rows out'
       = email_rows out
           ++ List.map (email_row_of column_mapping tcad_lookup source_file)
                       (rows_classified "LEAD" column_mapping [r])
    /\ mail_rows out'
       = mail_rows out
           ++ List.map (mail_row_of column_mapping tcad_lookup source_file)
                       (rows_classified "LEAD" column_mapping [r])
    /\ review_rows out'
       = review_rows out
           ++ List.map (with_reason column_mapping)
                       (rows_classified "REVIEW" column_mapping [r])
    /\ discard_rows out'
       = discard_rows out
           ++ List.map (with_reason column_mapping)
                       (rows_classified "DISCARD" column_mapping [r])
    /\ leads out' - leads out
       = Z.of_nat (length (rows_classified "LEAD" column_mapping [r]))
    /\ review out' - review out
       = Z.of_nat (length (rows_classified "REVIEW" column_mapping [r]))
    /\ discarded out' - discarded out
       = Z.of_nat (length (rows_classified "DISCARD" column_mapping [r])).
Proof.
  intros Hcsv.
  destruct (classify_row_cases r column_mapping) as [Hclass _].
  unfold process_recorder_row, RecorderSpec.rows_classified,
    RecorderSpec.email_row_of, RecorderSpec.mail_row_of, RecorderSpec.with_reason,
    RecorderSpec.reason_of, tcad_row_of.
  unfold RecorderSpec.classification_of in *.
  cbn [List.filter].
  destruct (classify_row _ _ _ _ _ _ _ r column_mapping) as [classification reason] eqn:Hrow.
  cbn [fst snd] in *.
  set (tcad_row := if Py.truthy (Py.get column_mapping "apn")
                      && Py.has_key r (Py.get column_mapping "apn")
                   then tcad_lookup !! Py.strip (Py.get r (Py.get column_mapping "apn"))
                   else None).
  pose proof (email_row_fields r column_mapping tcad_row source_file) as Hemail.
  cbv zeta in Hemail. destruct Hemail as [Hemail _].
  pose proof (mail_row_csv_row _ tcad_row Hemail) as Hmail.
  pose proof (with_reason_csv_row original_columns r reason Hcsv) as Hreason.
  cbn [In] in Hclass. destruct Hclass as [<-|[<-|[<-|[]]]]; eval_string_tests; cbv iota.
  - rewrite (writerow_ok _ _ _ Hemail). cbn [Py.bind].
    rewrite (writerow_ok _ _ _ Hmail). cbn [Py.bind].
    eexists. split; [reflexivity|].
    cbn [email_rows mail_rows review_rows discard_rows leads review discarded
         List.map length].
    rewrite !app_nil_r. repeat split; try reflexivity; clear; lia.
  - rewrite (writerow_ok _ _ _ Hreason). cbn [Py.bind].
    eexists. split; [reflexivity|].
    cbn [email_rows mail_rows review_rows discard_rows leads review discarded
         List.map length].
    rewrite !app_nil_r, ?Hrow. cbn [snd]. repeat split; try reflexivity; clear; lia.
  - rewrite (writerow_ok _ _ _ Hreason). cbn [Py.bind].
    eexists. split; [reflexivity|].
    cbn [email_rows mail_rows review_rows discard_rows leads review discarded
         List.map length].
    rewrite !app_nil_r, ?Hrow. cbn [snd]. repeat split; try reflexivity; clear; lia.
Qed.

Lemma process_recorder_rows_files (original_columns : list string) (column_mapping : row)
      (tcad_lookup : gmap string row) (source_file : string)
      (rows : list row) (out : recorder_outputs) :
  Forall (Py.csv_row original_columns) rows ->
  exists out',
    process_recorder_rows float_of_str datetime strptime days_since
                          format_1f format_comma_0f format_float format_2f sha1_hexdigest
                          original_columns column_mapping tcad_lookup source_file out rows
    = Ok out'
    /\ email_rows out'
       = email_rows out
           ++ List.map (email_row_of column_mapping tcad_lookup source_file)
                       (rows_classified "LEAD" column_mapping rows)
    /\ mail_rows out'
       = mail_rows out
           ++ List.map (mail_row_of column_mapping tcad_lookup source_file)
                       (rows_classified "LEAD" column_mapping rows)
    /\ review_rows out'
       = review_rows out
           ++ List.map (with_reason column_mapping)
                       (rows_classified "REVIEW" column_mapping rows)
    /\ discard_rows out'
       = discard_rows out
           ++ List.map (with_reason column_mapping)
                       (rows_classified "DISCARD" column_mapping rows)
    /\ leads out' - leads out
       = Z.of_nat (length (rows_classified "LEAD" column_mapping rows))
    /\ review out' - review out
       = Z.of_nat (length (rows_classified "REVIEW" column_mapping rows))
    /\ discarded out' - discarded out
       = Z.of_nat (length (rows_classified "DISCARD" column_mapping rows)).
Proof.
  intros Hcsv. revert out. induction rows as [|r rows IH]; intros out.
  - exists out. cbn [process_recorder_rows]. unfold RecorderSpec.rows_classified.
    cbn [List.filter List.map length]. rewrite !app_nil_r.
    repeat split; try reflexivity; lia.
  - apply List.Forall_cons_iff in Hcsv as [Hr Hcsv].
    destruct (process_recorder_row_files original_columns column_mapping tcad_lookup
                source_file out r Hr)
      as (out1 & Hstep & H1 & H2 & H3 & H4 & H5 & H6 & H7).
    destruct (IH Hcsv out1) as (out2 & Hrest & G1 & G2 & G3 & G4 & G5 & G6 & G7).
    exists out2. cbn [process_recorder_rows]. rewrite Hstep. cbn [Py.bind].
    split; [exact Hrest|].
    rewrite G1, G2, G3, G4, H1, H2, H3, H4.
    rewrite !(rows_classified_cons _ column_mapping r rows), !List.map_app, !length_app,
      <- !app_assoc.
    repeat split; try reflexivity; lia.
Qed.

Lemma rows_classified_lengths (column_mapping : row) (rows : list row) :
  (length (rows_classified "LEAD" column_mapping rows)
   + length (rows_classified "REVIEW" column_mapping rows)
   + length (rows_classified "DISCARD" column_mapping rows))%nat
  = length rows.
Proof.
  induction rows as [|r rows IH]; [reflexivity|].
  rewrite !(rows_classified_cons _ column_mapping r rows), !length_app.
  cbn [length]. rewrite <- IH.
  unfold RecorderSpec.rows_classified at 1 3 5. cbn [List.filter].
  destruct (classify_row_cases r column_mapping) as [Hclass _].
  cbn [In] in Hclass. destruct Hclass as [<-|[<-|[<-|[]]]];
    eval_string_tests; cbn [length]; lia.
Qed.

(** X9.  The recorder run as a whole, on a recorder file and a TCAD file
    every line of which has as many cells as the header of its file, and on
    any mapping: it returns; every lead is written to the email-ready and to the
    mail-ready file, every row for review to the review queue with its
    reason, every other row to the discard file with its reason, all in
    input order; the counters are the lengths of the files, and they add up
    to the number of input rows. *)
Theorem every_recorder_row_is_filed
    (original_columns : list string) (rows : list row) (column_mapping : row)
    (tcad_rows : list row) (source_file : string) (tcad_columns : list string)
    (Hfull : Forall (Py.well_formed_row original_columns) rows)
    (Htcad : Forall (Py.well_formed_row tcad_columns) tcad_rows) :
  exists out,
    process_recorder_file float_of_str datetime strptime days_since
                          format_1f format_comma_0f format_float format_2f sha1_hexdigest
                          original_columns rows column_mapping tcad_rows source_file
    = Ok out
    /\ email_rows out
       = List.map (email_row_of column_mapping (load_tcad_lookup tcad_rows) source_file)
                  (rows_classified "LEAD" column_mapping rows)
    /\ mail_rows out
       = List.map (mail_row_of column_mapping (load_tcad_lookup tcad_rows) source_file)
                  (rows_classified "LEAD" column_mapping rows)
    /\ review_rows out
       = List.map (with_reason column_mapping) (rows_classified "REVIEW" column_mapping rows)
    /\ discard_rows out
       = List.map (with_reason column_mapping)
                  (rows_classified "DISCARD" column_mapping rows)
    /\ leads out = Z.of_nat (length (email_rows out))
    /\ leads out = Z.of_nat (length (mail_rows out))
    /\ review out = Z.of_nat (length (review_rows out))
    /\ discarded out = Z.of_nat (length (discard_rows out))
    /\ leads out + review out + discarded out = Z.of_nat (length rows).
Proof.
  destruct (process_recorder_rows_files original_columns column_mapping
              (load_tcad_lookup tcad_rows) source_file rows
              (mk_recorder_outputs [] [] [] [] 0 0 0)
              (Forall_well_formed_csv_row _ _ Hfull))
    as (out & Hrun & H1 & H2 & H3 & H4 & H5 & H6 & H7).
  cbn [email_rows mail_rows review_rows discard_rows leads review discarded app]
    in H1, H2, H3, H4, H5, H6, H7.
  exists out. split; [exact Hrun|].
  rewrite H1, H2, H3, H4, !length_map.
  pose proof (rows_classified_lengths column_mapping rows) as Hlen.
  repeat split; try reflexivity; lia.
Qed.

(** X10.  What the outreach files say about a lead: its owner type is one of
    PERSON, LLC, TRUST and UNKNOWN, never BANK; the email column is left
    empty; the full name is the trimmed lender name, which is not empty; the
    lead score is between 0 and 100; and the name line of the mail-ready
    row is that same lender name, whether or not a company name was set. *)
Theorem lead_rows_name_a_private_lender
    (r column_mapping : row) (tcad_lookup : gmap string row) (source_file : string)
    (Hlead : classification_of column_mapping r = "LEAD") :
  let email_row := email_row_of column_mapping tcad_lookup source_file r in
  let mail_row := mail_row_of column_mapping tcad_lookup source_file r in
  Py.csv_row email_columns email_row
  /\ Py.csv_row mail_columns mail_row
  /\ (exists owner_type,
         email_row !! "owner_type" = Some owner_type
         /\ In owner_type PRIVATE_OWNER_TYPES)
  /\ email_row !! "email" = Some EmptyString
  /\ email_row !! "full_name" = Some (lender_name_of r column_mapping)
  /\ Py.truthy (lender_name_of r column_mapping) = true
  /\ (exists lead_score,
         email_row !! "lead_score" = Some (Py.str lead_score) /\ 0 <= lead_score <= 100)
  /\ mail_row !! "owner_mailing_name_line" = Some (lender_name_of r column_mapping)
  /\ (forall k, In k email_columns -> mail_row !! k = email_row !! k).
Proof.
  destruct (classify_row_cases r column_mapping) as [_ Hiff].
  apply Hiff in Hlead as (Hbank & Hname & _).
  cbv zeta. unfold RecorderSpec.mail_row_of, RecorderSpec.email_row_of.
  set (tcad_row := tcad_row_of column_mapping tcad_lookup r).
  pose proof (email_row_fields r column_mapping tcad_row source_file) as Hemail.
  cbv zeta in Hemail.
  destruct Hemail as (Hcsv & Hemail & Hfull & Htype & Hcompany & Hscore & _).
  set (email_row := build_email_ready_row _ _ _ _ _ _ r column_mapping tcad_row source_file)
    in *.
  assert (Hstrip : Py.strip (lender_name_of r column_mapping) = lender_name_of r column_mapping)
    by (unfold lender_name_of; apply strip_idem).
  rewrite Hstrip in Hfull.
  split; [exact Hcsv|]. split; [now apply mail_row_csv_row|].
  split.
  { eexists. split; [exact Htype|].
    destruct (detect_owner_type_cases (lender_name_of r column_mapping)) as [Hin Hnot].
    specialize (Hnot Hbank). unfold PRIVATE_OWNER_TYPES. cbn [In] in *.
    destruct Hin as [H|[H|[H|[H|[H|[]]]]]]; try tauto. symmetry in H. contradiction. }
  split; [exact Hemail|]. split; [exact Hfull|]. split; [exact Hname|].
  split.
  { eexists. split; [exact Hscore|]. apply ScoreFacts.calculate_lead_score_bounds. }
  split.
  - unfold build_mail_ready_row.
    rewrite lookup_insert_ne by discriminate.
    rewrite lookup_insert_ne by discriminate.
    rewrite lookup_insert_eq.
    unfold Py.get. rewrite Hcompany, Hfull. cbn [default].
    unfold extract_company_name.
    destruct (negb (String.eqb _ "LLC")); [reflexivity|].
    unfold id. rewrite Hstrip, Hname. reflexivity.
  - intros k Hk. unfold build_mail_ready_row.
    repeat (rewrite lookup_insert_ne;
            [|intros <-; revert Hk; apply (bool_decide_unpack _); vm_compute; exact I]).
    reflexivity.
Qed.

End Recorder.

(** A private lender with a loan of 150,000 recorded ten years ago, and a
    bank: one lead and one discard. *)
Lemma every_recorder_row_is_filed_witness :
  exists out,
    process_recorder_file (fun _ => Some 150000%float) unit (fun _ _ => Some tt)
                          (fun _ => 3653)
                          (fun _ => EmptyString) (fun _ => EmptyString)
                          (fun _ => EmptyString) (fun _ => EmptyString) (fun s => s)
                          ["Amount"; "Date"; "Lender"]
                          [sample_loan "John Smith"; sample_loan "WELLS FARGO BANK, N.A."]
                          sample_mapping [] "recorder.csv"
    = Ok out
    /\ leads out = 1
    /\ review out = 0
    /\ discarded out = 1.
Proof.
  destruct (every_recorder_row_is_filed
              (fun _ => Some 150000%float) unit (fun _ _ => Some tt) (fun _ => 3653)
              (fun _ => EmptyString) (fun _ => EmptyString)
              (fun _ => EmptyString) (fun _ => EmptyString) (fun s => s)
              ["Amount"; "Date"; "Lender"]
              [sample_loan "John Smith"; sample_loan "WELLS FARGO BANK, N.A."]
              sample_mapping [] "recorder.csv" [])
    as (out & Hrun & He & _ & Hr & Hd & Hl & _ & Hrv & Hdis & _).
  - repeat (apply List.Forall_cons;
            [apply well_formed_row_check; vm_compute; reflexivity|]).
    apply List.Forall_nil.
  - apply List.Forall_nil.
  - exists out. split; [exact Hrun|].
    rewrite Hl, Hrv, Hdis, He, Hr, Hd, !length_map.
    repeat split; vm_compute; reflexivity.
Defined.

(** The private lender of the file above. *)
Lemma lead_rows_name_a_private_lender_witness :
  RecorderSpec.classification_of
    (fun _ => Some 150000%float) unit (fun _ _ => Some tt) (fun _ => 3653)
    (fun _ => EmptyString) (fun _ => EmptyString) (fun _ => EmptyString)
    sample_mapping (sample_loan "John Smith")
  = "LEAD"
  /\ email_row_of (fun _ => Some 150000%float) unit (fun _ _ => Some tt) (fun _ => 3653)
                  (fun _ => EmptyString) (fun s => s)
                  sample_mapping ∅ "recorder.csv" (sample_loan "John Smith")
     !! "full_name" = Some "John Smith"
  /\ mail_row_of (fun _ => Some 150000%float) unit (fun _ _ => Some tt) (fun _ => 3653)
                 (fun _ => EmptyString) (fun s => s)
                 sample_mapping ∅ "recorder.csv" (sample_loan "John Smith")
     !! "owner_mailing_name_line" = Some "John Smith".
Proof.
  assert (Hlead : RecorderSpec.classification_of
                    (fun _ => Some 150000%float) unit (fun _ _ => Some tt) (fun _ => 3653)
                    (fun _ => EmptyString) (fun _ => EmptyString) (fun _ => EmptyString)
                    sample_mapping (sample_loan "John Smith")
                  = "LEAD") by (vm_compute; reflexivity).
  split; [exact Hlead|].
  pose proof (lead_rows_name_a_private_lender
                (fun _ => Some 150000%float) unit (fun _ _ => Some tt) (fun _ => 3653)
                (fun _ => EmptyString) (fun _ => EmptyString) (fun _ => EmptyString)
                (fun _ => EmptyString) (fun s => s) _ _ ∅ "recorder.csv" Hlead) as H.
  cbv zeta in H. destruct H as (_ & _ & _ & _ & Hfull & _ & _ & Hmail & _).
  split; [exact Hfull|exact Hmail].
Defined.

End RecorderFacts.

(** ** Fields and records ([extract_field], [parse_line], [process_property_file]) *)

Module RecordFacts.
Import Main ExtractorSpec RecordSpec WordSpec.

Lemma length_substring (n m : nat) (s : string) :
  (String.length (String.substring n m s) <= m)%nat.
Proof.
  revert n m. induction s as [|c s IH]; intros n m.
  - destruct n, m; cbn; lia.
  - destruct n as [|n].
    + destruct m as [|m]; cbn; [lia|]. specialize (IH 0%nat m). lia.
    + cbn. apply IH.
Qed.

Lemma length_lstrip_by (p : ascii -> bool) (s : string) :
  (String.length (Py.lstrip_by p s) <= String.length s)%nat.
Proof.
  induction s as [|c s IH]; cbn; [lia|]. destruct (p c); cbn; lia.
Qed.

Lemma length_rstrip_by (p : ascii -> bool) (s : string) :
  (String.length (Py.rstrip_by p s) <= String.length s)%nat.
Proof.
  induction s as [|c s IH]; cbn; [lia|].
  destruct (Py.is_empty (Py.rstrip_by p s) && p c); cbn; lia.
Qed.

Lemma len_strip (s : string) : Py.len (Py.strip s) <= Py.len s.
Proof.
  unfold Py.len, Py.strip.
  pose proof (length_rstrip_by Py.isspace (Py.lstrip_by Py.isspace s)).
  pose proof (length_lstrip_by Py.isspace s). lia.
Qed.

Lemma len_slice (s : string) (a b : Z) :
  0 <= a -> 0 <= b -> Py.len (Py.slice s a b) <= Z.max 0 (b - a).
Proof.
  intros Ha Hb. unfold Py.slice, Py.slice_bound. cbv zeta.
  destruct (Z.ltb_spec a 0); [lia|]. destruct (Z.ltb_spec b 0); [lia|].
  unfold Py.len at 1.
  pose proof (length_substring (Z.to_nat (Z.min a (Py.len s)))
                (Z.to_nat (Z.min b (Py.len s) - Z.min a (Py.len s))) s).
  lia.
Qed.

Lemma slice_empty (a b : Z) : Py.slice EmptyString a b = EmptyString.
Proof.
  unfold Py.slice, Py.slice_bound. cbv zeta. change (Py.len EmptyString) with 0.
  destruct (Z.to_nat _), (Z.to_nat _); reflexivity.
Qed.

(** A slice depends on its bounds through the positions they stand for. *)
Lemma slice_bounds (s : string) (a b a' b' : Z) :
  Py.slice_bound (Py.len s) a = Py.slice_bound (Py.len s) a' ->
  Py.slice_bound (Py.len s) b = Py.slice_bound (Py.len s) b' ->
  Py.slice s a b = Py.slice s a' b'.
Proof. unfold Py.slice. cbv zeta. now intros -> ->. Qed.

(** X11.  A field is trimmed text.  For a start position of at least 1 and
    an end position that is not negative it has at most as many characters
    as the positions from [start_pos] to [end_pos]; a line that ends before
    the start position gives the empty field, and a line that ends before
    the end position gives what it has.  Positions outside this range are
    taken as the slice takes them: an end position below 0, and a start
    position below 1, count from the end of the line. *)
Theorem extract_field_is_trimmed_and_bounded (line : string) (start_pos end_pos : Z) :
  trimmed (extract_field line start_pos end_pos)
  /\ (1 <= start_pos -> 0 <= end_pos ->
      Py.len (extract_field line start_pos end_pos) <= Z.max 0 (end_pos - start_pos + 1))
  /\ (Py.len line < start_pos -> extract_field line start_pos end_pos = EmptyString)
  /\ (Py.len line < end_pos ->
      extract_field line start_pos end_pos = extract_field line start_pos (Py.len line))
  /\ (end_pos < 0 ->
      extract_field line start_pos end_pos
      = extract_field line start_pos (Z.max 0 (Py.len line + end_pos)))
  /\ (start_pos < 1 ->
      extract_field line start_pos end_pos
      = extract_field line (Z.max 0 (Py.len line + start_pos - 1) + 1) end_pos).
Proof.
  assert (Hlen : 0 <= Py.len line) by (unfold Py.len; lia).
  unfold extract_field, trimmed. cbv zeta.
  split; [|split; [|split; [|split; [|split]]]].
  - destruct (Py.len line <=? start_pos - 1); [reflexivity|apply strip_idem].
  - intros Hstart Hend.
    destruct (Py.len line <=? start_pos - 1); [change (Py.len EmptyString) with 0; lia|].
    etransitivity; [apply len_strip|].
    etransitivity; [apply len_slice; [lia|]|];
      destruct (Z.ltb_spec (Py.len line) end_pos); lia.
  - intros Hshort. destruct (Z.leb_spec (Py.len line) (start_pos - 1)); [reflexivity|lia].
  - intros Hshort. apply Z.ltb_lt in Hshort. rewrite Hshort, Z.ltb_irrefl. reflexivity.
  - intros Hneg.
    destruct (Py.len line <=? start_pos - 1); [reflexivity|].
    destruct (Z.ltb_spec (Py.len line) end_pos); [lia|].
    destruct (Z.ltb_spec (Py.len line) (Z.max 0 (Py.len line + end_pos))); [lia|].
    f_equal. apply slice_bounds; [reflexivity|].
    unfold Py.slice_bound.
    destruct (Z.ltb_spec end_pos 0); [|lia].
    destruct (Z.ltb_spec (Z.max 0 (Py.len line + end_pos)) 0); lia.
  - intros Hneg.
    destruct (Z.leb_spec (Py.len line) (start_pos - 1)); [lia|].
    destruct (Z.leb_spec (Py.len line) (Z.max 0 (Py.len line + start_pos - 1) + 1 - 1)).
    + assert (Hzero : Py.len line = 0) by lia.
      destruct line; [|unfold Py.len in Hzero; cbn in Hzero; lia].
      now rewrite slice_empty.
    + f_equal. apply slice_bounds; [|reflexivity].
      unfold Py.slice_bound.
      destruct (Z.ltb_spec (start_pos - 1) 0); [|lia].
      destruct (Z.ltb_spec (Z.max 0 (Py.len line + start_pos - 1) + 1 - 1) 0); lia.
Qed.

(** The field at the positions 1 to -1 is the line without its last
    character, and the field from position 0 on, which is the last
    character on, is empty when the end position lies before it. *)
Lemma extract_field_counts_from_the_end :
  extract_field "abcdef" 1 (-1) = "abcde"
  /\ extract_field "abcdef" 0 3 = EmptyString
  /\ extract_field "abcdef" 0 6 = "f".
Proof. repeat split; reflexivity. Qed.

(** A loop that sets one key per step, to a value that depends on the key
    only. *)
Lemma fold_insert_lookup (g : row -> string -> row) (val : string -> string) :
  (forall (rec : row) f, g rec f = <[f := val f]> rec) ->
  forall (cols : list string) (init : row) (k : string),
    fold_left g cols init !! k
    = if Py.has_column cols k then Some (val k) else init !! k.
Proof.
  intros Hg cols. induction cols as [|f cols IH]; intros init k; [reflexivity|].
  cbn [fold_left]. rewrite IH, Hg. unfold Py.has_column. cbn [existsb].
  fold (Py.has_column cols k).
  destruct (Py.has_column cols k).
  - now rewrite orb_true_r.
  - rewrite orb_false_r. destruct (String.eqb_spec k f) as [->|Hne].
    + now rewrite lookup_insert_eq.
    + rewrite lookup_insert_ne; [reflexivity|congruence].
Qed.

Section Records.

Variable float_of_str : string -> option float.

(** [parse_line] on a line of full length, step by step. *)
Lemma parse_line_full (line : string) (line_number : Z) :
  1930 <= Py.len line ->
  exists record,
    parse_line float_of_str line line_number
    = Ok (record,
          match numeric_error float_of_str line line_number "land_value"
                ++ numeric_error float_of_str line line_number "improvement_value"
                ++ numeric_error float_of_str line line_number "total_value" with
          | [] => None
          | e :: errors => Some (Py.join "; " (e :: errors))
          end)
    /\ forall k, record !! k
                 = if Py.has_column REQUIRED_COLUMNS k then Some (column_value line k)
                   else None.
Proof.
  intros Hlen. unfold parse_line, parse_line_with.
  change (py_max (List.map (fun kv => snd (snd kv)) FIELD_SPECS)) with (@Ok Z 1930).
  cbn [Py.bind].
  assert (Hlong : (Py.len line <? 1930) = false) by (apply Z.ltb_ge; lia).
  rewrite Hlong.
  set (step := fun (record : row) (field_name : string) => _).
  assert (Hstep : forall (rec : row) f, step rec f = <[f := column_value line f]> rec).
  { intros rec f. unfold step, column_value, situs_address_of, situs_part, field_value.
    destruct (String.eqb f "situs_address"); [reflexivity|].
    destruct (field_spec FIELD_SPECS f) as [[s e]|]; reflexivity. }
  pose proof (fold_insert_lookup step (column_value line) Hstep REQUIRED_COLUMNS ∅) as Hrec.
  set (record := fold_left step REQUIRED_COLUMNS ∅) in *.
  clearbody record. clear Hstep step.
  exists record. split.
  - cbn [fold_left].
    rewrite !Hrec.
    change (Py.has_column REQUIRED_COLUMNS "land_value") with true.
    change (Py.has_column REQUIRED_COLUMNS "improvement_value") with true.
    change (Py.has_column REQUIRED_COLUMNS "total_value") with true.
    cbv iota. unfold numeric_error.
    destruct (Py.truthy (column_value line "land_value"));
      [destruct (parse_numeric_field float_of_str (column_value line "land_value"))|];
      (destruct (Py.truthy (column_value line "improvement_value"));
       [destruct (parse_numeric_field float_of_str (column_value line "improvement_value"))|]);
      (destruct (Py.truthy (column_value line "total_value"));
       [destruct (parse_numeric_field float_of_str (column_value line "total_value"))|]);
      reflexivity.
  - intros k. rewrite Hrec. rewrite lookup_empty. reflexivity.
Qed.




Lemma has_required_column (k : string) :
  Py.has_column REQUIRED_COLUMNS k = true <-> In k REQUIRED_COLUMNS.
Proof. apply has_column_In. Qed.

(** The facts about a line of full length that the run needs. *)
Lemma full_line_fills_every_column_aux (line : string) (line_number : Z) :
  1930 <= Py.len line ->
  exists record error_msg,
    parse_line float_of_str line line_number = Ok (record, error_msg)
    /\ (forall k, is_Some (record !! k) <-> In k REQUIRED_COLUMNS)
    /\ Py.csv_row REQUIRED_COLUMNS record
    /\ (forall m, error_msg = Some m -> Py.truthy m = true).
Proof.
  intros Hlen.
  destruct (parse_line_full line line_number Hlen) as (record & Hparse & Hrec).
  exists record. eexists. split; [exact Hparse|].
  assert (Hdom : forall k, is_Some (record !! k) <-> In k REQUIRED_COLUMNS).
  { intros k. rewrite Hrec, <- has_required_column.
    destruct (Py.has_column REQUIRED_COLUMNS k); split; intros H; eauto;
      try discriminate. destruct H as [? H]. discriminate. }
  split; [exact Hdom|]. split; [intros k Hk; now apply Hdom|].
  intros m Hm.
  assert (Htruthy : forall f e,
             In e (numeric_error float_of_str line line_number f) -> Py.truthy e = true).
  { intros f e. unfold numeric_error. cbv zeta.
    destruct (Py.truthy (column_value line f)); [|intros []].
    destruct (parse_numeric_field float_of_str (column_value line f)); [intros []|].
    intros [<-|[]]. reflexivity. }
  destruct (numeric_error float_of_str line line_number "land_value" ++ _)
    as [|e errors] eqn:He; [discriminate|].
  injection Hm as <-.
  assert (Hte : Py.truthy e = true).
  { assert (Hin : In e (e :: errors)) by (cbn [In]; tauto).
    rewrite <- He in Hin. apply in_app_or in Hin as [Hin|Hin]; [eapply Htruthy; eauto|].
    apply in_app_or in Hin as [Hin|Hin]; eapply Htruthy; eauto. }
  destruct errors as [|e' errors]; [exact Hte|].
  change (Py.join "; " (e :: e' :: errors))
    with (e +:+ "; " +:+ Py.join "; " (e' :: errors)).
  destruct e; [discriminate|reflexivity].
Qed.


Lemma numeric_error_empty (line : string) (line_number : Z) (f : string) :
  numeric_error float_of_str line line_number f = []
  <-> column_value line f = EmptyString
      \/ is_Some (parse_numeric_field float_of_str (column_value line f)).
Proof.
  unfold numeric_error. cbv zeta.
  destruct (column_value line f) as [|c v] eqn:Hv.
  - cbn. split; [now left|reflexivity].
  - cbn [Py.truthy Py.is_empty negb].
    destruct (parse_numeric_field float_of_str (String c v)) as [x|].
    + split; [right; eauto|reflexivity].
    + split; [discriminate|]. intros [H|[x H]]; discriminate.
Qed.

(** X13.  A line of full length is clean exactly when each of its three numeric
    columns is empty or is read as a number; otherwise the error message is
    not empty. *)
Theorem full_line_is_clean_iff_numbers_read (line : string) (line_number : Z)
    (Hlen : 1930 <= Py.len line) :
  exists record error_msg,
    parse_line float_of_str line line_number = Ok (record, error_msg)
    /\ (error_msg = None
        <-> forall f, In f NUMERIC_FIELDS ->
                      column_value line f = EmptyString
                      \/ is_Some (parse_numeric_field float_of_str (column_value line f)))
    /\ (forall m, error_msg = Some m -> Py.truthy m = true).
Proof.
  destruct (parse_line_full line line_number Hlen) as (record & Hparse & _).
  exists record. eexists. split; [exact Hparse|].
  pose proof (numeric_error_empty line line_number "land_value") as H1.
  pose proof (numeric_error_empty line line_number "improvement_value") as H2.
  pose proof (numeric_error_empty line line_number "total_value") as H3.
  assert (Htruthy : forall f e,
             In e (numeric_error float_of_str line line_number f) -> Py.truthy e = true).
  { intros f e. unfold numeric_error. cbv zeta.
    destruct (Py.truthy (column_value line f)); [|intros []].
    destruct (parse_numeric_field float_of_str (column_value line f)); [intros []|].
    intros [<-|[]]. reflexivity. }
  split.
  - unfold NUMERIC_FIELDS.
    destruct (numeric_error float_of_str line line_number "land_value") as [|e1 l1].
    + destruct (numeric_error float_of_str line line_number "improvement_value")
        as [|e2 l2].
      * destruct (numeric_error float_of_str line line_number "total_value") as [|e3 l3].
        -- cbn [app]. split; [|reflexivity]. intros _ f Hf. cbn [In] in Hf.
           destruct Hf as [<-|[<-|[<-|[]]]]; [apply H1|apply H2|apply H3]; reflexivity.
        -- cbn [app]. split; [discriminate|]. intros H. exfalso.
           assert (Hn : e3 :: l3 = []) by (apply H3, H; cbn [In]; tauto). discriminate.
      * cbn [app]. split; [discriminate|]. intros H. exfalso.
        assert (Hn : e2 :: l2 = []) by (apply H2, H; cbn [In]; tauto). discriminate.
    + cbn [app]. split; [discriminate|]. intros H. exfalso.
      assert (Hn : e1 :: l1 = []) by (apply H1, H; cbn [In]; tauto). discriminate.
  - intros m Hm.
    destruct (numeric_error float_of_str line line_number "land_value" ++ _)
      as [|e errors] eqn:He; [discriminate|].
    injection Hm as <-.
    assert (Hte : Py.truthy e = true).
    { assert (Hin : In e (e :: errors)) by (cbn [In]; tauto).
      rewrite <- He in Hin. apply in_app_or in Hin as [Hin|Hin]; [eapply Htruthy; eauto|].
      apply in_app_or in Hin as [Hin|Hin]; eapply Htruthy; eauto. }
    destruct errors as [|e' errors]; [exact Hte|].
    change (Py.join "; " (e :: e' :: errors))
      with (e +:+ "; " +:+ Py.join "; " (e' :: errors)).
    destruct e; [discriminate|reflexivity].
Qed.


Variable exn_text : Py.exn -> string.

(** [parse_line] never raises, and what it reports is never empty. *)
Lemma parse_line_returns (line : string) (line_number : Z) :
  exists record error_msg,
    parse_line float_of_str line line_number = Ok (record, error_msg)
    /\ Py.csv_row REQUIRED_COLUMNS record
    /\ (forall m, error_msg = Some m -> Py.truthy m = true)
    /\ (error_msg = None -> forall k, is_Some (record !! k) <-> In k REQUIRED_COLUMNS).
Proof.
  destruct (Z.lt_ge_cases (Py.len line) 1930) as [Hshort|Hlong].
  - exists ∅. eexists. split.
    + unfold parse_line.
      apply (ExtractorFacts.parse_line_with_too_short float_of_str FIELD_SPECS 1930);
        [reflexivity|exact Hshort].
    + split; [|split].
      * intros k [v Hk]. rewrite lookup_empty in Hk. discriminate.
      * intros m [= <-]. reflexivity.
      * discriminate.
  - destruct (full_line_fills_every_column_aux line line_number Hlong)
      as (record & error_msg & Hparse & Hdom & Hcsv & Hmsg).
    exists record, error_msg. repeat split; auto; apply Hdom.
Qed.

(** One line of the run: a blank line changes nothing; any other line adds
    one row, to the error file when [parse_line] reports something and to
    the clean file when it does not. *)
Lemma process_line_cases (st : streams) (line_number : Z) (raw : string) :
  let st' := process_line float_of_str exn_text st line_number raw in
  (Py.truthy (Py.strip raw) = false /\ st' = st)
  \/ (Py.truthy (Py.strip raw) = true
      /\ exists record error_msg,
           parse_line float_of_str (line_content raw) line_number = Ok (record, error_msg)
           /\ match error_msg with
              | Some m =>
                  st' = mk_streams (clean_rows st)
                                   (error_rows st ++ [(line_number, line_content raw, m)])
                                   (clean_count st) (error_count st + 1)
              | None =>
                  st' = mk_streams (clean_rows st ++ [record]) (error_rows st)
                                   (clean_count st + 1) (error_count st)
                  /\ forall k, is_Some (record !! k) <-> In k REQUIRED_COLUMNS
              end).
Proof.
  cbv zeta. unfold process_line. fold (line_content raw).
  destruct (Py.truthy (Py.strip raw)); cbn [negb]; [right|left; split; reflexivity].
  split; [reflexivity|].
  destruct (parse_line_returns (line_content raw) line_number)
    as (record & error_msg & Hparse & Hcsv & Hmsg & Hdom).
  exists record, error_msg. split; [exact Hparse|].
  rewrite Hparse. cbn [Py.bind].
  destruct error_msg as [m|].
  - rewrite (Hmsg m eq_refl). reflexivity.
  - rewrite (writerow_ok _ _ _ Hcsv). cbn [Py.bind]. split; [reflexivity|].
    now apply Hdom.
Qed.


Lemma clean_row_from_tail (raw0 : string) (lines : list string) (n : Z) (record : row) :
  clean_row_from float_of_str lines (n + 1) record ->
  clean_row_from float_of_str (raw0 :: lines) n record.
Proof.
  intros (raw & number & Hn & Hl & Ht & Hp & Hd).
  exists raw, number. split; [lia|]. split; [|auto].
  replace (Z.to_nat (number - n)) with (S (Z.to_nat (number - (n + 1)))) by lia.
  exact Hl.
Qed.

Lemma error_row_from_tail (raw0 : string) (lines : list string) (n : Z) (e : error_row) :
  error_row_from float_of_str lines (n + 1) e ->
  error_row_from float_of_str (raw0 :: lines) n e.
Proof.
  destruct e as [[number content] reason].
  intros (raw & record & Hn & Hl & Ht & Hc & Hp).
  exists raw, record. split; [lia|]. split; [|auto].
  replace (Z.to_nat (number - n)) with (S (Z.to_nat (number - (n + 1)))) by lia.
  exact Hl.
Qed.

(** The run from any state and line number: what it appends, and how it
    counts. *)
Lemma process_lines_appends (lines : list string) (st : streams) (n : Z) :
  exists cleans errors,
    clean_rows (process_lines float_of_str exn_text st n lines) = clean_rows st ++ cleans
    /\ error_rows (process_lines float_of_str exn_text st n lines) = error_rows st ++ errors
    /\ clean_count (process_lines float_of_str exn_text st n lines)
       = clean_count st + Z.of_nat (length cleans)
    /\ error_count (process_lines float_of_str exn_text st n lines)
       = error_count st + Z.of_nat (length errors)
    /\ (length cleans + length errors)%nat = length (nonblank_lines lines)
    /\ Forall (clean_row_from float_of_str lines n) cleans
    /\ Forall (error_row_from float_of_str lines n) errors.
Proof.
  revert st n. induction lines as [|raw lines IH]; intros st n.
  - exists [], []. cbn [process_lines length nonblank_lines List.filter].
    rewrite !app_nil_r. repeat split; try lia; constructor.
  - cbn [process_lines].
    destruct (IH (process_line float_of_str exn_text st n raw) (n + 1))
      as (cleans & errors & H1 & H2 & H3 & H4 & H5 & H6 & H7).
    rewrite H1, H2, H3, H4.
    assert (H6' : Forall (clean_row_from float_of_str (raw :: lines) n) cleans)
      by (eapply Forall_impl; [exact H6|]; intros; now apply clean_row_from_tail).
    assert (H7' : Forall (error_row_from float_of_str (raw :: lines) n) errors)
      by (eapply Forall_impl; [exact H7|]; intros; now apply error_row_from_tail).
    unfold nonblank_lines in *. cbn [List.filter].
    pose proof (process_line_cases st n raw) as Hcase. cbv zeta in Hcase.
    destruct Hcase as [[Hblank ->] | (Htext & record & error_msg & Hparse & Hst)].
    + exists cleans, errors. rewrite Hblank. repeat split; auto.
    + rewrite Htext. destruct error_msg as [m|].
      * rewrite Hst. cbn [clean_rows error_rows clean_count error_count].
        exists cleans, ((n, line_content raw, m) :: errors).
        rewrite <- app_assoc. cbn [app length].
        repeat split; auto; try lia.
        apply List.Forall_cons; [|exact H7'].
        exists raw, record. replace (n - n) with 0 by lia.
        repeat split; auto. lia.
      * destruct Hst as [-> Hdom]. cbn [clean_rows error_rows clean_count error_count].
        exists (record :: cleans), errors.
        rewrite <- app_assoc. cbn [app length].
        repeat split; auto; try lia.
        apply List.Forall_cons; [|exact H6'].
        exists raw, n. replace (n - n) with 0 by lia.
        repeat split; auto; try lia; apply Hdom.
Qed.

(** X14.  The extraction run counts what it writes: the two counters are the
    lengths of the two files, together they are the number of lines that
    are not blank, and every record of the clean file has exactly the
    fifteen columns of its header. *)
Theorem every_nonblank_line_is_counted_once (lines : list string) :
  clean_count (process_property_file float_of_str exn_text lines)
  = Z.of_nat (length (clean_rows (process_property_file float_of_str exn_text lines)))
  /\ error_count (process_property_file float_of_str exn_text lines)
     = Z.of_nat (length (error_rows (process_property_file float_of_str exn_text lines)))
  /\ clean_count (process_property_file float_of_str exn_text lines)
     + error_count (process_property_file float_of_str exn_text lines)
     = Z.of_nat (length (nonblank_lines lines))
  /\ Forall (fun record : row => forall k, is_Some (record !! k) <-> In k REQUIRED_COLUMNS)
            (clean_rows (process_property_file float_of_str exn_text lines)).
Proof.
  unfold process_property_file.
  destruct (process_lines_appends lines (mk_streams [] [] 0 0) 1)
    as (cleans & errors & H1 & H2 & H3 & H4 & H5 & H6 & _).
  rewrite H1, H2, H3, H4. cbn [clean_rows error_rows clean_count error_count app].
  repeat split; try lia.
  eapply Forall_impl; [exact H6|].
  intros record (raw & number & _ & _ & _ & _ & Hdom). exact Hdom.
Qed.

(** X15.  No row of the run is made up: every row of the error file carries the
    number of a line of the input (counted from 1), that line without its
    line end, and the message [parse_line] gives for it, so the reason
    "Unexpected error" of the exception handler is never written; every
    record of the clean file is what [parse_line] returns, without a
    message, for a line of the input. *)
Theorem every_row_comes_from_its_line (lines : list string) :
  Forall (error_row_from float_of_str lines 1)
         (error_rows (process_property_file float_of_str exn_text lines))
  /\ Forall (clean_row_from float_of_str lines 1)
            (clean_rows (process_property_file float_of_str exn_text lines)).
Proof.
  unfold process_property_file.
  destruct (process_lines_appends lines (mk_streams [] [] 0 0) 1)
    as (cleans & errors & H1 & H2 & _ & _ & _ & H6 & H7).
  rewrite H1, H2. cbn [clean_rows error_rows app]. split; assumption.
Qed.

End Records.


(** A line of 1930 blanks has three empty numeric columns: it is clean. *)
Lemma full_line_is_clean_iff_numbers_read_witness :
  exists record, parse_line (fun _ => None) (blank_line 1930) 1 = Ok (record, None).
Proof.
  destruct (full_line_is_clean_iff_numbers_read (fun _ => None) (blank_line 1930) 1)
    as (record & error_msg & Hparse & Hclean & _).
  - vm_compute. discriminate.
  - exists record. rewrite Hparse. f_equal. f_equal. apply Hclean.
    intros f Hf. left. unfold NUMERIC_FIELDS in Hf. cbn [In] in Hf.
    destruct Hf as [<-|[<-|[<-|[]]]]; vm_compute; reflexivity.
Defined.

End RecordFacts.

(** ** Integers as text ([str], [int]) *)

Section NumberFacts.

Import WordSpec.

Lemma digit_val_pretty_N_char (d : N) :
  (d < 10)%N -> Py.digit_val (pretty_N_char d) = Some (Z.of_N d).
Proof.
  intros Hd.
  assert (H : (d = 0 \/ d = 1 \/ d = 2 \/ d = 3 \/ d = 4 \/ d = 5 \/ d = 6 \/ d = 7
               \/ d = 8 \/ d = 9)%N) by lia.
  destruct H as [->|[->|[->|[->|[->|[->|[->|[->|[->| ->]]]]]]]]]; reflexivity.
Qed.

Lemma isspace_pretty_N_char (d : N) : Py.isspace (pretty_N_char d) = false.
Proof. unfold pretty_N_char. repeat case_match; reflexivity. Qed.

(** Reading back the digits that [str] writes. *)
Lemma int_digits_pretty_N_go (x : N) :
  forall (st : Py.int_state) (acc : Z) (s : string),
    (0 < x)%N ->
    exists k : Z,
      0 <= k
      /\ Py.int_digits st acc (pretty_N_go x s)
         = Py.int_digits Py.AfterDigit (acc * 10 ^ k + Z.of_N x) s.
Proof.
  induction (N.lt_wf_0 x) as [x _ IH]. intros st acc s Hx.
  rewrite pretty_N_go_step by exact Hx.
  assert (Hmod : (x mod 10 < 10)%N) by (apply N.mod_lt; lia).
  destruct (N.eq_dec (x / 10)%N 0%N) as [Hz|Hnz].
  - rewrite Hz, pretty_N_go_0. cbn [Py.int_digits].
    rewrite (digit_val_pretty_N_char _ Hmod).
    exists 1. split; [lia|]. f_equal.
    assert (Hxm : (x = x mod 10)%N) by (pose proof (N.div_mod x 10 ltac:(lia)); lia).
    lia.
  - destruct (IH (x / 10)%N) with (st := st) (acc := acc)
                                 (s := String (pretty_N_char (x mod 10)) s)
      as (k & Hk & Heq).
    + apply N.div_lt; lia.
    + now apply N.neq_0_lt_0.
    + rewrite Heq. cbn [Py.int_digits]. rewrite (digit_val_pretty_N_char _ Hmod).
      exists (k + 1). split; [lia|]. f_equal.
      rewrite Z.pow_add_r by lia.
      pose proof (N.div_mod x 10 ltac:(lia)) as Hdm.
      assert (Hz : Z.of_N x = 10 * Z.of_N (x / 10)%N + Z.of_N (x mod 10)%N) by lia.
      rewrite Hz. ring.
Qed.

Lemma pretty_N_go_head (x : N) (s : string) :
  (0 < x)%N ->
  exists d rest, (d < 10)%N /\ pretty_N_go x s = String (pretty_N_char d) rest.
Proof.
  revert s. induction (N.lt_wf_0 x) as [x _ IH]. intros s Hx.
  rewrite pretty_N_go_step by exact Hx.
  assert (Hmod : (x mod 10 < 10)%N) by (apply N.mod_lt; lia).
  destruct (N.eq_dec (x / 10)%N 0%N) as [Hz|Hnz].
  - rewrite Hz, pretty_N_go_0. eauto.
  - apply IH; [apply N.div_lt; lia|now apply N.neq_0_lt_0].
Qed.

Lemma no_space_pretty_N_go (x : N) (s : string) :
  no_space s = true -> no_space (pretty_N_go x s) = true.
Proof.
  revert s. induction (N.lt_wf_0 x) as [x _ IH]. intros s Hs.
  destruct (N.eq_dec x 0%N) as [->|Hx]; [now rewrite pretty_N_go_0|].
  rewrite pretty_N_go_step by lia.
  apply IH; [apply N.div_lt; lia|].
  cbn [no_space]. now rewrite isspace_pretty_N_char, Hs.
Qed.

Lemma pretty_positive_digits (p : positive) :
  exists d rest,
    (d < 10)%N
    /\ pretty (N.pos p) = String (pretty_N_char d) rest
    /\ no_space (pretty (N.pos p)) = true
    /\ Py.int_digits Py.AtStart 0 (pretty (N.pos p)) = Some (Z.pos p).
Proof.
  unfold pretty, pretty_N. rewrite decide_False by discriminate.
  destruct (pretty_N_go_head (N.pos p) EmptyString ltac:(lia)) as (d & rest & Hd & Hhead).
  exists d, rest. split; [exact Hd|]. split; [exact Hhead|]. split.
  - now apply no_space_pretty_N_go.
  - destruct (int_digits_pretty_N_go (N.pos p) Py.AtStart 0 EmptyString ltac:(lia))
      as (k & _ & Heq).
    rewrite Heq. cbn [Py.int_digits]. f_equal; lia.
Qed.

Lemma strip_no_space (s : string) : no_space s = true -> Py.strip s = s.
Proof.
  intros Hs. apply strip_fixed; [|now apply no_space_ends_well].
  destruct s as [|c s]; [reflexivity|]. cbn in *. now apply andb_true_iff in Hs as [-> _].
Qed.

(** [int(str(n)) == n]: what a script writes with [str] is read back by
    [int] as the same number. *)
Lemma int_of_str_str (n : Z) : Py.int_of_str (Py.str n) = Some n.
Proof.
  unfold Py.str, Py.int_of_str. destruct n as [|p|p].
  - reflexivity.
  - change (pretty (Z.pos p)) with (pretty (N.pos p)).
    destruct (pretty_positive_digits p) as (d & rest & Hd & Hhead & Hns & Hint).
    rewrite (strip_no_space _ Hns). rewrite Hhead in *.
    assert (H : (d = 0 \/ d = 1 \/ d = 2 \/ d = 3 \/ d = 4 \/ d = 5 \/ d = 6 \/ d = 7
                 \/ d = 8 \/ d = 9)%N) by lia.
    destruct H as [->|[->|[->|[->|[->|[->|[->|[->|[->| ->]]]]]]]]]; exact Hint.
  - change (pretty (Z.neg p)) with ("-" +:+ pretty (N.pos p)).
    destruct (pretty_positive_digits p) as (d & rest & Hd & Hhead & Hns & Hint).
    assert (Hns' : no_space ("-" +:+ pretty (N.pos p)) = true).
    { change ("-" +:+ pretty (N.pos p)) with (String "-" (pretty (N.pos p))).
      cbn [no_space]. now rewrite Hns. }
    rewrite (strip_no_space _ Hns').
    change ("-" +:+ pretty (N.pos p)) with (String "-" (pretty (N.pos p))).
    cbv iota. rewrite Hint. reflexivity.
Qed.

End NumberFacts.

(** ** The run of the owner deduplicator ([group_properties_by_owner]) *)

Module GroupRunFacts.
Import GroupByOwner GroupSpec GroupRunSpec.

Lemma members_of_add (k k' : string) (r : row) (groups : list (string * list row)) :
  members_of k' (add_to_group k r groups)
  = members_of k' groups ++ (if String.eqb k k' then [r] else []).
Proof.
  unfold members_of. induction groups as [|[k0 p0] groups IH]; cbn [add_to_group List.find].
  - cbn [fst snd]. destruct (String.eqb k k'); reflexivity.
  - destruct (String.eqb_spec k0 k) as [->|Hne]; cbn [List.find fst snd].
    + destruct (String.eqb k k'); [reflexivity|]. now rewrite app_nil_r.
    + destruct (String.eqb_spec k0 k') as [->|Hne'].
      * destruct (String.eqb_spec k k') as [->|_]; [contradiction|]. now rewrite app_nil_r.
      * exact IH.
Qed.

Lemma add_to_group_keys_NoDup (k : string) (r : row) (groups : list (string * list row)) :
  List.NoDup (List.map fst groups) -> List.NoDup (List.map fst (add_to_group k r groups)).
Proof.
  induction groups as [|[k0 p0] groups IH]; intros Hnd; cbn [add_to_group].
  - cbn. constructor; [intros []|constructor].
  - destruct (String.eqb_spec k0 k) as [->|Hne]; [exact Hnd|].
    cbn [List.map fst] in *. apply List.NoDup_cons_iff in Hnd as [Hnot Hnd].
    apply List.NoDup_cons_iff. split; [|now apply IH].
    intros Hin. apply GroupFacts.add_to_group_keys in Hin as [->|Hin]; [congruence|].
    contradiction.
Qed.

Lemma members_of_In (k : string) (p : list row) (groups : list (string * list row)) :
  List.NoDup (List.map fst groups) -> In (k, p) groups -> members_of k groups = p.
Proof.
  unfold members_of. induction groups as [|[k0 p0] groups IH]; intros Hnd Hin; [destruct Hin|].
  cbn [List.map fst] in Hnd. apply List.NoDup_cons_iff in Hnd as [Hnot Hnd].
  cbn [List.find fst]. destruct Hin as [[= -> ->]|Hin].
  - now rewrite String.eqb_refl.
  - destruct (String.eqb_spec k0 k) as [->|_]; [|now apply IH].
    exfalso. apply Hnot. apply in_map_iff. now exists (k, p).
Qed.

Lemma add_to_group_nonempty (k : string) (r : row) (groups : list (string * list row)) :
  Forall (fun g => snd g <> []) groups ->
  Forall (fun g => snd g <> []) (add_to_group k r groups).
Proof.
  induction groups as [|[k0 p0] groups IH]; intros Hall; cbn [add_to_group].
  - repeat constructor. cbn. discriminate.
  - apply List.Forall_cons_iff in Hall as [Hp Hall].
    destruct (String.eqb k0 k).
    + apply List.Forall_cons; [|exact Hall]. cbn [snd] in *. now destruct p0.
    + apply List.Forall_cons; [exact Hp|now apply IH].
Qed.

Lemma grouped_rows_add (k : string) (r : row) (groups : list (string * list row)) :
  grouped_rows (add_to_group k r groups) = S (grouped_rows groups).
Proof.
  unfold grouped_rows. induction groups as [|[k0 p0] groups IH]; cbn [add_to_group].
  - reflexivity.
  - destruct (String.eqb k0 k); cbn [List.map snd]; unfold list_sum in *; cbn [fold_right].
    + rewrite length_app. cbn [length]. lia.
    + rewrite IH. lia.
Qed.

(** The grouping loop from any dictionary of groups. *)
Lemma fold_groups_partition (key : row -> string) (rows : list row)
      (groups : list (string * list row)) :
  let result := fold_left (fun groups r => add_to_group (key r) r groups) rows groups in
  (List.NoDup (List.map fst groups) -> List.NoDup (List.map fst result))
  /\ (Forall (fun g => snd g <> []) groups -> Forall (fun g => snd g <> []) result)
  /\ (forall k, members_of k result = members_of k groups ++ rows_keyed key k rows)
  /\ grouped_rows result = (grouped_rows groups + length rows)%nat
  /\ (forall k, In k (List.map fst result)
                <-> In k (List.map fst groups) \/ In k (List.map key rows)).
Proof.
  cbv zeta. revert groups. induction rows as [|r rows IH]; intros groups.
  - cbn [fold_left rows_keyed List.filter length List.map In].
    repeat split; auto; try tauto; intros k; now rewrite app_nil_r.
  - cbn [fold_left].
    destruct (IH (add_to_group (key r) r groups)) as (H1 & H2 & H3 & H4 & H5).
    split; [|split; [|split; [|split]]].
    + intros Hnd. apply H1. now apply add_to_group_keys_NoDup.
    + intros Hne. apply H2. now apply add_to_group_nonempty.
    + intros k. rewrite H3, members_of_add, <- app_assoc. f_equal.
      unfold rows_keyed. cbn [List.filter]. destruct (String.eqb (key r) k); reflexivity.
    + rewrite H4, grouped_rows_add. cbn [length]. lia.
    + intros k. rewrite H5. cbn [List.map In].
      rewrite GroupFacts.add_to_group_keys. intuition congruence.
Qed.

(** The groups of an input, as the grouping loop leaves them. *)
Lemma groups_partition_aux (rows : list row) :
  List.NoDup (List.map fst (build_groups rows))
  /\ Forall (fun g => snd g = rows_keyed normalize_owner_key (fst g) rows /\ snd g <> [])
            (build_groups rows)
  /\ (forall k, In k (List.map fst (build_groups rows))
                <-> In k (List.map normalize_owner_key rows))
  /\ grouped_rows (build_groups rows) = length rows.
Proof.
  unfold build_groups.
  destruct (fold_groups_partition normalize_owner_key rows []) as (H1 & H2 & H3 & H4 & H5).
  cbv zeta in *.
  set (result := fold_left _ rows []) in *.
  assert (Hnd : List.NoDup (List.map fst result)) by (apply H1; constructor).
  assert (Hne : Forall (fun g => snd g <> []) result) by (apply H2; constructor).
  split; [exact Hnd|]. split; [|split].
  - apply Forall_forall. intros [k p] Hin. cbn [fst snd].
    apply list_elem_of_In in Hin.
    split.
    + rewrite <- (members_of_In k p result Hnd Hin). rewrite H3. reflexivity.
    + rewrite List.Forall_forall in Hne. exact (Hne (k, p) Hin).
  - intros k. rewrite H5. cbn [List.map In]. tauto.
  - rewrite H4. reflexivity.
Qed.

(** X16.  Grouping neither loses nor repeats a row: the keys of the groups are
    distinct and are the keys of the input rows; the members of a group are
    the input rows with its key, in input order, so no group is empty; and
    the groups together hold as many rows as the input. *)
Theorem groups_partition_the_rows (rows : list row) :
  List.NoDup (List.map fst (build_groups rows))
  /\ Forall (fun g => snd g = rows_keyed normalize_owner_key (fst g) rows /\ snd g <> [])
            (build_groups rows)
  /\ (forall k, In k (List.map fst (build_groups rows))
                <-> In k (List.map normalize_owner_key rows))
  /\ grouped_rows (build_groups rows) = length rows.
Proof. exact (groups_partition_aux rows). Qed.


Lemma In_with_column_iff (col k : string) (columns : list string) :
  In k (Py.with_column col columns) <-> In k columns \/ k = col.
Proof.
  unfold Py.with_column. destruct (Py.has_column columns col) eqn:Hcol.
  - apply has_column_In in Hcol. split; [tauto|]. intros [H| ->]; assumption.
  - rewrite in_app_iff. cbn [In]. intuition congruence.
Qed.

Lemma In_output_columns (k : string) (input_columns : list string) :
  In k (output_columns_of input_columns) <-> In k input_columns \/ In k ADDED_COLUMNS.
Proof.
  unfold output_columns_of, ADDED_COLUMNS. rewrite !In_with_column_iff. cbn [In].
  intuition congruence.
Qed.

Section Run.

Variable float_of_str : string -> option float.

(** The counters of the output loop, for a run that returns. *)
Lemma write_groups_counts (output_columns : list string)
      (groups : list (string * list row)) (written written' : list row) (c c' : counts) :
  write_groups float_of_str output_columns groups written c = Ok (written', c') ->
  total_owners c' = total_owners c
  /\ single_property c' = single_property c + Z.of_nat (groups_of_one groups)
  /\ single_property c' + multiple_properties c'
     = single_property c + multiple_properties c + Z.of_nat (length groups)
  /\ total_properties c' = total_properties c + Z.of_nat (grouped_rows groups)
  /\ length written' = (length written + length groups)%nat.
Proof.
  revert written c. induction groups as [|[k properties] groups IH]; intros written c.
  - cbn [write_groups]. intros [= <- <-].
    unfold groups_of_one, grouped_rows. cbn. repeat split; lia.
  - cbn [write_groups]. cbv zeta.
    destruct (consolidate float_of_str properties) as [base_row|e]; [|discriminate].
    cbn [Py.bind]. unfold Py.writerow at 1.
    destruct (forallb _ (map_to_list base_row)); [|discriminate].
    cbn [Py.bind]. intros Hrest. apply IH in Hrest as (H1 & H2 & H3 & H4 & H5).
    rewrite length_app in H5. cbn [length] in *.
    unfold groups_of_one, grouped_rows in *.
    cbn [List.filter List.map snd]. unfold list_sum in *. cbn [fold_right].
    destruct (Nat.eqb_spec (length properties) 1) as [Hone|Hmore].
    + assert (Hz : (Z.of_nat (length properties) =? 1) = true) by (apply Z.eqb_eq; lia).
      rewrite Hz in *. cbn [total_owners single_property multiple_properties
                            total_properties length] in *.
      repeat split; lia.
    + assert (Hz : (Z.of_nat (length properties) =? 1) = false) by (apply Z.eqb_neq; lia).
      rewrite Hz in *. cbn [total_owners single_property multiple_properties
                            total_properties length] in *.
      repeat split; lia.
Qed.

(** X17.  When the deduplicator returns, its counters describe the groups: one
    output row per owner; the owners with one property and those with more
    add up to the number of owners; and the properties counted are the rows
    of the input, each once. *)
Theorem owner_counters_describe_the_groups
    (input_columns : list string) (rows written : list row) (c : counts)
    (Hrun : group_properties_by_owner float_of_str input_columns rows = Ok (written, c)) :
  total_owners c = Z.of_nat (length (build_groups rows))
  /\ length written = length (build_groups rows)
  /\ single_property c = Z.of_nat (groups_of_one (build_groups rows))
  /\ single_property c + multiple_properties c = total_owners c
  /\ total_properties c = Z.of_nat (length rows).
Proof.
  unfold group_properties_by_owner in Hrun. cbv zeta in Hrun.
  apply write_groups_counts in Hrun as (H1 & H2 & H3 & H4 & H5).
  cbn [total_owners single_property multiple_properties total_properties length] in *.
  destruct (groups_partition_aux rows) as (_ & _ & _ & Hsum).
  rewrite Hsum in H4. repeat split; lia.
Qed.


(** X18.  An owner with a single property keeps the row of that property: the
    consolidated row is that row with the three added columns set (count 1,
    the one account number, the value as text); its score and its reason are
    not touched and not even read, and the row fits the header of the output
    file whatever the columns of the input. *)
Theorem single_property_owner_keeps_its_row (r : row)
    (Hfin : float_is_finite (portfolio_value float_of_str [r]) = true) :
  exists out text,
    consolidate float_of_str [r] = Ok out
    /\ total_portfolio_text (portfolio_value float_of_str [r]) = Ok text
    /\ out = <["total_portfolio_value" := text]>
               (<["property_ids" := Py.strip (Py.get r "tcad_account_id")]>
                  (<["property_count_actual" := "1"]> r))
    /\ (forall k, ~ In k ADDED_COLUMNS -> out !! k = r !! k)
    /\ (forall input_columns,
           Py.csv_row input_columns r ->
           Py.csv_row (output_columns_of input_columns) out).
Proof.
  destruct (GroupFacts.total_portfolio_text_returns _ Hfin) as [text Htext].
  eexists. exists text.
  assert (Hids : Py.join " | "
                   (take 10 (List.filter Py.truthy
                               (List.map (fun p => Py.strip (Py.get p "tcad_account_id")) [r])))
                 = Py.strip (Py.get r "tcad_account_id")).
  { cbn [List.map List.filter].
    destruct (Py.strip (Py.get r "tcad_account_id")) as [|c s]; reflexivity. }
  split.
  { unfold consolidate. cbv zeta. rewrite Htext, Hids. cbn [Py.bind length].
    change (1 <? Z.of_nat 1) with false. cbv iota. reflexivity. }
  split; [exact Htext|]. split; [reflexivity|]. split.
  - intros k Hk. unfold ADDED_COLUMNS in Hk. cbn [In] in Hk.
    rewrite !lookup_insert_ne by (intros <-; tauto). reflexivity.
  - intros input_columns Hcsv.
    repeat (apply csv_row_insert;
            [apply In_output_columns; right; unfold ADDED_COLUMNS; cbn [In]; tauto|]).
    eapply csv_row_weaken; [|exact Hcsv]. intros k Hk. apply In_output_columns. now left.
Qed.

(** The row of a group of two or more sets the score and the reason. *)
Lemma consolidate_sets_flags (first second : row) (rest : list row) (out : row) :
  consolidate float_of_str (first :: second :: rest) = Ok out ->
  is_Some (out !! "engagement_score") /\ is_Some (out !! "why_flagged").
Proof.
  unfold consolidate. cbv zeta.
  destruct (total_portfolio_text _) as [text|e]; [|discriminate]. cbn [Py.bind].
  assert (Hlen : (1 <? Z.of_nat (length (first :: second :: rest))) = true)
    by (apply Z.ltb_lt; cbn [length]; lia).
  rewrite Hlen.
  destruct (Py.int _) as [score|e]; [|discriminate]. cbn [Py.bind].
  destruct (Py.truthy _); intros [= <-].
  - rewrite lookup_insert_ne by discriminate. rewrite !lookup_insert_eq. eauto.
  - rewrite lookup_insert_ne by discriminate. rewrite !lookup_insert_eq. eauto.
Qed.

Lemma write_groups_stops (output_columns : list string)
      (groups : list (string * list row)) (written : list row) (c : counts) :
  ~ In "engagement_score" output_columns \/ ~ In "why_flagged" output_columns ->
  (exists g, In g groups /\ (2 <= length (snd g))%nat) ->
  exists e, write_groups float_of_str output_columns groups written c = Raise e.
Proof.
  intros Hmissing. revert written c.
  induction groups as [|[k properties] groups IH]; intros written c (g & Hin & Hlen).
  - destruct Hin.
  - cbn [write_groups]. cbv zeta.
    destruct (consolidate float_of_str properties) as [base_row|e] eqn:Hrow;
      [|exists e; reflexivity].
    cbn [Py.bind].
    destruct Hin as [<-|Hin].
    + cbn [snd] in Hlen.
      destruct properties as [|first [|second rest]]; cbn [length] in Hlen; try lia.
      apply consolidate_sets_flags in Hrow as [Hscore Hwhy].
      exists Py.ValueError.
      destruct Hmissing as [Hno|Hno];
        [ rewrite (RoleTableFacts.writerow_extra_column output_columns base_row written
                     "engagement_score" Hscore Hno)
        | rewrite (RoleTableFacts.writerow_extra_column output_columns base_row written
                     "why_flagged" Hwhy Hno) ];
        reflexivity.
    + unfold Py.writerow at 1.
      destruct (forallb _ (map_to_list base_row)); [|exists Py.ValueError; reflexivity].
      cbn [Py.bind]. apply IH. eauto.
Qed.

(** X19.  Error behaviour.  The output loop sets the columns [engagement_score]
    and [why_flagged] in the row of every owner with two or more
    properties, but adds neither to the header when the input lacks it: on
    an input file without one of these columns the run stops with an
    exception as soon as some owner has two properties. *)
Theorem grouping_stops_without_the_flag_columns
    (input_columns : list string) (rows : list row)
    (Hmissing : ~ In "engagement_score" input_columns \/ ~ In "why_flagged" input_columns)
    (Hmulti : exists g, In g (build_groups rows) /\ (2 <= length (snd g))%nat) :
  exists e, group_properties_by_owner float_of_str input_columns rows = Raise e.
Proof.
  unfold group_properties_by_owner. cbv zeta.
  fold (output_columns_of input_columns).
  apply write_groups_stops; [|exact Hmulti].
  destruct Hmissing as [Hno|Hno]; [left|right];
    rewrite In_output_columns; unfold ADDED_COLUMNS; cbn [In];
    intros [H|[H|[H|[H|[]]]]]; try discriminate; contradiction.
Qed.

End Run.

(** Two records of one owner and one of another: two owners, one of them
    with a single property, three properties in all. *)
Lemma owner_counters_describe_the_groups_witness :
  exists written c,
    group_properties_by_owner (fun _ => None) sample_columns
      [sample_member "A1" "10"; sample_officer "Jane Doe"; sample_member "A2" "90"]
    = Ok (written, c)
    /\ total_owners c = 2
    /\ length written = 2%nat
    /\ single_property c = 1
    /\ multiple_properties c = 1
    /\ total_properties c = 3.
Proof.
  destruct (group_properties_by_owner (fun _ => None) sample_columns
              [sample_member "A1" "10"; sample_officer "Jane Doe"; sample_member "A2" "90"])
    as [[written c]|e] eqn:Hrun.
  - destruct (owner_counters_describe_the_groups _ _ _ _ _ Hrun)
      as (H1 & H2 & H3 & H4 & H5).
    assert (Hlen : length (build_groups [sample_member "A1" "10"; sample_officer "Jane Doe";
                                         sample_member "A2" "90"]) = 2%nat)
      by (vm_compute; reflexivity).
    assert (Hone : groups_of_one (build_groups [sample_member "A1" "10";
                                                 sample_officer "Jane Doe";
                                                 sample_member "A2" "90"]) = 1%nat)
      by (vm_compute; reflexivity).
    rewrite Hlen in H1, H2. rewrite Hone in H3. cbn [length] in H5.
    exists written, c. repeat split; try assumption; lia.
  - exfalso.
    assert (H : Py.is_ok (group_properties_by_owner (fun _ => None) sample_columns
                            [sample_member "A1" "10"; sample_officer "Jane Doe";
                             sample_member "A2" "90"]) = true)
      by (vm_compute; reflexivity).
    rewrite Hrun in H. discriminate.
Defined.

(** One record without a value: the count is 1, the value text is empty. *)
Lemma single_property_owner_keeps_its_row_witness :
  exists out,
    consolidate (fun _ => None) [sample_member "A1" "10"] = Ok out
    /\ out = <["total_portfolio_value" := EmptyString]>
               (<["property_ids" := "A1"]>
                  (<["property_count_actual" := "1"]> (sample_member "A1" "10")))
    /\ out !! "engagement_score" = Some "10".
Proof.
  destruct (single_property_owner_keeps_its_row (fun _ => None) (sample_member "A1" "10"))
    as (out & text & Hrun & Htext & Hout & Hkeep & _).
  - vm_compute. reflexivity.
  - assert (Ht : text = EmptyString).
    { assert (H : total_portfolio_text
                    (portfolio_value (fun _ => None) [sample_member "A1" "10"])
                  = Ok EmptyString) by (vm_compute; reflexivity).
      rewrite H in Htext. now injection Htext. }
    exists out. split; [exact Hrun|]. split.
    + rewrite Hout, Ht. reflexivity.
    + rewrite Hkeep by (unfold ADDED_COLUMNS; cbn [In]; intros [H|[H|[H|[]]]]; discriminate).
      vm_compute. reflexivity.
Defined.

(** Two records of one owner in a file of three columns. *)
Lemma grouping_stops_without_the_flag_columns_witness :
  exists e,
    group_properties_by_owner (fun _ => None) ["tcad_account_id"; "full_name"; "mailing_zip"]
      [<["tcad_account_id" := "A1"]>
         (<["full_name" := "John Smith"]> {["mailing_zip" := "78701"]});
       <["tcad_account_id" := "A2"]>
         (<["full_name" := "John Smith"]> {["mailing_zip" := "78701"]})]
    = Raise e.
Proof.
  apply (grouping_stops_without_the_flag_columns (fun _ => None)).
  - left. cbn [In]. intros [H|[H|[H|[]]]]; discriminate.
  - match goal with
    | |- exists g, In g ?l /\ _ =>
        assert (Hlen : length l = 1%nat) by (vm_compute; reflexivity);
        assert (Hsize : Nat.leb 2 (length (snd (hd (EmptyString, []) l))) = true)
          by (vm_compute; reflexivity);
        destruct l as [|g l']; [discriminate|]
    end.
    exists g. split; [cbn [In]; now left|]. cbn [hd] in Hsize. now apply Nat.leb_le.
Defined.

End GroupRunFacts.

(** ** The enrichment lookup and the contact counters
       ([load_enrichment_results], [merge_enrichment]) *)

Module MergeRunFacts.
Import MergeEnrichment MergeSpec MergeRunSpec GroupRunSpec.

(** A lookup that is filled row by row, under the key of each row, skipping
    the rows with an empty key: a key gives the last row that has it. *)
Lemma fold_lookup_last (key : row -> string) (rows : list row) (m : gmap string row)
      (k : string) :
  fold_left (fun lk r => if Py.truthy (key r) then <[key r := r]> lk else lk) rows m !! k
  = if Py.truthy k
    then match last (rows_keyed key k rows) with
         | Some r => Some r
         | None => m !! k
         end
    else m !! k.
Proof.
  revert m. induction rows as [|r rows IH]; intros m.
  - cbn. now destruct (Py.truthy k).
  - cbn [fold_left]. rewrite IH. unfold rows_keyed. cbn [List.filter].
    destruct (String.eqb_spec (key r) k) as [Hk|Hk].
    + rewrite Hk. destruct (Py.truthy k) eqn:Ht; [|reflexivity].
      rewrite last_cons.
      destruct (last (List.filter (fun r0 => String.eqb (key r0) k) rows));
        [reflexivity|]. now rewrite lookup_insert_eq.
    + destruct (Py.truthy (key r)); [|reflexivity].
      rewrite lookup_insert_ne by exact Hk. reflexivity.
Qed.

(** X20.  The enrichment lookup, and the TCAD lookup of the recorder run: looking
    up a key gives the last row of the file that has this key, once trimmed;
    rows with a blank key are left out, so the empty key is never found. *)
Theorem lookup_gives_the_last_row_of_a_key (rows : list row) (k : string) :
  load_enrichment_results rows !! k
  = (if Py.truthy k then last (rows_keyed lead_key k rows) else None)
  /\ FilterNotes.load_tcad_lookup rows !! k
     = (if Py.truthy k then last (rows_keyed account_key k rows) else None).
Proof.
  split.
  - unfold load_enrichment_results.
    rewrite (fold_lookup_last lead_key rows ∅ k), lookup_empty.
    destruct (Py.truthy k); [|reflexivity]. now destruct (last _).
  - unfold FilterNotes.load_tcad_lookup.
    rewrite (fold_lookup_last account_key rows ∅ k), lookup_empty.
    destruct (Py.truthy k); [|reflexivity]. now destruct (last _).
Qed.

Lemma str_or_absorb (a b : string) : Py.str_or a (Py.str_or a b) = Py.str_or a b.
Proof. unfold Py.str_or. now destruct (Py.truthy a) eqn:Ha; rewrite ?Ha. Qed.

Lemma merged_as_get (lk : gmap string row) (r out : row) (col : string) :
  merged_as lk r out -> col = "email" \/ col = "phone" ->
  Py.get out col
  = match lk !! lead_key r with
    | Some e => Py.str_or (Py.strip (Py.get e col)) (Py.get r col)
    | None => Py.get r col
    end.
Proof.
  intros [_ H] Hcol. unfold Py.get at 1.
  destruct (lk !! lead_key r) as [e|]; destruct H as [He Hp];
    destruct Hcol as [-> | ->]; rewrite ?He, ?Hp; reflexivity.
Qed.

Lemma merged_as_key (lk : gmap string row) (r out : row) :
  merged_as lk r out -> lead_key out = lead_key r.
Proof.
  intros [H _]. unfold lead_key, Py.get. rewrite H by discriminate. reflexivity.
Qed.

(** X21.  Merging is idempotent: the row written for a lead, merged again with
    the same enrichment lookup, is written unchanged; in particular the key
    of a lead is not changed by the merge. *)
Theorem merge_is_idempotent (enrichment_lookup : gmap string row) (r : row) :
  merged_row enrichment_lookup (merged_row enrichment_lookup r)
  = merged_row enrichment_lookup r
  /\ lead_key (merged_row enrichment_lookup r) = lead_key r.
Proof.
  pose proof (MergeFacts.merged_row_spec enrichment_lookup r) as H1.
  pose proof (MergeFacts.merged_row_spec enrichment_lookup
                (merged_row enrichment_lookup r)) as H2.
  pose proof (merged_as_key _ _ _ H1) as Hkey.
  split; [|exact Hkey].
  pose proof (merged_as_get _ _ _ "email" H1 (or_introl eq_refl)) as Ge.
  pose proof (merged_as_get _ _ _ "phone" H1 (or_intror eq_refl)) as Gp.
  destruct H1 as [Hother1 Hc1]. destruct H2 as [Hother2 Hc2].
  rewrite Hkey in Hc2.
  apply map_eq. intros k.
  destruct (decide (k = "email")) as [->|Hne].
  - destruct (enrichment_lookup !! lead_key r) as [e|];
      destruct Hc1 as [-> _]; destruct Hc2 as [-> _]; rewrite Ge;
      [now rewrite str_or_absorb|reflexivity].
  - destruct (decide (k = "phone")) as [->|Hnp].
    + destruct (enrichment_lookup !! lead_key r) as [e|];
        destruct Hc1 as [_ ->]; destruct Hc2 as [_ ->]; rewrite Gp;
        [now rewrite str_or_absorb|reflexivity].
    + now rewrite Hother2.
Qed.


Lemma merge_row_contacts (lk : gmap string row) (c : counts) (r : row) :
  with_email (snd (merge_row lk c r))
  = with_email c + (if found "email" lk r then 1 else 0)
  /\ with_phone (snd (merge_row lk c r))
     = with_phone c + (if found "phone" lk r then 1 else 0).
Proof.
  unfold merge_row, found, lead_key. cbv zeta.
  destruct (lk !! Py.strip (Py.get r "lead_id")) as [e|].
  - destruct (Py.truthy (Py.strip (Py.get e "email")));
      destruct (Py.truthy (Py.strip (Py.get e "phone"))); cbn; split; lia.
  - cbn. split; lia.
Qed.

Lemma merge_rows_contacts (output_columns : list string) (lk : gmap string row)
      (leads written written' : list row) (c c' : counts) :
  merge_rows output_columns lk written c leads = Ok (written', c') ->
  with_email c' = with_email c + found_count "email" lk leads
  /\ with_phone c' = with_phone c + found_count "phone" lk leads.
Proof.
  revert written c. induction leads as [|r leads IH]; intros written c.
  - cbn [merge_rows]. intros [= <- <-]. unfold found_count. cbn. split; lia.
  - cbn [merge_rows].
    pose proof (merge_row_contacts lk c r) as [He Hp].
    destruct (merge_row lk c r) as [out c1]. cbn [snd] in He, Hp.
    unfold Py.writerow at 1. destruct (forallb _ (map_to_list out)); [|discriminate].
    cbn [Py.bind]. intros Hrest. apply IH in Hrest as [IHe IHp].
    rewrite IHe, IHp, He, Hp. unfold found_count. cbn [List.filter].
    destruct (found "email" lk r), (found "phone" lk r); cbn [length]; split; lia.
Qed.

Lemma found_count_le_hits (col : string) (lk : gmap string row) (leads : list row) :
  found_count col lk leads <= hits lk leads.
Proof.
  unfold found_count, hits. apply inj_le.
  induction leads as [|r leads IH]; [reflexivity|]. cbn [List.filter].
  unfold found at 1. destruct (lk !! lead_key r) as [e|].
  - rewrite bool_decide_eq_true_2 by eauto.
    destruct (Py.truthy _); cbn [length]; lia.
  - rewrite bool_decide_eq_false_2 by (intros [? ?]; discriminate). exact IH.
Qed.

Lemma merged_row_keeps_contact (lk : gmap string row) (r : row) (col : string) :
  col = "email" \/ col = "phone" -> keeps_contact col r (merged_row lk r).
Proof.
  intros Hcol Hr. rewrite (merged_as_get lk r _ col (MergeFacts.merged_row_spec lk r) Hcol).
  destruct (lk !! lead_key r) as [e|]; [|exact Hr].
  unfold Py.str_or. now destruct (Py.truthy (Py.strip (Py.get e col))) eqn:He.
Qed.

(** X22.  The contact counters of the merge count what the enrichment file
    provides: [with_email] and [with_phone] are the numbers of leads whose
    enrichment row has an email, a phone, that is not blank, so neither
    exceeds [matched]; and the merge never blanks a contact column: a lead
    that has an email or a phone still has one in the row written for it. *)
Theorem merge_counts_the_contacts_it_finds
    (lead_columns : list string) (leads : list row) (enrichment_lookup : gmap string row)
    (Hcsv : Forall (Py.csv_row lead_columns) leads) :
  exists written c,
    merge_with lead_columns enrichment_lookup leads = Ok (written, c)
    /\ with_email c = found_count "email" enrichment_lookup leads
    /\ with_phone c = found_count "phone" enrichment_lookup leads
    /\ with_email c <= matched c
    /\ with_phone c <= matched c
    /\ Forall2 (fun r out => keeps_contact "email" r out /\ keeps_contact "phone" r out)
               leads written.
Proof.
  unfold merge_with.
  destruct (MergeFacts.merge_rows_spec lead_columns enrichment_lookup leads [] no_counts Hcsv)
    as (c & Hrun & _ & Hmatched & _).
  cbn [app] in Hrun.
  destruct (merge_rows_contacts _ _ _ _ _ _ _ Hrun) as [He Hp].
  cbn [with_email with_phone matched no_counts] in He, Hp, Hmatched.
  eexists. exists c. split; [exact Hrun|].
  pose proof (found_count_le_hits "email" enrichment_lookup leads).
  pose proof (found_count_le_hits "phone" enrichment_lookup leads).
  repeat split; try lia.
  clear. induction leads as [|r leads IH]; cbn [List.map]; constructor; [|exact IH].
  split; apply merged_row_keeps_contact; tauto.
Qed.

(** Two leads, one of them in the enrichment file with an email and no
    phone. *)
Lemma merge_counts_the_contacts_it_finds_witness :
  exists written c,
    merge_with ["lead_id"; "full_name"]
      {["k1" := <["email" := "a@b.c"]> {["lead_id" := "k1"]}]}
      [<["lead_id" := "k1"]> {["full_name" := "A"]};
       <["lead_id" := "k2"]> {["full_name" := "B"]}] = Ok (written, c)
    /\ with_email c = 1
    /\ with_phone c = 0.
Proof.
  destruct (merge_counts_the_contacts_it_finds ["lead_id"; "full_name"]
              [<["lead_id" := "k1"]> {["full_name" := "A"]};
               <["lead_id" := "k2"]> {["full_name" := "B"]}]
              {["k1" := <["email" := "a@b.c"]> {["lead_id" := "k1"]}]})
    as (written & c & Hm & He & Hp & _).
  - repeat (apply List.Forall_cons; [apply csv_row_check; vm_compute; reflexivity|]).
    apply List.Forall_nil.
  - exists written, c. split; [exact Hm|]. rewrite He, Hp.
    split; vm_compute; reflexivity.
Defined.

End MergeRunFacts.

(** ** The enrichment upload ([process_enrichment_upload]) *)

Module UploadFacts.
Import ExportEnrichmentUpload UploadSpec.

(** The keys of a dictionary literal. *)
Lemma list_to_map_is_Some (l : list (string * string)) (k : string) :
  is_Some ((list_to_map l : row) !! k) <-> In k (List.map fst l).
Proof.
  induction l as [|[k0 v0] l IH]; cbn [list_to_map foldr List.map fst In].
  - rewrite lookup_empty. split; [intros [? ?]; discriminate|tauto].
  - cbn [fst snd]. destruct (decide (k0 = k)) as [->|Hne].
    + rewrite lookup_insert_eq. split; eauto.
    + rewrite lookup_insert_ne by exact Hne. rewrite IH. intuition congruence.
Qed.

Lemma upload_row_fields (lead_id name a c s z : string) :
  let out : row :=
    list_to_map [("lead_id", lead_id); ("full_name", name); ("mailing_address_1", a);
                 ("mailing_city", c); ("mailing_state", s); ("mailing_zip", z)] in
  Py.get out "lead_id" = lead_id
  /\ Py.get out "full_name" = name
  /\ Py.get out "mailing_zip" = z
  /\ forall k, is_Some (out !! k) <-> In k output_columns.
Proof.
  cbv zeta. unfold Py.get.
  assert (Hnd : NoDup (List.map fst
                         [("lead_id", lead_id); ("full_name", name); ("mailing_address_1", a);
                          ("mailing_city", c); ("mailing_state", s); ("mailing_zip", z)])).
  { cbn [List.map fst]. apply (bool_decide_unpack _). vm_compute. exact I. }
  rewrite (RecorderFacts.list_to_map_lookup _ "lead_id" lead_id Hnd) by (cbn [In]; tauto).
  rewrite (RecorderFacts.list_to_map_lookup _ "full_name" name Hnd) by (cbn [In]; tauto).
  rewrite (RecorderFacts.list_to_map_lookup _ "mailing_zip" z Hnd) by (cbn [In]; tauto).
  split; [reflexivity|]. split; [reflexivity|]. split; [reflexivity|].
  intros k.
  exact (list_to_map_is_Some
           [("lead_id", lead_id); ("full_name", name); ("mailing_address_1", a);
            ("mailing_city", c); ("mailing_state", s); ("mailing_zip", z)] k).
Qed.

Lemma upload_invariant_start : upload_invariant [] (mk_state [] ∅ ∅ 0 0 0 0).
Proof.
  constructor; cbn [written seen_lead_ids seen_name_zip total_rows unique_lead_ids
                    unique_name_zip duplicates_skipped List.map length].
  - intros x. split; [intros H; now apply not_elem_of_empty in H|intros []].
  - intros x. split; [intros H; now apply not_elem_of_empty in H|intros []].
  - apply List.NoDup_nil.
  - apply List.NoDup_nil.
  - reflexivity.
  - reflexivity.
  - reflexivity.
  - reflexivity.
  - constructor.
Qed.

(** One row of the loop keeps the invariant, and the loop never raises. *)
Lemma process_row_keeps_invariant (rows : list row) (st : state) (r : row) :
  upload_invariant rows st ->
  exists st', process_row st r = Ok st' /\ upload_invariant (rows ++ [r]) st'.
Proof.
  intros [I1 I2 I3 I4 I5 I6 I7 I8 I9].
  assert (Hrows : Forall (fun out : row =>
                     Py.truthy (Py.get out "full_name") = true
                     /\ (forall k, is_Some (out !! k) <-> In k output_columns)
                     /\ In (written_lead_id out)
                           (List.map (fun r => Py.strip (Py.get r "lead_id")) (rows ++ [r])))
                    (written st)).
  { eapply Forall_impl; [exact I9|]. intros out (H1 & H2 & H3).
    repeat split; auto; try apply H2. rewrite List.map_app. apply in_or_app. now left. }
  assert (Hlen : Z.of_nat (length (rows ++ [r])) = Z.of_nat (length rows) + 1)
    by (rewrite length_app; cbn [length]; lia).
  assert (Hskip : upload_invariant (rows ++ [r])
                    (skip (mk_state (written st) (seen_lead_ids st) (seen_name_zip st)
                                    (total_rows st + 1) (unique_lead_ids st)
                                    (unique_name_zip st) (duplicates_skipped st)))).
  { constructor; cbn [skip written seen_lead_ids seen_name_zip total_rows unique_lead_ids
                      unique_name_zip duplicates_skipped]; auto; lia. }
  unfold process_row. cbv zeta.
  cbn [written seen_lead_ids seen_name_zip total_rows unique_lead_ids unique_name_zip
       duplicates_skipped].
  set (lead_id := Py.strip (Py.get r "lead_id")).
  set (name := if Py.truthy (Py.strip (Py.get r "full_name"))
               then Py.strip (Py.get r "full_name")
               else Py.strip (Py.get r "company_name")).
  destruct (Py.truthy name) eqn:Hname; cbn [negb]; [|eauto].
  case_bool_decide as Hid; [eauto|].
  case_bool_decide as Hkey; [eauto|].
  set (out := list_to_map _).
  destruct (upload_row_fields lead_id name (Py.strip (Py.get r "mailing_address"))
              (Py.strip (Py.get r "mailing_city")) (Py.strip (Py.get r "mailing_state"))
              (Py.strip (Py.get r "mailing_zip"))) as (Hg1 & Hg2 & Hg3 & Hdom).
  fold out in Hg1, Hg2, Hg3, Hdom.
  assert (Hcsv : Py.csv_row output_columns out) by (intros k Hk; now apply Hdom).
  rewrite (writerow_ok _ _ _ Hcsv). cbn [Py.bind].
  eexists. split; [reflexivity|].
  assert (Hwid : written_lead_id out = lead_id) by exact Hg1.
  assert (Hwkey : written_name_zip out
                  = Py.upper name +:+ "|" +:+ Py.strip (Py.get r "mailing_zip"))
    by (unfold written_name_zip; now rewrite Hg2, Hg3).
  constructor; cbn [written seen_lead_ids seen_name_zip total_rows unique_lead_ids
                    unique_name_zip duplicates_skipped].
  - intros x. rewrite elem_of_union, elem_of_singleton, I1, List.map_app, in_app_iff.
    cbn [List.map In]. rewrite Hwid. intuition congruence.
  - intros x. rewrite elem_of_union, elem_of_singleton, I2, List.map_app, in_app_iff.
    cbn [List.map In]. rewrite Hwkey. intuition congruence.
  - rewrite List.map_app. cbn [List.map]. rewrite Hwid.
    apply List.NoDup_app; [exact I3| |].
    + apply List.NoDup_cons; [intros []|apply List.NoDup_nil].
    + intros x Hx [<-|[]]. apply Hid, I1. exact Hx.
  - rewrite List.map_app. cbn [List.map]. rewrite Hwkey.
    apply List.NoDup_app; [exact I4| |].
    + apply List.NoDup_cons; [intros []|apply List.NoDup_nil].
    + intros x Hx [<-|[]]. apply Hkey, I2. exact Hx.
  - rewrite length_app. cbn [length]. lia.
  - rewrite length_app. cbn [length]. lia.
  - lia.
  - lia.
  - apply Forall_app. split; [exact Hrows|]. apply List.Forall_cons; [|constructor].
    split; [now rewrite Hg2|]. split; [exact Hdom|].
    rewrite Hwid, List.map_app. apply in_or_app. right. cbn. now left.
Qed.

Lemma process_rows_keeps_invariant (rows : list row) (read : list row) (st : state) :
  upload_invariant read st ->
  exists st', process_rows st rows = Ok st' /\ upload_invariant (read ++ rows) st'.
Proof.
  revert read st. induction rows as [|r rows IH]; intros read st Hinv.
  - exists st. rewrite app_nil_r. split; [reflexivity|exact Hinv].
  - destruct (process_row_keeps_invariant read st r Hinv) as (st1 & Hstep & Hinv1).
    destruct (IH (read ++ [r]) st1 Hinv1) as (st2 & Hrest & Hinv2).
    exists st2. cbn [process_rows]. rewrite Hstep. cbn [Py.bind].
    rewrite <- app_assoc in Hinv2. split; [exact Hrest|exact Hinv2].
Qed.

(** X23.  The enrichment upload is free of duplicates, on an input file
    every line of which has as many cells as the header: the run returns;
    no two rows written share a lead id, and no two share the uppercased
    name with the zip code; every row written has a name and exactly the
    six columns of the header; the two counters of unique rows are the
    number of rows written, and with the rows skipped they add up to the
    rows read. *)
Theorem upload_has_no_duplicates (input_columns : list string) (rows : list row)
    (Hfull : Forall (Py.well_formed_row input_columns) rows) :
  exists st,
    process_enrichment_upload rows = Ok st
    /\ List.NoDup (List.map written_lead_id (written st))
    /\ List.NoDup (List.map written_name_zip (written st))
    /\ Forall (fun out : row =>
                 Py.truthy (Py.get out "full_name") = true
                 /\ forall k, is_Some (out !! k) <-> In k output_columns)
              (written st)
    /\ unique_lead_ids st = Z.of_nat (length (written st))
    /\ unique_name_zip st = Z.of_nat (length (written st))
    /\ total_rows st = Z.of_nat (length rows)
    /\ unique_lead_ids st + duplicates_skipped st = total_rows st.
Proof.
  destruct (process_rows_keeps_invariant rows [] _ upload_invariant_start)
    as (st & Hrun & [I1 I2 I3 I4 I5 I6 I7 I8 I9]).
  exists st. split; [exact Hrun|]. cbn [app] in *.
  repeat split; auto.
  eapply Forall_impl; [exact I9|]. intros out (H1 & H2 & _). split; [exact H1|exact H2].
Qed.

(** Two rows of one owner under two lead ids: the second is skipped. *)
Lemma upload_has_no_duplicates_witness :
  exists st,
    process_enrichment_upload
      [<["lead_id" := "k1"]>
         (<["full_name" := "John Smith"]> {["mailing_zip" := "78701"]});
       <["lead_id" := "k2"]>
         (<["full_name" := "JOHN SMITH"]> {["mailing_zip" := "78701"]})] = Ok st
    /\ total_rows st = 2
    /\ unique_lead_ids st + duplicates_skipped st = 2
    /\ length (written st) = 1%nat.
Proof.
  destruct (upload_has_no_duplicates ["lead_id"; "full_name"; "mailing_zip"]
              [<["lead_id" := "k1"]>
                 (<["full_name" := "John Smith"]> {["mailing_zip" := "78701"]});
               <["lead_id" := "k2"]>
                 (<["full_name" := "JOHN SMITH"]> {["mailing_zip" := "78701"]})])
    as (st & Hrun & _ & _ & _ & Hid & _ & Htotal & Hsum).
  - repeat (apply List.Forall_cons;
            [apply well_formed_row_check; vm_compute; reflexivity|]).
    apply List.Forall_nil.
  - exists st. split; [exact Hrun|]. split; [exact Htotal|].
    split; [rewrite Hsum; exact Htotal|].
    assert (H : Py.bind (process_enrichment_upload
                           [<["lead_id" := "k1"]>
                              (<["full_name" := "John Smith"]>
                                 {["mailing_zip" := "78701"]});
                            <["lead_id" := "k2"]>
                              (<["full_name" := "JOHN SMITH"]>
                                 {["mailing_zip" := "78701"]})])
                        (fun st => Ok (unique_lead_ids st))
                = Ok 1) by (vm_compute; reflexivity).
    rewrite Hrun in H. cbn [Py.bind] in H. injection H as H. lia.
Defined.

(** X24.  Edge case.  A blank lead id is a lead id like any other for the
    deduplication: when no row of the input has a lead id (the column is
    empty, or the file has no such column), at most one row is written. *)
Theorem upload_without_lead_ids_keeps_one_row (rows : list row)
    (Hblank : Forall (fun r => Py.strip (Py.get r "lead_id") = EmptyString) rows) :
  exists st,
    process_enrichment_upload rows = Ok st /\ (length (written st) <= 1)%nat.
Proof.
  destruct (process_rows_keeps_invariant rows [] _ upload_invariant_start)
    as (st & Hrun & [I1 I2 I3 I4 I5 I6 I7 I8 I9]).
  exists st. split; [exact Hrun|]. cbn [app] in *.
  assert (Hall : Forall (fun out => written_lead_id out = EmptyString) (written st)).
  { eapply Forall_impl; [exact I9|]. intros out (_ & _ & Hin).
    apply in_map_iff in Hin as (r & <- & Hr).
    rewrite List.Forall_forall in Hblank. symmetry. symmetry. now apply Hblank. }
  destruct (written st) as [|o1 [|o2 l]]; cbn [length]; try lia.
  exfalso. apply List.Forall_cons_iff in Hall as [H1 Hall].
  apply List.Forall_cons_iff in Hall as [H2 _].
  cbn [List.map] in I3. apply List.NoDup_cons_iff in I3 as [Hnot _].
  apply Hnot. rewrite H1, <- H2. cbn. now left.
Qed.

(** Two owners in a file without a lead id column: the second is dropped
    as a duplicate of the first. *)
Lemma upload_without_lead_ids_keeps_one_row_witness :
  exists st,
    process_enrichment_upload
      [<["full_name" := "John Smith"]> {["mailing_zip" := "78701"]};
       <["full_name" := "Jane Doe"]> {["mailing_zip" := "78702"]}] = Ok st
    /\ (length (written st) <= 1)%nat
    /\ duplicates_skipped st = 1.
Proof.
  destruct (upload_without_lead_ids_keeps_one_row
              [<["full_name" := "John Smith"]> {["mailing_zip" := "78701"]};
               <["full_name" := "Jane Doe"]> {["mailing_zip" := "78702"]}])
    as (st & Hrun & Hlen).
  - repeat (apply List.Forall_cons; [vm_compute; reflexivity|]). apply List.Forall_nil.
  - exists st. split; [exact Hrun|]. split; [exact Hlen|].
    assert (H : Py.bind (process_enrichment_upload
                           [<["full_name" := "John Smith"]> {["mailing_zip" := "78701"]};
                            <["full_name" := "Jane Doe"]> {["mailing_zip" := "78702"]}])
                        (fun st => Ok (duplicates_skipped st))
                = Ok 1) by (vm_compute; reflexivity).
    rewrite Hrun in H. cbn [Py.bind] in H. now injection H.
Defined.

End UploadFacts.

(** ** The email upload ([process_instantly_upload]) *)

Module InstantlyFacts.
Import ExportInstantlyUpload UploadSpec.

Section Upload.

Variable float_of_str : string -> option float.

Lemma instantly_row_fields (email first last city st zip score band why : string) :
  let out : row :=
    list_to_map [("email", email); ("first_name", first); ("last_name", last);
                 ("city", city); ("state", st); ("zip", zip);
                 ("engagement_score", score); ("value_band", band);
                 ("why_flagged", why)] in
  Py.get out "email" = email /\ has_columns output_columns out.
Proof.
  cbv zeta. unfold Py.get.
  assert (Hnd : NoDup (List.map fst
                         [("email", email); ("first_name", first); ("last_name", last);
                          ("city", city); ("state", st); ("zip", zip);
                          ("engagement_score", score); ("value_band", band);
                          ("why_flagged", why)])).
  { cbn [List.map fst]. apply (bool_decide_unpack _). vm_compute. exact I. }
  rewrite (RecorderFacts.list_to_map_lookup _ "email" email Hnd) by (cbn [In]; tauto).
  split; [reflexivity|]. intros k.
  exact (UploadFacts.list_to_map_is_Some
           [("email", email); ("first_name", first); ("last_name", last);
            ("city", city); ("state", st); ("zip", zip);
            ("engagement_score", score); ("value_band", band);
            ("why_flagged", why)] k).
Qed.

(** One row of the loop: a row with an address is written, the others are
    counted and passed over; the loop never raises. *)
Lemma process_row_exports (st : state) (r : row) :
  exists st',
    process_row float_of_str st r = Ok st'
    /\ total_rows st' = total_rows st + 1
    /\ with_email st' = with_email st + (if NoteBrokerRefine.has_email r then 1 else 0)
    /\ without_email st'
       = without_email st + (if NoteBrokerRefine.has_email r then 0 else 1)
    /\ List.map (fun w => Py.get w "email") (written st')
       = List.map (fun w => Py.get w "email") (written st)
         ++ (if NoteBrokerRefine.has_email r then [email_of r] else [])
    /\ (Forall (has_columns output_columns) (written st)
        -> Forall (has_columns output_columns) (written st')).
Proof.
  unfold process_row, NoteBrokerRefine.has_email, email_of. cbv zeta.
  cbn [written total_rows with_email without_email].
  set (email := Py.strip (Py.str_or (Py.get r "email") (Py.get r "Email"))).
  destruct (Py.truthy email); cbn [negb orb andb].
  - destruct (Py.contains "@" email); cbn [negb].
    + destruct (parse_name _) as [first_name last_name].
      set (out := list_to_map _).
      destruct (instantly_row_fields email first_name last_name
                  (Py.str_or (Py.strip (Py.get r "mailing_city"))
                             (Py.strip (Py.get r "situs_city")))
                  (Py.str_or (Py.strip (Py.get r "mailing_state"))
                             (Py.strip (Py.get r "situs_state")))
                  (Py.str_or (Py.strip (Py.get r "mailing_zip"))
                             (Py.strip (Py.get r "situs_zip")))
                  (Py.str_or (Py.strip (Py.get r "engagement_score")) "0")
                  (get_value_band float_of_str (Py.strip (Py.get r "total_value")))
                  (Py.str_or (Py.strip (Py.get r "why_flagged"))
                             (Py.strip (Py.get r "engagement_reason"))))
        as (Hemail & Hdom).
      fold out in Hemail, Hdom.
      assert (Hcsv : Py.csv_row output_columns out) by (intros k Hk; now apply Hdom).
      rewrite (writerow_ok _ _ _ Hcsv). cbn [Py.bind].
      eexists. split; [reflexivity|].
      cbn [written total_rows with_email without_email].
      split; [reflexivity|]. split; [reflexivity|]. split; [lia|].
      split.
      * rewrite List.map_app. cbn [List.map]. now rewrite Hemail.
      * intros Hall. apply Forall_app. split; [exact Hall|]. now constructor.
    + eexists. split; [reflexivity|].
      cbn [written total_rows with_email without_email].
      rewrite app_nil_r. repeat split; auto; lia.
  - eexists. split; [reflexivity|].
    cbn [written total_rows with_email without_email].
    rewrite app_nil_r. repeat split; auto; lia.
Qed.

Lemma process_rows_exports (rows : list row) :
  forall st : state,
  exists st',
    process_rows float_of_str st rows = Ok st'
    /\ total_rows st' = total_rows st + Z.of_nat (length rows)
    /\ with_email st'
       = with_email st + Z.of_nat (length (List.filter NoteBrokerRefine.has_email rows))
    /\ without_email st'
       = without_email st
         + Z.of_nat (length (List.filter (fun r => negb (NoteBrokerRefine.has_email r)) rows))
    /\ List.map (fun w => Py.get w "email") (written st')
       = List.map (fun w => Py.get w "email") (written st)
         ++ List.map email_of (List.filter NoteBrokerRefine.has_email rows)
    /\ (Forall (has_columns output_columns) (written st)
        -> Forall (has_columns output_columns) (written st')).
Proof.
  induction rows as [|r rows IH]; intros st.
  - exists st. cbn [process_rows List.filter List.map length]. rewrite app_nil_r.
    repeat split; auto; lia.
  - destruct (process_row_exports st r) as (st1 & H1 & Ht1 & Hw1 & Hn1 & Hm1 & Hc1).
    destruct (IH st1) as (st' & H' & Ht & Hw & Hn & Hm & Hc).
    exists st'. cbn [process_rows]. rewrite H1. cbn [Py.bind].
    split; [exact H'|].
    rewrite Ht, Hw, Hn, Hm, Ht1, Hw1, Hn1, Hm1. cbn [List.filter].
    destruct (NoteBrokerRefine.has_email r); cbn [negb List.map length];
      rewrite <- ?app_assoc; cbn [app]; rewrite ?app_nil_r;
      repeat split; auto; lia.
Qed.

(** X25.  The exporter keeps the rows with an email address, and only those.
    On an input file every line of which has as many cells as the header,
    [process_instantly_upload] returns; it counts every row,
    counts as "with email" the rows that pass the router's own test
    [has_email] and as "without" the others, and writes one row for each
    row with an address, in input order, carrying the trimmed address and
    exactly the nine columns of the header. *)
Theorem instantly_upload_keeps_the_rows_with_an_email
    (input_columns : list string) (rows : list row)
    (Hfull : Forall (Py.well_formed_row input_columns) rows) :
  exists st,
    process_instantly_upload float_of_str rows = Ok st
    /\ total_rows st = Z.of_nat (length rows)
    /\ with_email st = Z.of_nat (length (List.filter NoteBrokerRefine.has_email rows))
    /\ with_email st + without_email st = total_rows st
    /\ List.map (fun w => Py.get w "email") (written st)
       = List.map email_of (List.filter NoteBrokerRefine.has_email rows)
    /\ Forall (has_columns output_columns) (written st)
    /\ Forall (fun w => Py.contains "@" (Py.get w "email") = true) (written st).
Proof.
  destruct (process_rows_exports rows (mk_state [] 0 0 0))
    as (st & Hrun & Ht & Hw & Hn & Hm & Hc).
  cbn [written total_rows with_email without_email List.map app] in *.
  exists st. split; [exact Hrun|]. split; [lia|]. split; [lia|]. split.
  - rewrite Ht, Hw, Hn.
    assert (Hsplit : forall l : list row,
               (length (List.filter NoteBrokerRefine.has_email l)
                + length (List.filter (fun r => negb (NoteBrokerRefine.has_email r)) l))%nat
               = length l).
    { induction l as [|r l IH]; [reflexivity|]. cbn [List.filter].
      destruct (NoteBrokerRefine.has_email r); cbn [negb length]; lia. }
    specialize (Hsplit rows). lia.
  - split; [exact Hm|]. split; [apply Hc; constructor|].
    apply List.Forall_forall. intros w Hin.
    apply (List.in_map (fun w => Py.get w "email")) in Hin. rewrite Hm in Hin.
    apply List.in_map_iff in Hin as (r & <- & Hr).
    apply List.filter_In in Hr as [_ Hr].
    unfold NoteBrokerRefine.has_email in Hr. cbv zeta in Hr.
    apply andb_true_iff in Hr as [_ Hr]. exact Hr.
Qed.

End Upload.

(** A row with an address and a row without. *)
Lemma instantly_upload_keeps_the_rows_with_an_email_witness :
  exists st,
    process_instantly_upload (fun _ => None)
      [<["full_name" := "John Smith"]> {["email" := "john@example.org"]};
       <["full_name" := "Jane Doe"]> {["email" := ""]}] = Ok st
    /\ total_rows st = 2
    /\ with_email st = 1
    /\ List.map (fun w => Py.get w "email") (written st) = ["john@example.org"].
Proof.
  destruct (instantly_upload_keeps_the_rows_with_an_email (fun _ => None)
              ["full_name"; "email"]
              [<["full_name" := "John Smith"]> {["email" := "john@example.org"]};
               <["full_name" := "Jane Doe"]> {["email" := ""]}])
    as (st & Hrun & Htotal & Hwith & _ & Hmail & _).
  - repeat (apply List.Forall_cons;
            [apply well_formed_row_check; vm_compute; reflexivity|]).
    apply List.Forall_nil.
  - exists st. split; [exact Hrun|]. split; [exact Htotal|].
    split; [rewrite Hwith; vm_compute; reflexivity|].
    rewrite Hmail. vm_compute. reflexivity.
Defined.

End InstantlyFacts.

(** ** From the router to the scripts that read its files *)

Module PipelineFacts.
Import NoteBrokerRefine RouterSpec PipelineSpec.

Lemma str_truthy (n : Z) : Py.truthy (Py.str n) = true.
Proof.
  unfold Py.str. destruct n as [|p|p]; [reflexivity| |reflexivity].
  change (pretty (Z.pos p)) with (pretty (N.pos p)).
  destruct (pretty_positive_digits p) as (d & rest & _ & -> & _). reflexivity.
Qed.

Lemma int_str (n : Z) : Py.int (Py.str n) = Ok n.
Proof. unfold Py.int. now rewrite int_of_str_str. Qed.

Section Router.

Variable float_of_str : string -> option float.
Variable format_comma_0f : float -> string.

Lemma enrich_score_read_back (r : row) (score : Z) (why : string) :
  0 <= score <= 100 ->
  score_read_back (enrich float_of_str format_comma_0f r score why).
Proof.
  intros Hs. exists score. split; [exact Hs|].
  assert (Hget : enrich float_of_str format_comma_0f r score why !! "engagement_score"
                 = Some (Py.str score)).
  { unfold enrich. cbv zeta.
    rewrite !lookup_insert_ne by discriminate. apply lookup_insert_eq. }
  split; [exact Hget|].
  unfold GroupByOwner.engagement_score_text. rewrite Hget.
  change (default "0" (Some (Py.str score))) with (Py.str score).
  unfold Py.str_or. rewrite str_truthy. apply int_str.
Qed.

Lemma writerow_cases (fieldnames : list string) (d : row) (written : list row) :
  Py.writerow fieldnames d written = Ok (written ++ [d])
  \/ Py.writerow fieldnames d written = Raise Py.ValueError.
Proof. unfold Py.writerow. destruct (forallb _ _); [left|right]; reflexivity. Qed.

Lemma enrich_email_flag_agrees (r : row) (score : Z) (why : string) :
  email_flag_agrees (enrich float_of_str format_comma_0f r score why).
Proof.
  unfold email_flag_agrees, flagged_with_email.
  assert (Hsame : has_email (enrich float_of_str format_comma_0f r score why)
                  = has_email r).
  { unfold has_email, enrich, Py.get. cbv zeta.
    rewrite !(lookup_insert_ne _ _ "email") by discriminate.
    rewrite !(lookup_insert_ne _ _ "Email") by discriminate.
    reflexivity. }
  assert (Hflag : Py.get (enrich float_of_str format_comma_0f r score why) "has_email"
                  = if has_email r then "Y" else "N").
  { unfold enrich, Py.get. cbv zeta.
    rewrite !(lookup_insert_ne _ _ "has_email") by discriminate.
    rewrite lookup_insert_eq. reflexivity. }
  rewrite Hsame, Hflag. destruct (has_email r); reflexivity.
Qed.

(** What holds of every row the router builds holds of every row of its
    files. *)
Lemma process_row_written (P : row -> Prop) (output_columns : list string)
      (out out' : outputs) (r : row) :
  (forall r score why,
      0 <= score <= 100 -> P (enrich float_of_str format_comma_0f r score why)) ->
  process_row float_of_str format_comma_0f output_columns out r = Ok out' ->
  Forall P (all_rows out) ->
  Forall P (all_rows out').
Proof.
  intros HP. unfold process_row, classify_for_note_broker.
  destruct (ScoreFacts.calculate_engagement_score_cases float_of_str r)
    as [[_ Hc]|(score & why & _ & Hc & Hb)]; rewrite Hc; cbn [Py.bind];
    [discriminate|].
  intros Hrun Hall.
  pose proof (HP r score why Hb) as Hw.
  unfold all_rows in *.
  rewrite !Forall_app in Hall. destruct Hall as (Hh & Hm & Hl & Hr).
  assert (Hone : Forall P [enrich float_of_str format_comma_0f r score why])
    by (constructor; [exact Hw|constructor]).
  repeat match type of Hrun with
         | context [if ?b then _ else _] => destruct b
         end;
    cbn [Py.bind] in Hrun;
    match type of Hrun with
    | context [Py.writerow ?c ?d ?w] =>
        destruct (writerow_cases c d w) as [Hwr|Hwr]; rewrite Hwr in Hrun;
        cbn [Py.bind] in Hrun; [|discriminate]
    end;
    injection Hrun as <-;
    cbn [high_rows medium_rows low_rows review_rows];
    rewrite !Forall_app; tauto.
Qed.

Lemma process_rows_written (P : row -> Prop) (output_columns : list string)
      (rows : list row) :
  (forall r score why,
      0 <= score <= 100 -> P (enrich float_of_str format_comma_0f r score why)) ->
  forall out out' : outputs,
    process_rows float_of_str format_comma_0f output_columns out rows = Ok out' ->
    Forall P (all_rows out) ->
    Forall P (all_rows out').
Proof.
  intros HP. induction rows as [|r rows IH]; intros out out' Hrun Hall.
  - cbn [process_rows] in Hrun. now injection Hrun as <-.
  - cbn [process_rows] in Hrun.
    destruct (process_row float_of_str format_comma_0f output_columns out r)
      as [out1|e] eqn:Hrow; cbn [Py.bind] in Hrun; [|discriminate].
    apply (IH out1 out' Hrun).
    apply (process_row_written P output_columns out out1 r HP Hrow Hall).
Qed.

(** X26.  The scores the router writes are read back by the grouping script:
    after a run of [process_targets_file] that returns, the score column of
    every row of its four files holds [str(s)] for a score [s] between 0
    and 100, and [int(row.get("engagement_score", "0") or "0")], as
    [group_properties_by_owner] evaluates it, gives [s]. *)
Theorem router_scores_are_read_back
    (input_columns : list string) (rows : list row) (out : outputs)
    (Hrun : process_targets_file float_of_str format_comma_0f input_columns rows = Ok out) :
  Forall score_read_back (all_rows out).
Proof.
  unfold process_targets_file in Hrun.
  apply (process_rows_written score_read_back _ rows enrich_score_read_back
           no_outputs out Hrun).
  constructor.
Qed.

(** X27.  The exporter keeps the rows the router flagged.  After a run of
    [process_targets_file] that returns, [process_instantly_upload] over
    any of its four files returns, and the rows it counts as "with email",
    which are the rows it writes, are as many as the rows of the file whose
    [has_email] column is Y. *)
Theorem exporter_keeps_the_rows_the_router_flags
    (input_columns : list string) (rows : list row) (out : outputs)
    (Hrun : process_targets_file float_of_str format_comma_0f input_columns rows = Ok out) :
  forall file,
    In file [high_rows out; medium_rows out; low_rows out; review_rows out] ->
    exists st,
      ExportInstantlyUpload.process_instantly_upload float_of_str file = Ok st
      /\ ExportInstantlyUpload.with_email st
         = Z.of_nat (length (List.filter flagged_with_email file))
      /\ Z.of_nat (length (ExportInstantlyUpload.written st))
         = ExportInstantlyUpload.with_email st
      /\ ExportInstantlyUpload.without_email st
         = Z.of_nat (length file) - ExportInstantlyUpload.with_email st.
Proof.
  intros file Hfile.
  assert (Hall : Forall email_flag_agrees (all_rows out)).
  { unfold process_targets_file in Hrun.
    apply (process_rows_written email_flag_agrees _ rows
             (fun r score why _ => enrich_email_flag_agrees r score why)
             no_outputs out Hrun).
    constructor. }
  assert (Hflags : Forall email_flag_agrees file).
  { unfold all_rows in Hall. rewrite !Forall_app in Hall.
    destruct Hall as (Hh & Hm & Hl & Hr).
    cbn [In] in Hfile. destruct Hfile as [<-|[<-|[<-|[<-|[]]]]]; assumption. }
  assert (Hfilter : List.filter flagged_with_email file = List.filter has_email file).
  { apply List.filter_ext_in. intros w Hw.
    rewrite List.Forall_forall in Hflags. exact (Hflags w Hw). }
  destruct (InstantlyFacts.process_rows_exports float_of_str file
              (ExportInstantlyUpload.mk_state [] 0 0 0))
    as (st & Hst & Ht & Hw & Hn & Hm & _).
  cbn [ExportInstantlyUpload.written ExportInstantlyUpload.total_rows
       ExportInstantlyUpload.with_email ExportInstantlyUpload.without_email
       List.map app] in *.
  exists st. split; [exact Hst|]. rewrite Hfilter. split; [lia|]. split.
  - apply (f_equal (@length string)) in Hm. rewrite !length_map in Hm. lia.
  - rewrite Hn, Hw.
    assert (Hsplit : forall l : list row,
               (length (List.filter has_email l)
                + length (List.filter (fun r => negb (has_email r)) l))%nat
               = length l).
    { induction l as [|r l IH]; [reflexivity|]. cbn [List.filter].
      destruct (has_email r); cbn [negb length]; lia. }
    specialize (Hsplit file). lia.
Qed.

End Router.

(** Three rows of one file, with the property counts 1, blank and 3. *)
Lemma router_scores_are_read_back_witness :
  exists out,
    process_targets_file (fun _ => None) (fun _ => EmptyString) sample_columns
      [sample_contact_row "1"; sample_contact_row EmptyString; sample_contact_row "3"]
    = Ok out
    /\ length (all_rows out) = 3%nat
    /\ Forall score_read_back (all_rows out).
Proof.
  destruct (RouterFacts.process_rows_routes (fun _ => None) (fun _ => EmptyString)
              sample_columns
              [sample_contact_row "1"; sample_contact_row EmptyString;
               sample_contact_row "3"] no_outputs)
    as (out & Hout & Hh & Hm & Hl & Hr & _).
  - repeat (apply List.Forall_cons; [apply csv_row_check; vm_compute; reflexivity|]).
    apply List.Forall_nil.
  - repeat (apply List.Forall_cons; [vm_compute; eexists; reflexivity|]).
    apply List.Forall_nil.
  - repeat split; reflexivity.
  - exists out. split; [exact Hout|]. split.
    + unfold all_rows. rewrite Hh, Hm, Hl, Hr. unfold rows_of_tier.
      rewrite !length_app, !length_map. vm_compute. reflexivity.
    + exact (router_scores_are_read_back (fun _ => None) (fun _ => EmptyString)
               sample_columns _ out Hout).
Defined.

(** The same three rows; all three reach the high-priority file and carry
    an address. *)
Lemma exporter_keeps_the_rows_the_router_flags_witness :
  exists out st,
    process_targets_file (fun _ => None) (fun _ => EmptyString) sample_columns
      [sample_contact_row "1"; sample_contact_row EmptyString; sample_contact_row "3"]
    = Ok out
    /\ ExportInstantlyUpload.process_instantly_upload (fun _ => None) (high_rows out)
       = Ok st
    /\ ExportInstantlyUpload.with_email st
       = Z.of_nat (length (List.filter flagged_with_email (high_rows out)))
    /\ length (high_rows out) = 3%nat.
Proof.
  destruct (RouterFacts.process_rows_routes (fun _ => None) (fun _ => EmptyString)
              sample_columns
              [sample_contact_row "1"; sample_contact_row EmptyString;
               sample_contact_row "3"] no_outputs)
    as (out & Hout & Hh & _).
  - repeat (apply List.Forall_cons; [apply csv_row_check; vm_compute; reflexivity|]).
    apply List.Forall_nil.
  - repeat (apply List.Forall_cons; [vm_compute; eexists; reflexivity|]).
    apply List.Forall_nil.
  - repeat split; reflexivity.
  - destruct (exporter_keeps_the_rows_the_router_flags (fun _ => None)
                (fun _ => EmptyString) sample_columns _ out Hout (high_rows out))
      as (st & Hst & Hw & _); [cbn [In]; tauto|].
    exists out, st. split; [exact Hout|]. split; [exact Hst|]. split; [exact Hw|].
    rewrite Hh. unfold rows_of_tier. rewrite !length_app, !length_map.
    vm_compute. reflexivity.
Defined.

End PipelineFacts.

(** ** Investor entities ([normalize_entity_name], [group_entities_by_name]) *)

Section SplitJoinFacts.

Import WordSpec.

Lemma rev_app_rev_app (s t u : string) :
  String.rev_app (String.rev_app s t) u = String.rev_app t (s +:+ u).
Proof.
  revert t u. induction s as [|c s IH]; intros t u; [reflexivity|].
  cbn [String.rev_app]. rewrite IH. reflexivity.
Qed.

Lemma append_nil_r (s : string) : s +:+ EmptyString = s.
Proof. induction s as [|c s IH]; [reflexivity|]. rewrite append_cons. now rewrite IH. Qed.

Lemma rev_rev (s : string) : String.rev (String.rev s) = s.
Proof. unfold String.rev. rewrite rev_app_rev_app. cbn [String.rev_app]. apply append_nil_r. Qed.

(** Reading a word: its characters go to the word under construction. *)
Lemma split_go_word (w s cur : string) :
  no_space w = true -> Py.split_go cur (w +:+ s) = Py.split_go (String.rev_app w cur) s.
Proof.
  revert cur. induction w as [|c w IH]; intros cur Hw; [reflexivity|].
  cbn [no_space] in Hw. apply andb_true_iff in Hw as [Hc Hw].
  apply negb_true_iff in Hc.
  rewrite append_cons. cbn [Py.split_go String.rev_app]. rewrite Hc. now apply IH.
Qed.

(** Round trip: splitting words joined by single spaces gives the words
    back. *)
Lemma split_join_words (l : list string) :
  Forall is_word l -> Py.split (Py.join " " l) = l.
Proof.
  induction l as [|w l IH]; intros Hall; [reflexivity|].
  apply List.Forall_cons_iff in Hall as [[Hne Hns] Hall]. specialize (IH Hall).
  unfold Py.split in *. destruct l as [|x l].
  - cbn [Py.join]. rewrite <- (append_nil_r w) at 1. rewrite (split_go_word _ _ _ Hns).
    cbn [Py.split_go]. rewrite is_empty_rev_app, Hne. cbn [andb].
    fold (String.rev w). now rewrite rev_rev.
  - change (Py.join " " (w :: x :: l)) with (w +:+ " " +:+ Py.join " " (x :: l)).
    rewrite (split_go_word _ _ _ Hns).
    change (" " +:+ Py.join " " (x :: l)) with (String " " (Py.join " " (x :: l))).
    cbn [Py.split_go]. change (Py.isspace " ") with true. cbv iota.
    rewrite is_empty_rev_app, Hne. cbn [andb].
    fold (String.rev w). now rewrite rev_rev, IH.
Qed.

End SplitJoinFacts.

Module EntityGroupFacts.
Import GroupInvestorEntities EntityGroupSpec WordSpec.

Lemma normalize_entity_name_unfold (r : row) :
  normalize_entity_name r = Py.join " " (Py.split (Py.upper (entity_name_of r))).
Proof.
  unfold normalize_entity_name, entity_name_of. cbv zeta. rewrite truthy_upper.
  now destruct (Py.truthy (Py.strip (Py.get r "company_name"))).
Qed.

Lemma upper_strip_text (s : string) :
  Py.truthy (Py.strip s) = true -> Py.split (Py.upper (Py.strip s)) <> [].
Proof.
  intros Ht. destruct (NameFacts.strip_starts_with_text s) as [He|(c & rest & He & Hc)];
    rewrite He in *; [discriminate|].
  unfold Py.split. cbn [Py.upper Py.split_go].
  rewrite isspace_upper_char, Hc. now apply NameFacts.split_go_started.
Qed.

(** X28.  The key of an entity.  It is made from the company name, and from
    the full name only when the company name is blank, so rows with one
    company name share a key whatever their full names; it is a normal form
    (trimmed, and splitting it into words and joining them gives it back);
    and it is empty exactly when the row has neither name. *)
Theorem entity_key_prefers_company_name (r : row) :
  normalize_entity_name r = Py.join " " (Py.split (Py.upper (entity_name_of r)))
  /\ (Py.truthy (Py.strip (Py.get r "company_name")) = true ->
      forall r',
        Py.get r' "company_name" = Py.get r "company_name" ->
        normalize_entity_name r' = normalize_entity_name r)
  /\ Py.join " " (Py.split (normalize_entity_name r)) = normalize_entity_name r
  /\ trimmed (normalize_entity_name r)
  /\ Py.truthy (normalize_entity_name r) = Py.truthy (entity_name_of r).
Proof.
  split; [apply normalize_entity_name_unfold|]. split.
  { intros Hc r' Hsame. rewrite !normalize_entity_name_unfold. unfold entity_name_of.
    now rewrite Hsame, Hc. }
  rewrite normalize_entity_name_unfold.
  pose proof (split_words (Py.upper (entity_name_of r))) as Hwords.
  split; [now rewrite (split_join_words _ Hwords)|].
  split; [now apply strip_join_words|].
  destruct (Py.truthy (entity_name_of r)) eqn:Hname.
  - assert (Hne : Py.split (Py.upper (entity_name_of r)) <> []).
    { unfold entity_name_of in *.
      destruct (Py.truthy (Py.strip (Py.get r "company_name"))) eqn:Hc;
        now apply upper_strip_text. }
    destruct (Py.split (Py.upper (entity_name_of r))) as [|w l]; [contradiction|].
    destruct (join_words_shape l w Hwords) as (He & _). unfold Py.truthy. now rewrite He.
  - destruct (entity_name_of r); [reflexivity|discriminate].
Qed.

(** The maximum of the scores. *)
Lemma fold_max_spec (scores : list Z) (m : Z) :
  m <= fold_left Z.max scores m
  /\ Forall (fun s => s <= fold_left Z.max scores m) scores
  /\ (fold_left Z.max scores m = m \/ In (fold_left Z.max scores m) scores).
Proof.
  revert m. induction scores as [|s scores IH]; intros m; cbn [fold_left In].
  - split; [lia|]. split; [constructor|now left].
  - destruct (IH (Z.max m s)) as (H1 & H2 & H3).
    split; [lia|]. split; [constructor; [lia|exact H2]|].
    destruct H3 as [H3|H3]; [|right; now right].
    destruct (Z.max_spec m s) as [[_ Hm]|[_ Hm]]; rewrite Hm in *.
    + right. left. now rewrite H3.
    + now left.
Qed.

Section Run.

Variable float_of_str : string -> option float.

(** The loop over the properties of one entity. *)
Lemma aggregate_properties_spec (properties : list row) :
  forall a a' : aggregate,
    aggregate_properties float_of_str a properties = Ok a' ->
    exists scores,
      Forall2 (fun prop s => Py.int_of_str (score_text prop) = Some s) properties scores
      /\ max_engagement_score a' = fold_left Z.max scores (max_engagement_score a)
      /\ has_any_email a' = has_any_email a || existsb (flagged "has_email") properties
      /\ has_any_phone a' = has_any_phone a || existsb (flagged "has_phone") properties.
Proof.
  induction properties as [|prop properties IH]; intros a a' Hrun.
  - cbn [aggregate_properties] in Hrun. injection Hrun as <-.
    exists []. cbn [fold_left existsb]. rewrite !orb_false_r. repeat split. constructor.
  - cbn [aggregate_properties] in Hrun. unfold aggregate_property in Hrun at 1.
    cbv zeta in Hrun. fold (score_text prop) in Hrun. unfold Py.int in Hrun.
    destruct (Py.int_of_str (score_text prop)) as [s|] eqn:Hs; [|discriminate].
    cbn [Py.bind] in Hrun.
    apply IH in Hrun as (scores & Hall & Hmax & He & Hp).
    cbn [max_engagement_score has_any_email has_any_phone] in Hmax, He, Hp.
    exists (s :: scores). split; [constructor; assumption|].
    split; [exact Hmax|]. cbn [existsb]. fold (flagged "has_email" prop) in He.
    fold (flagged "has_phone" prop) in Hp.
    rewrite He, Hp.
    split; [destruct (flagged "has_email" prop), (has_any_email a); reflexivity
           |destruct (flagged "has_phone" prop), (has_any_phone a); reflexivity].
Qed.

(** The row written for an entity. *)
Lemma entity_consolidate_spec (properties : list row) (out : row) :
  consolidate float_of_str properties = Ok out ->
  entity_consolidated properties out.
Proof.
  unfold consolidate. destruct properties as [|first rest] eqn:Hprops; [discriminate|].
  rewrite <- Hprops. cbv zeta.
  destruct (aggregate_properties float_of_str _ properties) as [a|e] eqn:Hagg;
    [|discriminate].
  cbn [Py.bind].
  destruct (amount_text (total_portfolio_value a)) as [total_text|e]; [|discriminate].
  cbn [Py.bind].
  destruct (amount_text _) as [avg_text|e]; [|discriminate].
  cbn [Py.bind].
  apply aggregate_properties_spec in Hagg as (scores & Hall & Hmax & He & Hp).
  cbn [max_engagement_score has_any_email has_any_phone orb] in Hmax, He, Hp.
  fold (max_score scores) in Hmax. rewrite Hmax, He, Hp.
  match goal with
  | |- context [<["engagement_score" := ?v]> ?m] =>
      set (base_row := <["engagement_score" := v]> m)
  end.
  intros Hout. exists scores. split; [exact Hall|].
  assert (Hkeep : forall k, k <> "property_count" -> k <> "why_flagged" ->
                            out !! k = base_row !! k).
  { clearbody base_row. intros k Hk1 Hk2.
    repeat match type of Hout with
           | context [if ?b then _ else _] => destruct b
           end;
      injection Hout as <-; rewrite ?lookup_insert_ne by congruence; reflexivity. }
  rewrite !Hkeep by discriminate. subst base_row.
  repeat split;
    repeat (first [ rewrite lookup_insert_eq; reflexivity
                  | rewrite lookup_insert_ne by discriminate ]).
Qed.

(** The output loop writes one row per entity, in order. *)
Lemma write_groups_consolidated (output_columns : list string)
      (groups : list (string * list row)) :
  forall (written written' : list row) (c c' : counts),
    write_groups float_of_str output_columns groups written c = Ok (written', c') ->
    exists news,
      written' = written ++ news
      /\ Forall2 (fun g out => entity_consolidated (snd g) out) groups news.
Proof.
  induction groups as [|[k properties] groups IH]; intros written written' c c'.
  - cbn [write_groups]. intros [= <- <-]. exists []. split; [now rewrite app_nil_r|constructor].
  - cbn [write_groups]. cbv zeta.
    destruct (consolidate float_of_str properties) as [base_row|e] eqn:Hrow; [|discriminate].
    cbn [Py.bind]. unfold Py.writerow at 1.
    destruct (forallb _ (map_to_list base_row)); [|discriminate].
    cbn [Py.bind]. intros Hrest. apply IH in Hrest as (news & -> & Hall).
    exists (base_row :: news). split; [now rewrite <- app_assoc|].
    constructor; [|exact Hall]. cbn [snd]. now apply entity_consolidate_spec.
Qed.

Lemma build_groups_named (rows : list row) :
  build_groups rows
  = fold_left (fun groups r => GroupByOwner.add_to_group (normalize_entity_name r) r groups)
              (named_rows rows) [].
Proof.
  unfold build_groups, named_rows. generalize (@nil (string * list row)).
  induction rows as [|r rows IH]; intros groups; [reflexivity|].
  cbn [fold_left List.filter]. cbv zeta.
  destruct (Py.truthy (normalize_entity_name r)); cbn [negb fold_left]; apply IH.
Qed.

(** The groups are the rows that have a name, by key. *)
Lemma build_groups_partition (rows : list row) :
  List.NoDup (List.map fst (build_groups rows))
  /\ Forall (fun g => snd g = GroupRunSpec.rows_keyed normalize_entity_name (fst g)
                                (named_rows rows)
                      /\ snd g <> [])
            (build_groups rows)
  /\ (forall k, In k (List.map fst (build_groups rows))
                <-> In k (List.map normalize_entity_name (named_rows rows))).
Proof.
  rewrite build_groups_named.
  destruct (GroupRunFacts.fold_groups_partition normalize_entity_name (named_rows rows) [])
    as (H1 & H2 & H3 & _ & H5).
  cbv zeta in *.
  set (result := fold_left _ (named_rows rows) []) in *.
  assert (Hnd : List.NoDup (List.map fst result)) by (apply H1; constructor).
  assert (Hne : Forall (fun g => snd g <> []) result) by (apply H2; constructor).
  split; [exact Hnd|]. split.
  - apply List.Forall_forall. intros [k p] Hin. cbn [fst snd]. split.
    + rewrite <- (GroupRunFacts.members_of_In k p result Hnd Hin). apply H3.
    + rewrite List.Forall_forall in Hne. exact (Hne (k, p) Hin).
  - intros k. rewrite H5. cbn [List.map In]. tauto.
Qed.

(** X29.  The score of an entity is the largest score of its properties.
    When the run returns, it has written one row per entity, in order of
    first appearance; an entity is the rows with one key among the rows
    that have a name; every score of its properties was read by [int], and
    the row written carries, as [engagement_score] and as
    [max_engagement_score], the largest of 0 and these scores, with the
    number of properties and the two flags Y exactly when some property is
    flagged Y. *)
Theorem entity_score_is_the_maximum
    (input_columns : list string) (rows written : list row) (c : counts)
    (Hrun : group_entities_by_name float_of_str input_columns rows = Ok (written, c)) :
  Forall2 (fun g out => entity_consolidated (snd g) out) (build_groups rows) written
  /\ Forall (fun g => snd g = GroupRunSpec.rows_keyed normalize_entity_name (fst g)
                                (named_rows rows)
                      /\ snd g <> [])
            (build_groups rows)
  /\ (forall scores,
         0 <= max_score scores
         /\ Forall (fun s => s <= max_score scores) scores
         /\ (max_score scores = 0 \/ In (max_score scores) scores)).
Proof.
  unfold group_entities_by_name in Hrun. cbv zeta in Hrun.
  apply write_groups_consolidated in Hrun as (news & Hw & Hall).
  cbn [app] in Hw. subst news.
  split; [exact Hall|]. split; [apply build_groups_partition|].
  intros scores. apply fold_max_spec.
Qed.

Lemma In_entity_output_columns (k : string) (input_columns : list string) :
  In k (fold_left (fun columns field => Py.with_column field columns)
                  aggregated_fields input_columns)
  <-> In k input_columns \/ In k aggregated_fields.
Proof.
  unfold aggregated_fields. cbn [fold_left]. rewrite !GroupRunFacts.In_with_column_iff.
  cbn [In]. split; intros H; decompose [or] H; subst; tauto.
Qed.

(** X30.  Error behaviour.  The run sets [engagement_score] in the row of
    every entity but does not add that column to the header: on an input
    file without the column, the run ends with an exception as soon as one
    row has a name. *)
Theorem entity_grouping_needs_the_score_column
    (input_columns : list string) (rows : list row)
    (Hno : ~ In "engagement_score" input_columns)
    (Hrow : exists r, In r rows /\ Py.truthy (normalize_entity_name r) = true) :
  exists e, group_entities_by_name float_of_str input_columns rows = Raise e.
Proof.
  unfold group_entities_by_name. cbv zeta.
  set (output_columns := fold_left _ aggregated_fields input_columns).
  assert (Hout : ~ In "engagement_score" output_columns).
  { subst output_columns. rewrite In_entity_output_columns.
    unfold aggregated_fields. cbn [In].
    intros [H|[H|[H|[H|[H|[H|[H|[H|[H|[]]]]]]]]]]; try discriminate. contradiction. }
  destruct (build_groups_partition rows) as (_ & _ & Hkeys).
  destruct Hrow as (r & Hin & Hr).
  assert (Hkey : In (normalize_entity_name r) (List.map fst (build_groups rows))).
  { apply Hkeys. apply in_map. apply List.filter_In. split; assumption. }
  destruct (build_groups rows) as [|[k properties] groups]; [destruct Hkey|].
  cbn [write_groups]. cbv zeta.
  destruct (consolidate float_of_str properties) as [base_row|e] eqn:Hrow;
    [|exists e; reflexivity].
  cbn [Py.bind].
  apply entity_consolidate_spec in Hrow as (scores & _ & Hscore & _).
  exists Py.ValueError.
  rewrite (RoleTableFacts.writerow_extra_column output_columns base_row []
             "engagement_score"); [reflexivity| |exact Hout].
  rewrite Hscore. eauto.
Qed.

End Run.

(** Two properties of one company, under two personal names, with the
    scores 10 and 90: one entity with the score 90. *)
Lemma entity_score_is_the_maximum_witness :
  exists written c,
    group_entities_by_name (fun _ => None) GroupSpec.sample_columns
      [GroupSpec.sample_owner "A1" "John Smith" "Acme LLC" "10";
       GroupSpec.sample_owner "A2" "Jane Doe" "Acme  llc" "90"] = Ok (written, c)
    /\ List.map (fun out : row => out !! "engagement_score") written = [Some "90"]
    /\ Forall2 (fun g out => entity_consolidated (snd g) out)
         (build_groups [GroupSpec.sample_owner "A1" "John Smith" "Acme LLC" "10";
                        GroupSpec.sample_owner "A2" "Jane Doe" "Acme  llc" "90"])
         written.
Proof.
  destruct (group_entities_by_name (fun _ => None) GroupSpec.sample_columns
              [GroupSpec.sample_owner "A1" "John Smith" "Acme LLC" "10";
               GroupSpec.sample_owner "A2" "Jane Doe" "Acme  llc" "90"])
    as [[written c]|e] eqn:Hrun.
  - exists written, c. split; [reflexivity|]. split.
    + assert (H : Py.bind
                    (group_entities_by_name (fun _ => None) GroupSpec.sample_columns
                       [GroupSpec.sample_owner "A1" "John Smith" "Acme LLC" "10";
                        GroupSpec.sample_owner "A2" "Jane Doe" "Acme  llc" "90"])
                    (fun res => Ok (List.map (fun out : row => out !! "engagement_score")
                                             (fst res)))
                  = Ok [Some "90"]) by (vm_compute; reflexivity).
      rewrite Hrun in H. cbn [Py.bind fst] in H. now injection H.
    + exact (proj1 (entity_score_is_the_maximum _ _ _ _ _ Hrun)).
  - exfalso.
    assert (H : Py.is_ok (group_entities_by_name (fun _ => None) GroupSpec.sample_columns
                            [GroupSpec.sample_owner "A1" "John Smith" "Acme LLC" "10";
                             GroupSpec.sample_owner "A2" "Jane Doe" "Acme  llc" "90"])
                = true) by (vm_compute; reflexivity).
    rewrite Hrun in H. discriminate.
Defined.

(** One company in a file of two columns. *)
Lemma entity_grouping_needs_the_score_column_witness :
  exists e,
    group_entities_by_name (fun _ => None) ["full_name"; "company_name"]
      [<["full_name" := "John Smith"]> {["company_name" := "Acme LLC"]}] = Raise e.
Proof.
  apply (entity_grouping_needs_the_score_column (fun _ => None)).
  - cbn [In]. intros [H|[H|[]]]; discriminate.
  - eexists. split; [now left|]. vm_compute. reflexivity.
Defined.

End EntityGroupFacts.
